(* ===== verification/_CoqProject ===== *)
-Q . S2P
Prelude.v
JsNumber.v
JsString.v
JsValue.v
JsDate.v
React.v
Types.v
Effects.v
LoadConfig.v
LoadRun.v
Client.v
UiKit.v
Interact.v
JsSort.v
Store.v
StatusViews.v
Feeds.v
DeliveriesTable.v
DeliveryDetail.v
SendTestForm.v
LoadTestPanel.v
LoadSteps.v
Dashboard.v
Offers.v
Session.v
SessionRuns.v
Wire.v
FormField.v
Chart.v
Calendar.v
KitSurfaces.v
KitOverlays.v
KitMenus.v
SidebarParts.v
Kit.v
Sidebar.v
Carousel.v
