(* ===== verification/Prelude.v ===== *)
(** * The gocourier web console: a verified model

    Gocourier is a notification service: Go programs ingest, dispatch and replay
    notifications, and a React console (src/web) watches and load-tests them.
    This development models the TypeScript of the console, all of it that the
    page runs and the component kit it ships with, and proves what it is meant to
    do, up to whole sessions of the page.

    ** The program and how its parts interact

    - [lib/loadTest.ts] builds the requests of ten load scenarios from a
      configuration and runs them, sequentially or over a pool of workers.
    - [api/client.ts] talks to the service and normalises what it answers to the
      interfaces of [api/types.ts].
    - [stores/appStore.ts] holds the key, the refresh mode and the selected
      delivery; [hooks/useDashboard.ts] states the queries and mutations over it.
    - [components/ops] are the sections of the page: each renders the store and
      the queries, keeps its own state and dispatches actions; Dashboard puts
      them together.
    - [components/ui] is the kit: wrappers of Radix primitives the sections are
      made of, a sidebar and a carousel with state of their own, form fields,
      charts and a calendar.
    - [main.tsx] mounts the page with the defaults of its queries.

    ** The files

    The language and its library:
    - [Prelude]: results that may throw, tactics, list lemmas, hint databases.
    - [JsNumber]: numbers as exact decimals, their order, rounding and text.
    - [JsString]: the string methods in use, and Number of a text.
    - [JsValue]: JavaScript values, properties in order, JSON.stringify and
      JSON.parse, and the proof that parsing reads back what is written.
    - [JsSort]: the stable sort, and that its result is the only stable one.
    - [JsDate]: reading and writing ISO dates; the class [Host] of everything the
      environment supplies (draws, clocks, dates in other formats).
    - [Effects]: the state monad of the draws and the clock readings.
    - [React]: elements, attributes with actions, class names ([Styling]).
    - [Interact]: what a rendered tree lets the user do ([offered]): a disabled
      control dispatches nothing, a form submits through its default button; the
      tactic [offers] walks a tree.

    The console, one file per part of the source:
    - [Types] (api/types.ts): unions as inductive types with their texts, each
      interface a record with the reader that says which value has its shape.
    - [LoadConfig] and [LoadRun] (lib/loadTest.ts): scenarios and requests; the
      pool of workers as a machine whose steps are the settlements of sends, in
      any order, and the sequential loop with its trace.
    - [Client] (api/client.ts): requests over the class [Network]; normalisation.
    - [Store] (stores/appStore.ts, hooks): the store's actions, the effects a
      handler can have, the options of the queries.
    - [UiKit] (components/ui): the wrappers the console uses.
    - [StatusViews], [Feeds], [DeliveriesTable], [DeliveryDetail],
      [SendTestForm], [LoadTestPanel], [Dashboard] (components/ops): for each
      component its state, its actions with what they do, and the element tree
      it renders.

    The page at work:
    - [LoadSteps]: the sequential run as a machine that stops at every await, and
      [activity], a run of either kind in flight.
    - [Offers]: what the page offers depends on what is pending.
    - [Session]: the page with its runs in flight and its pending mutations; an
      event is an action the page offers or something the host does; a reachable
      session satisfies [session_ok], and [session_frame] says what each step does
      to the store, the calls and what is pending.
    - [SessionRuns]: what becomes of a run among all the other events.
    - [Wire]: the mutations a session has called, run by the client over a network.

    The rest of the kit (components/ui):
    - [KitSurfaces], [KitOverlays], [KitMenus]: cards, tables, inputs, dialogs,
      menus and the like, one element tree per wrapper; [Kit]: the contract of
      the wrappers, over the list of them.
    - [SidebarParts], [Sidebar] (sidebar.tsx): the styled parts; the provider as a
      machine of events and renders, and the parts that read its context.
    - [Carousel] (carousel.tsx): the state and the effects over the instances of
      the embla library, and the element trees.
    - [FormField] (form.tsx): the parts of a field over the three contexts they
      read.
    - [Chart] (chart.tsx): the style sheet with a reader of it, the container, the
      tooltip and the legend over payloads that are JavaScript values.
    - [Calendar] (calendar.tsx, sonner.tsx, main.tsx): what is given to the date
      picker and the toaster, and the tree that is mounted.

    ** What the theorems show

    - Runs: every index is sent and counted once under every schedule, the pool
      never hangs, stays within its bound and is saturated; a parallel run counts
      what the sequential run counts; each report counts the outcomes so far; a
      sequential run refines the plan of its sends and delays.  A scenario started
      from the panel issues exactly the requests it promises.
    - Sessions: whatever the user does with what the page offers, and in whatever
      order the host answers, one run, one submission and one replay at most are
      pending; one click is one run of the configuration at the click, and its
      toast counts what happened; every run ends if its requests settle and its
      timers fire; the store, the calls and what is pending change by the events
      they are meant to change by, and no others; each mutation on
      the wire is one call of the network that says a complete request.
    - Requests: every scenario builds complete requests from its pools, the sweep
      is fair, keys have their format.
    - The client: values of the wire conform to the interfaces after
      normalisation, normalising is idempotent, bodies and columns round-trip,
      errors are the ones the interface states, nothing is sent without a key.
    - The page: the panel's configuration stays valid whatever is typed; the
      table is the filtered, stably sorted rows; the lookup only selects UUIDs;
      rendering fails for unreadable dates only; the outbox alert means 31
      seconds of backlog; selecting a delivery moves the whole page.
    - The kit: every wrapper forwards its caller's props; the sidebar refines a
      pair of switches with a saved value, under a parent that follows and under
      one that holds it, and its cookie is never behind unless the parent holds
      it; the carousel's buttons say what the instance in use can do.
      Handlers are closures over a render, so the theorems say which promises need
      a render between two events, and what happens without.

    - The rest of the kit: a field's label, control and messages refer to each
      other, and throw outside their providers; a chart's style sheet reads back
      as its configuration, its tooltip lists the data; a selected day is marked.

    ** Modelling decisions and bounds

    - Code that is not in the repository is a parameter: fetch ([Network]), the
      class-name functions ([Styling]), randomness and its digits in base 36, which
      the language leaves to the implementation, clocks and the host's own date
      formats ([Host]); Radix and lucide components are elements with their names;
      what TanStack Query returns is an input of the components.
    - Time passes through a tape: the n-th draw or reading is the n-th value of the
      host, so a run is a function of the host and of the schedule.
    - Numbers are exact decimals: the counts, limits and milliseconds of the code
      are; there is no NaN among them, because every text read as a number goes
      through [Number(v) || d].  Differences of clock readings are exact where a
      double would round.
    - Strings are UTF-8, and white space is the language's; lengths and slices count bytes: the texts sliced or
      measured are ids and keys, which are ASCII.
    - Fuel: the sequential loop is given one unit per request ([requests]) and
      [sequential_fuel] shows that more changes nothing; JSON.parse is given the
      length of its text, which [parse_text_of] shows to suffice.
    - A session renders after every event and once a render has thrown nothing is
      mounted again, since there is no error boundary.  A mutation is reported as
      pending from its call to its settlement, and sends with the API key of the
      last render.
    - Handlers are data: an element carries the action its handler dispatches, and
      the component's step function says what the action does.  Refs, focus and
      the events' own methods are left out.

    ** Not modelled

    The Go services, their storage and deployment, and the configuration of the
    bundler.  Of the libraries, when a query of TanStack Query refetches and how
    the Radix, embla, recharts, react-day-picker and react-hook-form components
    work inside: their results are inputs here.  A chart's dataKey that is a
    function, and the children of react-hook-form's Controller beyond what its
    render prop returns. *)

From stdpp Require Export base tactics list strings sets gmap.
From Stdlib Require Export ZArith Lia.
From Stdlib Require Export Ascii.

(** ** Scope of the development *)

Declare Scope console_scope.
Delimit Scope console_scope with console.
Open Scope console_scope.

(** The hint database of the lemmas that close routine side goals, and the
    rewrite database that normalises list and string lengths. *)
Create HintDb console discriminated.

(** ** Errors of the modelled code *)

(** What a JavaScript statement can throw in the modelled code. *)
Inductive exn : Type :=
| Error (message : string)
| TypeError (message : string)
| RangeError (message : string)
| SyntaxError (message : string).

#[export] Instance exn_eq_dec : EqDecision exn.
Proof. solve_decision. Defined.

(** The [message] property of a thrown error. *)
Definition exn_message (e : exn) : string :=
  match e with Error m | TypeError m | RangeError m | SyntaxError m => m end.

(** The outcome of a computation that may throw. *)
Inductive result (A : Type) : Type :=
| Ok (a : A)
| Throw (e : exn).
Arguments Ok {A} a.
Arguments Throw {A} e.

Definition rbind {A B} (m : result A) (k : A -> result B) : result B :=
  match m with Ok a => k a | Throw e => Throw e end.

Notation "x <-r m ;; k" := (rbind m (fun x => k))
  (at level 60, m at next level, right associativity) : console_scope.

Fixpoint rmap {A B} (f : A -> result B) (l : list A) : result (list B) :=
  match l with
  | [] => Ok []
  | x :: l' => y <-r f x;; ys <-r rmap f l';; Ok (y :: ys)
  end.

Lemma rmap_Ok {A B} (f : A -> result B) (l : list A) (ys : list B) :
  rmap f l = Ok ys <-> Forall2 (fun x y => f x = Ok y) l ys.
Proof.
  revert ys. induction l as [|x l IH]; intros ys; simpl.
  - split; [intros [= <-]; constructor | inversion 1; done].
  - destruct (f x) as [y|e] eqn:E; simpl.
    + destruct (rmap f l) as [ys'|e']; simpl.
      * split.
        -- intros [= <-]. apply Forall2_cons; split; [done|]. by apply IH.
        -- inversion 1 as [|? y' ? l2 H1 H2]; subst.
           apply IH in H2. congruence.
      * split; [done|]. inversion 1 as [|? y' ? l2 H1 H2]; subst.
        apply IH in H2. congruence.
    + split; [done|]. inversion 1; congruence.
Qed.

Lemma rmap_pure {A B} (f : A -> B) (l : list A) :
  rmap (fun x => Ok (f x)) l = Ok (f <$> l).
Proof. induction l as [|x l IH]; simpl; [done|]. by rewrite IH. Qed.

Lemma rmap_ext {A B} (f g : A -> result B) (l : list A) :
  (forall x, x ∈ l -> f x = g x) -> rmap f l = rmap g l.
Proof.
  induction l as [|x l IH]; simpl; intros H; [done|].
  rewrite (H x) by constructor.
  rewrite IH; [done|]. intros y Hy. apply H. by constructor.
Qed.

(** ** Tactics *)

(** Case analysis on the boolean tests of the goal. *)
Ltac case_test :=
  repeat match goal with
  | |- context [if ?b then _ else _] => destruct b eqn:?; try done
  end.

(** Split a boolean conjunction or disjunction in the hypotheses. *)
Ltac bsimp :=
  repeat match goal with
  | H : (_ && _)%bool = true |- _ => apply andb_true_iff in H as [? ?]
  | H : (_ || _)%bool = false |- _ => apply orb_false_iff in H as [? ?]
  | H : negb _ = true |- _ => apply negb_true_iff in H
  | H : negb _ = false |- _ => apply negb_false_iff in H
  | H : bool_decide _ = true |- _ => apply bool_decide_eq_true in H
  | H : bool_decide _ = false |- _ => apply bool_decide_eq_false in H
  end.

(** ** Lists *)

(** [Array.prototype.find]. *)
Definition find {A} (f : A -> bool) (l : list A) : option A := List.find f l.

(** [Array.prototype.join]. *)
Fixpoint join (sep : string) (l : list string) : string :=
  match l with
  | [] => ""
  | [s] => s
  | s :: l' => s +:+ sep +:+ join sep l'
  end.

(** [new Set(l)] spread back into an array: the first occurrence of every
    element, in order. *)
Fixpoint uniq {A} `{EqDecision A} (l : list A) : list A :=
  match l with
  | [] => []
  | x :: l' => x :: List.filter (fun y => negb (bool_decide (y = x))) (uniq l')
  end.

Lemma elem_of_Lfilter {A} (f : A -> bool) (l : list A) x :
  x ∈ List.filter f l <-> x ∈ l /\ f x = true.
Proof. rewrite !list_elem_of_In. apply List.filter_In. Qed.

Lemma NoDup_Lfilter {A} (f : A -> bool) (l : list A) :
  NoDup l -> NoDup (List.filter f l).
Proof. rewrite !NoDup_ListNoDup. apply List.NoDup_filter. Qed.

Lemma elem_of_uniq {A} `{EqDecision A} (l : list A) x : x ∈ uniq l <-> x ∈ l.
Proof.
  induction l as [|y l IH]; simpl; [done|].
  rewrite !elem_of_cons, elem_of_Lfilter, IH, negb_true_iff, bool_decide_eq_false.
  destruct (decide (x = y)); naive_solver.
Qed.

Lemma NoDup_uniq {A} `{EqDecision A} (l : list A) : NoDup (uniq l).
Proof.
  induction l as [|y l IH]; simpl; constructor.
  - rewrite elem_of_Lfilter, negb_true_iff, bool_decide_eq_false. naive_solver.
  - by apply NoDup_Lfilter.
Qed.

#[export] Hint Resolve NoDup_uniq NoDup_Lfilter : console.
