(* ===== verification/JsNumber.v ===== *)
(** * JavaScript numbers

    A number is an exact decimal fraction: an integer mantissa over a power of
    ten.  Every finite double is such a fraction, and the arithmetic below is
    exact: rounding to double precision, NaN and the infinities are outside the
    model (the functions that can produce NaN return an option).

    [compare], [Math_max], [Math_min], [Math_floor], [Math_ceil] and
    [Math_round] are the language's; [toString] is Number::toString for radix
    10, and [Number] the conversion of a decimal string literal. *)

From S2P Require Import Prelude.
From Stdlib Require Import DecimalString DecimalZ DecimalFacts.

Open Scope Z_scope.

Record num : Type := Num { mantissa : Z; scale : nat }.

#[export] Instance num_eq_dec : EqDecision num.
Proof. solve_decision. Defined.

Definition pow10 (k : nat) : Z := 10 ^ Z.of_nat k.

Definition int (z : Z) : num := Num z 0.
Definition of_nat (n : nat) : num := int (Z.of_nat n).

(** ** Order *)

Definition compare (a b : num) : comparison :=
  (mantissa a * pow10 (scale b) ?= mantissa b * pow10 (scale a)).

Definition ltb (a b : num) : bool :=
  match compare a b with Lt => true | _ => false end.
Definition leb (a b : num) : bool :=
  match compare a b with Gt => false | _ => true end.
Definition eqb (a b : num) : bool :=
  match compare a b with Eq => true | _ => false end.

Definition Math_max (a b : num) : num := if leb a b then b else a.
Definition Math_min (a b : num) : num := if leb a b then a else b.

(** ** Arithmetic and rounding *)

Definition sub (a b : num) : num :=
  Num (mantissa a * pow10 (scale b) - mantissa b * pow10 (scale a)) (scale a + scale b).

Definition Math_floor (a : num) : Z := mantissa a / pow10 (scale a).
Definition Math_ceil (a : num) : Z := - ((- mantissa a) / pow10 (scale a)).
(** [Math.round] rounds halves towards plus infinity. *)
Definition Math_round (a : num) : Z :=
  (2 * mantissa a + pow10 (scale a)) / (2 * pow10 (scale a)).

(** The falsy number is zero. *)
Definition truthy (a : num) : bool := negb (mantissa a =? 0).

(** ** Canonical form and text *)

(** The canonical representative strips the trailing zeros of the fraction. *)
Fixpoint strip (m : Z) (s : nat) : num :=
  match s with
  | O => Num m 0
  | S s' => if (m mod 10 =? 0) then strip (m / 10) s' else Num m s
  end.
Definition canon (a : num) : num := strip (mantissa a) (scale a).

Definition Z_to_string (z : Z) : string := NilZero.string_of_int (Z.to_int z).
Definition Z_of_string (s : string) : option Z := option_map Z.of_int (NilZero.int_of_string s).

Fixpoint zeros (k : nat) : string :=
  match k with O => "" | S k' => String "0"%char (zeros k') end.

Definition exponent_part (e : Z) : string :=
  (if 0 <=? e then "e+" else "e-") +:+ Z_to_string (Z.abs e).

(** Scientific notation of the significant digits [digits], the decimal point
    standing after position [n]. *)
Definition scientific (digits : string) (n : Z) : string :=
  let k := String.length digits in
  (if (k =? 1)%nat then digits
   else String.substring 0 1 digits +:+ "." +:+ String.substring 1 (k - 1) digits)
  +:+ exponent_part (n - 1).

(** The significant digits of a positive integer: its trailing zeros dropped. *)
Fixpoint significant (fuel : nat) (m : Z) : Z :=
  match fuel with
  | O => m
  | S fuel' => if (m mod 10 =? 0) then significant fuel' (m / 10) else m
  end.

(** Number::toString of a positive integer: all its digits up to 10^21. *)
Definition toString_int_pos (m : Z) : string :=
  let all := Z_to_string m in
  if m <? 10 ^ 21 then all
  else scientific (Z_to_string (significant (String.length all) m))
                  (Z.of_nat (String.length all)).

(** Number::toString of a positive canonical fraction [m] / 10^[s]: [n] is the
    position of the decimal point relative to the first digit. *)
Definition toString_frac_pos (m : Z) (s : nat) : string :=
  let digits := Z_to_string m in
  let k := String.length digits in
  let n := Z.of_nat k - Z.of_nat s in
  if (0 <? n) && (n <=? 21) then
    String.substring 0 (Z.to_nat n) digits +:+ "." +:+
    String.substring (Z.to_nat n) (k - Z.to_nat n) digits
  else if (-6 <? n) && (n <=? 0) then
    "0." +:+ zeros (Z.to_nat (- n)) +:+ digits
  else scientific digits n.

Definition toString_pos (m : Z) (s : nat) : string :=
  match s with O => toString_int_pos m | S _ => toString_frac_pos m s end.

Definition toString (a : num) : string :=
  let c := canon a in
  if mantissa c =? 0 then "0"
  else if mantissa c <? 0 then "-" +:+ toString_pos (- mantissa c) (scale c)
  else toString_pos (mantissa c) (scale c).

(** ** Lemmas *)

Lemma pow10_pos k : 0 < pow10 k.
Proof. unfold pow10. apply Z.pow_pos_nonneg; lia. Qed.
#[export] Hint Resolve pow10_pos : console.

Lemma ltb_int i j : ltb (int i) (int j) = (i <? j).
Proof.
  unfold ltb, compare; simpl. unfold pow10; simpl.
  rewrite !Z.mul_1_r. reflexivity.
Qed.

Lemma leb_ltb a b : leb a b = negb (ltb b a).
Proof.
  unfold leb, ltb, compare. rewrite Z.compare_antisym.
  by destruct (Z.compare _ _).
Qed.

(** An integer lies below a number exactly when it lies below its ceiling. *)
Lemma ltb_int_ceil i a : ltb (int i) a = (i <? Math_ceil a).
Proof.
  unfold ltb, compare, Math_ceil; simpl.
  pose proof (pow10_pos (scale a)) as Hp. set (p := pow10 (scale a)) in *.
  change (pow10 0) with 1. rewrite Z.mul_1_r. set (m := mantissa a).
  pose proof (Z.div_mod (- m) p ltac:(lia)) as Hd.
  pose proof (Z.mod_pos_bound (- m) p Hp) as Hm.
  destruct (Z.compare_spec (i * p) m); symmetry;
    rewrite ?Z.ltb_lt, ?Z.ltb_ge; nia.
Qed.

Lemma ltb_sub_1 i a : ltb (int i) (sub a (int 1)) = ltb (int (i + 1)) a.
Proof.
  unfold ltb, compare, sub; cbn [mantissa scale int].
  change (pow10 0) with 1. rewrite Nat.add_0_r, !Z.mul_1_r, Z.mul_1_l.
  set (p := pow10 (scale a)).
  destruct (Z.compare_spec (i * p) (mantissa a - p)), (Z.compare_spec ((i + 1) * p) (mantissa a)); lia || done.
Qed.

(** An integer is at most a number exactly when it is at most its floor. *)
Lemma leb_int_floor i a : leb (int i) a = (i <=? Math_floor a).
Proof.
  unfold leb, compare, Math_floor; simpl.
  pose proof (pow10_pos (scale a)) as Hp. set (p := pow10 (scale a)) in *.
  change (pow10 0) with 1. rewrite Z.mul_1_r. set (m := mantissa a).
  pose proof (Z.div_mod m p ltac:(lia)) as Hd.
  pose proof (Z.mod_pos_bound m p Hp) as Hm.
  destruct (Z.compare_spec (i * p) m); symmetry; rewrite ?Z.leb_le, ?Z.leb_gt; nia.
Qed.

Lemma leb_refl a : leb a a = true.
Proof. unfold leb, compare. by rewrite Z.compare_refl. Qed.

Lemma leb_total a b : leb a b = false -> leb b a = true.
Proof.
  unfold leb, compare. rewrite (Z.compare_antisym (mantissa a * _)).
  by destruct (Z.compare _ _).
Qed.

Lemma leb_trans a b c : leb a b = true -> leb b c = true -> leb a c = true.
Proof.
  unfold leb, compare.
  pose proof (pow10_pos (scale a)). pose proof (pow10_pos (scale b)). pose proof (pow10_pos (scale c)).
  set (x := pow10 (scale a)) in *. set (y := pow10 (scale b)) in *. set (z := pow10 (scale c)) in *.
  destruct (Z.compare_spec (mantissa a * y) (mantissa b * x)); try done;
  destruct (Z.compare_spec (mantissa b * z) (mantissa c * y)); try done;
  destruct (Z.compare_spec (mantissa a * z) (mantissa c * x)); try done; nia.
Qed.

Lemma Math_max_l a b : leb a (Math_max a b) = true.
Proof. unfold Math_max. destruct (leb a b) eqn:E; [done|apply leb_refl]. Qed.
Lemma Math_max_r a b : leb b (Math_max a b) = true.
Proof. unfold Math_max. destruct (leb a b) eqn:E; [apply leb_refl|by apply leb_total]. Qed.
Lemma Math_min_l a b : leb (Math_min a b) a = true.
Proof. unfold Math_min. destruct (leb a b) eqn:E; [apply leb_refl|by apply leb_total]. Qed.
Lemma Math_min_r a b : leb (Math_min a b) b = true.
Proof. unfold Math_min. destruct (leb a b) eqn:E; [done|apply leb_refl]. Qed.
Lemma Math_max_lub a b c : leb a c = true -> leb b c = true -> leb (Math_max a b) c = true.
Proof. unfold Math_max. by destruct (leb a b). Qed.
#[export] Hint Resolve leb_refl Math_max_l Math_max_r Math_min_l Math_min_r Math_max_lub : console.

Lemma Math_floor_mono a b : leb a b = true -> Math_floor a <= Math_floor b.
Proof.
  intros Hab. apply Z.leb_le. rewrite <- leb_int_floor.
  eapply leb_trans, Hab. rewrite leb_int_floor. apply Z.leb_refl.
Qed.

Lemma Math_ceil_int z : Math_ceil (int z) = z.
Proof. unfold Math_ceil; simpl. change (pow10 0) with 1. rewrite Z.div_1_r. lia. Qed.
Lemma Math_floor_int z : Math_floor (int z) = z.
Proof. unfold Math_floor; simpl. change (pow10 0) with 1. by rewrite Z.div_1_r. Qed.

Lemma Math_floor_ceil a : Math_floor a <= Math_ceil a <= Math_floor a + 1.
Proof.
  unfold Math_floor, Math_ceil. pose proof (pow10_pos (scale a)) as Hp.
  set (p := pow10 (scale a)) in *. set (m := mantissa a).
  pose proof (Z.div_mod m p ltac:(lia)). pose proof (Z.mod_pos_bound m p Hp).
  pose proof (Z.div_mod (- m) p ltac:(lia)). pose proof (Z.mod_pos_bound (- m) p Hp).
  nia.
Qed.

Example toString_int : toString (int 250) = "250". Proof. reflexivity. Qed.
Example toString_frac : toString (Num (-1250) 2) = "-12.5". Proof. reflexivity. Qed.
Example toString_small : toString (Num 15 3) = "0.015". Proof. reflexivity. Qed.
Example toString_exp : toString (Num 125 10) = "1.25e-8". Proof. reflexivity. Qed.
Example toString_huge : toString (int (15 * 10 ^ 24)) = "1.5e+25". Proof. reflexivity. Qed.

(** A number equals an integer exactly when both its roundings do. *)
Lemma eqb_int_ceil_floor z a :
  eqb (int z) a = true <-> Math_floor a = z /\ Math_ceil a = z.
Proof.
  pose proof (leb_int_floor z a) as H1. pose proof (ltb_int_ceil z a) as H2.
  pose proof (Math_floor_ceil a) as H3.
  unfold eqb, leb, ltb in *. destruct (compare (int z) a); symmetry in H1, H2;
    rewrite ?Z.leb_le, ?Z.leb_gt, ?Z.ltb_lt, ?Z.ltb_ge in H1, H2; split; try done; try lia.
Qed.
