(* ===== verification/JsString.v ===== *)
(** * JavaScript strings

    A string is a sequence of bytes.  For ASCII text (identifiers, keys,
    timestamps, JSON punctuation) a byte is a UTF-16 code unit, so [length],
    [slice] and the index functions agree with the language's; other text is
    carried as its UTF-8 encoding, and white space is recognised there.

    [Number] is the conversion of a string to a number on decimal literals, the
    only texts an input of type number delivers. *)

From S2P Require Import Prelude JsNumber.
From Stdlib Require Import DecimalString DecimalZ.

Open Scope nat_scope.

(** ** Search and slices *)

Definition startsWith (p s : string) : bool := String.prefix p s.

Fixpoint includes (p s : string) : bool :=
  String.prefix p s ||
  match s with "" => false | String _ s' => includes p s' end.

(** [s.slice(0, n)]. *)
Definition slice_to (n : nat) (s : string) : string := String.substring 0 n s.
(** [s.slice(a, b)]. *)
Definition slice (a b : nat) (s : string) : string := String.substring a (b - a) s.
(** [s.slice(-n)]. *)
Definition slice_last (n : nat) (s : string) : string :=
  String.substring (String.length s - n) n s.

Fixpoint skip_chars (n : nat) (s : string) : string :=
  match n, s with
  | O, _ => s
  | S n', String _ s' => skip_chars n' s'
  | S _, "" => ""
  end.

(** [s.replace(p, r)] with a string pattern: the first occurrence only. *)
Fixpoint replace (p r s : string) : string :=
  if String.prefix p s then r +:+ skip_chars (String.length p) s
  else match s with "" => "" | String c s' => String c (replace p r s') end.

(** [s.replace(/c/g, "")] for a one-character pattern. *)
Fixpoint remove_all (c : Ascii.ascii) (s : string) : string :=
  match s with
  | "" => ""
  | String d s' => if Ascii.eqb c d then remove_all c s' else String d (remove_all c s')
  end.

(** ** White space *)

(** The white space and the line terminators of the language, in UTF-8: of one
    byte (U+0009 to U+000D and the space), *)
Definition space1 (a : Ascii.ascii) : bool :=
  let n := Ascii.nat_of_ascii a in ((9 <=? n) && (n <=? 13)) || (n =? 32).
(** of two bytes (U+00A0), *)
Definition space2 (a b : Ascii.ascii) : bool :=
  (Ascii.nat_of_ascii a =? 194) && (Ascii.nat_of_ascii b =? 160).
(** and of three (U+1680, U+2000 to U+200A, U+2028, U+2029, U+202F, U+205F, U+3000,
    U+FEFF). *)
Definition space3 (a b c : Ascii.ascii) : bool :=
  let x := Ascii.nat_of_ascii a in
  let y := Ascii.nat_of_ascii b in
  let z := Ascii.nat_of_ascii c in
  ((x =? 225) && (y =? 154) && (z =? 128)) ||
  ((x =? 226) && (y =? 128) && (((128 <=? z) && (z <=? 138)) || (z =? 168) || (z =? 169) || (z =? 175))) ||
  ((x =? 226) && (y =? 129) && (z =? 159)) ||
  ((x =? 227) && (y =? 128) && (z =? 128)) ||
  ((x =? 239) && (y =? 187) && (z =? 191)).

(** A text of white space only. *)
Fixpoint spaces (s : string) : bool :=
  match s with
  | "" => true
  | String a s1 =>
      if space1 a then spaces s1 else
      match s1 with
      | "" => false
      | String b s2 =>
          if space2 a b then spaces s2 else
          match s2 with "" => false | String c s3 => if space3 a b c then spaces s3 else false end
      end
  end.

Fixpoint trim_start (s : string) : string :=
  match s with
  | "" => ""
  | String a s1 =>
      if space1 a then trim_start s1 else
      match s1 with
      | "" => s
      | String b s2 =>
          if space2 a b then trim_start s2 else
          match s2 with
          | "" => s
          | String c s3 => if space3 a b c then trim_start s3 else s
          end
      end
  end.

Fixpoint trim_end (s : string) : string :=
  match s with
  | "" => ""
  | String c s' => if spaces s then "" else String c (trim_end s')
  end.

Definition trim (s : string) : string := trim_end (trim_start s).

(** ** Digits *)

Definition is_digit (c : Ascii.ascii) : bool :=
  let n := Ascii.nat_of_ascii c in (48 <=? n) && (n <=? 57).

Fixpoint span_digits (s : string) : string * string :=
  match s with
  | String c s' =>
      if is_digit c then let '(d, r) := span_digits s' in (String c d, r) else ("", s)
  | "" => ("", "")
  end.

Fixpoint all_chars (f : Ascii.ascii -> bool) (s : string) : bool :=
  match s with "" => true | String c s' => f c && all_chars f s' end.

(** The value of a digit string; the empty string is zero. *)
Definition digits_value (s : string) : Z :=
  match NilEmpty.uint_of_string s with Some u => Z.of_uint u | None => 0%Z end.

(** The first character fails [f] (or there is none). *)
Definition stops (f : Ascii.ascii -> bool) (s : string) : bool :=
  match s with "" => true | String c _ => negb (f c) end.

(** ** Decimal literals *)

(** Mantissa and scale of digits [i], fraction digits [f] and exponent [e]. *)
Definition make_num (neg : bool) (i f : string) (e : Z) : num :=
  let m := digits_value (i +:+ f) in
  let m := if neg then (- m)%Z else m in
  let sc := (Z.of_nat (String.length f) - e)%Z in
  canon (if (0 <=? sc)%Z then Num m (Z.to_nat sc) else int (m * 10 ^ (- sc))).

(** The exponent part of a literal, when one starts here. *)
Definition scan_exponent (s : string) : option (Z * string) :=
  match s with
  | String c s' =>
      if (Ascii.eqb c "e" || Ascii.eqb c "E")%char then
        let '(neg, s2) :=
          match s' with
          | String d s'' =>
              if Ascii.eqb d "-"%char then (true, s'')
              else if Ascii.eqb d "+"%char then (false, s'') else (false, s')
          | "" => (false, s')
          end in
        let '(ds, r) := span_digits s2 in
        match ds with
        | "" => None
        | _ => Some ((if neg then - digits_value ds else digits_value ds)%Z, r)
        end
      else Some (0%Z, s)
  | "" => Some (0%Z, s)
  end.

(** An unsigned decimal literal with fraction and exponent. *)
Definition scan_decimal (neg : bool) (s : string) : option (num * string) :=
  let '(i, r) := span_digits s in
  let '(f, r) :=
    match r with
    | String c r' => if Ascii.eqb c "."%char then span_digits r' else ("", r)
    | "" => ("", r)
    end in
  match i +:+ f with
  | "" => None
  | _ => '(e, r) ← scan_exponent r; Some (make_num neg i f e, r)
  end.

(** [Number(s)]; [None] is NaN. *)
Definition Number (s : string) : option num :=
  let t := trim s in
  match t with
  | "" => Some (int 0)
  | String c t' =>
      let '(neg, u) :=
        if Ascii.eqb c "-"%char then (true, t')
        else if Ascii.eqb c "+"%char then (false, t') else (false, t) in
      '(n, r) ← scan_decimal neg u;
      match r with "" => Some n | _ => None end
  end.

(** [Number(s) || d]: NaN and zero are falsy. *)
Definition Number_or (s : string) (d : num) : num :=
  match Number s with
  | Some n => if truthy n then n else d
  | None => d
  end.

(** ** Lemmas *)

Lemma append_nil_r s : s +:+ "" = s.
Proof. induction s as [|c s IH]; [done|]. unfold String.append in *; simpl. by rewrite IH. Qed.

Lemma append_assoc a b c : (a +:+ b) +:+ c = a +:+ b +:+ c.
Proof. induction a as [|x a IH]; [done|]. unfold String.append in *; simpl. by rewrite IH. Qed.

Lemma append_cons c a b : String c a +:+ b = String c (a +:+ b).
Proof. done. Qed.

Lemma length_append a b : String.length (a +:+ b) = String.length a + String.length b.
Proof. induction a as [|x a IH]; [done|]. rewrite append_cons; simpl. by rewrite IH. Qed.

Create Rewrite HintDb strings.
#[export] Hint Rewrite append_nil_r append_assoc append_cons length_append : strings.

Lemma substring_length n m s : String.length (String.substring n m s) <= m.
Proof.
  revert n m. induction s as [|c s IH]; intros [|n] [|m]; simpl; try lia.
  - specialize (IH 0 m). lia.
  - apply IH.
  - specialize (IH n (S m)). lia.
Qed.

Lemma slice_to_length n s : String.length (slice_to n s) <= n.
Proof. apply substring_length. Qed.

Lemma all_chars_app f a b : all_chars f (a +:+ b) = all_chars f a && all_chars f b.
Proof.
  induction a as [|c a IH]; [done|]. rewrite append_cons; simpl. rewrite IH.
  by rewrite andb_assoc.
Qed.

Lemma span_digits_app d r :
  all_chars is_digit d = true -> stops is_digit r = true -> span_digits (d +:+ r) = (d, r).
Proof.
  intros Hd Hr. induction d as [|c d IH]; simpl in Hd.
  - destruct r as [|c r]; [done|]. simpl in Hr. apply negb_true_iff in Hr.
    simpl. change ("" +:+ String c r) with (String c r). simpl. by rewrite Hr.
  - bsimp. rewrite append_cons. simpl. rewrite H. by rewrite IH.
Qed.

Lemma uint_chars u : all_chars is_digit (NilEmpty.string_of_uint u) = true.
Proof. induction u; simpl; auto. Qed.

Lemma digits_value_uint u : digits_value (NilEmpty.string_of_uint u) = Z.of_uint u.
Proof. unfold digits_value. by rewrite NilEmpty.usu. Qed.

(** The decimal text of a non-negative integer is a non-empty digit string that
    reads back, and its first digit is a zero only for zero itself. *)
Definition leading_zero (s : string) : bool :=
  match s with
  | String "0"%char (String _ _) => true
  | _ => false
  end.

Lemma Pos_to_uint_canonical p :
  Pos.to_uint p <> Decimal.Nil /\ forall u, Pos.to_uint p <> Decimal.D0 u.
Proof.
  split; [apply DecimalPos.Unsigned.to_uint_nonnil|].
  intros u Hu.
  pose proof (DecimalN.Unsigned.to_of (Pos.to_uint p)) as H.
  unfold N.of_uint in H. rewrite DecimalPos.Unsigned.of_to in H. simpl in H.
  rewrite Hu in H. unfold Decimal.unorm in H. simpl in H.
  destruct (Decimal.nzhead u) eqn:E; try discriminate H.
  - injection H as ->. apply (f_equal Pos.of_uint) in Hu.
    rewrite DecimalPos.Unsigned.of_to in Hu. discriminate Hu.
  - by apply DecimalFacts.nzhead_nonzero in E.
Qed.

Lemma Z_to_string_digits z : (0 <= z)%Z ->
  exists u, Z_to_string z = NilEmpty.string_of_uint u /\ Z.of_uint u = z /\
            u <> Decimal.Nil /\ leading_zero (NilEmpty.string_of_uint u) = false.
Proof.
  intros Hz. destruct z as [|p|p]; [|..]; [|pose proof (Pos_to_uint_canonical p) as [H1 H2]|lia].
  - by exists (Decimal.D0 Decimal.Nil).
  - exists (Pos.to_uint p). unfold Z_to_string. simpl.
    assert (Z.of_uint (Pos.to_uint p) = Zpos p) as E.
    { unfold Z.of_uint. by rewrite DecimalPos.Unsigned.of_to. }
    destruct (Pos.to_uint p) as [|u|u|u|u|u|u|u|u|u|u]; try done. by destruct (H2 u).
Qed.

(** The text of a number never starts like a JSON structure; it starts with a
    digit or a minus sign. *)
Lemma Z_to_string_neg z : (z < 0)%Z -> Z_to_string z = "-" +:+ Z_to_string (- z).
Proof.
  intros Hz. destruct z as [|p|p]; [lia..|]. unfold Z_to_string. simpl.
  pose proof (Pos_to_uint_canonical p) as [H1 _].
  by destruct (Pos.to_uint p).
Qed.

(** *** Prefixes *)

Lemma prefix_app p s : String.prefix p (p +:+ s) = true.
Proof.
  induction p as [|c p IH]; [by destruct s|]. rewrite append_cons. simpl.
  by destruct (Ascii.ascii_dec c c).
Qed.

Lemma skip_chars_app p s : skip_chars (String.length p) (p +:+ s) = s.
Proof. by induction p. Qed.

(** ** Trimming *)

(** A character that begins no white space. *)
Definition not_space (c : Ascii.ascii) : bool :=
  negb (space1 c) && (Ascii.nat_of_ascii c <? 128).

Lemma not_space_starts c : not_space c = true ->
  space1 c = false /\ (forall b, space2 c b = false) /\ forall b d, space3 c b d = false.
Proof.
  unfold not_space. intros [H1%negb_true_iff H2%Nat.ltb_lt]%andb_true_iff. split; [done|].
  assert (forall n, 128 <= n -> (Ascii.nat_of_ascii c =? n) = false) as Hn
    by (intros n Hn; apply Nat.eqb_neq; lia).
  unfold space2, space3. by rewrite !Hn by (apply Nat.leb_le; reflexivity).
Qed.

(** One character of white space. *)
Definition white (u : string) : bool :=
  match u with
  | String a "" => space1 a
  | String a (String b "") => space2 a b
  | String a (String b (String c "")) => space3 a b c
  | _ => false
  end.

Lemma space2_first a b : space2 a b = true -> space1 a = false.
Proof. unfold space2, space1. intros [->%Nat.eqb_eq _]%andb_true_iff. done. Qed.

Lemma space3_first a b c : space3 a b c = true -> space1 a = false /\ space2 a b = false.
Proof.
  unfold space3, space2, space1. rewrite !orb_true_iff, !andb_true_iff, !Nat.eqb_eq.
  by intros [[[[[[-> _] _]|[[-> _] _]]|[[-> _] _]]|[[-> _] _]]|[[-> _] _]].
Qed.

(** What a character of white space does to both functions. *)
Lemma white_steps u s : white u = true ->
  1 <= String.length u /\ trim_start (u +:+ s) = trim_start s /\
  (spaces s = true -> spaces (u +:+ s) = true).
Proof.
  destruct u as [|a [|b [|c [|]]]]; try done; intros Hu; (split; [cbn; lia|]); rewrite !append_cons;
    change ("" +:+ s) with s; cbn [trim_start spaces white] in *.
  - by rewrite Hu.
  - by rewrite (space2_first _ _ Hu), Hu.
  - destruct (space3_first _ _ _ Hu) as [-> ->]. by rewrite Hu.
Qed.

Lemma spaces_white s : spaces s = true ->
  s = "" \/ exists u s', white u = true /\ s = u +:+ s' /\ spaces s' = true.
Proof.
  destruct s as [|a s1]; [by left|]. cbn [spaces]. intros Hb. right.
  destruct (space1 a) eqn:Ea; [by exists (String a ""), s1|].
  destruct s1 as [|b s2]; [done|].
  destruct (space2 a b) eqn:Eb; [by exists (String a (String b "")), s2|].
  destruct s2 as [|c s3]; [done|]. destruct (space3 a b c) eqn:Ec; [|done].
  by exists (String a (String b (String c ""))), s3.
Qed.

Lemma trim_start_white s : trim_start s = s \/
  exists u s', white u = true /\ s = u +:+ s' /\ trim_start s = trim_start s'.
Proof.
  destruct s as [|a s1]; [by left|]. cbn [trim_start].
  destruct (space1 a) eqn:Ea; [right; by exists (String a ""), s1|].
  destruct s1 as [|b s2]; [by left|].
  destruct (space2 a b) eqn:Eb; [right; by exists (String a (String b "")), s2|].
  destruct s2 as [|c s3]; [by left|].
  destruct (space3 a b c) eqn:Ec; [right; by exists (String a (String b (String c ""))), s3|by left].
Qed.

(** Induction on a text, a character of white space at a time. *)
Lemma length_ind (P : string -> Prop) :
  (forall s, (forall s', String.length s' < String.length s -> P s') -> P s) -> forall s, P s.
Proof.
  intros Hs s. remember (String.length s) as n eqn:En. revert s En.
  induction n as [n IH] using lt_wf_ind. intros s ->. apply Hs. intros s' Hl. by apply (IH _ Hl).
Qed.

Lemma shorter u s : white u = true -> String.length s < String.length (u +:+ s).
Proof. intros Hu. destruct (white_steps u s Hu) as (Hl & _). rewrite length_append. lia. Qed.

Lemma spaces_app w s : spaces w = true ->
  trim_start (w +:+ s) = trim_start s /\ (spaces s = true -> spaces (w +:+ s) = true).
Proof.
  induction w as [w IH] using length_ind. intros [->|(u & w' & Hu & -> & Hb)]%spaces_white; [done|].
  destruct (IH w' (shorter u w' Hu) Hb) as [H1 H2]. rewrite append_assoc.
  destruct (white_steps u (w' +:+ s) Hu) as (_ & -> & H3). auto.
Qed.

Lemma trim_start_split s : exists w, spaces w = true /\ s = w +:+ trim_start s.
Proof.
  induction s as [s IH] using length_ind.
  destruct (trim_start_white s) as [E|(u & s' & Hu & -> & E)]; [exists ""; by rewrite E|].
  destruct (IH s' (shorter u s' Hu)) as (w & Hw & Hs). exists (u +:+ w). split.
  - by apply (white_steps u w Hu).
  - by rewrite E, append_assoc, <- Hs.
Qed.

Lemma trim_end_split s : exists w, spaces w = true /\ s = trim_end s +:+ w.
Proof.
  induction s as [|c s IH]; [by exists ""|]. cbn [trim_end].
  destruct (spaces (String c s)) eqn:Eb; [by exists (String c s)|].
  destruct IH as (w & Hw & Hs). exists w. split; [done|]. rewrite append_cons. by f_equal.
Qed.

Lemma trim_split s : exists w w', spaces w = true /\ spaces w' = true /\ s = w +:+ trim s +:+ w'.
Proof.
  destruct (trim_start_split s) as (w & Hw & Hs). destruct (trim_end_split (trim_start s)) as (w' & Hw' & Ht).
  exists w, w'. split; [done|]. split; [done|]. unfold trim. congruence.
Qed.

Lemma trim_end_spaces w : spaces w = true -> trim_end w = "".
Proof. destruct w as [|c w]; [done|]. cbn [trim_end]. by intros ->. Qed.

(** A text that starts with another character is not white space. *)
Lemma stops_spaces c s : not_space c = true ->
  spaces (String c s) = false /\ trim_start (String c s) = String c s.
Proof.
  intros (H1 & H2 & H3)%not_space_starts. cbn [spaces trim_start]. rewrite H1.
  destruct s as [|b [|d s]]; rewrite ?H2, ?H3; done.
Qed.

Lemma trim_end_app u w : all_chars not_space u = true -> spaces w = true -> trim_end (u +:+ w) = u.
Proof.
  induction u as [|c u IH]; cbn [all_chars]; intros Hu Hw; [by apply trim_end_spaces|]. bsimp.
  rewrite append_cons. cbn [trim_end]. rewrite (proj1 (stops_spaces c (u +:+ w) H)). by rewrite IH.
Qed.

(** Padding with white space is what trimming removes. *)
Lemma trim_padded w u w' : spaces w = true -> spaces w' = true ->
  all_chars not_space u = true -> trim (w +:+ u +:+ w') = u.
Proof.
  intros Hw Hw' Hu. unfold trim. rewrite (proj1 (spaces_app w _ Hw)). destruct u as [|c u].
  - change ("" +:+ w') with w'. rewrite <- (append_nil_r w'), (proj1 (spaces_app w' _ Hw')). done.
  - rewrite append_cons. pose proof Hu as Hc. cbn in Hc. bsimp.
    rewrite (proj2 (stops_spaces c (u +:+ w') H)). by apply (trim_end_app (String c u)).
Qed.

(** A no-break space and an ideographic space are trimmed as the others are. *)
Example trim_unicode :
  let ch n := String (Ascii.ascii_of_nat n) "" in
  trim (ch 9 +:+ ch 194 +:+ ch 160 +:+ "a b" +:+ ch 227 +:+ ch 128 +:+ ch 128 +:+ ch 239 +:+ ch 187 +:+ ch 191) = "a b".
Proof. vm_compute. reflexivity. Qed.
