(* ===== verification/JsValue.v ===== *)
(** * JavaScript values, JSON.stringify and JSON.parse

    The values a JSON body produces, with [undefined] for a missing property.
    An object is its list of own properties in property order (array-index keys
    first, in ascending order, then the other keys in insertion order).

    [JSON_stringify] and [JSON_parse] are the language's on these values; a
    string is carried as UTF-8, as on the wire. *)

From S2P Require Import Prelude JsNumber JsString.
From Stdlib Require Import DecimalString.

Open Scope nat_scope.

Inductive value : Type :=
| VUndef
| VNull
| VBool (b : bool)
| VNum (n : num)
| VStr (s : string)
| VArr (l : list value)
| VObj (props : list (string * value)).

(** ** Properties *)

(** Array-index keys: the canonical numerals below 2^32 - 1. *)
Definition index_key (k : string) : option Z :=
  match Z_of_string k with
  | Some z =>
      if (0 <=? z)%Z && (z <? 2 ^ 32 - 1)%Z && bool_decide (Z_to_string z = k)
      then Some z else None
  | None => None
  end.

Section Props.
Context {A : Type}.

Fixpoint lookup_prop (k : string) (props : list (string * A)) : option A :=
  match props with
  | [] => None
  | (k', v) :: props' => if bool_decide (k' = k) then Some v else lookup_prop k props'
  end.

(** Place a new property: an index key before the first larger index key and
    before every other key, any other key last. *)
Fixpoint insert_prop (k : string) (v : A) (props : list (string * A)) : list (string * A) :=
  match props with
  | [] => [(k, v)]
  | (k', v') :: props' =>
      match index_key k, index_key k' with
      | Some i, Some j =>
          if (i <? j)%Z then (k, v) :: props else (k', v') :: insert_prop k v props'
      | Some _, None => (k, v) :: props
      | None, _ => (k', v') :: insert_prop k v props'
      end
  end.

Fixpoint replace_prop (k : string) (v : A) (props : list (string * A)) : list (string * A) :=
  match props with
  | [] => []
  | (k', v') :: props' =>
      if bool_decide (k' = k) then (k, v) :: props'
      else (k', v') :: replace_prop k v props'
  end.

(** [o[k] = v]. *)
Definition set_prop (props : list (string * A)) (kv : string * A) : list (string * A) :=
  let '(k, v) := kv in
  match lookup_prop k props with
  | Some _ => replace_prop k v props
  | None => insert_prop k v props
  end.

(** [{ ...props, ...extra }]: an object literal or spread, left to right. *)
Definition assign (props extra : list (string * A)) : list (string * A) :=
  fold_left set_prop extra props.
End Props.

(** [v.k].  A property of null or undefined is a TypeError; the other primitive
    values and arrays have none of the names the code reads. *)
Definition get (k : string) (v : value) : result value :=
  match v with
  | VUndef | VNull => Throw (TypeError ("Cannot read properties (reading '" +:+ k +:+ "')"))
  | VObj props => Ok (match lookup_prop k props with Some x => x | None => VUndef end)
  | _ => Ok VUndef
  end.

(** The own enumerable properties that [...v] copies. *)
Fixpoint chars_props (i : nat) (s : string) : list (string * value) :=
  match s with
  | "" => []
  | String c s' => (Z_to_string (Z.of_nat i), VStr (String c "")) :: chars_props (S i) s'
  end.
Fixpoint items_props (i : nat) (l : list value) : list (string * value) :=
  match l with
  | [] => []
  | x :: l' => (Z_to_string (Z.of_nat i), x) :: items_props (S i) l'
  end.
Definition spread (v : value) : list (string * value) :=
  match v with
  | VObj props => props
  | VArr l => items_props 0 l
  | VStr s => chars_props 0 s
  | _ => []
  end.

(** [v ?? d]. *)
Definition nullish (v d : value) : value :=
  match v with VUndef | VNull => d | _ => v end.

(** [if (v)]. *)
Definition truthy (v : value) : bool :=
  match v with
  | VUndef | VNull => false
  | VBool b => b
  | VNum n => JsNumber.truthy n
  | VStr s => negb (bool_decide (s = ""))
  | VArr _ | VObj _ => true
  end.

(** [v === s] for a string [s]. *)
Definition is_str (s : string) (v : value) : bool :=
  match v with VStr t => bool_decide (t = s) | _ => false end.

(** [String(v)]. *)
Fixpoint to_text (v : value) : string :=
  match v with
  | VUndef => "undefined"
  | VNull => "null"
  | VBool true => "true"
  | VBool false => "false"
  | VNum n => toString n
  | VStr s => s
  | VArr l =>
      join "," ((fix go (l : list value) : list string :=
                   match l with
                   | [] => []
                   | x :: l' =>
                       match x with VUndef | VNull => "" | _ => to_text x end :: go l'
                   end) l)
  | VObj _ => "[object Object]"
  end.

(** ** JSON.stringify *)

Definition hex_digit (n : nat) : Ascii.ascii :=
  Ascii.ascii_of_nat (if n <? 10 then 48 + n else 87 + n).

Definition quote_char (c : Ascii.ascii) : string :=
  let n := Ascii.nat_of_ascii c in
  if n =? 34 then String "\"%char (String c "")
  else if n =? 92 then "\\"
  else if n =? 8 then "\b"
  else if n =? 12 then "\f"
  else if n =? 10 then "\n"
  else if n =? 13 then "\r"
  else if n =? 9 then "\t"
  else if n <? 32 then "\u00" +:+ String (hex_digit (n / 16)) (String (hex_digit (n mod 16)) "")
  else String c "".

Definition dquote : Ascii.ascii := Ascii.ascii_of_nat 34.

Fixpoint quote_body (s : string) : string :=
  match s with "" => "" | String c s' => quote_char c +:+ quote_body s' end.
Definition quote (s : string) : string :=
  String dquote (quote_body s +:+ String dquote "").

Definition newline : string := String (Ascii.ascii_of_nat 10) "".

(** The members or elements [items] between brackets, on one line without a
    gap, one per line indented by [gap] otherwise. *)
Definition bracket (op cl gap cur : string) (items : list string) : string :=
  match items with
  | [] => op +:+ cl
  | _ =>
      if bool_decide (gap = "") then op +:+ join "," items +:+ cl
      else op +:+ newline +:+ cur +:+ gap +:+
           join ("," +:+ newline +:+ cur +:+ gap) items +:+ newline +:+ cur +:+ cl
  end.

(** SerializeJSONProperty; [None] is undefined: such a member is left out of an
    object and is null in an array. *)
Fixpoint serialize (gap cur : string) (v : value) : option string :=
  match v with
  | VUndef => None
  | VNull => Some "null"
  | VBool true => Some "true"
  | VBool false => Some "false"
  | VNum n => Some (toString n)
  | VStr s => Some (quote s)
  | VArr l =>
      let fix go (l : list value) : list string :=
        match l with
        | [] => []
        | x :: l' =>
            match serialize gap (cur +:+ gap) x with Some t => t | None => "null" end :: go l'
        end in
      Some (bracket "[" "]" gap cur (go l))
  | VObj props =>
      let fix go (l : list (string * value)) : list string :=
        match l with
        | [] => []
        | (k, x) :: l' =>
            match serialize gap (cur +:+ gap) x with
            | Some t =>
                (quote k +:+ (if bool_decide (gap = "") then ":" else ": ") +:+ t) :: go l'
            | None => go l'
            end
        end in
      Some (bracket "{" "}" gap cur (go props))
  end.

(** [JSON.stringify(v)] and [JSON.stringify(v, null, 2)]. *)
Definition JSON_stringify (v : value) : option string := serialize "" "" v.
Definition JSON_stringify2 (v : value) : option string := serialize "  " "" v.

(** ** JSON.parse *)

Definition is_json_space (c : Ascii.ascii) : bool :=
  let n := Ascii.nat_of_ascii c in (n =? 32) || (n =? 9) || (n =? 10) || (n =? 13).
Fixpoint skip_ws (s : string) : string :=
  match s with
  | String c s' => if is_json_space c then skip_ws s' else s
  | "" => ""
  end.

Definition hex_value (c : Ascii.ascii) : option N :=
  let n := Ascii.nat_of_ascii c in
  if (48 <=? n) && (n <=? 57) then Some (N.of_nat (n - 48))
  else if (97 <=? n) && (n <=? 102) then Some (N.of_nat (n - 87))
  else if (65 <=? n) && (n <=? 70) then Some (N.of_nat (n - 55))
  else None.

(** Four hexadecimal digits. *)
Definition scan_hex4 (s : string) : option (N * string) :=
  match s with
  | String a (String b (String c (String d r))) =>
      a ← hex_value a; b ← hex_value b; c ← hex_value c; d ← hex_value d;
      Some (((a * 16 + b) * 16 + c) * 16 + d, r)%N
  | _ => None
  end.

Definition byte (n : N) : string := String (Ascii.ascii_of_N n) "".

(** The UTF-8 encoding of a code point. *)
Definition utf8 (n : N) : string :=
  (if n <? 128 then byte n
   else if n <? 2048 then byte (192 + n / 64) +:+ byte (128 + n mod 64)
   else if n <? 65536 then
     byte (224 + n / 4096) +:+ byte (128 + (n / 64) mod 64) +:+ byte (128 + n mod 64)
   else byte (240 + n / 262144) +:+ byte (128 + (n / 4096) mod 64) +:+
        byte (128 + (n / 64) mod 64) +:+ byte (128 + n mod 64))%N.

(** A \u escape; a high surrogate followed by an escaped low surrogate is one
    code point. *)
Definition scan_unicode (s : string) : option (string * string) :=
  '(h, r) ← scan_hex4 s;
  let single := Some (utf8 h, r) in
  if (55296 <=? h)%N && (h <? 56320)%N then
    match r with
    | String "\"%char (String "u"%char r') =>
        match scan_hex4 r' with
        | Some (l, r'') =>
            if (56320 <=? l)%N && (l <? 57344)%N
            then Some (utf8 (65536 + (h - 55296) * 1024 + (l - 56320))%N, r'')
            else single
        | None => single
        end
    | _ => single
    end
  else single.

Definition simple_escape (c : Ascii.ascii) : option string :=
  let n := Ascii.nat_of_ascii c in
  if (n =? 34) || (n =? 92) || (n =? 47) then Some (String c "")
  else if n =? 98 then Some (byte 8) else if n =? 102 then Some (byte 12)
  else if n =? 110 then Some (byte 10) else if n =? 114 then Some (byte 13)
  else if n =? 116 then Some (byte 9) else None.

(** The rest of a string literal, after its opening quote. *)
Fixpoint scan_string (fuel : nat) (s : string) : option (string * string) :=
  match fuel, s with
  | S fuel', String c r =>
      let n := Ascii.nat_of_ascii c in
      if n =? 34 then Some ("", r)
      else if n <? 32 then None
      else if n =? 92 then
        match r with
        | String e r' =>
            '(t, r'') ← (if Ascii.eqb e "u"%char then scan_unicode r'
                         else t ← simple_escape e; Some (t, r'));
            '(u, r3) ← scan_string fuel' r'';
            Some (t +:+ u, r3)
        | "" => None
        end
      else '(u, r') ← scan_string fuel' r; Some (String c u, r')
  | _, _ => None
  end.

Definition scan_sign (s : string) : bool * string :=
  match s with
  | String c s' => if Ascii.eqb c "-"%char then (true, s') else (false, s)
  | "" => (false, s)
  end.

(** A number: no leading zero, digits on both sides of the point. *)
Definition scan_number (s : string) : option (num * string) :=
  let '(neg, u) := scan_sign s in
  let '(i, r) := span_digits u in
  match i with
  | "" => None
  | _ =>
      if leading_zero i then None
      else
        match r with
        | String c r' =>
            if Ascii.eqb c "."%char && (String.length (fst (span_digits r')) =? 0) then None
            else scan_decimal neg u
        | "" => scan_decimal neg u
        end
  end.

Definition scan_literal (w : string) (v : value) (s : string) : option (value * string) :=
  if String.prefix w s then Some (v, skip_chars (String.length w) s) else None.

(** The values of a text; every call consumes fuel, and the length of the text
    bounds the number of nested calls. *)
Fixpoint parse_value (fuel : nat) (s : string) : option (value * string) :=
  match fuel with
  | O => None
  | S fuel' =>
      match skip_ws s with
      | "" => None
      | String c r =>
          if Ascii.eqb c "{"%char then
            match skip_ws r with
            | String "}"%char r' => Some (VObj [], r')
            | r' => '(ms, r'') ← parse_members fuel' r'; Some (VObj (assign [] ms), r'')
            end
          else if Ascii.eqb c "["%char then
            match skip_ws r with
            | String "]"%char r' => Some (VArr [], r')
            | r' => '(xs, r'') ← parse_elements fuel' r'; Some (VArr xs, r'')
            end
          else if Ascii.eqb c dquote then
            '(t, r') ← scan_string (S (String.length r)) r; Some (VStr t, r')
          else if Ascii.eqb c "n"%char then scan_literal "null" VNull (String c r)
          else if Ascii.eqb c "t"%char then scan_literal "true" (VBool true) (String c r)
          else if Ascii.eqb c "f"%char then scan_literal "false" (VBool false) (String c r)
          else '(n, r') ← scan_number (String c r); Some (VNum n, r')
      end
  end
with parse_elements (fuel : nat) (s : string) : option (list value * string) :=
  match fuel with
  | O => None
  | S fuel' =>
      '(x, r) ← parse_value fuel' s;
      match skip_ws r with
      | String c r' =>
          if Ascii.eqb c ","%char then
            '(xs, r'') ← parse_elements fuel' r'; Some (x :: xs, r'')
          else if Ascii.eqb c "]"%char then Some ([x], r')
          else None
      | "" => None
      end
  end
with parse_members (fuel : nat) (s : string) : option (list (string * value) * string) :=
  match fuel with
  | O => None
  | S fuel' =>
      match skip_ws s with
      | String c r =>
          if Ascii.eqb c dquote then
            '(k, r) ← scan_string (S (String.length r)) r;
            match skip_ws r with
            | String ":"%char r =>
                '(x, r) ← parse_value fuel' r;
                match skip_ws r with
                | String c r' =>
                    if Ascii.eqb c ","%char then
                      '(ms, r'') ← parse_members fuel' r'; Some ((k, x) :: ms, r'')
                    else if Ascii.eqb c "}"%char then Some ([(k, x)], r')
                    else None
                | "" => None
                end
            | _ => None
            end
          else None
      | "" => None
      end
  end.

(** [JSON.parse(s)]; [None] is the SyntaxError it throws. *)
Definition JSON_parse (s : string) : option value :=
  '(v, r) ← parse_value (S (String.length s)) s;
  match skip_ws r with "" => Some v | _ => None end.

(** ** Reading back what was written *)

(** The values JSON.stringify writes without loss: no undefined, integers that
    print without exponent, objects in property order. *)
Definition plain_int (n : num) : bool :=
  (scale n =? 0) && (Z.abs (mantissa n) <? 10 ^ 21)%Z.

Fixpoint plain (v : value) : Prop :=
  match v with
  | VUndef => False
  | VNull | VBool _ | VStr _ => True
  | VNum n => plain_int n = true
  | VArr l => (fix go (l : list value) : Prop :=
                 match l with [] => True | x :: l' => plain x /\ go l' end) l
  | VObj props =>
      assign [] props = props /\
      (fix go (l : list (string * value)) : Prop :=
         match l with [] => True | (_, x) :: l' => plain x /\ go l' end) props
  end.

(** Induction over values with the hypothesis on every element and property. *)
Section ValueInd.
Variable P : value -> Prop.
Hypothesis HU : P VUndef.
Hypothesis HN : P VNull.
Hypothesis HB : forall b, P (VBool b).
Hypothesis Hn : forall n, P (VNum n).
Hypothesis HS : forall s, P (VStr s).
Hypothesis HA : forall l, Forall P l -> P (VArr l).
Hypothesis HO : forall props, Forall (fun kv => P kv.2) props -> P (VObj props).

Fixpoint value_ind' (v : value) : P v :=
  match v with
  | VUndef => HU
  | VNull => HN
  | VBool b => HB b
  | VNum n => Hn n
  | VStr s => HS s
  | VArr l =>
      HA l ((fix go (l : list value) : Forall P l :=
               match l with
               | [] => @List.Forall_nil _ P
               | x :: l' => @List.Forall_cons _ P x l' (value_ind' x) (go l')
               end) l)
  | VObj props =>
      HO props ((fix go (l : list (string * value)) : Forall (fun kv => P kv.2) l :=
                   match l with
                   | [] => @List.Forall_nil _ (fun kv => P kv.2)
                   | kv :: l' =>
                       @List.Forall_cons _ (fun kv => P kv.2) kv l' (value_ind' kv.2) (go l')
                   end) props)
  end.
End ValueInd.

Definition text_of (gap cur : string) (v : value) : string :=
  match serialize gap cur v with Some t => t | None => "null" end.
Definition member_text (gap cur : string) (kv : string * value) : string :=
  quote kv.1 +:+ (if bool_decide (gap = "") then ":" else ": ") +:+ text_of gap cur kv.2.

Lemma plain_arr l : plain (VArr l) <-> Forall plain l.
Proof.
  induction l as [|x l IH]; simpl in *; [split; auto|].
  rewrite Forall_cons. tauto.
Qed.

Lemma plain_obj props :
  plain (VObj props) <-> assign [] props = props /\ Forall (fun kv => plain kv.2) props.
Proof.
  simpl. apply and_iff_compat_l. induction props as [|[k x] l IH]; [split; auto|].
  rewrite Forall_cons; simpl. tauto.
Qed.

Lemma plain_not_undef v : plain v -> v <> VUndef.
Proof. by intros H ->. Qed.

Lemma serialize_Some gap cur v : v <> VUndef -> serialize gap cur v = Some (text_of gap cur v).
Proof. unfold text_of. destruct v as [| |[]| | | |]; done. Qed.

Lemma text_of_arr gap cur l :
  text_of gap cur (VArr l) = bracket "[" "]" gap cur (text_of gap (cur +:+ gap) <$> l).
Proof. reflexivity. Qed.

Lemma text_of_obj gap cur props : Forall (fun kv => plain kv.2) props ->
  text_of gap cur (VObj props) =
  bracket "{" "}" gap cur (member_text gap (cur +:+ gap) <$> props).
Proof.
  intros H. unfold text_of at 1; simpl. f_equal.
  induction H as [|[k x] l Hx Hl IH]; [done|]. simpl in *.
  rewrite serialize_Some by (by apply plain_not_undef). by rewrite IH.
Qed.

(** *** White space *)

Definition blank (w : string) : Prop := all_chars is_json_space w = true.

Lemma blank_app a b : blank a -> blank b -> blank (a +:+ b).
Proof. unfold blank. rewrite all_chars_app. by intros -> ->. Qed.
Lemma blank_newline : blank newline. Proof. done. Qed.
#[export] Hint Resolve blank_app blank_newline : console.

Lemma skip_ws_app w s : blank w -> skip_ws (w +:+ s) = skip_ws s.
Proof.
  unfold blank. induction w as [|c w IH]; [done|]. simpl. intros H. bsimp.
  rewrite H. auto.
Qed.

Lemma parse_value_ws fuel w s : blank w -> parse_value fuel (w +:+ s) = parse_value fuel s.
Proof. intros H. destruct fuel; [done|]. simpl. by rewrite skip_ws_app. Qed.

(** A bracketed text with its white space made explicit. *)
Lemma bracket_cons op cl gap cur t ts : blank gap -> blank cur ->
  exists w w', blank w /\ blank w' /\
    bracket op cl gap cur (t :: ts) =
    op +:+ w +:+ join ("," +:+ w) (t :: ts) +:+ w' +:+ cl.
Proof.
  intros Hg Hc. unfold bracket. case_bool_decide as E.
  - by exists "", "".
  - exists (newline +:+ cur +:+ gap), (newline +:+ cur).
    split; [auto with console|]. split; [auto with console|].
    by autorewrite with strings.
Qed.

(** What may follow a value. *)
Definition delimiter (c : Ascii.ascii) : bool :=
  is_json_space c || Ascii.eqb c ","%char || Ascii.eqb c "]"%char || Ascii.eqb c "}"%char.
Definition delimited (s : string) : Prop :=
  match s with "" => True | String c _ => delimiter c = true end.

Lemma delimited_app w s : blank w -> delimited s -> delimited (w +:+ s).
Proof.
  destruct w as [|c w]; [done|]. unfold blank; simpl. intros H _. bsimp.
  unfold delimiter. by rewrite H.
Qed.

Ltac byte_cases c := destruct c as [[] [] [] [] [] [] [] []].

Lemma delimiter_not_number c : delimiter c = true ->
  is_digit c = false /\ Ascii.eqb c "."%char = false /\
  (Ascii.eqb c "e" || Ascii.eqb c "E")%char = false.
Proof. byte_cases c; try discriminate; done. Qed.

(** *** Strings *)

Lemma quote_char_length c : 1 <= String.length (quote_char c).
Proof. byte_cases c; simpl; lia. Qed.

Lemma quote_body_length s : String.length s <= String.length (quote_body s).
Proof.
  induction s as [|c s IH]; simpl; [lia|]. rewrite length_append.
  pose proof (quote_char_length c). lia.
Qed.

Lemma scan_quote_char fuel c s :
  scan_string (S fuel) (quote_char c +:+ s) =
  ('(u, r) ← scan_string fuel s; Some (String c u, r)).
Proof. byte_cases c; reflexivity. Qed.

Lemma scan_quote fuel s rest : String.length s < fuel ->
  scan_string fuel (quote_body s +:+ String dquote rest) = Some (s, rest).
Proof.
  revert fuel. induction s as [|c s IH]; intros [|fuel] Hf; simpl in Hf; try lia.
  - done.
  - simpl quote_body. rewrite append_assoc, scan_quote_char, IH by lia. done.
Qed.

Lemma quote_app s rest : quote s +:+ rest = String dquote (quote_body s +:+ String dquote rest).
Proof. unfold quote. rewrite append_cons, append_assoc. done. Qed.

Lemma scan_quoted s rest :
  scan_string (S (String.length (quote_body s +:+ String dquote rest)))
              (quote_body s +:+ String dquote rest) = Some (s, rest).
Proof.
  apply scan_quote. rewrite length_append. pose proof (quote_body_length s).
  simpl. lia.
Qed.

(** *** Numbers *)

Lemma toString_plain n : plain_int n = true ->
  n = int (mantissa n) /\ toString n = Z_to_string (mantissa n).
Proof.
  destruct n as [m s]. unfold plain_int; simpl. intros H. bsimp.
  apply Nat.eqb_eq in H as ->. apply Z.ltb_lt in H0. split; [done|].
  unfold toString, canon; simpl.
  destruct (Z.eqb_spec m 0) as [->|Hm]; [done|].
  destruct (Z.ltb_spec m 0) as [Hn|Hn]; simpl; unfold toString_int_pos.
  - destruct (Z.ltb_spec (- m) (10 ^ 21)); [|lia]. by rewrite <- Z_to_string_neg.
  - destruct (Z.ltb_spec m (10 ^ 21)); [done|lia].
Qed.

Lemma scan_decimal_digits (neg : bool) u rest :
  u <> Decimal.Nil -> delimited rest ->
  scan_decimal neg (NilEmpty.string_of_uint u +:+ rest) =
  Some (int (if neg then - Z.of_uint u else Z.of_uint u)%Z, rest).
Proof.
  intros Hu Hr. unfold scan_decimal.
  assert (stops is_digit rest = true) as Hs.
  { destruct rest as [|c rest]; [done|]. simpl.
    by destruct (delimiter_not_number c Hr) as (-> & _). }
  rewrite span_digits_app by (done || apply uint_chars).
  assert (NilEmpty.string_of_uint u <> "") as Hne by (by destruct u).
  assert (make_num neg (NilEmpty.string_of_uint u) "" 0 =
          int (if neg then - Z.of_uint u else Z.of_uint u)%Z) as Hmk.
  { unfold make_num. rewrite append_nil_r, digits_value_uint. simpl. by destruct neg. }
  destruct rest as [|c rest]; simpl.
  - rewrite append_nil_r. destruct (NilEmpty.string_of_uint u) eqn:E; [done|].
    simpl. by rewrite Hmk.
  - destruct (delimiter_not_number c Hr) as (_ & -> & Hce). simpl.
    rewrite append_nil_r. destruct (NilEmpty.string_of_uint u) eqn:E; [done|].
    rewrite Hce. simpl. by rewrite Hmk.
Qed.

Lemma scan_number_nonneg (neg : bool) z rest : (0 <= z)%Z -> delimited rest ->
  scan_number ((if neg then "-" else "") +:+ Z_to_string z +:+ rest) =
  Some (int (if neg then - z else z)%Z, rest).
Proof.
  intros Hz Hr. destruct (Z_to_string_digits z Hz) as (u & -> & <- & Hu & Hl).
  assert (scan_number ((if neg then "-" else "") +:+ NilEmpty.string_of_uint u +:+ rest) =
          scan_decimal neg (NilEmpty.string_of_uint u +:+ rest)) as ->.
  2: by apply scan_decimal_digits.
  assert (stops is_digit rest = true) as Hs.
  { destruct rest as [|c rest]; [done|]. simpl.
    by destruct (delimiter_not_number c Hr) as (-> & _). }
  unfold scan_number.
  assert (scan_sign ((if neg then "-" else "") +:+ NilEmpty.string_of_uint u +:+ rest) =
          (neg, NilEmpty.string_of_uint u +:+ rest)) as -> by (destruct neg; [done|]; by destruct u).
  rewrite span_digits_app by (done || apply uint_chars). rewrite Hl.
  destruct (NilEmpty.string_of_uint u) eqn:E; [by destruct u|].
  destruct rest as [|c rest]; [done|].
  by destruct (delimiter_not_number c Hr) as (_ & -> & _).
Qed.

Lemma scan_number_Z z rest : delimited rest ->
  scan_number (Z_to_string z +:+ rest) = Some (int z, rest).
Proof.
  intros Hr. destruct (Z.le_gt_cases 0 z) as [Hz|Hz].
  - apply (scan_number_nonneg false z rest Hz Hr).
  - rewrite Z_to_string_neg, append_assoc by lia.
    rewrite (scan_number_nonneg true (- z) rest) by (lia || done).
    by rewrite Z.opp_involutive.
Qed.

Lemma parse_value_number fuel c r :
  (is_digit c || Ascii.eqb c "-"%char) = true ->
  parse_value (S fuel) (String c r) =
  ('(n, r') ← scan_number (String c r); Some (VNum n, r')).
Proof. byte_cases c; try discriminate; reflexivity. Qed.

Lemma Z_to_string_head z rest : exists c r,
  Z_to_string z +:+ rest = String c r /\ (is_digit c || Ascii.eqb c "-"%char) = true.
Proof.
  destruct (Z.le_gt_cases 0 z) as [Hz|Hz].
  - destruct (Z_to_string_digits z Hz) as (u & -> & _ & Hu & _).
    destruct u; [done|..]; eexists _, _; (split; [reflexivity|done]).
  - rewrite Z_to_string_neg by done. eexists _, _; split; [reflexivity|done].
Qed.

(** *** Values *)

(** Fuel that is enough to read a value back. *)
Fixpoint need (v : value) : nat :=
  match v with
  | VArr l => S ((fix go (l : list value) : nat :=
                    match l with [] => 0 | x :: l' => S (need x) + go l' end) l)
  | VObj props => S ((fix go (l : list (string * value)) : nat :=
                        match l with [] => 0 | (_, x) :: l' => S (need x) + go l' end) props)
  | _ => 1
  end.

Definition need_list (l : list value) : nat := foldr (fun x n => S (need x) + n) 0 l.
Definition need_props (l : list (string * value)) : nat :=
  foldr (fun kv n => S (need kv.2) + n) 0 l.

Lemma need_arr l : need (VArr l) = S (need_list l).
Proof. reflexivity. Qed.
Lemma need_obj props : need (VObj props) = S (need_props props).
Proof. simpl. f_equal. induction props as [|[k x] l IH]; [done|]. simpl. by rewrite IH. Qed.

(** [v], printed anywhere, is read back, and what follows it is left. *)
Definition reads (v : value) : Prop :=
  forall gap cur rest fuel, blank gap -> blank cur -> delimited rest -> need v <= fuel ->
  parse_value fuel (text_of gap cur v +:+ rest) = Some (v, rest).

Lemma join_cons sep t u ts : join sep (t :: u :: ts) = t +:+ sep +:+ join sep (u :: ts).
Proof. done. Qed.

Lemma delimited_close w c r : blank w -> delimiter c = true -> delimited (w +:+ String c r).
Proof. intros Hw Hc. by apply delimited_app. Qed.

Lemma parse_elements_more fuel s x r :
  parse_value fuel s = Some (x, "," +:+ r) ->
  parse_elements (S fuel) s = ('(xs, r'') ← parse_elements fuel r; Some (x :: xs, r'')).
Proof. simpl. by intros ->. Qed.

Lemma parse_elements_last fuel s x w r : blank w ->
  parse_value fuel s = Some (x, w +:+ String "]" r) ->
  parse_elements (S fuel) s = Some ([x], r).
Proof. simpl. intros Hw ->. simpl. by rewrite skip_ws_app. Qed.

Lemma parse_elements_text gap cur w w' rest l fuel :
  blank gap -> blank cur -> blank w -> blank w' -> l <> [] ->
  Forall reads l -> need_list l <= fuel ->
  parse_elements fuel (w +:+ join ("," +:+ w) (text_of gap cur <$> l) +:+ w' +:+ String "]" rest)
  = Some (l, rest).
Proof.
  intros Hg Hc Hw Hw' Hne Hl. revert Hne fuel.
  induction Hl as [|x l Hx Hl IH]; intros Hne [|fuel] Hf; simpl in Hf; try done; try lia.
  destruct l as [|y l].
  - apply parse_elements_last with w'; [done|].
    rewrite parse_value_ws by done. apply Hx; [done..| |lia]. by apply delimited_close.
  - rewrite !fmap_cons, join_cons, !append_assoc. erewrite parse_elements_more.
    2: { rewrite parse_value_ws by done. apply Hx; [done..|lia]. }
    rewrite <- fmap_cons, IH; [done..|simpl in *; lia].
Qed.

Lemma parse_members_colon fuel w k rest :
  blank w ->
  parse_members (S fuel) (w +:+ quote k +:+ String ":" rest) =
  ('(x, r) ← parse_value fuel rest;
   match skip_ws r with
   | String c r' =>
       if Ascii.eqb c ","%char then '(ms, r'') ← parse_members fuel r'; Some ((k, x) :: ms, r'')
       else if Ascii.eqb c "}"%char then Some ([(k, x)], r') else None
   | "" => None
   end).
Proof.
  intros Hw. cbn [parse_members]. rewrite skip_ws_app by done.
  rewrite quote_app. cbn [skip_ws].
  change (is_json_space dquote) with false. cbv iota.
  change (Ascii.eqb dquote dquote) with true. cbv iota.
  by rewrite scan_quoted.
Qed.

Lemma parse_members_more fuel w k rest x r :
  blank w -> parse_value fuel rest = Some (x, "," +:+ r) ->
  parse_members (S fuel) (w +:+ quote k +:+ String ":" rest) =
  ('(ms, r'') ← parse_members fuel r; Some ((k, x) :: ms, r'')).
Proof. intros Hw Hp. by rewrite parse_members_colon, Hp. Qed.

Lemma parse_members_last fuel w k rest x w' r :
  blank w -> blank w' -> parse_value fuel rest = Some (x, w' +:+ String "}" r) ->
  parse_members (S fuel) (w +:+ quote k +:+ String ":" rest) = Some ([(k, x)], r).
Proof.
  intros Hw Hw' Hp. rewrite parse_members_colon, Hp by done. simpl.
  by rewrite skip_ws_app.
Qed.

Lemma member_text_app gap cur kv rest :
  exists sp, blank sp /\
    member_text gap cur kv +:+ rest =
    quote kv.1 +:+ String ":" (sp +:+ text_of gap cur kv.2 +:+ rest).
Proof.
  unfold member_text. case_bool_decide.
  - exists "". split; [done|]. by rewrite !append_assoc.
  - exists " ". split; [done|]. by rewrite !append_assoc.
Qed.

Lemma parse_members_text gap cur w w' rest l fuel :
  blank gap -> blank cur -> blank w -> blank w' -> l <> [] ->
  Forall (fun kv => reads kv.2) l -> need_props l <= fuel ->
  parse_members fuel (w +:+ join ("," +:+ w) (member_text gap cur <$> l) +:+ w' +:+ String "}" rest)
  = Some (l, rest).
Proof.
  intros Hg Hc Hw Hw' Hne Hl. revert Hne fuel.
  induction Hl as [|[k x] l Hx Hl IH]; intros Hne [|fuel] Hf; simpl in Hf; try done; try lia; simpl in Hx.
  destruct l as [|y l].
  - simpl. destruct (member_text_app gap cur (k, x) (w' +:+ String "}" rest)) as (sp & Hsp & ->).
    apply parse_members_last with w'; [done..|].
    rewrite parse_value_ws by done. apply Hx; [done..| |lia]. by apply delimited_close.
  - rewrite !fmap_cons, join_cons, !append_assoc.
    destruct (member_text_app gap cur (k, x)
      ("," +:+ w +:+ join ("," +:+ w) (member_text gap cur y :: (member_text gap cur <$> l))
       +:+ w' +:+ String "}" rest)) as (sp & Hsp & ->).
    erewrite parse_members_more; [|done|].
    2: { rewrite parse_value_ws by done. apply Hx; [done..|lia]. }
    rewrite <- fmap_cons, IH; [done..|simpl in *; lia].
Qed.

(** A structure's first character is not white space nor its closing bracket. *)
Lemma text_of_head gap cur v : plain v -> exists c r,
  text_of gap cur v = String c r /\ is_json_space c = false /\
  Ascii.eqb c "]"%char = false.
Proof.
  unfold text_of, plain. destruct v as [| |[]|n|s|l|props]; simpl; intros Hv; try done;
    try (eexists _, _; repeat split; reflexivity).
  - destruct (toString_plain n Hv) as [_ ->].
    destruct (Z_to_string_head (mantissa n) "") as (c & r & H & Hc).
    rewrite append_nil_r in H. exists c, r. split; [done|].
    revert Hc. clear. byte_cases c; done.
  - unfold bracket. case_match; [|case_bool_decide]; by eexists _, _.
  - unfold bracket. case_match; [|case_bool_decide]; by eexists _, _.
Qed.

Lemma parse_value_arr fuel c r :
  is_json_space c = false -> Ascii.eqb c "]"%char = false -> forall w, blank w ->
  parse_value (S fuel) ("[" +:+ w +:+ String c r) =
  ('(xs, r'') ← parse_elements fuel (String c r); Some (VArr xs, r'')).
Proof.
  intros H1 H2 w Hw.
  assert (skip_ws (w +:+ String c r) = String c r) as E.
  { rewrite skip_ws_app by done. cbn [skip_ws]. by rewrite H1. }
  cbn [parse_value]. simpl.
  change ("" +:+ w +:+ String c r) with (w +:+ String c r). rewrite E.
  clear -H2. revert H2. byte_cases c; try discriminate; done.
Qed.

Lemma parse_value_obj fuel w s : blank w ->
  parse_value (S fuel) ("{" +:+ w +:+ String dquote s) =
  ('(ms, r'') ← parse_members fuel (String dquote s); Some (VObj (assign [] ms), r'')).
Proof.
  intros Hw. cbn [parse_value]. simpl.
  change ("" +:+ w +:+ String dquote s) with (w +:+ String dquote s).
  by rewrite skip_ws_app.
Qed.

Lemma scan_literal_app w v rest : scan_literal w v (w +:+ rest) = Some (v, rest).
Proof. unfold scan_literal. by rewrite prefix_app, skip_chars_app. Qed.

Theorem plain_reads v : plain v -> reads v.
Proof.
  induction v as [| |b|n|s|l IH|props IH] using value_ind'; intros Hv gap cur rest [|fuel] Hg Hc Hr Hf;
    try (simpl in Hf; lia); try done.
  - apply (scan_literal_app "null").
  - destruct b; [apply (scan_literal_app "true") | apply (scan_literal_app "false")].
  - destruct (toString_plain n Hv) as [Hn Ht]. unfold text_of; cbn [serialize]. rewrite Ht.
    destruct (Z_to_string_head (mantissa n) rest) as (c & r & E & Hc').
    pose proof (scan_number_Z (mantissa n) rest Hr) as Hs.
    rewrite E in *. rewrite parse_value_number, Hs by done. simpl. by rewrite <- Hn.
  - unfold text_of; cbn [serialize]. rewrite quote_app.
    assert (parse_value (S fuel) (String dquote (quote_body s +:+ String dquote rest)) =
            ('(t, r') ← scan_string (S (String.length (quote_body s +:+ String dquote rest)))
                          (quote_body s +:+ String dquote rest); Some (VStr t, r'))) as ->.
    { reflexivity. }
    by rewrite scan_quoted.
  - rewrite text_of_arr. rewrite need_arr in Hf. apply plain_arr in Hv.
    destruct l as [|x l]; [done|].
    rewrite fmap_cons.
    destruct (bracket_cons "[" "]" gap cur (text_of gap (cur +:+ gap) x)
                (text_of gap (cur +:+ gap) <$> l)) as (w & w' & Hw & Hw' & ->); [done..|].
    apply Forall_cons in Hv as Hv'. destruct Hv' as [Hx Hl].
    assert (Forall reads (x :: l)) as HR.
    { apply Forall_forall. intros y Hy. rewrite Forall_forall in IH, Hv. auto. }
    pose proof (parse_elements_text gap (cur +:+ gap) w w' rest (x :: l) fuel) as HP.
    destruct (text_of_head gap (cur +:+ gap) x Hx) as (c & r & Ht & H1 & H2).
    rewrite !append_assoc.
    specialize (HP Hg (blank_app _ _ Hc Hg) Hw Hw' ltac:(done) HR ltac:(lia)).
    assert (exists r', join ("," +:+ w) (text_of gap (cur +:+ gap) <$> x :: l) = String c r') as [r' Hj].
    { destruct l as [|y l]; [by exists r|]. rewrite !fmap_cons, join_cons, Ht. by eexists. }
    rewrite fmap_cons in *. rewrite Hj in *.
    rewrite (append_cons c r') in *. rewrite parse_value_arr by done.
    destruct fuel as [|fuel]; [simpl in Hf; lia|]. cbn [parse_elements] in *.
    rewrite parse_value_ws in HP by done. change ("]" +:+ rest) with (String "]" rest).
    by rewrite HP.
  - rewrite need_obj in Hf. apply plain_obj in Hv as [Hv Hps].
    rewrite text_of_obj by done. destruct props as [|kv l]; [done|].
    rewrite fmap_cons.
    destruct (bracket_cons "{" "}" gap cur (member_text gap (cur +:+ gap) kv)
                (member_text gap (cur +:+ gap) <$> l)) as (w & w' & Hw & Hw' & ->); [done..|].
    assert (Forall (fun kv => reads kv.2) (kv :: l)) as HR.
    { apply Forall_forall. intros y Hy. rewrite Forall_forall in IH, Hps. auto. }
    pose proof (parse_members_text gap (cur +:+ gap) w w' rest (kv :: l) fuel) as HP.
    rewrite !append_assoc.
    specialize (HP Hg (blank_app _ _ Hc Hg) Hw Hw' ltac:(done) HR ltac:(lia)).
    assert (exists r', join ("," +:+ w) (member_text gap (cur +:+ gap) <$> kv :: l) = String dquote r')
      as [r' Hj].
    { unfold member_text, quote. destruct l as [|y l]; by eexists. }
    rewrite fmap_cons in *. rewrite Hj in *.
    rewrite (append_cons dquote r') in *. rewrite parse_value_obj by done.
    destruct fuel as [|fuel]; [simpl in Hf; lia|]. cbn [parse_members] in *.
    rewrite skip_ws_app in HP by done. change ("}" +:+ rest) with (String "}" rest).
    rewrite HP. cbn [mbind option_bind]. by rewrite Hv.
Qed.

Lemma join_length {A} (f : A -> string) (g : A -> nat) sep x (l : list A) :
  1 <= String.length sep -> Forall (fun x => g x <= String.length (f x)) (x :: l) ->
  foldr (fun x n => S (g x) + n) 0 (x :: l) <= S (String.length (join sep (f <$> x :: l))).
Proof.
  intros Hs. revert x. induction l as [|y l IH]; intros x Hx; apply Forall_cons in Hx as [Hx Hl].
  - simpl. lia.
  - specialize (IH y Hl). rewrite !fmap_cons in *. rewrite join_cons, !length_append.
    simpl in *. lia.
Qed.

Lemma bracket_length {A} (f : A -> string) (g : A -> nat) op cl gap cur (l : list A) :
  1 <= String.length op -> 1 <= String.length cl ->
  Forall (fun x => g x <= String.length (f x)) l ->
  S (foldr (fun x n => S (g x) + n) 0 l) <= String.length (bracket op cl gap cur (f <$> l)).
Proof.
  intros Ho Hc Hl. destruct l as [|x l]; [simpl; rewrite length_append; lia|].
  rewrite fmap_cons. unfold bracket. rewrite <- fmap_cons. case_bool_decide.
  - pose proof (join_length f g "," x l ltac:(simpl; lia) Hl). rewrite !length_append. lia.
  - pose proof (join_length f g ("," +:+ newline +:+ cur +:+ gap) x l
                  ltac:(simpl; lia) Hl). rewrite !length_append in *. lia.
Qed.

Lemma text_length_need gap cur v : plain v -> need v <= String.length (text_of gap cur v).
Proof.
  revert cur. induction v as [| |b|n|s|l IH|props IH] using value_ind'; intros cur Hv; try done.
  - simpl. lia.
  - destruct b; simpl; lia.
  - destruct (text_of_head gap cur (VNum n) Hv) as (c & r & -> & _). simpl. lia.
  - unfold text_of; simpl. lia.
  - rewrite need_arr, text_of_arr. apply plain_arr in Hv.
    apply bracket_length; [simpl; lia..|].
    rewrite Forall_forall in *. auto.
  - rewrite need_obj. apply plain_obj in Hv as [_ Hv]. rewrite text_of_obj by done.
    apply (bracket_length _ (fun kv => need kv.2)); [simpl; lia..|].
    rewrite Forall_forall in *. intros kv Hkv. unfold member_text.
    rewrite !length_append. specialize (IH kv Hkv (cur +:+ gap) (Hv kv Hkv)). lia.
Qed.

(** JSON.parse reads back what JSON.stringify wrote, compact or indented. *)
Lemma parse_text_of gap v : blank gap -> plain v -> JSON_parse (text_of gap "" v) = Some v.
Proof.
  intros Hg Hv. unfold JSON_parse.
  pose proof (plain_reads v Hv gap "" "" (S (String.length (text_of gap "" v))) Hg) as H.
  rewrite append_nil_r in H. pose proof (text_length_need gap "" v Hv).
  rewrite H; [done|done|done|lia].
Qed.

(** ** Reading properties after an assignment *)

Section Lookup.
Context {A : Type}.
Implicit Types (props extra : list (string * A)) (k : string) (v : A).

Lemma lookup_insert_prop k v props k' : lookup_prop k props = None ->
  lookup_prop k' (insert_prop k v props) = if bool_decide (k = k') then Some v else lookup_prop k' props.
Proof.
  induction props as [|[j w] props IH]; simpl; [done|].
  destruct (bool_decide (j = k)) eqn:E; [done|]. apply bool_decide_eq_false in E.
  intros Hn. specialize (IH Hn).
  assert (lookup_prop k' ((j, w) :: insert_prop k v props) =
    if bool_decide (k = k') then Some v else if bool_decide (j = k') then Some w else lookup_prop k' props)
    as Hi by (simpl; rewrite IH; repeat case_bool_decide; congruence).
  destruct (index_key k) as [i|], (index_key j) as [i'|]; try exact Hi; [|done].
  destruct (i <? i')%Z; [done|exact Hi].
Qed.

Lemma lookup_replace_prop k v props k' w : lookup_prop k props = Some w ->
  lookup_prop k' (replace_prop k v props) = if bool_decide (k = k') then Some v else lookup_prop k' props.
Proof.
  induction props as [|[j u] props IH]; simpl; [done|].
  destruct (bool_decide (j = k)) eqn:E; bsimp.
  - subst j. intros _. simpl. by case_bool_decide.
  - intros Hn. simpl. rewrite (IH Hn). repeat case_bool_decide; congruence.
Qed.

Lemma lookup_set_prop props k v k' :
  lookup_prop k' (set_prop props (k, v)) = if bool_decide (k = k') then Some v else lookup_prop k' props.
Proof.
  simpl. destruct (lookup_prop k props) eqn:E;
    [by eapply lookup_replace_prop|by apply lookup_insert_prop].
Qed.

(** The last assignment to a name wins. *)
Lemma lookup_assign props extra k :
  lookup_prop k (assign props extra) =
  match lookup_prop k (rev extra) with Some v => Some v | None => lookup_prop k props end.
Proof.
  unfold assign. rewrite <- fold_left_rev_right. generalize (rev extra). clear extra.
  induction l as [|[j v] l IH]; [done|].
  cbn [foldr]. unfold flip. rewrite lookup_set_prop. simpl.
  case_bool_decide; [done|]. exact IH.
Qed.

(** Assigning the value a property already has changes nothing. *)
Lemma set_prop_same props k v : lookup_prop k props = Some v -> set_prop props (k, v) = props.
Proof.
  simpl. intros E. rewrite E. revert E. induction props as [|[j w] props IH]; simpl; [done|].
  case_bool_decide as H; [intros [= ->]; congruence|].
  intros E. by rewrite IH.
Qed.

Lemma assign_same props extra :
  Forall (fun kv => lookup_prop kv.1 props = Some kv.2) extra -> assign props extra = props.
Proof.
  unfold assign. induction 1 as [|[k v] extra Hk Hl IH]; [done|]. cbn [fold_left].
  by rewrite set_prop_same.
Qed.
End Lookup.

(** Decide the equalities of concrete property names in the goal. *)
Ltac decide_names :=
  repeat match goal with
  | |- context [@bool_decide (@eq string ?a ?b) ?d] =>
      let r := eval vm_compute in (@bool_decide (@eq string a b) d) in
      match r with
      | true => change (@bool_decide (@eq string a b) d) with true
      | false => change (@bool_decide (@eq string a b) d) with false
      end
  end; cbn iota beta.

(** Properties with distinct names. *)
Lemma lookup_prop_Some {A} k (props : list (string * A)) x : NoDup props.*1 ->
  (lookup_prop k props = Some x <-> (k, x) ∈ props).
Proof.
  induction props as [|[j y] props IH]; intros Hn; [set_solver|].
  apply NoDup_cons in Hn as [Hj Hn]. cbn [lookup_prop]. rewrite elem_of_cons.
  case_bool_decide as E.
  - subst. split; [intros [= ->]; by left|]. intros [[= ->]|Hin]; [done|].
    destruct Hj. apply list_elem_of_fmap. by exists (k, x).
  - rewrite IH by done. naive_solver.
Qed.

Lemma lookup_prop_None {A} k (props : list (string * A)) : k ∉ props.*1 -> lookup_prop k props = None.
Proof.
  induction props as [|[j y] props IH]; [done|]. cbn [fmap list_fmap fst lookup_prop].
  intros [Hj Hn]%not_elem_of_cons. rewrite bool_decide_false by done. by apply IH.
Qed.

Lemma lookup_prop_rev {A} k (props : list (string * A)) : NoDup props.*1 ->
  lookup_prop k (rev props) = lookup_prop k props.
Proof.
  intros Hn. assert (NoDup (rev props).*1) as Hr by (by rewrite <- (Permutation_rev props)).
  apply option_eq. intros x. rewrite !lookup_prop_Some by done.
  by rewrite <- (Permutation_rev props).
Qed.

(** The spread of an object over another, name by name. *)
Lemma lookup_assign_NoDup {A} (props extra : list (string * A)) k : NoDup extra.*1 ->
  lookup_prop k (assign props extra) =
  match lookup_prop k extra with Some v => Some v | None => lookup_prop k props end.
Proof. intros Hn. by rewrite lookup_assign, lookup_prop_rev. Qed.

Lemma replace_prop_names {A} k v (props : list (string * A)) : (replace_prop k v props).*1 = props.*1.
Proof. induction props as [|[j u] props IH]; [done|]. cbn. case_bool_decide; cbn; congruence. Qed.

Lemma insert_prop_names {A} k v (props : list (string * A)) : (insert_prop k v props).*1 ≡ₚ k :: props.*1.
Proof.
  induction props as [|[j u] props IH]; [done|]. cbn [insert_prop].
  assert ((j, u).1 :: (insert_prop k v props).*1 ≡ₚ k :: j :: props.*1) as Hs
    by (rewrite IH; apply Permutation_swap).
  repeat case_match; done.
Qed.

Lemma assign_NoDup {A} (props extra : list (string * A)) : NoDup props.*1 -> NoDup (assign props extra).*1.
Proof.
  unfold assign. revert props. induction extra as [|[k v] extra IH]; intros props Hn; [done|].
  cbn [fold_left]. apply IH. unfold set_prop. destruct (lookup_prop k props) eqn:E.
  - by rewrite replace_prop_names.
  - rewrite insert_prop_names. apply NoDup_cons. split; [|done]. intros Hin.
    apply list_elem_of_fmap in Hin as ([j u] & -> & Hin). cbn [fst] in E. revert E.
    rewrite (proj2 (lookup_prop_Some j props u Hn) Hin). done.
Qed.
