(* ===== verification/JsDate.v ===== *)
(** * Time values: Date.parse and toISOString

    A time value is an integer number of milliseconds since the epoch.
    [parse_iso] reads the ECMAScript date-time string format with an explicit
    offset (and its date-only forms, which are UTC); a text in another form is
    left to the host, as the language does.

    [Host] gathers what the running environment supplies to the modelled code:
    the successive draws of Math.random, the successive readings of Date.now
    and of performance.now, and the host's own date heuristics. *)

From S2P Require Import Prelude JsNumber JsString.

Open Scope Z_scope.

Class Host : Type := {
  (** The k-th draw, in units of 2^-53; only its residue is used. *)
  random_bits : nat -> Z;
  (** The k-th reading of Date.now. *)
  clock : nat -> Z;
  (** The k-th reading of performance.now. *)
  perf_clock : nat -> num;
  (** The digits of a draw in base 36, after the point: how many there are is left
      to the implementation by the language. *)
  fraction36 : Z -> string;
  (** The time value of a text that is not in the date-time string format. *)
  parse_other : string -> option Z
}.

(** A host for concrete runs: every draw is one half, the clocks advance by one
    at each reading, and only ISO texts are dates. *)
Definition sample_host : Host :=
  {| random_bits _ := 2 ^ 52;
     clock k := 1700000000000 + Z.of_nat k;
     perf_clock k := of_nat k;
     fraction36 _ := "i";
     parse_other _ := None |}.

(** ** The proleptic Gregorian calendar *)

Definition days_from_civil (y m d : Z) : Z :=
  let y := if m <=? 2 then y - 1 else y in
  let era := y / 400 in
  let yoe := y mod 400 in
  let doy := (153 * (if 2 <? m then m - 3 else m + 9) + 2) / 5 + d - 1 in
  let doe := yoe * 365 + yoe / 4 - yoe / 100 + doy in
  era * 146097 + doe - 719468.

Definition civil_from_days (z : Z) : Z * Z * Z :=
  let z := z + 719468 in
  let era := z / 146097 in
  let doe := z mod 146097 in
  let yoe := (doe - doe / 1460 + doe / 36524 - doe / 146096) / 365 in
  let doy := doe - (365 * yoe + yoe / 4 - yoe / 100) in
  let mp := (5 * doy + 2) / 153 in
  let d := doy - (153 * mp + 2) / 5 + 1 in
  let m := if mp <? 10 then mp + 3 else mp - 9 in
  let y := yoe + era * 400 in
  ((if m <=? 2 then y + 1 else y), m, d).

Definition leap (y : Z) : bool :=
  (y mod 4 =? 0) && (negb (y mod 100 =? 0) || (y mod 400 =? 0)).

Definition days_in_month (y m : Z) : Z :=
  if m =? 2 then (if leap y then 29 else 28)
  else if (m =? 4) || (m =? 6) || (m =? 9) || (m =? 11) then 30 else 31.

(** ** Reading *)

(** Exactly [n] digits. *)
Fixpoint read_digits (n : nat) (acc : Z) (s : string) : option (Z * string) :=
  match n with
  | O => Some (acc, s)
  | S n' =>
      match s with
      | String c s' =>
          if is_digit c
          then read_digits n' (acc * 10 + (Z.of_nat (Ascii.nat_of_ascii c) - 48)) s'
          else None
      | "" => None
      end
  end.

Definition read_char (c : Ascii.ascii) (s : string) : option string :=
  match s with
  | String d s' => if Ascii.eqb c d then Some s' else None
  | "" => None
  end.

(** Milliseconds of a fraction of a second: its first three digits. *)
Definition fraction_ms (f : string) : Z :=
  digits_value (slice_to 3 (f +:+ "000")).

Definition read_year (s : string) : option (Z * string) :=
  match s with
  | String "+"%char s' => read_digits 6 0 s'
  | String "-"%char s' =>
      '(y, r) ← read_digits 6 0 s'; if y =? 0 then None else Some (- y, r)
  | _ => read_digits 4 0 s
  end.

(** [Z], or a signed offset in hours and minutes, in minutes. *)
Definition read_offset (s : string) : option (Z * string) :=
  match s with
  | String "Z"%char s' => Some (0, s')
  | String c s' =>
      if Ascii.eqb c "+"%char || Ascii.eqb c "-"%char then
        '(h, r) ← read_digits 2 0 s'; r ← read_char ":"%char r; '(m, r) ← read_digits 2 0 r;
        if (h <=? 23) && (m <=? 59)
        then Some ((if Ascii.eqb c "+"%char then h * 60 + m else - (h * 60 + m)), r)
        else None
      else None
  | "" => None
  end.

(** Milliseconds in the day of [HH:mm[:ss[.s...]]]. *)
Definition read_time (s : string) : option (Z * string) :=
  '(h, r) ← read_digits 2 0 s;
  r ← read_char ":"%char r;
  '(m, r) ← read_digits 2 0 r;
  '(sec, ms, r) ←
    match read_char ":"%char r with
    | None => Some (0, 0, r)
    | Some r =>
        '(sec, r) ← read_digits 2 0 r;
        match read_char "."%char r with
        | None => Some (sec, 0, r)
        | Some r =>
            let '(f, r) := span_digits r in
            if bool_decide (f = "") then None else Some (sec, fraction_ms f, r)
        end
    end;
  if ((h <=? 23) && (m <=? 59) && (sec <=? 59)) ||
     ((h =? 24) && (m =? 0) && (sec =? 0) && (ms =? 0))
  then Some (((h * 60 + m) * 60 + sec) * 1000 + ms, r)
  else None.

Definition ms_per_day : Z := 86400000.

(** TimeClip. *)
Definition time_clip (t : Z) : option Z :=
  if Z.abs t <=? 8640000000000000 then Some t else None.

(** The date part: year, and optionally month and day. *)
Definition read_date (s : string) : option (Z * string) :=
  '(y, r) ← read_year s;
  '(mo, d, r) ←
    match read_char "-"%char r with
    | None => Some (1, 1, r)
    | Some r =>
        '(mo, r) ← read_digits 2 0 r;
        match read_char "-"%char r with
        | None => Some (mo, 1, r)
        | Some r => '(d, r) ← read_digits 2 0 r; Some (mo, d, r)
        end
    end;
  if (1 <=? mo) && (mo <=? 12) && (1 <=? d) && (d <=? days_in_month y mo)
  then Some (days_from_civil y mo d, r) else None.

Definition parse_iso (s : string) : option Z :=
  '(days, r) ← read_date s;
  match r with
  | "" => time_clip (days * ms_per_day)
  | _ =>
      r ← read_char "T"%char r;
      '(ms, r) ← read_time r;
      '(off, r) ← read_offset r;
      match r with
      | "" => time_clip (days * ms_per_day + ms - off * 60000)
      | _ => None
      end
  end.

(** [new Date(s).getTime()]; [None] is NaN. *)
Definition Date_parse `{Host} (s : string) : option Z :=
  match parse_iso s with Some t => Some t | None => parse_other s end.

(** ** Writing *)

Definition digit (z : Z) : string := String (Ascii.ascii_of_nat (Z.to_nat (48 + z mod 10))) "".

Definition pad2 (z : Z) : string := digit (z / 10) +:+ digit z.
Definition pad3 (z : Z) : string := digit (z / 100) +:+ pad2 z.
Definition pad4 (z : Z) : string := pad2 (z / 100) +:+ pad2 z.
Definition pad6 (z : Z) : string := pad2 (z / 10000) +:+ pad4 z.

Definition year_text (y : Z) : string :=
  if (0 <=? y) && (y <=? 9999) then pad4 y
  else if y <? 0 then "-" +:+ pad6 (- y) else "+" +:+ pad6 y.

Definition date_text (t : Z) : string :=
  let '(y, m, d) := civil_from_days (t / ms_per_day) in
  year_text y +:+ "-" +:+ pad2 m +:+ "-" +:+ pad2 d.

Definition time_text (t : Z) : string :=
  let ms := t mod ms_per_day in
  pad2 (ms / 3600000) +:+ ":" +:+ pad2 (ms / 60000 mod 60) +:+ ":" +:+
  pad2 (ms / 1000 mod 60) +:+ "." +:+ pad3 (ms mod 1000).

(** [toISOString()] of a valid time value. *)
Definition toISOString (t : Z) : string := date_text t +:+ "T" +:+ time_text t +:+ "Z".

Example iso_2024 : parse_iso "2024-02-29T23:59:58.123456789Z" = Some 1709251198123.
Proof. vm_compute. reflexivity. Qed.
Example iso_offset : parse_iso "2024-03-01T01:59:58.5+02:00" = Some 1709251198500.
Proof. vm_compute. reflexivity. Qed.
Example iso_text : toISOString 1709251198123 = "2024-02-29T23:59:58.123Z".
Proof. vm_compute. reflexivity. Qed.
Example iso_bad_day : parse_iso "2023-02-29T00:00:00Z" = None.
Proof. vm_compute. reflexivity. Qed.
Example iso_local : parse_iso "2023-02-28T00:00:00" = None.
Proof. vm_compute. reflexivity. Qed.

(** ** The calendar functions are inverse *)

Lemma yoe_bounds doe : 0 <= doe < 146097 ->
  let yoe := (doe - doe / 1460 + doe / 36524 - doe / 146096) / 365 in
  let doy := doe - (365 * yoe + yoe / 4 - yoe / 100) in
  0 <= yoe < 400 /\ 0 <= doy <= 365.
Proof. intros H yoe doy. subst yoe doy. Z.to_euclidean_division_equations. lia. Qed.

Lemma civil_bounds z y m d : civil_from_days z = (y, m, d) -> 1 <= m <= 12 /\ 1 <= d <= 31.
Proof.
  unfold civil_from_days. intros [= _ <- <-].
  pose proof (yoe_bounds ((z + 719468) mod 146097) ltac:(Z.to_euclidean_division_equations; lia)) as [_ H].
  revert H.
  match goal with |- 0 <= ?doy <= 365 -> _ => generalize doy end. intros doy H.
  destruct (Z.ltb_spec ((5 * doy + 2) / 153) 10); Z.to_euclidean_division_equations; lia.
Qed.

Lemma days_of_civil z y m d : civil_from_days z = (y, m, d) -> days_from_civil y m d = z.
Proof.
  unfold civil_from_days, days_from_civil.
  set (era := (z + 719468) / 146097). set (doe := (z + 719468) mod 146097).
  assert (z + 719468 = era * 146097 + doe /\ 0 <= doe < 146097) as [Hz Hd].
  { subst era doe. Z.to_euclidean_division_equations. lia. }
  pose proof (yoe_bounds doe Hd) as [Hy Hdoy].
  set (yoe := (doe - doe / 1460 + doe / 36524 - doe / 146096) / 365) in *.
  set (doy := doe - (365 * yoe + yoe / 4 - yoe / 100)) in *.
  set (mp := (5 * doy + 2) / 153).
  assert (0 <= mp <= 11) as Hmp by (subst mp; Z.to_euclidean_division_equations; lia).
  clearbody era doe yoe. intros [= <- <- <-].
  set (m := if mp <? 10 then mp + 3 else mp - 9).
  assert ((if 2 <? m then m - 3 else m + 9) = mp) as ->.
  { subst m. destruct (Z.ltb_spec mp 10);
      [destruct (Z.ltb_spec 2 (mp + 3)) | destruct (Z.ltb_spec 2 (mp - 9))]; lia. }
  assert ((if m <=? 2 then (if m <=? 2 then yoe + era * 400 + 1 else yoe + era * 400) - 1
           else if m <=? 2 then yoe + era * 400 + 1 else yoe + era * 400) = yoe + era * 400) as ->.
  { destruct (m <=? 2); lia. }
  assert ((yoe + era * 400) / 400 = era) as -> by (Z.to_euclidean_division_equations; lia).
  assert ((yoe + era * 400) mod 400 = yoe) as -> by (Z.to_euclidean_division_equations; lia).
  subst doy. lia.
Qed.

(** The 366th day of a year that starts in March exists in leap years only. *)
Lemma doy_leap doe : 0 <= doe < 146097 ->
  let yoe := (doe - doe / 1460 + doe / 36524 - doe / 146096) / 365 in
  doe - (365 * yoe + yoe / 4 - yoe / 100) = 365 ->
  (yoe + 1) mod 4 = 0 /\ ((yoe + 1) mod 100 = 0 -> (yoe + 1) mod 400 = 0).
Proof. intros H yoe. subst yoe. Z.to_euclidean_division_equations. lia. Qed.

Lemma civil_day_valid z y m d : civil_from_days z = (y, m, d) -> d <= days_in_month y m.
Proof.
  unfold civil_from_days.
  set (era := (z + 719468) / 146097). set (doe := (z + 719468) mod 146097).
  assert (0 <= doe < 146097) as Hd by (subst doe; Z.to_euclidean_division_equations; lia).
  pose proof (yoe_bounds doe Hd) as [Hy Hdoy]. pose proof (doy_leap doe Hd) as Hleap.
  cbv zeta in Hleap.
  set (yoe := (doe - doe / 1460 + doe / 36524 - doe / 146096) / 365) in *.
  set (doy := doe - (365 * yoe + yoe / 4 - yoe / 100)) in *.
  set (mp := (5 * doy + 2) / 153).
  assert (153 * mp <= 5 * doy + 2 < 153 * (mp + 1)) as Hmp
    by (subst mp; Z.to_euclidean_division_equations; lia).
  assert (0 <= mp <= 11) by lia.
  clearbody era doe yoe doy mp. intros [= <- <- <-].
  assert (mp = 0 \/ mp = 1 \/ mp = 2 \/ mp = 3 \/ mp = 4 \/ mp = 5 \/ mp = 6 \/ mp = 7 \/
          mp = 8 \/ mp = 9 \/ mp = 10 \/ mp = 11) as Hcases by lia.
  destruct Hcases as [->|[->|[->|[->|[->|[->|[->|[->|[->|[->|[->| ->]]]]]]]]]]];
    unfold days_in_month; simpl; try (clear Hleap; Z.to_euclidean_division_equations; lia).
  change ((153 * 11 + 2) / 5) with 337.
  destruct (leap (yoe + era * 400 + 1)) eqn:E; [lia|].
  assert (doy <> 365); [|lia]. intros H365. destruct (Hleap H365) as [H4 H100].
  enough (leap (yoe + era * 400 + 1) = true) by congruence. unfold leap.
  assert ((yoe + era * 400 + 1) mod 4 = (yoe + 1) mod 4) as ->.
  { rewrite <- (Z.mod_add (yoe + 1) (era * 100) 4) by lia. f_equal. lia. }
  assert ((yoe + era * 400 + 1) mod 100 = (yoe + 1) mod 100) as ->.
  { rewrite <- (Z.mod_add (yoe + 1) (era * 4) 100) by lia. f_equal. lia. }
  assert ((yoe + era * 400 + 1) mod 400 = (yoe + 1) mod 400) as ->.
  { rewrite <- (Z.mod_add (yoe + 1) (era * 1) 400) by lia. f_equal. lia. }
  rewrite H4. simpl. destruct (Z.eqb_spec ((yoe + 1) mod 100) 0) as [H0|]; [|done].
  by rewrite H100.
Qed.

(** ** Reading back what was written *)

Lemma read_digit n acc z r : 
  read_digits (S n) acc (digit z +:+ r) = read_digits n (acc * 10 + z mod 10) r.
Proof.
  unfold digit. rewrite append_cons.
  pose proof (Z.mod_pos_bound z 10 ltac:(lia)) as H. set (k := z mod 10) in *.
  assert (Ascii.nat_of_ascii (Ascii.ascii_of_nat (Z.to_nat (48 + k))) = Z.to_nat (48 + k)) as E.
  { apply Ascii.nat_ascii_embedding. lia. }
  cbn [read_digits]. unfold is_digit. rewrite E.
  destruct (Nat.leb_spec 48 (Z.to_nat (48 + k))); [|lia].
  destruct (Nat.leb_spec (Z.to_nat (48 + k)) 57); [|lia].
  cbn [andb]. f_equal; lia.
Qed.

Lemma read_pad2 n acc z r : 0 <= z < 100 ->
  read_digits (S (S n)) acc (pad2 z +:+ r) = read_digits n (acc * 100 + z) r.
Proof.
  intros Hz. unfold pad2. rewrite append_assoc, !read_digit. f_equal.
  Z.to_euclidean_division_equations. lia.
Qed.

Lemma read_pad4 z r : 0 <= z <= 9999 -> read_digits 4 0 (pad4 z +:+ r) = Some (z, r).
Proof.
  intros Hz. unfold pad4. rewrite append_assoc.
  rewrite read_pad2 by (Z.to_euclidean_division_equations; lia).
  unfold pad2. rewrite append_assoc, !read_digit. simpl. f_equal. f_equal.
  Z.to_euclidean_division_equations. lia.
Qed.

Lemma read_char_cons c r : read_char c (String c r) = Some r.
Proof. simpl. by rewrite Ascii.eqb_refl. Qed.

Lemma pad2_digits z : all_chars is_digit (pad2 z) = true.
Proof.
  assert (forall z, all_chars is_digit (digit z) = true) as H.
  { intros k. unfold digit, all_chars, is_digit.
    pose proof (Z.mod_pos_bound k 10 ltac:(lia)) as H.
    rewrite Ascii.nat_ascii_embedding by lia.
    destruct (Nat.leb_spec 48 (Z.to_nat (48 + k mod 10))); [|lia].
    destruct (Nat.leb_spec (Z.to_nat (48 + k mod 10)) 57); [done|lia]. }
  unfold pad2. by rewrite all_chars_app, !H.
Qed.

Lemma fraction_pad3 z : 0 <= z < 1000 -> fraction_ms (pad3 z) = z.
Proof.
  intros Hz. unfold fraction_ms.
  assert (slice_to 3 (pad3 z +:+ "000") = pad3 z) as ->.
  { unfold pad3, pad2, digit. rewrite !append_assoc. done. }
  assert (forall k, 0 <= k < 10 -> k = 0 \/ k = 1 \/ k = 2 \/ k = 3 \/ k = 4 \/ k = 5 \/
            k = 6 \/ k = 7 \/ k = 8 \/ k = 9) as Hk by lia.
  unfold pad3, pad2, digit.
  assert (z = 100 * ((z / 100) mod 10) + 10 * ((z / 10) mod 10) + z mod 10) as Ez
    by (Z.to_euclidean_division_equations; lia).
  rewrite Ez at 4. clear Ez.
  pose proof (Hk ((z / 100) mod 10) ltac:(apply Z.mod_pos_bound; lia)) as H1.
  pose proof (Hk ((z / 10) mod 10) ltac:(apply Z.mod_pos_bound; lia)) as H2.
  pose proof (Hk (z mod 10) ltac:(apply Z.mod_pos_bound; lia)) as H3.
  clear Hk Hz. revert H1 H2 H3.
  generalize ((z / 100) mod 10) ((z / 10) mod 10) (z mod 10). intros a b c H1 H2 H3.
  repeat match goal with H : _ \/ _ |- _ => destruct H as [->|H] end; subst; reflexivity.
Qed.

(** The time values whose year has four digits. *)
Definition four_digit_year (t : Z) : bool :=
  (-62167219200000 <=? t) && (t <=? 253402300799999).

Lemma civil_year_bounds z y m d : -719528 <= z <= 2932896 ->
  civil_from_days z = (y, m, d) -> 0 <= y <= 9999.
Proof.
  intros Hz. unfold civil_from_days.
  set (era := (z + 719468) / 146097). set (doe := (z + 719468) mod 146097).
  assert (z + 719468 = era * 146097 + doe /\ 0 <= doe < 146097) as [He Hd].
  { subst era doe. Z.to_euclidean_division_equations. lia. }
  clearbody era doe.
  pose proof (yoe_bounds doe Hd) as [Hy Hdoy].
  assert (doe < 146037 \/ 146037 <= doe) as Hcases by lia.
  assert (-1 <= era <= 24) as Hera by lia.
  assert (era = -1 -> (doe - doe / 1460 + doe / 36524 - doe / 146096) / 365 = 399 /\
    (5 * (doe - (365 * 399 + 399 / 4 - 399 / 100)) + 2) / 153 >= 10) as H1.
  { intros ->. assert (146037 <= doe) by lia. Z.to_euclidean_division_equations. lia. }
  assert (era = 24 -> (doe - doe / 1460 + doe / 36524 - doe / 146096) / 365 = 399 ->
    (5 * (doe - (365 * 399 + 399 / 4 - 399 / 100)) + 2) / 153 < 10) as H2.
  { intros -> _. assert (doe <= 146036) by lia. Z.to_euclidean_division_equations. lia. }
  set (yoe := (doe - doe / 1460 + doe / 36524 - doe / 146096) / 365) in *.
  set (mp := (5 * (doe - (365 * yoe + yoe / 4 - yoe / 100)) + 2) / 153) in *.
  assert (yoe = 399 -> (5 * (doe - (365 * 399 + 399 / 4 - 399 / 100)) + 2) / 153 = mp) as H3.
  { subst mp. by intros ->. }
  assert (0 <= mp <= 11) as Hmp by (subst mp; clear H1 H2 H3; Z.to_euclidean_division_equations; lia).
  clearbody yoe mp. intros [= <- _ _].
  destruct (Z.ltb_spec mp 10).
  - destruct (Z.leb_spec (mp + 3) 2); lia.
  - destruct (Z.leb_spec (mp - 9) 2); lia.
Qed.

Lemma year_text_4 y : 0 <= y <= 9999 -> year_text y = pad4 y.
Proof.
  intros H. unfold year_text.
  destruct (Z.leb_spec 0 y); [|lia]. by destruct (Z.leb_spec y 9999); [|lia].
Qed.

Lemma read_year_4 y r : 0 <= y <= 9999 -> read_year (pad4 y +:+ r) = Some (y, r).
Proof.
  intros Hy. rewrite <- (read_pad4 y r Hy).
  unfold pad4, pad2, digit. rewrite !append_assoc.
  pose proof (Z.mod_pos_bound (y / 100 / 10) 10 ltac:(lia)) as Hb.
  assert (forall k, 0 <= k < 10 -> k = 0 \/ k = 1 \/ k = 2 \/ k = 3 \/ k = 4 \/ k = 5 \/
            k = 6 \/ k = 7 \/ k = 8 \/ k = 9) as Hk by lia.
  apply Hk in Hb. clear Hk.
  repeat match goal with H : _ \/ _ |- _ => destruct H as [H|H] end; rewrite Hb; reflexivity.
Qed.

Lemma read_2 z r : 0 <= z < 100 -> read_digits 2 0 (pad2 z +:+ r) = Some (z, r).
Proof. intros Hz. by rewrite read_pad2. Qed.

Lemma read_date_text z y m d r : civil_from_days z = (y, m, d) -> 0 <= y <= 9999 ->
  read_date (year_text y +:+ "-" +:+ pad2 m +:+ "-" +:+ pad2 d +:+ r) = Some (z, r).
Proof.
  intros Hc Hy. destruct (civil_bounds _ _ _ _ Hc) as [Hm Hd].
  pose proof (civil_day_valid _ _ _ _ Hc) as Hv.
  unfold read_date. rewrite year_text_4, read_year_4 by done. cbn [mbind option_bind].
  change ("-" +:+ ?s) with (String "-"%char s). rewrite read_char_cons. cbn [mbind option_bind].
  rewrite read_2 by lia. cbn [mbind option_bind].
  change ("-" +:+ ?s) with (String "-"%char s). rewrite read_char_cons. cbn [mbind option_bind].
  rewrite read_2 by lia. cbn [mbind option_bind].
  destruct (Z.leb_spec 1 m); [|lia]. destruct (Z.leb_spec m 12); [|lia].
  destruct (Z.leb_spec 1 d); [|lia]. destruct (Z.leb_spec d (days_in_month y m)); [|lia].
  simpl. by rewrite (days_of_civil _ _ _ _ Hc).
Qed.

Lemma read_time_text t r : stops is_digit r = true ->
  read_time (time_text t +:+ r) = Some (t mod ms_per_day, r).
Proof.
  intros Hr. unfold time_text. set (ms := t mod ms_per_day).
  assert (0 <= ms < 86400000) as Hms by (apply Z.mod_pos_bound; done).
  clearbody ms. rewrite !append_assoc. unfold read_time.
  rewrite read_2 by (Z.to_euclidean_division_equations; lia). cbn [mbind option_bind].
  change (":" +:+ ?s) with (String ":"%char s). rewrite read_char_cons. cbn [mbind option_bind].
  rewrite read_2 by (Z.to_euclidean_division_equations; lia). cbn [mbind option_bind].
  change (":" +:+ ?s) with (String ":"%char s). rewrite read_char_cons. cbn [mbind option_bind].
  rewrite read_2 by (Z.to_euclidean_division_equations; lia). cbn [mbind option_bind].
  change ("." +:+ ?s) with (String "."%char s). rewrite read_char_cons.
  assert (all_chars is_digit (pad3 (ms mod 1000)) = true) as Hp.
  { unfold pad3. rewrite all_chars_app, pad2_digits. pose proof (pad2_digits (ms mod 1000 / 100)) as H.
    unfold pad2 in H. rewrite all_chars_app in H. bsimp. by rewrite H0. }
  rewrite span_digits_app by done.
  assert (pad3 (ms mod 1000) <> "") as Hne by done.
  rewrite bool_decide_eq_false_2 by done.
  rewrite fraction_pad3 by (apply Z.mod_pos_bound; lia). cbn [mbind option_bind].
  assert ((ms / 3600000 <=? 23) && (ms / 60000 mod 60 <=? 59) && (ms / 1000 mod 60 <=? 59) = true) as ->.
  { rewrite !andb_true_iff, !Z.leb_le. Z.to_euclidean_division_equations. lia. }
  simpl. f_equal. f_equal. Z.to_euclidean_division_equations. lia.
Qed.

(** A four-digit-year time value is read back from its ISO text. *)
Lemma parse_toISOString t : four_digit_year t = true -> parse_iso (toISOString t) = Some t.
Proof.
  intros Ht. unfold four_digit_year in Ht. bsimp.
  apply Z.leb_le in H, H0.
  unfold toISOString, date_text, parse_iso.
  destruct (civil_from_days (t / ms_per_day)) as [[y m] d] eqn:Hc.
  assert (0 <= y <= 9999) as Hy.
  { eapply civil_year_bounds, Hc. unfold ms_per_day. Z.to_euclidean_division_equations. lia. }
  rewrite !append_assoc, (read_date_text _ _ _ _ _ Hc Hy). cbn [mbind option_bind].
  change ("T" +:+ ?s) with (String "T"%char s). cbn iota.
  rewrite read_char_cons. cbn [mbind option_bind].
  rewrite read_time_text by done. cbn [mbind option_bind read_offset].
  change (read_offset "Z") with (Some (0, "")). cbn [mbind option_bind].
  unfold time_clip. unfold ms_per_day in *.
  assert (t / 86400000 * 86400000 + t mod 86400000 - 0 * 60000 = t) as ->
    by (Z.to_euclidean_division_equations; lia).
  destruct (Z.leb_spec (Z.abs t) 8640000000000000); [done|lia].
Qed.
