(* ===== verification/React.v ===== *)
(** * React elements

    A component is a function from its props and state to an element tree: what
    React.createElement builds.  The tag of an element is the name of an HTML
    element, or the dotted name of a component of a library (a Radix primitive,
    a lucide icon), which is left as it is.  The components of the repository
    are expanded in place.

    An event handler is the action it dispatches: every component has a type of
    actions, and a function that says what each action does to its state.

    [Styling] gathers the library functions that compute class names. *)

From S2P Require Import Prelude JsNumber JsString JsValue.

(** ** Class names *)

(** An argument of [cn]: a string, a falsy value, or an object from class names
    to booleans. *)
Inductive cls : Type :=
| CStr (s : string)
| CNone
| CObj (l : list (string * bool)).

(** [b && s]. *)
Definition cwhen (b : bool) (s : string) : cls := if b then CStr s else CNone.
(** An optional className prop. *)
Definition copt (c : option string) : cls := match c with Some s => CStr s | None => CNone end.

(** The configuration of class-variance-authority: the variants with their
    values, and the default values. *)
Record cva_config : Type := CvaConfig {
  variants : list (string * list (string * string));
  defaultVariants : list (string * string)
}.

Class Styling : Type := {
  clsx : list cls -> string;
  twMerge : string -> string;
  (** [cva(base, config)(props)]: the props choose a value for some variants and
      may add a class name. *)
  cva : string -> cva_config -> list (string * option string) -> option string -> string
}.

(** [cn(...inputs)] of lib/utils.ts. *)
Definition cn `{Styling} (inputs : list cls) : string := twMerge (clsx inputs).

(** Class names for concrete trees: the strings given, one after the other. *)
Definition sample_styling : Styling :=
  {| clsx l := join " " (omap (fun c => match c with CStr s => Some s | _ => None end) l);
     twMerge s := s;
     cva base _ _ extra := match extra with Some c => base +:+ " " +:+ c | None => base end |}.

(** ** Elements *)

Inductive attr (A : Type) : Type :=
| AStr (s : string)
| ABool (b : bool)
| ANum (n : num)
| AStyle (l : list (string * string))
| AUndef
(** A handler that ignores its argument. *)
| AAct (a : A)
(** A handler of the text of a control. *)
| AText (f : string -> A)
(** A handler of the state of a checkbox or a switch. *)
| AFlag (f : bool -> A).
Arguments AStr {A} s.
Arguments ABool {A} b.
Arguments ANum {A} n.
Arguments AStyle {A} l.
Arguments AUndef {A}.
Arguments AAct {A} a.
Arguments AText {A} f.
Arguments AFlag {A} f.

Inductive node (A : Type) : Type :=
| Text (s : string)
| NumText (n : num)
| Nothing
| Frag (children : list (node A))
| El (tag : string) (attrs : list (string * attr A)) (children : list (node A)).
Arguments Text {A} s.
Arguments NumText {A} n.
Arguments Nothing {A}.
Arguments Frag {A} children.
Arguments El {A} tag attrs children.

(** [c && e]. *)
Definition when {A} (c : bool) (e : node A) : node A := if c then e else Nothing.

(** [!!e] of a React child. *)
Definition node_truthy {A} (e : node A) : bool :=
  match e with
  | Nothing => false
  | Text s => negb (bool_decide (s = ""))
  | NumText n => JsNumber.truthy n
  | _ => true
  end.

(** [{ ...base, ...props }]: the later attribute of a name wins. *)
Definition with_props {A} (base props : list (string * attr A)) : list (string * attr A) :=
  assign base props.

Definition attr_of {A} (name : string) (attrs : list (string * attr A)) : option (attr A) :=
  lookup_prop name attrs.

(** An attribute list without the names a component destructures. *)
Definition without {A} (names : list string) (attrs : list (string * attr A)) :
    list (string * attr A) :=
  List.filter (fun kv => negb (bool_decide (kv.1 ∈ names))) attrs.

(** The className prop a component destructures. *)
Definition className_of {A} (attrs : list (string * attr A)) : cls :=
  match attr_of "className" attrs with Some (AStr s) => CStr s | _ => CNone end.

(** The actions of a component inside a parent whose actions include them. *)
Section MapActions.
Context {A B : Type} (f : A -> B).

Definition map_attr (a : attr A) : attr B :=
  match a with
  | AStr s => AStr s
  | ABool b => ABool b
  | ANum n => ANum n
  | AStyle l => AStyle l
  | AUndef => AUndef
  | AAct a => AAct (f a)
  | AText g => AText (fun s => f (g s))
  | AFlag g => AFlag (fun b => f (g b))
  end.

Fixpoint map_node (t : node A) : node B :=
  match t with
  | Text s => Text s
  | NumText n => NumText n
  | Nothing => Nothing
  | Frag ch => Frag (List.map map_node ch)
  | El tag attrs ch =>
      El tag (List.map (fun kv => (kv.1, map_attr kv.2)) attrs) (List.map map_node ch)
  end.
End MapActions.

(** ** Queries *)

Section Queries.
Context {A : Type}.

(** The elements whose tag is [tag], in document order. *)
Fixpoint elements (tag : string) (t : node A) : list (list (string * attr A) * list (node A)) :=
  match t with
  | Text _ | NumText _ | Nothing => []
  | Frag ch => List.flat_map (elements tag) ch
  | El tg attrs ch =>
      (if bool_decide (tg = tag) then [(attrs, ch)] else []) ++
      List.flat_map (elements tag) ch
  end.

(** The text of a tree. *)
Fixpoint text (t : node A) : string :=
  match t with
  | Text s => s
  | NumText n => toString n
  | Nothing => ""
  | Frag ch => String.concat "" (List.map text ch)
  | El _ _ ch => String.concat "" (List.map text ch)
  end.

Definition texts (ch : list (node A)) : string := String.concat "" (List.map text ch).

(** The actions that clicking somewhere in the tree can dispatch. *)
Definition click (attrs : list (string * attr A)) : option A :=
  match attr_of "onClick" attrs with Some (AAct a) => Some a | _ => None end.

Definition disabled (attrs : list (string * attr A)) : bool :=
  match attr_of "disabled" attrs with Some (ABool b) => b | _ => false end.

Lemma elements_map (tag : string) {B} (f : B -> node A) (l : list B) :
  List.flat_map (elements tag) (List.map f l) = List.flat_map (fun x => elements tag (f x)) l.
Proof. induction l as [|x l IH]; [done|]. simpl. by rewrite IH. Qed.
End Queries.

Lemma elements_single {A B} (tag : string) (f : B -> node A) (g : B -> list (string * attr A) * list (node A)) l :
  (forall x, x ∈ l -> elements tag (f x) = [g x]) ->
  List.flat_map (fun x => elements tag (f x)) l = List.map g l.
Proof.
  induction l as [|x l IH]; intros H; [done|]. simpl.
  rewrite H by constructor. rewrite IH; [done|]. intros y Hy. apply H. by constructor.
Qed.
