(* ===== verification/Types.v ===== *)
(** * The API types (web/src/api/types.ts)

    The unions of string literals are inductive types with their text; the
    interfaces are records, one module each.  [of_value] reads a JavaScript
    value at an interface: it is defined exactly when the value has the
    interface's properties at their types, which is what a TypeScript cast to
    the interface takes for granted. *)

From S2P Require Import Prelude JsNumber JsString JsValue.

(** ** Unions of string literals *)

Class StringEnum (T : Type) `{EqDecision T} : Type := {
  enum_text : T -> string;
  enum_all : list T;
  enum_complete : forall x, x ∈ enum_all;
  enum_text_inj : forall x y, enum_text x = enum_text y -> x = y
}.

Definition enum_of {T} `{StringEnum T} (s : string) : option T :=
  find (fun x => bool_decide (enum_text x = s)) enum_all.

Lemma enum_of_text {T} `{StringEnum T} (x : T) : enum_of (enum_text x) = Some x.
Proof.
  unfold enum_of, find.
  destruct (List.find _ enum_all) as [y|] eqn:E.
  - apply List.find_some in E as [_ E]. bsimp. f_equal. by apply enum_text_inj.
  - eapply List.find_none in E; [|apply list_elem_of_In, (enum_complete x)].
    bsimp. done.
Qed.

Lemma enum_of_Some {T} `{StringEnum T} s (x : T) : enum_of s = Some x <-> s = enum_text x.
Proof.
  split; [|intros ->; apply enum_of_text].
  unfold enum_of, find. intros E. apply List.find_some in E as [_ E]. by bsimp.
Qed.

Inductive Channel : Type := Email | Sms | Push | Webhook.
Inductive Priority : Type := Low | Normal | High.
Inductive DeliveryStatus : Type :=
| Pending | Queued | Processing | Retrying | Succeeded | Failed | Dlq | Cancelled | Rejected.
Inductive OutboxStatus : Type := OutboxPending | OutboxPublished | OutboxFailed.
Inductive HealthStatus : Type := HealthOk | HealthDown.

#[export] Instance Channel_eq_dec : EqDecision Channel.
Proof. solve_decision. Defined.
#[export] Instance Priority_eq_dec : EqDecision Priority.
Proof. solve_decision. Defined.
#[export] Instance DeliveryStatus_eq_dec : EqDecision DeliveryStatus.
Proof. solve_decision. Defined.
#[export] Instance OutboxStatus_eq_dec : EqDecision OutboxStatus.
Proof. solve_decision. Defined.
#[export] Instance HealthStatus_eq_dec : EqDecision HealthStatus.
Proof. solve_decision. Defined.

Definition Channel_text (c : Channel) : string :=
  match c with Email => "email" | Sms => "sms" | Push => "push" | Webhook => "webhook" end.
Definition Priority_text (p : Priority) : string :=
  match p with Low => "low" | Normal => "normal" | High => "high" end.
Definition DeliveryStatus_text (s : DeliveryStatus) : string :=
  match s with
  | Pending => "pending" | Queued => "queued" | Processing => "processing"
  | Retrying => "retrying" | Succeeded => "succeeded" | Failed => "failed"
  | Dlq => "dlq" | Cancelled => "cancelled" | Rejected => "rejected"
  end.
Definition OutboxStatus_text (s : OutboxStatus) : string :=
  match s with
  | OutboxPending => "pending" | OutboxPublished => "published" | OutboxFailed => "failed"
  end.
Definition HealthStatus_text (s : HealthStatus) : string :=
  match s with HealthOk => "ok" | HealthDown => "down" end.

Ltac solve_enum :=
  first [ intros []; set_solver | intros [] []; simpl; congruence ].

#[export] Program Instance Channel_enum : StringEnum Channel :=
  {| enum_text := Channel_text; enum_all := [Email; Sms; Push; Webhook] |}.
Solve Obligations with solve_enum.
#[export] Program Instance Priority_enum : StringEnum Priority :=
  {| enum_text := Priority_text; enum_all := [Low; Normal; High] |}.
Solve Obligations with solve_enum.
#[export] Program Instance DeliveryStatus_enum : StringEnum DeliveryStatus :=
  {| enum_text := DeliveryStatus_text;
     enum_all := [Pending; Queued; Processing; Retrying; Succeeded; Failed; Dlq; Cancelled; Rejected] |}.
Solve Obligations with solve_enum.
#[export] Program Instance OutboxStatus_enum : StringEnum OutboxStatus :=
  {| enum_text := OutboxStatus_text; enum_all := [OutboxPending; OutboxPublished; OutboxFailed] |}.
Solve Obligations with solve_enum.
#[export] Program Instance HealthStatus_enum : StringEnum HealthStatus :=
  {| enum_text := HealthStatus_text; enum_all := [HealthOk; HealthDown] |}.
Solve Obligations with solve_enum.

(** ** Reading properties at their types *)

(** [Record<string, unknown>]. *)
Abbreviation record := (list (string * value)).

Definition field (k : string) (v : value) : value :=
  match v with
  | VObj props => match lookup_prop k props with Some x => x | None => VUndef end
  | _ => VUndef
  end.

Definition as_string (v : value) : option string :=
  match v with VStr s => Some s | _ => None end.
Definition as_number (v : value) : option num :=
  match v with VNum n => Some n | _ => None end.
Definition as_boolean (v : value) : option bool :=
  match v with VBool b => Some b | _ => None end.
Definition as_record (v : value) : option record :=
  match v with VObj props => Some props | _ => None end.
Definition as_enum {T} `{StringEnum T} (v : value) : option T := s ← as_string v; enum_of s.

(** [T | undefined] and [T | null | undefined]. *)
Definition as_optional {T} (f : value -> option T) (v : value) : option (option T) :=
  match v with VUndef => Some None | _ => Some <$> f v end.
Definition as_nullable {T} (f : value -> option T) (v : value) : option (option T) :=
  match v with VUndef | VNull => Some None | _ => Some <$> f v end.
(** [T | null]. *)
Definition as_null {T} (f : value -> option T) (v : value) : option (option T) :=
  match v with VNull => Some None | _ => Some <$> f v end.

(** [T[]]. *)
Definition as_array {T} (f : value -> option T) (v : value) : option (list T) :=
  match v with VArr l => mapM f l | _ => None end.

(** ** Interfaces *)

Module DeliveryRow.
Record t : Type := Make {
  id : string;
  idempotency_key : string;
  tenant_id : option string;
  channel : Channel;
  priority : Priority;
  status : DeliveryStatus;
  retry_count : num;
  last_error : string;
  recipient : option record;
  template : option record;
  payload : option record;
  correlation_id : option string;
  causation_id : option string;
  created_at : string;
  updated_at : string;
  scheduled_at : option string
}.

Definition of_value (v : value) : option t :=
  id ← as_string (field "id" v);
  idempotency_key ← as_string (field "idempotency_key" v);
  tenant_id ← as_optional as_string (field "tenant_id" v);
  channel ← as_enum (field "channel" v);
  priority ← as_enum (field "priority" v);
  status ← as_enum (field "status" v);
  retry_count ← as_number (field "retry_count" v);
  last_error ← as_string (field "last_error" v);
  recipient ← as_nullable as_record (field "recipient" v);
  template ← as_nullable as_record (field "template" v);
  payload ← as_nullable as_record (field "payload" v);
  correlation_id ← as_optional as_string (field "correlation_id" v);
  causation_id ← as_optional as_string (field "causation_id" v);
  created_at ← as_string (field "created_at" v);
  updated_at ← as_string (field "updated_at" v);
  scheduled_at ← as_nullable as_string (field "scheduled_at" v);
  Some (Make id idempotency_key tenant_id channel priority status retry_count last_error
             recipient template payload correlation_id causation_id created_at updated_at
             scheduled_at).
End DeliveryRow.

Module ActivityEvent.
Record t : Type := Make {
  id : num;
  delivery_id : string;
  event_type : string;
  payload : record;
  created_at : string
}.

Definition of_value (v : value) : option t :=
  id ← as_number (field "id" v);
  delivery_id ← as_string (field "delivery_id" v);
  event_type ← as_string (field "event_type" v);
  payload ← as_record (field "payload" v);
  created_at ← as_string (field "created_at" v);
  Some (Make id delivery_id event_type payload created_at).
End ActivityEvent.

(** [Partial<Record<DeliveryStatus, number>>]: the count of a status, where the
    object has one. *)
Definition as_status_counts (v : value) : option (DeliveryStatus -> option num) :=
  match v with
  | VObj props =>
      l ← mapM (fun s => as_optional as_number (field (DeliveryStatus_text s) v)) enum_all;
      Some (fun s => match List.find (fun p => bool_decide (p.1 = s)) (zip enum_all l) with
                     | Some (_, n) => n | None => None end)
  | _ => None
  end.

Module DashboardSummary.
Record t : Type := Make {
  status_counts : DeliveryStatus -> option num;
  outbox_pending : num;
  scheduled_due : num;
  recent_activity : list ActivityEvent.t;
  deliveries : list DeliveryRow.t
}.

Definition of_value (v : value) : option t :=
  status_counts ← as_status_counts (field "status_counts" v);
  outbox_pending ← as_number (field "outbox_pending" v);
  scheduled_due ← as_number (field "scheduled_due" v);
  recent_activity ← as_array ActivityEvent.of_value (field "recent_activity" v);
  deliveries ← as_array DeliveryRow.of_value (field "deliveries" v);
  Some (Make status_counts outbox_pending scheduled_due recent_activity deliveries).
End DashboardSummary.

Module AttemptRow.
Record t : Type := Make {
  id : string;
  attempt_number : num;
  success : bool;
  error_message : string;
  started_at : string;
  finished_at : string;
  provider_response : record
}.

Definition of_value (v : value) : option t :=
  id ← as_string (field "id" v);
  attempt_number ← as_number (field "attempt_number" v);
  success ← as_boolean (field "success" v);
  error_message ← as_string (field "error_message" v);
  started_at ← as_string (field "started_at" v);
  finished_at ← as_string (field "finished_at" v);
  provider_response ← as_record (field "provider_response" v);
  Some (Make id attempt_number success error_message started_at finished_at provider_response).
End AttemptRow.

Module AuditRow.
Record t : Type := Make {
  id : num;
  delivery_id : string;
  event_type : string;
  payload : option record;
  created_at : string
}.

Definition of_value (v : value) : option t :=
  id ← as_number (field "id" v);
  delivery_id ← as_string (field "delivery_id" v);
  event_type ← as_string (field "event_type" v);
  payload ← as_optional as_record (field "payload" v);
  created_at ← as_string (field "created_at" v);
  Some (Make id delivery_id event_type payload created_at).
End AuditRow.

Module OutboxRow.
Record t : Type := Make {
  id : num;
  status : OutboxStatus;
  subject : string;
  attempts : num;
  created_at : string;
  published_at : option string
}.

Definition of_value (v : value) : option t :=
  id ← as_number (field "id" v);
  status ← as_enum (field "status" v);
  subject ← as_string (field "subject" v);
  attempts ← as_number (field "attempts" v);
  created_at ← as_string (field "created_at" v);
  published_at ← as_null as_string (field "published_at" v);
  Some (Make id status subject attempts created_at published_at).
End OutboxRow.

Module DeliveryDetailResp.
Record t : Type := Make {
  delivery : DeliveryRow.t;
  attempts : list AttemptRow.t;
  audit : list AuditRow.t;
  outbox : list OutboxRow.t
}.

Definition of_value (v : value) : option t :=
  delivery ← DeliveryRow.of_value (field "delivery" v);
  attempts ← as_array AttemptRow.of_value (field "attempts" v);
  audit ← as_array AuditRow.of_value (field "audit" v);
  outbox ← as_array OutboxRow.of_value (field "outbox" v);
  Some (Make delivery attempts audit outbox).
End DeliveryDetailResp.

Module HealthResp.
Record t : Type := Make { status : HealthStatus; time : string }.

Definition of_value (v : value) : option t :=
  status ← as_enum (field "status" v);
  time ← as_string (field "time" v);
  Some (Make status time).
End HealthResp.

Module SendNotificationReq.
Record t : Type := Make {
  schema_version : string;
  idempotency_key : string;
  channel : Channel;
  priority : Priority;
  recipient_address : string;      (* recipient: { address } *)
  template_id : string;            (* template: { id, data } *)
  template_data : record
}.

#[export] Instance t_inhabited : Inhabited t :=
  populate (Make "" "" Email Low "" "" []).

(** The request as the object that is sent. *)
Definition to_value (r : t) : value :=
  VObj [("schema_version", VStr (schema_version r));
        ("idempotency_key", VStr (idempotency_key r));
        ("channel", VStr (enum_text (channel r)));
        ("priority", VStr (enum_text (priority r)));
        ("recipient", VObj [("address", VStr (recipient_address r))]);
        ("template", VObj [("id", VStr (template_id r)); ("data", VObj (template_data r))])].

Definition of_value (v : value) : option t :=
  schema_version ← as_string (field "schema_version" v);
  idempotency_key ← as_string (field "idempotency_key" v);
  channel ← as_enum (field "channel" v);
  priority ← as_enum (field "priority" v);
  address ← as_string (field "address" (field "recipient" v));
  id ← as_string (field "id" (field "template" v));
  data ← as_record (field "data" (field "template" v));
  Some (Make schema_version idempotency_key channel priority address id data).

Lemma of_to_value r : of_value (to_value r) = Some r.
Proof.
  unfold of_value, to_value, as_enum. destruct r as [v k c p a i d]. simpl.
  change Channel_text with (@enum_text Channel _ _).
  change Priority_text with (@enum_text Priority _ _).
  rewrite !enum_of_text. reflexivity.
Qed.
End SendNotificationReq.

Module SendNotificationResp.
Record t : Type := Make {
  delivery_id : string;
  status : DeliveryStatus;
  duplicate : option bool
}.

Definition of_value (v : value) : option t :=
  delivery_id ← as_string (field "delivery_id" v);
  status ← as_enum (field "status" v);
  duplicate ← as_optional as_boolean (field "duplicate" v);
  Some (Make delivery_id status duplicate).
End SendNotificationResp.
