(* ===== verification/Effects.v ===== *)
(** * Effects of the host: randomness and clocks

    [M] is the state monad over a tape that counts how many draws and clock
    readings were consumed.  The values themselves come from [Host], so a
    computation is a function of the host and the tape. *)

From S2P Require Import Prelude JsNumber JsString JsDate.

Record tape : Type := Tape { draws : nat; readings : nat; ticks : nat }.

Definition M (A : Type) : Type := tape -> A * tape.
Definition ret {A} (a : A) : M A := fun t => (a, t).
Definition bind {A B} (m : M A) (k : A -> M B) : M B := fun t => let '(a, t') := m t in k a t'.

Notation "x <-- m ;; k" := (bind m (fun x => k))
  (at level 60, m at next level, right associativity) : console_scope.

Section Host.
Context `{Host}.

(** [Math.random()], in units of 2^-53. *)
Definition Math_random : M Z :=
  fun t => ((random_bits (draws t) mod 2 ^ 53)%Z, Tape (S (draws t)) (readings t) (ticks t)).

(** [Date.now()]. *)
Definition Date_now : M Z :=
  fun t => (clock (readings t), Tape (draws t) (S (readings t)) (ticks t)).

(** [performance.now()]. *)
Definition performance_now : M num :=
  fun t => (perf_clock (ticks t), Tape (draws t) (readings t) (S (ticks t))).

(** [Math.floor(Math.random() * n)]. *)
Definition random_below (n : Z) : M Z := r <-- Math_random;; ret (r * n / 2 ^ 53)%Z.

Lemma random_below_bounds n t : (0 < n)%Z -> (0 <= fst (random_below n t) < n)%Z.
Proof.
  intros Hn. unfold random_below, bind, Math_random, ret; simpl.
  pose proof (Z.mod_pos_bound (random_bits (draws t)) (2 ^ 53) ltac:(lia)) as Hb.
  set (r := (random_bits (draws t) mod 2 ^ 53)%Z) in *. split.
  - apply Z.div_pos; nia.
  - apply Z.div_lt_upper_bound; nia.
Qed.
End Host.

Arguments Math_random : simpl never.
Arguments Date_now : simpl never.
Arguments performance_now : simpl never.

(** ** Base-36 text *)

Definition base36_digit (d : Z) : Ascii.ascii :=
  Ascii.ascii_of_nat (Z.to_nat (if (d <? 10)%Z then 48 + d else 87 + d)).

(** [n.toString(36)] of a non-negative integer. *)
Fixpoint base36_digits (fuel : nat) (n : Z) (acc : string) : string :=
  match fuel with
  | O => acc
  | S fuel' =>
      let acc := String (base36_digit (n mod 36)) acc in
      if (n <? 36)%Z then acc else base36_digits fuel' (n / 36) acc
  end.
Definition toString36 (n : Z) : string := base36_digits (S (Z.to_nat (Z.log2 n))) n "".

(** [x.toString(36)] of the draw [r] / 2^53. *)
Definition random_toString36 `{Host} (r : Z) : string :=
  if (r =? 0)%Z then "0" else "0." +:+ fraction36 r.

(** Lower-case letters and digits. *)
Definition is_base36 (c : Ascii.ascii) : bool :=
  let n := Ascii.nat_of_ascii c in
  ((48 <=? n)%nat && (n <=? 57)%nat) || ((97 <=? n)%nat && (n <=? 122)%nat).

Lemma base36_digit_ok d : (0 <= d < 36)%Z -> is_base36 (base36_digit d) = true.
Proof.
  intros Hd. unfold is_base36, base36_digit.
  destruct (Z.ltb_spec d 10); rewrite Ascii.nat_ascii_embedding by lia;
    apply orb_true_iff; [left|right]; apply andb_true_iff; split; apply Nat.leb_le; lia.
Qed.

Lemma base36_digits_chars fuel n acc : (0 <= n)%Z ->
  all_chars is_base36 acc = true -> all_chars is_base36 (base36_digits fuel n acc) = true.
Proof.
  revert n acc. induction fuel as [|fuel IH]; intros n acc Hn Ha; [done|].
  cbn [base36_digits].
  assert (all_chars is_base36 (String (base36_digit (n mod 36)) acc) = true) as Hs.
  { simpl. rewrite Ha, base36_digit_ok; [done|]. apply Z.mod_pos_bound. lia. }
  destruct (Z.ltb_spec n 36); [done|]. apply IH; [apply Z.div_pos; lia|done].
Qed.

Lemma substring_chars f n m s : all_chars f s = true -> all_chars f (String.substring n m s) = true.
Proof.
  revert n m. induction s as [|c s IH]; intros [|n] [|m] Hs; simpl in *; bsimp; try done; auto.
  apply andb_true_iff; auto.
Qed.

(** [Math.random().toString(36).slice(2, 8)]: at most six base-36 digits. *)
Lemma random_slice `{Host} r : (forall x, all_chars is_base36 (fraction36 x) = true) ->
  let s := slice 2 8 (random_toString36 r) in
  (String.length s <= 6)%nat /\ all_chars is_base36 s = true.
Proof.
  intros Hf s. split; [apply (substring_length 2 6)|]. subst s. unfold slice, random_toString36.
  destruct (Z.eqb_spec r 0); [done|].
  change (String.substring 2 (8 - 2) ("0." +:+ fraction36 r)) with (String.substring 0 6 (fraction36 r)).
  apply substring_chars, Hf.
Qed.

(** [n.toString(36).slice(-4)]: at most four base-36 digits. *)
Lemma clock_slice n : (0 <= n)%Z ->
  let s := slice_last 4 (toString36 n) in
  (String.length s <= 4)%nat /\ all_chars is_base36 s = true.
Proof.
  intros Hn s. split; [apply substring_length|].
  apply substring_chars, base36_digits_chars; done.
Qed.

Example base36_clock : toString36 1709251198123 = "lt7w157v". Proof. vm_compute. reflexivity. Qed.
