(* ===== verification/LoadConfig.v ===== *)
(** * Load-test configuration and requests (web/src/lib/loadTest.ts)

    The configuration record, the ten scenarios, and how a scenario turns an
    index into a request.  [undefined] array elements are [None]: indexing an
    empty array would produce one, and the theorems show that it never does. *)

From S2P Require Import Prelude JsNumber JsString JsDate Types Effects.

Definition ALL_CHANNELS : list Channel := [Email; Sms; Push; Webhook].
Definition ALL_PRIORITIES : list Priority := [Low; Normal; High].

Inductive Tone : Type := Tone_success | Tone_warning | Tone_danger | Tone_neutral.
#[export] Instance Tone_eq_dec : EqDecision Tone.
Proof. solve_decision. Defined.

(** ** Presets, modes, configuration *)

Record preset : Type := Preset { preset_label : string; preset_address : string; preset_tone : Tone }.

Definition RECIPIENT_PRESETS : list preset :=
  [ Preset "Happy" "user@example.com" Tone_success;
    Preset "Transient" "fail-transient@example.com" Tone_warning;
    Preset "Permanent" "fail-permanent@example.com" Tone_danger;
    Preset "Circuit" "fail-circuit@example.com" Tone_warning ].

Inductive ChannelMode : Type := ChannelFixed | ChannelRandom | RoundRobin.
Inductive PriorityMode : Type := PriorityFixed | PriorityRandom.
#[export] Instance ChannelMode_eq_dec : EqDecision ChannelMode.
Proof. solve_decision. Defined.
#[export] Instance PriorityMode_eq_dec : EqDecision PriorityMode.
Proof. solve_decision. Defined.

#[export] Program Instance ChannelMode_enum : StringEnum ChannelMode :=
  {| enum_text m := match m with
                    | ChannelFixed => "fixed" | ChannelRandom => "random"
                    | RoundRobin => "round-robin" end;
     enum_all := [ChannelFixed; ChannelRandom; RoundRobin] |}.
Solve Obligations with solve_enum.
#[export] Program Instance PriorityMode_enum : StringEnum PriorityMode :=
  {| enum_text m := match m with PriorityFixed => "fixed" | PriorityRandom => "random" end;
     enum_all := [PriorityFixed; PriorityRandom] |}.
Solve Obligations with solve_enum.

Record LoadTestConfig : Type := LoadConfig {
  address : string;
  burstCount : num;
  duplicateCount : num;
  channelMode : ChannelMode;
  fixedChannel : Channel;
  selectedChannels : list Channel;
  priorityMode : PriorityMode;
  fixedPriority : Priority;
  concurrency : num;
  staggerMs : num
}.

(** [{ ...config, channelMode }] and [{ ...config, priorityMode }]. *)
Definition with_channelMode (m : ChannelMode) (c : LoadTestConfig) : LoadTestConfig :=
  LoadConfig (address c) (burstCount c) (duplicateCount c) m (fixedChannel c)
    (selectedChannels c) (priorityMode c) (fixedPriority c) (concurrency c) (staggerMs c).
Definition with_priorityMode (m : PriorityMode) (c : LoadTestConfig) : LoadTestConfig :=
  LoadConfig (address c) (burstCount c) (duplicateCount c) (channelMode c) (fixedChannel c)
    (selectedChannels c) m (fixedPriority c) (concurrency c) (staggerMs c).

Definition defaultLoadConfig : LoadTestConfig :=
  LoadConfig "user@example.com" (int 20) (int 25) ChannelFixed Email ALL_CHANNELS
    PriorityFixed Normal (int 10) (int 50).

(** ** Scenarios *)

Inductive LoadScenarioId : Type :=
| Burst | DuplicateSeq | DuplicatePar | RandomChannel | RandomPriority
| MixedChaos | RetryStorm | FailureMix | Staggered | AllChannels.
#[export] Instance LoadScenarioId_eq_dec : EqDecision LoadScenarioId.
Proof. solve_decision. Defined.

Definition LoadScenarioId_text (s : LoadScenarioId) : string :=
  match s with
  | Burst => "burst"
  | DuplicateSeq => "duplicate-seq"
  | DuplicatePar => "duplicate-par"
  | RandomChannel => "random-channel"
  | RandomPriority => "random-priority"
  | MixedChaos => "mixed-chaos"
  | RetryStorm => "retry-storm"
  | FailureMix => "failure-mix"
  | Staggered => "staggered"
  | AllChannels => "all-channels"
  end.

#[export] Program Instance LoadScenarioId_enum : StringEnum LoadScenarioId :=
  {| enum_text := LoadScenarioId_text;
     enum_all := [Burst; DuplicateSeq; DuplicatePar; RandomChannel; RandomPriority;
                  MixedChaos; RetryStorm; FailureMix; Staggered; AllChannels] |}.
Solve Obligations with solve_enum.

Record scenario : Type := Scenario {
  scenario_id : LoadScenarioId; scenario_label : string; scenario_description : string
}.

Definition LOAD_SCENARIOS : list scenario :=
  [ Scenario Burst "Parallel burst" "Unique keys, max concurrency — baseline ingest spike";
    Scenario DuplicateSeq "Duplicate storm (sequential)" "Same idempotency key, one after another";
    Scenario DuplicatePar "Duplicate storm (parallel)"
      "Same idempotency key, fired concurrently — idempotency race";
    Scenario RandomChannel "Random channel burst"
      "Each request picks a random channel from selection";
    Scenario RandomPriority "Random priority burst"
      "Each request picks low / normal / high at random";
    Scenario MixedChaos "Mixed chaos" "Random channel + priority per request";
    Scenario RetryStorm "Retry storm" "All fail-transient recipients — worker retry pressure";
    Scenario FailureMix "Failure mix" "Random happy / transient / permanent recipients";
    Scenario Staggered "Staggered burst" "Sequential submits with configurable delay";
    Scenario AllChannels "All-channels sweep" "Round-robin across selected channels" ].

Definition is_duplicate (s : LoadScenarioId) : bool := startsWith "duplicate" (enum_text s).

Definition scenarioCount (s : LoadScenarioId) (config : LoadTestConfig) : num :=
  if bool_decide (s = DuplicateSeq) || bool_decide (s = DuplicatePar)
  then duplicateCount config else burstCount config.

(** ** Choosing channels, priorities and keys *)

Section Builders.
Context `{Host}.

Definition genLoadKey (prefix : string) : M string :=
  r <-- Math_random;;
  n <-- Date_now;;
  ret (prefix +:+ "-" +:+ slice 2 8 (random_toString36 r) +:+ "-" +:+
       slice_last 4 (toString36 n)).

Definition pickRandom {T} (items : list T) : M (option T) :=
  i <-- random_below (Z.of_nat (length items));;
  ret (items !! Z.to_nat i).

Definition pool_of (config : LoadTestConfig) : list Channel :=
  match channelMode config with
  | ChannelFixed => [fixedChannel config]
  | _ => if (0 <? length (selectedChannels config))%nat
         then selectedChannels config else ALL_CHANNELS
  end.

Definition resolveChannel (config : LoadTestConfig) (index : nat) : M (option Channel) :=
  let pool := pool_of config in
  match channelMode config with
  | RoundRobin => ret (pool !! (index mod length pool)%nat)
  | ChannelRandom => pickRandom pool
  | ChannelFixed => ret (Some (fixedChannel config))
  end.

Definition resolvePriority (config : LoadTestConfig) : M (option Priority) :=
  match priorityMode config with
  | PriorityRandom => pickRandom ALL_PRIORITIES
  | PriorityFixed => ret (Some (fixedPriority config))
  end.

(** [Partial<SendNotificationReq>] with the properties the scenarios override;
    a present property may be undefined. *)
Record overrides : Type := Overrides {
  o_key : option string;
  o_channel : option (option Channel);
  o_priority : option (option Priority);
  o_address : option (option string)
}.
Definition no_overrides : overrides := Overrides None None None None.

Definition buildRequest (config : LoadTestConfig) (index : nat) (o : overrides) :
    M (option SendNotificationReq.t) :=
  key <-- genLoadKey "load";;
  channel <-- resolveChannel config index;;
  priority <-- resolvePriority config;;
  ret (channel ← default channel (o_channel o);
       priority ← default priority (o_priority o);
       addr ← default (Some (address config)) (o_address o);
       Some (SendNotificationReq.Make "1.0" (default key (o_key o)) channel priority addr
               "welcome" [])).

Definition FAILURE_MIX_ADDRESSES : list string :=
  ["user@example.com"; "fail-transient@example.com"; "fail-permanent@example.com"].

Definition buildScenarioRequest (s : LoadScenarioId) (config : LoadTestConfig) (index : nat)
    (sharedKey : option string) : M (option SendNotificationReq.t) :=
  match s with
  | RetryStorm =>
      channel <-- match channelMode config with
                  | ChannelFixed => ret (Some (fixedChannel config))
                  | _ => resolveChannel config index
                  end;;
      priority <-- match priorityMode config with
                   | PriorityFixed => ret (Some (fixedPriority config))
                   | _ => resolvePriority config
                   end;;
      buildRequest config index
        (Overrides None (Some channel) (Some priority) (Some (Some "fail-transient@example.com")))
  | FailureMix =>
      a <-- pickRandom FAILURE_MIX_ADDRESSES;;
      buildRequest config index (Overrides None None None (Some a))
  | RandomChannel =>
      buildRequest (with_priorityMode (priorityMode config)
                      (with_channelMode ChannelRandom config)) index no_overrides
  | RandomPriority =>
      buildRequest (with_priorityMode PriorityRandom
                      (with_channelMode (channelMode config) config)) index no_overrides
  | MixedChaos =>
      buildRequest (with_priorityMode PriorityRandom (with_channelMode ChannelRandom config))
        index no_overrides
  | AllChannels => buildRequest (with_channelMode RoundRobin config) index no_overrides
  | DuplicateSeq | DuplicatePar =>
      key <-- match sharedKey with Some k => ret k | None => genLoadKey "dup" end;;
      buildRequest config index (Overrides (Some key) None None None)
  | Burst | Staggered => buildRequest config index no_overrides
  end.
End Builders.

(** ** Choices stay inside their pools *)

Section Facts.
Context `{Host}.
Implicit Types (t : tape) (config : LoadTestConfig).

Lemma pool_nonempty config : pool_of config <> [].
Proof.
  unfold pool_of. destruct (channelMode config); [done|..];
    destruct (selectedChannels config); done.
Qed.

Lemma pickRandom_elem {T} (items : list T) t : items <> [] ->
  exists x, fst (pickRandom items t) = Some x /\ x ∈ items.
Proof.
  intros Hne. unfold pickRandom, bind.
  assert (0 < Z.of_nat (length items))%Z as Hl by (destruct items; simpl; [done|lia]).
  pose proof (random_below_bounds _ t Hl) as Hb.
  destruct (random_below _ t) as [i t'] eqn:E. simpl in *.
  destruct (lookup_lt_is_Some_2 items (Z.to_nat i)) as [x Hx]; [lia|].
  exists x. split; [done|]. by eapply list_elem_of_lookup_2.
Qed.

Lemma resolveChannel_elem config index t :
  exists c, fst (resolveChannel config index t) = Some c /\ c ∈ pool_of config.
Proof.
  unfold resolveChannel. destruct (channelMode config) eqn:E.
  - exists (fixedChannel config). split; [done|].
    unfold pool_of. rewrite E. set_solver.
  - apply pickRandom_elem, pool_nonempty.
  - pose proof (pool_nonempty config) as Hne. simpl.
    destruct (lookup_lt_is_Some_2 (pool_of config) (index mod length (pool_of config))) as [c Hc].
    { apply Nat.mod_upper_bound. by destruct (pool_of config). }
    exists c. split; [done|]. by eapply list_elem_of_lookup_2.
Qed.

Lemma resolvePriority_elem config t :
  exists p, fst (resolvePriority config t) = Some p /\
    (priorityMode config = PriorityFixed -> p = fixedPriority config).
Proof.
  unfold resolvePriority. destruct (priorityMode config) eqn:E.
  - by exists (fixedPriority config).
  - destruct (pickRandom_elem ALL_PRIORITIES t ltac:(done)) as (p & Hp & _). by exists p.
Qed.

(** The pool a request's channel comes from. *)
Definition from_pool (config : LoadTestConfig) (c : Channel) : Prop := c ∈ pool_of config.

(** What [buildRequest] returns, whatever the draws. *)
Lemma buildRequest_spec config index o t :
  (o_channel o = Some None -> False) -> (o_priority o = Some None -> False) ->
  (o_address o = Some None -> False) ->
  exists r, fst (buildRequest config index o t) = Some r /\
    SendNotificationReq.schema_version r = "1.0" /\
    SendNotificationReq.template_id r = "welcome" /\
    SendNotificationReq.template_data r = [] /\
    SendNotificationReq.recipient_address r =
      match o_address o with Some (Some a) => a | _ => address config end /\
    (forall k, o_key o = Some k -> SendNotificationReq.idempotency_key r = k) /\
    match o_channel o with
    | Some (Some c) => SendNotificationReq.channel r = c
    | _ => SendNotificationReq.channel r ∈ pool_of config
    end /\
    match o_priority o with
    | Some (Some p) => SendNotificationReq.priority r = p
    | _ => priorityMode config = PriorityFixed ->
           SendNotificationReq.priority r = fixedPriority config
    end.
Proof.
  intros Hc Hp Ha. unfold buildRequest, bind, ret.
  destruct (genLoadKey "load" t) as [key t1].
  pose proof (resolveChannel_elem config index t1) as (c & Ec & Hcp).
  destruct (resolveChannel config index t1) as [c' t2]. simpl in Ec. subst c'.
  pose proof (resolvePriority_elem config t2) as (p & Ep & Hpp).
  destruct (resolvePriority config t2) as [p' t3]. simpl in Ep. subst p'.
  destruct o as [k [[oc|]|] [[op|]|] [[oa|]|]]; simpl in *; try (by exfalso; auto);
    (eexists; split; [reflexivity|]); simpl; repeat split; auto; by intros ? ->.
Qed.
End Facts.

(** ** What each scenario promises *)

(** The configuration a scenario builds its requests with. *)
Definition effective_config (s : LoadScenarioId) (config : LoadTestConfig) : LoadTestConfig :=
  match s with
  | RandomChannel => with_channelMode ChannelRandom config
  | RandomPriority => with_priorityMode PriorityRandom config
  | MixedChaos => with_priorityMode PriorityRandom (with_channelMode ChannelRandom config)
  | AllChannels => with_channelMode RoundRobin config
  | _ => config
  end.

(** The addresses a scenario may send to. *)
Definition scenario_addresses (s : LoadScenarioId) (config : LoadTestConfig) : list string :=
  match s with
  | RetryStorm => ["fail-transient@example.com"]
  | FailureMix => FAILURE_MIX_ADDRESSES
  | _ => [address config]
  end.

Section Contract.
Context `{Host}.
Implicit Types (t : tape) (config : LoadTestConfig).

(** A request of the load tester, for the configuration it was built with. *)
Record built (config : LoadTestConfig) (addresses : list string) (r : SendNotificationReq.t) :
    Prop := {
  built_schema : SendNotificationReq.schema_version r = "1.0";
  built_template : SendNotificationReq.template_id r = "welcome";
  built_data : SendNotificationReq.template_data r = [];
  built_address : SendNotificationReq.recipient_address r ∈ addresses;
  built_channel : SendNotificationReq.channel r ∈ pool_of config;
  built_priority : priorityMode config = PriorityFixed ->
    SendNotificationReq.priority r = fixedPriority config
}.

(** [buildRequest] without a channel or priority override. *)
Lemma buildRequest_built config index o a t :
  o_channel o = None -> o_priority o = None -> o_address o <> Some None ->
  match o_address o with Some (Some b) => b | _ => address config end = a ->
  exists r, fst (buildRequest config index o t) = Some r /\ built config [a] r /\
    (forall k, o_key o = Some k -> SendNotificationReq.idempotency_key r = k).
Proof.
  intros Hc Hp Ha <-. destruct (buildRequest_spec config index o t) as
    (r & Hr & H1 & H2 & H3 & H4 & H5 & H6 & H7); [congruence|congruence|done|].
  rewrite Hc, Hp in *. exists r. split; [done|]. split; [|done].
  split; try done. rewrite H4. set_solver.
Qed.

Lemma buildRequest_plain config index t :
  exists r, fst (buildRequest config index no_overrides t) = Some r /\
    built config [address config] r.
Proof.
  destruct (buildRequest_built config index no_overrides (address config) t) as (r & ? & ? & _);
    eauto.
Qed.

(** The pool of a fixed channel mode is the fixed channel. *)
Lemma pool_fixed config : channelMode config = ChannelFixed ->
  pool_of config = [fixedChannel config].
Proof. unfold pool_of. by intros ->. Qed.

Lemma retry_storm_built config index sharedKey t :
  exists r, fst (buildScenarioRequest RetryStorm config index sharedKey t) = Some r /\
    built config ["fail-transient@example.com"] r.
Proof.
  unfold buildScenarioRequest, bind at 1.
  assert (exists c t1, (match channelMode config with
      | ChannelFixed => ret (Some (fixedChannel config))
      | _ => resolveChannel config index end) t = (Some c, t1) /\ c ∈ pool_of config)
    as (c & t1 & -> & Hc).
  { pose proof (resolveChannel_elem config index t) as (c & Ec & Hc).
    destruct (channelMode config) eqn:E;
      [exists (fixedChannel config), t; rewrite (pool_fixed _ E); set_solver|..];
      exists c, (snd (resolveChannel config index t)); rewrite <- Ec; by destruct (resolveChannel _ _ _). }
  unfold bind at 1.
  assert (exists p t2, (match priorityMode config with
      | PriorityFixed => ret (Some (fixedPriority config))
      | _ => resolvePriority config end) t1 = (Some p, t2) /\
      (priorityMode config = PriorityFixed -> p = fixedPriority config)) as (p & t2 & -> & Hp).
  { pose proof (resolvePriority_elem config t1) as (p & Ep & Hp).
    destruct (priorityMode config) eqn:E; [by eexists _, _|].
    exists p, (snd (resolvePriority config t1)). rewrite <- Ep. by destruct (resolvePriority _ _). }
  destruct (buildRequest_spec config index
    (Overrides None (Some (Some c)) (Some (Some p)) (Some (Some "fail-transient@example.com"))) t2)
    as (r & Hr & H1 & H2 & H3 & H4 & _ & H6 & H7); [done..|].
  simpl in *. exists r. split; [done|]. split; try done; [rewrite H4; set_solver|by rewrite H6|].
  rewrite H7. exact Hp.
Qed.

(** The request of a scenario, on every branch. *)
Lemma scenario_request_built s config index sharedKey t :
  exists r, fst (buildScenarioRequest s config index sharedKey t) = Some r /\
    built (effective_config s config) (scenario_addresses s config) r /\
    (is_duplicate s = true ->
     forall k, sharedKey = Some k -> SendNotificationReq.idempotency_key r = k).
Proof.
  assert (forall key, exists r, fst (bind (match sharedKey with Some k => ret k | None => key end)
      (fun key => buildRequest config index (Overrides (Some key) None None None)) t) = Some r /\
      built config [address config] r /\
      (forall k, sharedKey = Some k -> SendNotificationReq.idempotency_key r = k)) as Hdup.
  { intros key. unfold bind at 1. destruct ((match sharedKey with Some k => ret k | None => key end) t)
      as [k t1] eqn:E.
    destruct (buildRequest_built config index (Overrides (Some k) None None None)
      (address config) t1) as (r & Hr & Hb & Hk); [done..|].
    exists r. split; [done|]. split; [done|]. intros k' ->. injection E as <- _. by apply Hk. }
  destruct s; cbn [effective_config scenario_addresses].
  all: try (edestruct buildRequest_plain as (r & Hr & Hb); exists r; split; [exact Hr|]; split;
      [exact Hb|]; intros E; vm_compute in E; discriminate E).
  - destruct (Hdup (genLoadKey "dup")) as (r & Hr & Hb & Hk). eauto.
  - destruct (Hdup (genLoadKey "dup")) as (r & Hr & Hb & Hk). eauto.
  - destruct (retry_storm_built config index sharedKey t) as (r & Hr & Hb).
    exists r. split; [done|]. split; [done|]. intros E; vm_compute in E; discriminate E.
  - cbn [buildScenarioRequest]. unfold bind at 1.
    destruct (pickRandom_elem FAILURE_MIX_ADDRESSES t ltac:(done)) as (a & Ea & Hin).
    destruct (pickRandom FAILURE_MIX_ADDRESSES t) as [a' t1]. simpl in Ea. subst a'.
    destruct (buildRequest_built config index (Overrides None None None (Some (Some a))) a t1)
      as (r & Hr & [] & _); [done..|].
    exists r. split; [done|]. split; [|intros E; vm_compute in E; discriminate E].
    split; try done. set_solver.
Qed.

(** C10.  Every scenario builds a request for every index, whatever is drawn: no
    part of it is undefined; it has the API's schema version and the "welcome"
    template; its address is one the scenario sends to, its channel is in the
    pool of the scenario's channel mode, and its priority is the fixed one unless
    the scenario randomises it; and a duplicate scenario given a shared key puts
    exactly that key on every request. *)
Theorem buildScenarioRequest_contract s config index sharedKey t :
  exists r, fst (buildScenarioRequest s config index sharedKey t) = Some r /\
    built (effective_config s config) (scenario_addresses s config) r /\
    (is_duplicate s = true ->
     forall k, sharedKey = Some k -> SendNotificationReq.idempotency_key r = k).
Proof. apply scenario_request_built. Qed.

(** *** Round robin *)

Lemma mod_window n k : n <> 0%nat ->
  map (fun i => i mod n)%nat (seq k n) ≡ₚ seq 0 n.
Proof.
  intros Hn. induction k as [|k IH].
  - apply reflexive_eq. etransitivity; [|apply map_id]. apply map_ext_in.
    intros i Hi%in_seq. apply Nat.mod_small. lia.
  - rewrite <- IH. destruct n as [|n]; [done|].
    rewrite seq_S, map_app. cbn [seq map].
    replace (S k + n)%nat with (k + 1 * S n)%nat by lia. rewrite Nat.Div0.mod_add.
    symmetry. apply Permutation_cons_append.
Qed.

Lemma lookup_all {A} (l : list A) : map (fun i => l !! i) (seq 0 (length l)) = map Some l.
Proof.
  apply list_eq. intros i. rewrite !list_lookup_fmap.
  destruct (decide (i < length l)%nat) as [Hi|Hi].
  - rewrite (proj2 (lookup_seq 0 (length l) i i)) by lia. simpl.
    destruct (lookup_lt_is_Some_2 l i Hi) as [x ->]. done.
  - rewrite (lookup_seq_ge 0 (length l) i) by lia. simpl.
    by rewrite (lookup_ge_None_2 l i) by lia.
Qed.

Lemma resolveChannel_round_robin config i t : channelMode config = RoundRobin ->
  fst (resolveChannel config i t) = pool_of config !! (i mod length (pool_of config))%nat.
Proof. unfold resolveChannel. by intros ->. Qed.

(** The request of the sweep at index [i] has the [i mod n]-th channel. *)
Lemma all_channels_channel config i sharedKey t :
  SendNotificationReq.channel <$> fst (buildScenarioRequest AllChannels config i sharedKey t) =
  pool_of (with_channelMode RoundRobin config)
    !! (i mod length (pool_of (with_channelMode RoundRobin config)))%nat.
Proof.
  cbn [buildScenarioRequest]. set (config' := with_channelMode RoundRobin config).
  unfold buildRequest, bind, ret. destruct (genLoadKey "load" t) as [key t1].
  pose proof (resolveChannel_round_robin config' i t1 eq_refl) as Hc.
  destruct (resolveChannel config' i t1) as [c t2]. simpl in Hc. rewrite <- Hc.
  pose proof (resolvePriority_elem config' t2) as (p & Hp & _).
  destruct (resolvePriority config' t2) as [p' t3]. simpl in *. subst p'.
  by destruct c.
Qed.

(** C29.  The all-channels sweep is fair: over any [n] consecutive indices, where
    [n] is the number of channels selected (all four when none is), each channel
    of the selection is used exactly as often as it is selected, whatever is
    drawn in between. *)
Theorem all_channels_fair config k sharedKey (tapes : nat -> tape) :
  let pool := if (0 <? length (selectedChannels config))%nat
              then selectedChannels config else ALL_CHANNELS in
  map (fun i => SendNotificationReq.channel <$>
         fst (buildScenarioRequest AllChannels config i sharedKey (tapes i)))
    (seq k (length pool)) ≡ₚ map Some pool.
Proof.
  intros pool. rewrite (map_ext _ (fun i => pool !! (i mod length pool)%nat))
    by (intros i; apply all_channels_channel).
  rewrite <- lookup_all, <- (mod_window (length pool) k), map_map; [done|].
  subst pool. by destruct (selectedChannels config).
Qed.

(** An idempotency key is its prefix and two base-36 parts of at most six
    and four characters, where the host writes draws in base 36. *)
Theorem genLoadKey_format prefix t : (forall k, 0 <= clock k)%Z ->
  (forall r, all_chars is_base36 (fraction36 r) = true) ->
  exists r c, fst (genLoadKey prefix t) = prefix +:+ "-" +:+ r +:+ "-" +:+ c /\
    (String.length r <= 6)%nat /\ (String.length c <= 4)%nat /\
    all_chars is_base36 r = true /\ all_chars is_base36 c = true.
Proof.
  intros Hc Hf. unfold genLoadKey, bind, ret, Math_random, Date_now. simpl.
  eexists _, _. split; [reflexivity|].
  destruct (random_slice (random_bits (draws t) mod 2 ^ 53) Hf) as [H1 H2].
  destruct (clock_slice (clock (readings t)) (Hc _)) as [H3 H4]. done.
Qed.
End Contract.

Section Witnesses.
#[local] Existing Instance sample_host.

Lemma genLoadKey_format_witness :
  (forall k, 0 <= clock k)%Z /\
  fst (genLoadKey "load" (Tape 0 0 0)) = "load-i-3v28" /\
  exists r c, "load-i-3v28" = "load" +:+ "-" +:+ r +:+ "-" +:+ c /\ (String.length r <= 6)%nat.
Proof.
  assert (forall k, 0 <= clock k)%Z as Hc by (intros k; simpl; lia).
  split; [exact Hc|]. assert (fst (genLoadKey "load" (Tape 0 0 0)) = "load-i-3v28") as E
    by (vm_compute; reflexivity).
  split; [exact E|]. destruct (genLoadKey_format "load" (Tape 0 0 0) Hc (fun _ => eq_refl)) as (r & c & Hk & Hr & _).
  exists r, c. split; [rewrite <- E; exact Hk|exact Hr].
Defined.
End Witnesses.
