(* ===== verification/LoadRun.v ===== *)
(** * Running a load test (web/src/lib/loadTest.ts)

    [runParallel] is a pool of workers over a shared counter.  Between two
    awaits JavaScript runs to completion, so a run is a sequence of events: a
    pending send of some worker settles, the worker records the outcome, and it
    takes the next index or finishes.  The order in which sends settle is the
    schedule, and everything below holds for every schedule.

    [runSequential] is a loop: one send at a time, with an optional delay. *)

From S2P Require Import Prelude JsNumber JsString JsDate Types Effects.

Open Scope nat_scope.

Inductive outcome : Type := Out_ok | Out_fail | Out_duplicate.
#[export] Instance outcome_eq_dec : EqDecision outcome.
Proof. solve_decision. Defined.

Record LoadRunResult : Type := RunResult {
  ok : nat; fail : nat; duplicates : nat; total : num; elapsedMs : num
}.

(** [try { res = await send(req); ... } catch { return "fail" }]: what a settled
    promise becomes. *)
Definition sendOne (settled : result SendNotificationResp.t) : outcome :=
  match settled with
  | Ok res =>
      match SendNotificationResp.duplicate res with
      | Some true => Out_duplicate
      | _ => Out_ok
      end
  | Throw _ => Out_fail
  end.

(** One more outcome in the counters. *)
Definition count_outcome (o : outcome) (r : LoadRunResult) : LoadRunResult :=
  match o with
  | Out_ok => RunResult (S (ok r)) (fail r) (duplicates r) (total r) (elapsedMs r)
  | Out_duplicate => RunResult (ok r) (fail r) (S (duplicates r)) (total r) (elapsedMs r)
  | Out_fail => RunResult (ok r) (S (fail r)) (duplicates r) (total r) (elapsedMs r)
  end.

Definition with_elapsed (e : num) (r : LoadRunResult) : LoadRunResult :=
  RunResult (ok r) (fail r) (duplicates r) (total r) e.

Definition initial_result (count : num) : LoadRunResult := RunResult 0 0 0 count (int 0).

Definition settled_count (r : LoadRunResult) : nat := ok r + fail r + duplicates r.

Definition formatRunSummary (r : LoadRunResult) : string :=
  join ", "
    ([toString (of_nat (ok r)) +:+ " accepted"; toString (of_nat (fail r)) +:+ " failed"] ++
     (if (0 <? duplicates r)%nat then [toString (of_nat (duplicates r)) +:+ " duplicates"] else []) ++
     [toString (total r) +:+ " total"; toString (int (Math_round (elapsedMs r))) +:+ " ms"]).

(** ** The worker pool *)

Inductive worker : Type :=
| Sending (i : nat)   (* awaiting the send of index [i] *)
| Finished.
#[export] Instance worker_eq_dec : EqDecision worker.
Proof. solve_decision. Defined.

Section Parallel.
Context `{Host} {Req : Type}.
Variables (count concurrency : num) (build : nat -> M Req).

Record run : Type := Run {
  next : nat;
  workers : list worker;
  tally : LoadRunResult;
  sent : list (nat * Req);          (* sends issued, in order *)
  progress : list LoadRunResult;    (* arguments of onProgress, in order *)
  host_tape : tape
}.

(** [Math.max(1, Math.min(concurrency, count))]. *)
Definition limit : num := Math_max (int 1) (Math_min concurrency count).

(** The loop head of a worker: take an index, and send it or leave. *)
Definition take_next (st : run) : worker * run :=
  let i := next st in
  if leb count (of_nat i)
  then (Finished, Run (S i) (workers st) (tally st) (sent st) (progress st) (host_tape st))
  else
    let '(req, t') := build i (host_tape st) in
    (Sending i, Run (S i) (workers st) (tally st) (sent st ++ [(i, req)]) (progress st) t').

Definition set_workers (ws : list worker) (st : run) : run :=
  Run (next st) ws (tally st) (sent st) (progress st) (host_tape st).

(** [Array.from({ length: limit }, () => worker())]: every worker runs to its
    first await in turn. *)
Fixpoint spawn (k : nat) (st : run) : run :=
  match k with
  | O => st
  | S k' => let '(w, st') := take_next st in spawn k' (set_workers (workers st' ++ [w]) st')
  end.

Definition pool_size : nat := Z.to_nat (Math_floor limit).

(** The state once [runParallel] has started its workers, and the instant it
    started at. *)
Definition start (t : tape) : num * run :=
  let '(started, t') := performance_now t in
  (started, spawn pool_size (Run 0 [] (initial_result count) [] [] t')).

(** The send of worker [w] settles with outcome [o]. *)
Definition settle (started : num) (w : nat) (o : outcome) (st : run) : option run :=
  match workers st !! w with
  | Some (Sending _) =>
      let r := count_outcome o (tally st) in
      let '(now, t') := performance_now (host_tape st) in
      let st1 := Run (next st) (workers st) r (sent st)
                     (progress st ++ [with_elapsed (sub now started) r]) t' in
      let '(w', st2) := take_next st1 in
      Some (set_workers (<[w:=w']> (workers st2)) st2)
  | _ => None
  end.

Definition is_sending (w : worker) : bool := match w with Sending _ => true | Finished => false end.
Definition finished (st : run) : bool := forallb (fun w => negb (is_sending w)) (workers st).

(** A run under a schedule: which worker's send settles next, and how. *)
Fixpoint exec (started : num) (sched : list (nat * outcome)) (st : run) : option run :=
  match sched with
  | [] => Some st
  | (w, o) :: sched' => st' ← settle started w o st; exec started sched' st'
  end.

(** The promise of [runParallel] when the run is over: the result with its
    elapsed time. *)
Definition runParallel (t : tape) (sched : list (nat * outcome)) : option (LoadRunResult * run) :=
  let '(started, st0) := start t in
  st ← exec started sched st0;
  if finished st then
    let '(now, t') := performance_now (host_tape st) in
    Some (with_elapsed (sub now started) (tally st),
          Run (next st) (workers st) (tally st) (sent st) (progress st) t')
  else None.

(** ** The invariant of a run *)

(** The number of requests a run issues. *)
Definition requests : nat := Z.to_nat (Math_ceil count).

Definition in_flight (st : run) : list nat :=
  omap (fun w => match w with Sending i => Some i | Finished => None end) (workers st).

Lemma past_end i : leb count (of_nat i) = negb (i <? requests)%nat.
Proof.
  rewrite leb_ltb. f_equal. unfold of_nat. rewrite ltb_int_ceil. unfold requests.
  destruct (Z.ltb_spec (Z.of_nat i) (Math_ceil count)), (Nat.ltb_spec i (Z.to_nat (Math_ceil count)));
    lia || done.
Qed.

(** What every reachable state satisfies. *)
Record invariant (st : run) : Prop := {
  (* the indices sent are an initial segment, in order and without repetition *)
  inv_sent : map fst (sent st) = seq 0 (Nat.min (next st) requests);
  (* every sent index is in flight or counted, never both *)
  inv_balance : settled_count (tally st) + length (in_flight st) = length (sent st);
  inv_flight_nodup : NoDup (in_flight st);
  inv_flight_sent : forall i, i ∈ in_flight st -> i < Nat.min (next st) requests;
  (* a worker only leaves when there is nothing left to send *)
  inv_finished : Finished ∈ workers st -> requests <= next st;
  inv_total : total (tally st) = count;
  inv_progress : length (progress st) = settled_count (tally st)
}.

Lemma omap_app_sending (l : list worker) w :
  omap (fun w => match w with Sending i => Some i | Finished => None end) (l ++ [w]) =
  omap (fun w => match w with Sending i => Some i | Finished => None end) l ++
  match w with Sending i => [i] | Finished => [] end.
Proof. rewrite omap_app. by destruct w. Qed.

(** The effect of [take_next] on everything but the workers. *)
Lemma take_next_spec st w st' : take_next st = (w, st') ->
  next st' = S (next st) /\ workers st' = workers st /\ tally st' = tally st /\
  progress st' = progress st /\
  (if (next st <? requests)%nat
   then w = Sending (next st) /\ exists req, sent st' = sent st ++ [(next st, req)]
   else w = Finished /\ sent st' = sent st).
Proof.
  unfold take_next. rewrite past_end.
  destruct (next st <? requests)%nat; simpl.
  - destruct (build (next st) (host_tape st)) as [req t']. intros [= <- <-]. simpl.
    repeat split; auto. by exists req.
  - by intros [= <- <-].
Qed.

Lemma in_flight_app ws w st :
  in_flight (set_workers (ws ++ [w]) st) =
  in_flight (set_workers ws st) ++ match w with Sending i => [i] | Finished => [] end.
Proof. unfold in_flight; simpl. by rewrite omap_app_sending. Qed.

(** A worker that enters the loop keeps the invariant: [st] is the state
    without it, [l] and [r] the workers before and after it. *)
Lemma invariant_take st st' w l r :
  invariant (set_workers (l ++ r) st) -> (Finished ∈ l ++ r -> requests <= next st) ->
  take_next st = (w, st') -> invariant (set_workers (l ++ w :: r) st').
Proof.
  intros I Hfin Ht. apply take_next_spec in Ht as (Hn & _ & Htl & Hp & Hs).
  destruct I as [I1 I2 I3 I4 I5 I6 I7]. simpl in *.
  assert (forall f : list nat, in_flight (set_workers (l ++ w :: r) st') =
    in_flight (set_workers l st) ++ match w with Sending i => [i] | Finished => [] end ++
    in_flight (set_workers r st)) as Hf.
  { intros _. unfold in_flight; simpl. rewrite omap_app. f_equal. by destruct w. }
  assert (in_flight (set_workers (l ++ r) st) =
          in_flight (set_workers l st) ++ in_flight (set_workers r st)) as Hf0.
  { unfold in_flight; simpl. by rewrite omap_app. }
  specialize (Hf []). rewrite Hf0 in *.
  destruct (Nat.ltb_spec (next st) requests) as [Hlt|Hge].
  - destruct Hs as [-> [req Hsent]].
    split; cbn [sent tally progress next workers set_workers]; rewrite ?Hf, ?Htl, ?Hp, ?Hsent, ?Hn; auto.
    + rewrite map_app, I1. cbn [map fst]. replace (next st `min` requests) with (next st) by lia.
      replace (S (next st) `min` requests) with (S (next st)) by lia. by rewrite List.seq_S.
    + rewrite !length_app in *. simpl. lia.
    + assert (next st ∉ in_flight (set_workers l st) ++ in_flight (set_workers r st)) as Hni.
      { intros Hin. apply I4 in Hin. lia. }
      rewrite NoDup_app in *. rewrite NoDup_app, NoDup_cons, NoDup_nil. set_solver.
    + intros i Hi. assert (i = next st \/ i ∈ in_flight (set_workers l st) ++ in_flight (set_workers r st))
        as [->|Hi'] by set_solver; [lia|]. apply I4 in Hi'. lia.
    + intros Hfi. assert (Finished ∈ l ++ r) as Hin by set_solver. apply Hfin in Hin. lia.
  - destruct Hs as [-> Hsent].
    split; cbn [sent tally progress next workers set_workers]; rewrite ?Hf, ?Htl, ?Hp, ?Hsent, ?Hn; auto.
    + rewrite I1. f_equal. lia.
    + intros i Hi. apply I4 in Hi. lia.
Qed.

Lemma set_workers_id st : set_workers (workers st) st = st.
Proof. by destruct st. Qed.

Lemma invariant_spawn k st : invariant st -> invariant (spawn k st).
Proof.
  revert st. induction k as [|k IH]; intros st I; [done|]. simpl.
  destruct (take_next st) as [w st'] eqn:E.
  pose proof (take_next_spec st w st' E) as (_ & Hw & _). apply IH. rewrite Hw.
  apply (invariant_take st st' w (workers st) []); [| |done]; rewrite app_nil_r.
  - by rewrite set_workers_id.
  - apply (inv_finished st I).
Qed.

Lemma spawn_workers k st : length (workers (spawn k st)) = length (workers st) + k.
Proof.
  revert st. induction k as [|k IH]; intros st; simpl; [lia|].
  destruct (take_next st) as [w st'] eqn:E.
  apply take_next_spec in E as (_ & Hw & _). rewrite IH. simpl.
  rewrite Hw, length_app. simpl. lia.
Qed.

Lemma invariant_start t started st : start t = (started, st) -> invariant st.
Proof.
  unfold start. destruct (performance_now t) as [s t']. intros [= _ <-].
  apply invariant_spawn. split; simpl; try done; try constructor; set_solver.
Qed.

(** *** One settled send *)

(** The workers around the one that settles, and the state after. *)
Lemma settle_inv started w o st st' : settle started w o st = Some st' ->
  exists i l r st1 w' st2,
    workers st = l ++ Sending i :: r /\ length l = w /\
    next st1 = next st /\ sent st1 = sent st /\ tally st1 = count_outcome o (tally st) /\
    (exists p, progress st1 = progress st ++ [p] /\ settled_count p = S (settled_count (tally st))) /\
    take_next st1 = (w', st2) /\ st' = set_workers (l ++ w' :: r) st2.
Proof.
  unfold settle. destruct (workers st !! w) as [[i|]|] eqn:Ew; try done.
  destruct (performance_now (host_tape st)) as [now t'].
  set (st1 := Run _ _ _ _ _ _). destruct (take_next st1) as [w' st2] eqn:Et.
  intros [= <-]. pose proof (take_next_spec st1 w' st2 Et) as (_ & Hw & _).
  exists i, (take w (workers st)), (drop (S w) (workers st)), st1, w', st2.
  apply lookup_lt_Some in Ew as Hlt. subst st1; simpl in *.
  repeat split; auto.
  - symmetry. by apply take_drop_middle.
  - rewrite length_take. lia.
  - eexists. split; [done|]. unfold settled_count, with_elapsed. simpl.
    by destruct o; simpl; lia.
  - f_equal. rewrite Hw. by apply insert_take_drop.
Qed.

Lemma settled_count_outcome o r : settled_count (count_outcome o r) = S (settled_count r).
Proof. unfold settled_count. destruct o; simpl; lia. Qed.

Lemma invariant_settle started w o st st' :
  invariant st -> settle started w o st = Some st' -> invariant st'.
Proof.
  intros I Hs. apply settle_inv in Hs as
    (i & l & r & st1 & w' & st2 & Hw & _ & Hn & Hse & Ht & (p & Hp & _) & Htk & ->).
  destruct I as [I1 I2 I3 I4 I5 I6 I7].
  assert (in_flight st ≡ₚ i :: in_flight (set_workers (l ++ r) st1)) as Hf.
  { unfold in_flight; simpl. rewrite Hw, !omap_app. simpl. by rewrite Permutation_middle. }
  eapply invariant_take; [|..|exact Htk].
  - split; cbn [sent tally progress next workers set_workers]; rewrite ?Hn, ?Hse, ?Ht, ?Hp.
    + done.
    + rewrite settled_count_outcome. apply Permutation_length in Hf. simpl in Hf. lia.
    + rewrite Hf in I3. by apply NoDup_cons in I3 as [_ ?].
    + intros j Hj. apply I4. rewrite Hf. set_solver.
    + intros Hfi. apply I5. rewrite Hw. set_solver.
    + rewrite <- I6. by destruct o.
    + rewrite length_app, I7, settled_count_outcome. simpl. lia.
  - intros Hfi. rewrite Hn. apply I5. rewrite Hw. set_solver.
Qed.

Lemma exec_invariant started sched st st' :
  invariant st -> exec started sched st = Some st' -> invariant st'.
Proof.
  revert st. induction sched as [|[w o] sched IH]; intros st I; simpl; [by intros [= <-]|].
  destruct (settle started w o st) as [st1|] eqn:E; [|done]. simpl. intros He.
  eapply IH, He. by eapply invariant_settle.
Qed.

Lemma settle_workers started w o st st' :
  settle started w o st = Some st' -> length (workers st') = length (workers st).
Proof.
  intros Hs. apply settle_inv in Hs as (i & l & r & st1 & w' & st2 & Hw & _ & _ & _ & _ & _ & _ & ->).
  simpl. by rewrite Hw, !length_app.
Qed.

Lemma exec_workers started sched st st' :
  exec started sched st = Some st' -> length (workers st') = length (workers st).
Proof.
  revert st. induction sched as [|[w o] sched IH]; intros st; simpl; [by intros [= <-]|].
  destruct (settle started w o st) as [st1|] eqn:E; [|done]. simpl. intros He.
  rewrite (IH _ He). by eapply settle_workers.
Qed.

Lemma settle_settled started w o st st' : settle started w o st = Some st' ->
  settled_count (tally st') = S (settled_count (tally st)).
Proof.
  intros Hs. apply settle_inv in Hs as (i & l & r & st1 & w' & st2 & _ & _ & _ & _ & Ht & _ & Htk & ->).
  apply take_next_spec in Htk as (_ & _ & Htl & _). simpl. rewrite Htl, Ht.
  apply settled_count_outcome.
Qed.

Lemma exec_settled started sched st st' : exec started sched st = Some st' ->
  settled_count (tally st') = settled_count (tally st) + length sched.
Proof.
  revert st. induction sched as [|[w o] sched IH]; intros st; simpl; [intros [= <-]; lia|].
  destruct (settle started w o st) as [st1|] eqn:E; [|done]. simpl. intros He.
  rewrite (IH _ He), (settle_settled _ _ _ _ _ E). lia.
Qed.

Lemma exec_app started sched sched' st :
  exec started (sched ++ sched') st = (st' ← exec started sched st; exec started sched' st').
Proof.
  revert st. induction sched as [|[w o] sched IH]; intros st; [done|]. simpl.
  destruct (settle started w o st); simpl; [apply IH|done].
Qed.

(** *** Reachable states *)

Definition reachable (t : tape) (sched : list (nat * outcome)) (st : run) : Prop :=
  exec (fst (start t)) sched (snd (start t)) = Some st.

Lemma reachable_invariant t sched st : reachable t sched st -> invariant st.
Proof.
  unfold reachable. destruct (start t) as [started st0] eqn:E. simpl. intros He.
  eapply exec_invariant, He. by eapply invariant_start.
Qed.

Lemma reachable_workers t sched st : reachable t sched st -> length (workers st) = pool_size.
Proof.
  unfold reachable. intros He. rewrite (exec_workers _ _ _ _ He).
  unfold start. destruct (performance_now t). simpl. by rewrite spawn_workers.
Qed.

Lemma reachable_settled t sched st :
  reachable t sched st -> settled_count (tally st) = length sched.
Proof.
  unfold reachable. intros He. rewrite (exec_settled _ _ _ _ He).
  unfold start. destruct (performance_now t) as [s t']. simpl.
  assert (forall k st, tally (spawn k st) = tally st) as Hs.
  { induction k as [|k IH]; intros st1; simpl; [done|].
    destruct (take_next st1) as [w st2] eqn:E. apply take_next_spec in E as (_ & _ & Ht & _).
    rewrite IH. done. }
  by rewrite Hs.
Qed.

Lemma pool_size_pos : 1 <= pool_size.
Proof.
  unfold pool_size. enough (1 <= Math_floor limit)%Z by lia.
  apply Z.leb_le. rewrite <- leb_int_floor. apply Math_max_l.
Qed.

Lemma in_flight_length st : length (in_flight st) <= length (workers st).
Proof. unfold in_flight. induction (workers st) as [|[i|] ws IH]; [done|apply le_n_S, IH|apply le_S, IH]. Qed.

Lemma in_flight_all st : Finished ∉ workers st -> length (in_flight st) = length (workers st).
Proof.
  unfold in_flight. induction (workers st) as [|[i|] ws IH]; simpl; [done| |set_solver].
  intros Hn. f_equal. apply IH. set_solver.
Qed.

Lemma in_flight_sending st i : i ∈ in_flight st <-> Sending i ∈ workers st.
Proof.
  unfold in_flight. rewrite list_elem_of_omap. split.
  - intros ([j|] & Hj & E); simplify_eq. done.
  - intros Hi. by exists (Sending i).
Qed.

Lemma finished_in_flight st : finished st = true <-> in_flight st = [].
Proof.
  unfold finished, in_flight. induction (workers st) as [|[i|] ws IH]; simpl; try done.
Qed.

Lemma finished_sent st : invariant st -> workers st <> [] -> finished st = true ->
  requests <= next st.
Proof.
  intros I Hne Hf. apply (inv_finished _ I).
  destruct (workers st) as [|[i|] ws] eqn:E; [done| |set_solver].
  unfold finished in Hf. rewrite E in Hf. done.
Qed.

(** *** What settles along a schedule *)

(** The indices that settle, with their outcomes, in the order they settle. *)
Fixpoint labels (started : num) (sched : list (nat * outcome)) (st : run) : list (nat * outcome) :=
  match sched with
  | [] => []
  | (w, o) :: sched' =>
      match workers st !! w, settle started w o st with
      | Some (Sending i), Some st' => (i, o) :: labels started sched' st'
      | _, _ => []
      end
  end.

Lemma labels_step started w o sched st st' i l r :
  workers st = l ++ Sending i :: r -> length l = w -> settle started w o st = Some st' ->
  labels started ((w, o) :: sched) st = (i, o) :: labels started sched st'.
Proof. intros Hw <- Hs. simpl. rewrite Hs, Hw, list_lookup_middle; done. Qed.

Lemma settle_sent started w o st st' i l r :
  workers st = l ++ Sending i :: r -> length l = w -> settle started w o st = Some st' ->
  i :: in_flight st' ++ map fst (sent st) ≡ₚ in_flight st ++ map fst (sent st').
Proof.
  intros Hw Hl Hs. apply settle_inv in Hs as
    (i' & l' & r' & st1 & w' & st2 & Hw' & Hl' & Hn & Hse & _ & _ & Htk & ->).
  rewrite Hw in Hw'. apply app_inj_1 in Hw' as [-> Hcons]; [|congruence]. injection Hcons as -> ->.
  apply take_next_spec in Htk as (_ & _ & _ & _ & Hs). unfold in_flight; simpl.
  rewrite Hw, !omap_app. simpl.
  destruct (next st1 <? requests).
  - destruct Hs as [-> [req ->]]. rewrite Hse. simpl. rewrite map_app. simpl. solve_Permutation.
  - destruct Hs as [-> ->]. rewrite Hse. simpl. solve_Permutation.
Qed.

Lemma labels_sent started sched st st' : exec started sched st = Some st' ->
  map fst (labels started sched st) ++ in_flight st' ++ map fst (sent st) ≡ₚ
  in_flight st ++ map fst (sent st').
Proof.
  revert st. induction sched as [|[w o] sched IH]; intros st; [by intros [= <-]|].
  cbn [exec]. destruct (settle started w o st) as [st1|] eqn:E; [|done]. cbn [mbind option_bind]. intros He.
  apply settle_inv in E as Hi. destruct Hi as (i & l & r & _ & _ & _ & Hw & Hl & _).
  pose proof (settle_sent started w o st st1 i l r Hw Hl E) as H1.
  specialize (IH st1 He). rewrite (labels_step _ _ _ _ _ _ _ _ _ Hw Hl E). cbn [map fst].
  apply (Permutation_app_inv_r (map fst (sent st1))).
  transitivity (i :: map fst (sent st) ++
    (map fst (labels started sched st1) ++ in_flight st' ++ map fst (sent st1)));
    [solve_Permutation|].
  rewrite IH.
  transitivity ((i :: in_flight st1 ++ map fst (sent st)) ++ map fst (sent st'));
    [solve_Permutation|].
  rewrite H1. solve_Permutation.
Qed.

Lemma labels_outcomes started sched st st' : exec started sched st = Some st' ->
  map snd (labels started sched st) = map snd sched.
Proof.
  revert st. induction sched as [|[w o] sched IH]; intros st; [done|].
  cbn [exec]. destruct (settle started w o st) as [st1|] eqn:E; [|done]. cbn [mbind option_bind]. intros He.
  apply settle_inv in E as Hi. destruct Hi as (i & l & r & _ & _ & _ & Hw & Hl & _).
  rewrite (labels_step _ _ _ _ _ _ _ _ _ Hw Hl E). simpl. by rewrite (IH _ He).
Qed.

Lemma exec_tally started sched st st' : exec started sched st = Some st' ->
  tally st' = fold_left (fun r o => count_outcome o r) (map snd sched) (tally st).
Proof.
  revert st. induction sched as [|[w o] sched IH]; intros st; simpl; [by intros [= <-]|].
  destruct (settle started w o st) as [st1|] eqn:E; [|done]. simpl. intros He.
  rewrite (IH _ He).
  apply settle_inv in E as (i & l & r & st0 & w' & st2 & _ & _ & _ & _ & Ht & _ & Htk & ->).
  apply take_next_spec in Htk as (_ & _ & Htl & _). simpl. by rewrite Htl, Ht.
Qed.

Lemma start_state t : tally (snd (start t)) = initial_result count /\
  in_flight (snd (start t)) ≡ₚ map fst (sent (snd (start t))).
Proof.
  unfold start. destruct (performance_now t) as [s t']. simpl.
  assert (forall k st, tally st = initial_result count -> in_flight st ≡ₚ map fst (sent st) ->
    tally (spawn k st) = initial_result count /\
    in_flight (spawn k st) ≡ₚ map fst (sent (spawn k st))) as Hk; [|by apply Hk].
  induction k as [|k IH]; intros st Ht Hf; [done|]. simpl.
  destruct (take_next st) as [w st'] eqn:E.
  apply take_next_spec in E as (_ & Hw & Htl & _ & Hs). rewrite Hw. apply IH; simpl.
  - by rewrite Htl.
  - rewrite in_flight_app. unfold in_flight at 1; simpl. fold (in_flight st). rewrite Hf.
    destruct (next st <? requests).
    + destruct Hs as [-> [req ->]]. by rewrite map_app.
    + destruct Hs as [-> ->]. by rewrite app_nil_r.
Qed.

Lemma settle_report started w o st st' : settle started w o st = Some st' ->
  exists e, progress st' = progress st ++ [with_elapsed e (count_outcome o (tally st))].
Proof.
  unfold settle. destruct (workers st !! w) as [[i|]|]; try done.
  destruct (performance_now (host_tape st)) as [now t']. destruct (take_next _) as [w' st2] eqn:Et.
  intros [= <-]. apply take_next_spec in Et as (_ & _ & _ & Hp & _). eexists. simpl. by rewrite Hp.
Qed.

(** The [k]-th report counts the first [k + 1] outcomes. *)
Lemma progress_snapshots t sched st : reachable t sched st ->
  forall k p, progress st !! k = Some p ->
  exists e, p = with_elapsed e
    (fold_left (fun r o => count_outcome o r) (take (S k) (map snd sched)) (initial_result count)).
Proof.
  unfold reachable. revert st. induction sched as [|[w o] sched IH] using rev_ind; intros st He k p Hk.
  - cbn [exec] in He. injection He as He. assert (progress st = []) as E; [rewrite <- He|by rewrite E in Hk].
    unfold start. destruct (performance_now t) as [s t']. simpl.
    assert (forall k st, progress st = [] -> progress (spawn k st) = []) as Hs; [|by apply Hs].
    clear. induction k as [|k IH]; intros st H0; [done|]. simpl.
    destruct (take_next st) as [w st1] eqn:E. apply take_next_spec in E as (_ & _ & _ & Hp & _).
    apply IH. simpl. by rewrite Hp.
  - rewrite exec_app in He. destruct (exec _ sched _) as [st1|] eqn:E1; [|done].
    cbn [mbind option_bind exec] in He. destruct (settle _ w o st1) as [st2|] eqn:E2; [|done]. injection He as <-.
    apply settle_report in E2 as [e E2]. rewrite E2 in Hk.
    pose proof (inv_progress _ (reachable_invariant _ _ _ E1)) as Hl. rewrite (reachable_settled _ _ _ E1) in Hl.
    rewrite map_app. apply lookup_app_Some in Hk as [Hk|[Hle Hk]].
    + apply lookup_lt_Some in Hk as Hlt. rewrite take_app_le by (rewrite length_map; lia). by apply (IH st1).
    + apply list_lookup_singleton_Some in Hk as [Hk <-]. exists e.
      rewrite take_ge by (rewrite length_app, length_map; simpl; lia).
      rewrite fold_left_app. cbn [map fold_left snd].
      by rewrite (exec_tally _ _ _ _ E1), (proj1 (start_state t)).
Qed.

(** *** Every request sent was built for its index *)

Definition sent_built (l : list (nat * Req)) : Prop :=
  Forall (fun p => exists t, fst (build p.1 t) = p.2) l.

Lemma take_next_built st w st' : take_next st = (w, st') -> sent_built (sent st) -> sent_built (sent st').
Proof.
  unfold take_next. destruct (leb count (of_nat (next st))); [by intros [= _ <-]|].
  destruct (build (next st) (host_tape st)) as [req t'] eqn:E. intros [= _ <-] Hb. simpl.
  apply Forall_app. split; [done|]. repeat constructor. exists (host_tape st). simpl. by rewrite E.
Qed.

Lemma spawn_built k st : sent_built (sent st) -> sent_built (sent (spawn k st)).
Proof.
  revert st. induction k as [|k IH]; intros st Hb; [done|]. simpl.
  destruct (take_next st) as [w st'] eqn:E. apply IH. by apply (take_next_built _ _ _ E).
Qed.

Lemma exec_built started sched st st' :
  exec started sched st = Some st' -> sent_built (sent st) -> sent_built (sent st').
Proof.
  revert st. induction sched as [|[w o] sched IH]; intros st; simpl; [by intros [= <-]|].
  destruct (settle started w o st) as [st1|] eqn:E; [|done]. simpl. intros He Hb. apply (IH _ He).
  apply settle_inv in E as (i & l & r & st2 & w' & st3 & _ & _ & _ & Hs & _ & _ & Htk & ->).
  apply (take_next_built _ _ _ Htk). by rewrite Hs.
Qed.

Lemma reachable_built t sched st : reachable t sched st -> sent_built (sent st).
Proof.
  unfold reachable. intros He. apply (exec_built _ _ _ _ He). unfold start.
  destruct (performance_now t) as [s t']. apply spawn_built. constructor.
Qed.
End Parallel.

(** ** The sequential loop *)

Section Sequential.
Context `{Host} {Req : Type}.
Variables (count staggerMs : num) (build : nat -> M Req).
(** The outcome of the send of each index. *)
Variable settles : nat -> outcome.

Inductive event : Type :=
| EvSend (i : nat) (req : Req)
| EvProgress (r : LoadRunResult)
| EvSleep (ms : num).

(** [staggerMs > 0 && i < count - 1]. *)
Definition must_sleep (i : nat) : bool :=
  ltb (int 0) staggerMs && ltb (of_nat i) (sub count (int 1)).

Fixpoint sequential_loop (fuel i : nat) (started : num) (r : LoadRunResult) (t : tape) :
    LoadRunResult * list event * tape :=
  match fuel with
  | O => (r, [], t)
  | S fuel' =>
      if ltb (of_nat i) count then
        let '(req, t1) := build i t in
        let r := count_outcome (settles i) r in
        let '(now, t2) := performance_now t1 in
        let '(r', evs, t3) := sequential_loop fuel' (S i) started r t2 in
        (r', [EvSend i req; EvProgress (with_elapsed (sub now started) r)] ++
             (if must_sleep i then [EvSleep staggerMs] else []) ++ evs, t3)
      else (r, [], t)
  end.

(** [runSequential]: the loop runs [requests] times, so that is enough fuel. *)
Definition runSequential (t : tape) : LoadRunResult * list event * tape :=
  let '(started, t1) := performance_now t in
  let '(r, evs, t2) := sequential_loop (requests count) 0 started (initial_result count) t1 in
  let '(now, t3) := performance_now t2 in
  (with_elapsed (sub now started) r, evs, t3).

Lemma loop_test i : ltb (of_nat i) count = (i <? requests count).
Proof.
  pose proof (past_end count i) as Hp. rewrite leb_ltb in Hp.
  by destruct (ltb (of_nat i) count), (i <? requests count).
Qed.

(** More fuel changes nothing: the loop has left by its own test. *)
Lemma sequential_fuel fuel i started r t : requests count <= i + fuel ->
  forall extra, sequential_loop (fuel + extra) i started r t = sequential_loop fuel i started r t.
Proof.
  revert i r t. induction fuel as [|fuel IH]; intros i r t Hf extra.
  - simpl. destruct extra as [|extra]; [done|]. simpl.
    rewrite loop_test. destruct (Nat.ltb_spec i (requests count)); [lia|done].
  - simpl. destruct (ltb (of_nat i) count); [|done].
    destruct (build i t) as [req t1].
    destruct (performance_now t1) as [now t2]. rewrite IH by lia. done.
Qed.

(** The sends and the delays of a trace, in order. *)
Definition steps (evs : list event) : list (nat + num) :=
  omap (fun e => match e with
                 | EvSend i _ => Some (inl i)
                 | EvSleep ms => Some (inr ms)
                 | EvProgress _ => None
                 end) evs.
Definition reports (evs : list event) : list LoadRunResult :=
  omap (fun e => match e with EvProgress r => Some r | _ => None end) evs.

(** The indices [i ..] with a delay between any two. *)
Fixpoint spaced (i k : nat) : list (nat + num) :=
  match k with
  | O => []
  | S k' =>
      inl i :: (if (0 <? k') && ltb (int 0) staggerMs then [inr staggerMs] else []) ++ spaced (S i) k'
  end.

Lemma must_sleep_spec i k : requests count = i + S k ->
  must_sleep i = ((0 <? k) && ltb (int 0) staggerMs)%nat.
Proof.
  intros Hr. unfold must_sleep. unfold of_nat. rewrite ltb_sub_1, andb_comm. f_equal.
  replace (Z.of_nat i + 1)%Z with (Z.of_nat (S i)) by lia.
  change (int (Z.of_nat (S i))) with (of_nat (S i)). rewrite loop_test, Hr.
  destruct (Nat.ltb_spec (S i) (i + S k)), (Nat.ltb_spec 0 k); lia || done.
Qed.

(** The counters of a loop, and the sends, delays and reports of its trace. *)
Lemma sequential_loop_spec fuel i started r t : requests count = i + fuel ->
  let out := sequential_loop fuel i started r t in
  fst (fst out) = fold_left (fun r j => count_outcome (settles j) r) (seq i fuel) r /\
  steps (snd (fst out)) = spaced i fuel /\
  map settled_count (reports (snd (fst out))) = seq (S (settled_count r)) fuel.
Proof.
  revert i r t. induction fuel as [|fuel IH]; intros i r t Hf; [done|].
  cbn [sequential_loop seq fold_left spaced]. rewrite loop_test.
  destruct (Nat.ltb_spec i (requests count)); [|lia].
  destruct (build i t) as [req t1].
  destruct (performance_now t1) as [now t2].
  specialize (IH (S i) (count_outcome (settles i) r) t2 ltac:(lia)).
  destruct (sequential_loop fuel (S i) started _ t2) as [[r' evs] t3].
  cbn [fst snd] in *. destruct IH as (-> & Hs & Hp). split; [done|].
  rewrite (must_sleep_spec i fuel Hf). rewrite settled_count_outcome in Hp.
  unfold steps, reports in *. cbn [app]. cbn [omap list_omap]. rewrite !omap_app, Hs.
  assert (settled_count (with_elapsed (sub now started) (count_outcome (settles i) r)) =
          S (settled_count r)) as Hc by (apply settled_count_outcome).
  cbn [map]. rewrite Hc.
  by destruct ((0 <? fuel) && ltb (int 0) staggerMs); split; try done; f_equal.
Qed.

Lemma fold_settled_count (l : list nat) r :
  settled_count (fold_left (fun r j => count_outcome (settles j) r) l r) = settled_count r + length l.
Proof.
  revert r. induction l as [|j l IH]; intros r; simpl; [lia|].
  rewrite IH, settled_count_outcome. lia.
Qed.

Lemma sequential_loop_settled fuel i started r t : requests count = i + fuel ->
  settled_count (fst (fst (sequential_loop fuel i started r t))) = settled_count r + fuel.
Proof.
  intros Hf. destruct (sequential_loop_spec fuel i started r t Hf) as (-> & _).
  by rewrite fold_settled_count, length_seq.
Qed.

(** The requests of a trace, with their indices. *)
Definition requests_of (evs : list event) : list (nat * Req) :=
  omap (fun e => match e with EvSend i req => Some (i, req) | _ => None end) evs.

Lemma sequential_loop_requests fuel i started r t : requests count = i + fuel ->
  let evs := snd (fst (sequential_loop fuel i started r t)) in
  map fst (requests_of evs) = seq i fuel /\ sent_built build (requests_of evs).
Proof.
  revert i r t. induction fuel as [|fuel IH]; intros i r t Hf; [by repeat constructor|].
  cbn [sequential_loop seq]. rewrite loop_test.
  destruct (Nat.ltb_spec i (requests count)); [|lia].
  destruct (build i t) as [req t1] eqn:E.
  destruct (performance_now t1) as [now t2].
  specialize (IH (S i) (count_outcome (settles i) r) t2 ltac:(lia)).
  destruct (sequential_loop fuel (S i) started _ t2) as [[r' evs] t3]. cbn [fst snd] in *.
  destruct IH as [H1 H2]. unfold requests_of in *. cbn [app omap list_omap]. rewrite omap_app.
  assert (forall b : bool, omap (fun e => match e with EvSend i req => Some (i, req) | _ => None end)
    (if b then [EvSleep staggerMs] else []) = []) as -> by (by intros []).
  cbn [app map fst]. rewrite H1. split; [done|]. constructor; [|done]. exists t. simpl. by rewrite E.
Qed.
End Sequential.

(** ** Counting outcomes *)

Definition count_of (o : outcome) (os : list outcome) : nat :=
  length (List.filter (fun x => bool_decide (x = o)) os).

Lemma count_of_Permutation o os os' : os ≡ₚ os' -> count_of o os = count_of o os'.
Proof.
  unfold count_of. induction 1; simpl; try congruence.
  - case_match; simpl; congruence.
  - repeat case_match; done.
Qed.

Lemma fold_outcomes os r :
  fold_left (fun r o => count_outcome o r) os r =
  RunResult (ok r + count_of Out_ok os) (fail r + count_of Out_fail os)
    (duplicates r + count_of Out_duplicate os) (total r) (elapsedMs r).
Proof.
  revert r. induction os as [|o os IH]; intros r; simpl.
  - unfold count_of; simpl. rewrite !Nat.add_0_r. by destruct r.
  - rewrite IH. unfold count_of. destruct o; simpl; f_equal; lia.
Qed.

Lemma fold_settles (f : nat -> outcome) l r :
  fold_left (fun r j => count_outcome (f j) r) l r =
  fold_left (fun r o => count_outcome o r) (map f l) r.
Proof. revert r. induction l as [|x l IH]; intros r; [done|]. simpl. apply IH. Qed.

(** * Properties *)

Section Properties.
Context `{Host} {Req : Type}.
Implicit Types (count concurrency : num) (build : nat -> M Req) (t : tape).

(** What a finished run has done. *)
Lemma finished_run count concurrency build t sched st :
  reachable count concurrency build t sched st -> finished st = true ->
  map fst (sent st) = seq 0 (requests count) /\ length sched = requests count /\
  in_flight st = [].
Proof.
  intros Hr Hf. pose proof (reachable_invariant _ _ _ _ _ _ Hr) as I.
  assert (requests count <= next st) as Hn.
  { eapply finished_sent; [exact I| |done]. intros E.
    pose proof (reachable_workers _ _ _ _ _ _ Hr) as Hw. rewrite E in Hw.
    pose proof (pool_size_pos count concurrency). simpl in Hw. lia. }
  pose proof (inv_sent _ _ I) as Hs. rewrite Nat.min_r in Hs by done.
  apply finished_in_flight in Hf. repeat split; [done| |done].
  rewrite <- (reachable_settled _ _ _ _ _ _ Hr).
  pose proof (inv_balance _ _ I) as Hb. rewrite Hf in Hb. simpl in Hb.
  apply (f_equal length) in Hs. rewrite length_map, length_seq in Hs. lia.
Qed.

Lemma runParallel_inv count concurrency build t sched res st :
  runParallel count concurrency build t sched = Some (res, st) ->
  exists st', reachable count concurrency build t sched st' /\ finished st' = true /\
    sent st = sent st' /\ exists e, res = with_elapsed e (tally st').
Proof.
  unfold runParallel, reachable. destruct (start count concurrency build t) as [s st0]. simpl.
  destruct (exec count build s sched st0) as [st'|]; [|done]. simpl.
  destruct (finished st') eqn:Hf; [|done].
  destruct (performance_now (host_tape st')) as [now t']. intros [= <- <-].
  exists st'. repeat split; eauto.
Qed.

(** What settled along a schedule of a run: the indices with their outcomes. *)
Definition settled_along count concurrency build t (sched : list (nat * outcome)) :=
  let '(started, st0) := start count concurrency build t in labels count build started sched st0.

Lemma settled_permutation count concurrency build t sched st :
  reachable count concurrency build t sched st ->
  map fst (settled_along count concurrency build t sched) ++ in_flight st ≡ₚ map fst (sent st).
Proof.
  intros Hr. unfold reachable, settled_along in *.
  destruct (start_state count concurrency build t) as [_ Hst].
  destruct (start count concurrency build t) as [started st0]. simpl in *.
  pose proof (labels_sent _ _ _ _ _ _ Hr) as Hp. rewrite Hst in Hp.
  apply (Permutation_app_inv_r (map fst (sent st0))).
  rewrite <- app_assoc, Hp. apply Permutation_app_comm.
Qed.

Lemma settled_tally count concurrency build t sched st :
  reachable count concurrency build t sched st ->
  tally st = fold_left (fun r o => count_outcome o r)
               (map snd (settled_along count concurrency build t sched)) (initial_result count).
Proof.
  intros Hr. unfold reachable, settled_along in *.
  destruct (start_state count concurrency build t) as [Ht _].
  destruct (start count concurrency build t) as [started st0]. simpl in *.
  by rewrite (exec_tally _ _ _ _ _ _ Hr), (labels_outcomes _ _ _ _ _ _ Hr), Ht.
Qed.

(** The requests of a resolved run: one per index, each built for it. *)
Lemma runParallel_requests count concurrency build t sched res st :
  runParallel count concurrency build t sched = Some (res, st) ->
  map fst (sent st) = seq 0 (requests count) /\ sent_built build (sent st) /\
  settled_count res = requests count.
Proof.
  intros (st' & Hr & Hf & -> & e & ->)%runParallel_inv.
  destruct (finished_run _ _ _ _ _ _ Hr Hf) as (Hs & Hl & _). split; [done|].
  split; [by eapply reachable_built|].
  change (settled_count (tally st') = requests count). rewrite <- Hl.
  by eapply reachable_settled.
Qed.

Lemma runSequential_requests count staggerMs build settles t :
  let '(res, evs, _) := runSequential count staggerMs build settles t in
  map fst (requests_of evs) = seq 0 (requests count) /\ sent_built build (requests_of evs) /\
  settled_count res = requests count.
Proof.
  unfold runSequential. destruct (performance_now t) as [started t1].
  pose proof (sequential_loop_requests count staggerMs build settles (requests count) 0 started
                (initial_result count) t1 eq_refl) as (H1 & H2).
  pose proof (sequential_loop_settled count staggerMs build settles (requests count) 0 started
                (initial_result count) t1 eq_refl) as H3.
  destruct (sequential_loop _ _ _ _ _ _ _ _ _) as [[r evs] t2]. cbn [fst snd] in *.
  destruct (performance_now t2) as [now t3]. done.
Qed.

(** C1.  Whatever the order in which the sends of a parallel run settle, when
    [runParallel] resolves: the requests sent are those of the indices
    0 .. requests-1, each built and sent exactly once and in order; every one of
    them has settled exactly once; each counter of the result is the number of
    its outcomes; and the reported total is the requested count. *)
Theorem runParallel_complete count concurrency build t sched res st :
  runParallel count concurrency build t sched = Some (res, st) ->
  let settled := settled_along count concurrency build t sched in
  map fst (sent st) = seq 0 (requests count) /\
  map fst settled ≡ₚ seq 0 (requests count) /\
  ok res = count_of Out_ok (map snd settled) /\
  fail res = count_of Out_fail (map snd settled) /\
  duplicates res = count_of Out_duplicate (map snd settled) /\
  total res = count.
Proof.
  intros (st' & Hr & Hf & -> & e & ->)%runParallel_inv settled.
  destruct (finished_run _ _ _ _ _ _ Hr Hf) as (Hs & _ & Hfl).
  pose proof (settled_permutation _ _ _ _ _ _ Hr) as Hp. fold settled in Hp.
  rewrite Hfl, app_nil_r, Hs in Hp.
  rewrite (settled_tally _ _ _ _ _ _ Hr), fold_outcomes. fold settled. done.
Qed.

Lemma workers_split ws : forallb (fun w => negb (is_sending w)) ws = false ->
  exists w i, ws !! w = Some (Sending i).
Proof.
  induction ws as [|[i|] ws IH]; simpl; [done| |].
  - intros _. by exists 0, i.
  - intros (w & i & Hw)%IH. by exists (S w), i.
Qed.

(** C6.  A parallel run neither hangs nor runs on: a state reached by any
    schedule is either finished, which is exactly when as many sends have
    settled as there are requests, and then [runParallel] resolves; or fewer
    have settled, some worker is awaiting a send, and whichever of them settles
    next, with whatever outcome, the run goes on. *)
Theorem runParallel_terminates count concurrency build t sched st :
  reachable count concurrency build t sched st ->
  (finished st = true /\ length sched = requests count /\
   exists res st', runParallel count concurrency build t sched = Some (res, st')) \/
  (finished st = false /\ length sched < requests count /\
   (exists w i, workers st !! w = Some (Sending i)) /\
   forall w i o, workers st !! w = Some (Sending i) ->
     exists st', reachable count concurrency build t (sched ++ [(w, o)]) st').
Proof.
  intros Hr. destruct (finished st) eqn:Hf; [left|right]; (split; [done|]).
  - split; [by apply (finished_run _ _ _ _ _ _ Hr Hf)|].
    unfold runParallel, reachable in *. destruct (start count concurrency build t) as [s st0].
    simpl in *. rewrite Hr. simpl. rewrite Hf. destruct (performance_now (host_tape st)). eauto.
  - pose proof (reachable_invariant _ _ _ _ _ _ Hr) as I.
    apply workers_split in Hf as Hw.
    assert (length (in_flight st) <> 0) as Hfl.
    { intros E%nil_length_inv%finished_in_flight. congruence. }
    pose proof (inv_balance _ _ I) as Hb. pose proof (inv_sent _ _ I) as Hs.
    apply (f_equal length) in Hs. rewrite length_map, length_seq in Hs.
    rewrite (reachable_settled _ _ _ _ _ _ Hr) in Hb. repeat split; [lia|done|].
    intros w i o Hwi. unfold reachable in *. rewrite exec_app, Hr. simpl. unfold settle. rewrite Hwi.
    destruct (performance_now _) as [now t'].
    destruct (take_next _ _ _) as [w' st2]. eauto.
Qed.

(** C7.  The worker pool respects its bound: in every reachable state no more
    sends are in flight than [Math.max(1, Math.min(concurrency, count))], so
    never more than [concurrency] when that is at least one; and the pool is
    saturated: while indices are left, every worker has a send in flight. *)
Theorem runParallel_concurrency count concurrency build t sched st :
  reachable count concurrency build t sched st ->
  leb (of_nat (length (in_flight st))) (limit count concurrency) = true /\
  (leb (int 1) concurrency = true ->
     leb (of_nat (length (in_flight st))) concurrency = true) /\
  (next st < requests count -> length (in_flight st) = pool_size count concurrency).
Proof.
  intros Hr. pose proof (reachable_workers _ _ _ _ _ _ Hr) as Hw.
  assert (length (in_flight st) <= pool_size count concurrency) as Hle.
  { rewrite <- Hw. apply in_flight_length. }
  assert (leb (of_nat (length (in_flight st))) (limit count concurrency) = true) as Hlim.
  { unfold of_nat. rewrite leb_int_floor. apply Z.leb_le.
    pose proof (pool_size_pos count concurrency). unfold pool_size in *. lia. }
  split; [done|]. split.
  - intros Hc. eapply leb_trans; [exact Hlim|]. unfold limit. auto with console.
  - intros Hn. rewrite <- Hw. apply (in_flight_all build). intros Hfi.
    pose proof (inv_finished _ _ (reachable_invariant _ _ _ _ _ _ Hr) Hfi). lia.
Qed.

(** C31. Progress is reported once per settled send, in order: after some sends have
    settled [onProgress] was called as often, and its k-th report counts exactly
    the first k outcomes, of each kind, out of the run's total. *)
Theorem runParallel_progress count concurrency build t sched st :
  reachable count concurrency build t sched st ->
  length (progress st) = length sched /\
  forall k p, progress st !! k = Some p ->
    let os := take (S k) (map snd sched) in
    ok p = count_of Out_ok os /\ fail p = count_of Out_fail os /\
    duplicates p = count_of Out_duplicate os /\ total p = count.
Proof.
  intros Hr. split.
  - rewrite <- (reachable_settled _ _ _ _ _ _ Hr). apply (reachable_invariant _ _ _ _ _ _ Hr).
  - intros k p Hk os. destruct (progress_snapshots _ _ _ _ _ _ Hr k p Hk) as [e ->].
    fold os. by rewrite fold_outcomes.
Qed.

(** C22.  A sequential run sends the indices 0 .. requests-1 one after the other,
    pauses [staggerMs] between any two of them and never after the last (not at
    all when the stagger is not positive), reports progress after each, and its
    counters are the numbers of each outcome. *)
Theorem runSequential_trace count staggerMs build settles t :
  let '(res, evs, _) := runSequential count staggerMs build settles t in
  let os := map settles (seq 0 (requests count)) in
  steps evs = spaced staggerMs 0 (requests count) /\
  map settled_count (reports evs) = seq 1 (requests count) /\
  ok res = count_of Out_ok os /\ fail res = count_of Out_fail os /\
  duplicates res = count_of Out_duplicate os /\ total res = count.
Proof.
  unfold runSequential. destruct (performance_now t) as [started t1].
  pose proof (sequential_loop_spec count staggerMs build settles (requests count) 0 started
                (initial_result count) t1 eq_refl) as Hl.
  destruct (sequential_loop _ _ _ _ _ _ _ _ _) as [[r evs] t2]. cbn [fst snd] in Hl.
  destruct (performance_now t2) as [now t3]. destruct Hl as (-> & Hs & Hp).
  by rewrite fold_settles, fold_outcomes.
Qed.

(** C8.  The counters do not depend on the schedule: when the send of index [i]
    settles with outcome [f i] whenever it settles, a parallel run under any
    schedule and any concurrency counts exactly what the sequential run counts. *)
Theorem parallel_agrees_sequential count concurrency staggerMs build build' (f : nat -> outcome)
    t t' sched res st :
  runParallel count concurrency build t sched = Some (res, st) ->
  Forall (fun io => io.2 = f io.1) (settled_along count concurrency build t sched) ->
  let res' := fst (fst (runSequential count staggerMs build' f t')) in
  (ok res, fail res, duplicates res, total res) =
  (ok res', fail res', duplicates res', total res').
Proof.
  intros (st' & Hr & Hf & _ & e & ->)%runParallel_inv Hall.
  destruct (finished_run _ _ _ _ _ _ Hr Hf) as (Hs & _ & Hfl).
  pose proof (settled_permutation _ _ _ _ _ _ Hr) as Hp. rewrite Hfl, app_nil_r, Hs in Hp.
  assert (map snd (settled_along count concurrency build t sched) ≡ₚ
          map f (seq 0 (requests count))) as Ho.
  { rewrite <- Hp, map_map. apply reflexive_eq, map_ext_Forall, Hall. }
  rewrite (settled_tally _ _ _ _ _ _ Hr), fold_outcomes.
  unfold runSequential. destruct (performance_now t') as [started t1].
  pose proof (sequential_loop_spec count staggerMs build' f (requests count) 0 started
                (initial_result count) t1 eq_refl) as Hl.
  destruct (sequential_loop _ _ _ _ _ _ _ _ _) as [[r evs] t2]. cbn [fst snd] in Hl.
  destruct (performance_now t2) as [now t3]. destruct Hl as (-> & _ & _).
  rewrite fold_settles, fold_outcomes. simpl.
  by rewrite !(count_of_Permutation _ _ _ Ho).
Qed.

(** C30.  A run reports as its total the count it was given, but it issues
    [Math.ceil(count)] requests: the reported counters add up to the reported
    total exactly when the count is a non-negative integer. *)
Theorem reported_total count concurrency build t sched res st :
  runParallel count concurrency build t sched = Some (res, st) ->
  Z.of_nat (settled_count res) = Z.max 0 (Math_ceil (total res)) /\
  (eqb (of_nat (settled_count res)) (total res) = true <->
   leb (int 0) (total res) = true /\ eqb (int (Math_ceil (total res))) (total res) = true).
Proof.
  intros (st' & Hr & Hf & _ & e & ->)%runParallel_inv.
  destruct (finished_run _ _ _ _ _ _ Hr Hf) as (_ & Hl & _).
  pose proof (inv_total _ _ (reachable_invariant _ _ _ _ _ _ Hr)) as Ht.
  pose proof (reachable_settled _ _ _ _ _ _ Hr) as Hc.
  assert (settled_count (with_elapsed e (tally st')) = requests count) as Hs
    by (change (settled_count (tally st') = requests count); congruence).
  rewrite Hs. cbn [with_elapsed total]. rewrite Ht. unfold requests.
  assert (Z.of_nat (Z.to_nat (Math_ceil count)) = Z.max 0 (Math_ceil count)) as Hz by lia.
  split; [done|]. unfold of_nat. rewrite Hz, leb_int_floor, !eqb_int_ceil_floor, Z.leb_le.
  pose proof (Math_floor_ceil count). split; intros [H1 H2]; lia.
Qed.
End Properties.

(** * The properties at concrete runs *)

Section Witnesses.
#[local] Existing Instance sample_host.

(* Three requests over two workers; the second worker's sends settle first and last. *)
Definition demo_build (i : nat) : M nat := ret (10 * i).
Definition demo_tape : tape := Tape 0 0 0.
Definition demo_sched : list (nat * outcome) :=
  [(1, Out_ok); (0, Out_fail); (1, Out_duplicate)].
Definition demo_run : option (LoadRunResult * run) :=
  runParallel (int 3) (int 2) demo_build demo_tape demo_sched.

Example demo_settled :
  settled_along (int 3) (int 2) demo_build demo_tape demo_sched =
  [(1, Out_ok); (0, Out_fail); (2, Out_duplicate)].
Proof. vm_compute. reflexivity. Qed.

Lemma runParallel_complete_witness :
  exists res st, demo_run = Some (res, st) /\ sent st = [(0, 0); (1, 10); (2, 20)] /\
    map fst (sent st) = seq 0 3 /\ ok res = 1 /\ fail res = 1 /\ duplicates res = 1.
Proof.
  eexists _, _. split; [vm_compute; reflexivity|].
  edestruct (runParallel_complete (int 3) (int 2) demo_build demo_tape demo_sched)
    as (H1 & _ & H2 & H3 & H4 & _); [vm_compute; reflexivity|].
  split; [reflexivity|]. split; [exact H1|]. split; [exact H2|]. split; [exact H3|exact H4].
Defined.

Lemma runParallel_terminates_witness :
  exists st, reachable (int 3) (int 2) demo_build demo_tape [(1, Out_ok)] st /\
    exists w i, workers st !! w = Some (Sending i).
Proof.
  eexists. split; [vm_compute; reflexivity|].
  edestruct (runParallel_terminates (int 3) (int 2) demo_build demo_tape [(1, Out_ok)])
    as [(_ & Hl & _)|(_ & _ & Hw & _)]; [vm_compute; reflexivity|discriminate Hl|exact Hw].
Defined.

Lemma runParallel_concurrency_witness :
  exists st, reachable (int 30) (int 2) demo_build demo_tape [(1, Out_ok)] st /\
    length (in_flight st) = 2.
Proof.
  eexists. split; [vm_compute; reflexivity|].
  edestruct (runParallel_concurrency (int 30) (int 2) demo_build demo_tape [(1, Out_ok)])
    as (_ & _ & Hw); [vm_compute; reflexivity|]. apply Hw, Nat.ltb_lt. vm_compute. reflexivity.
Defined.

Lemma runParallel_progress_witness :
  exists st p, reachable (int 3) (int 2) demo_build demo_tape demo_sched st /\
    progress st !! 1 = Some p /\ (ok p, fail p, duplicates p) =
      (count_of Out_ok (take 2 (map snd demo_sched)), count_of Out_fail (take 2 (map snd demo_sched)),
       count_of Out_duplicate (take 2 (map snd demo_sched))).
Proof.
  eexists _, _. split; [vm_compute; reflexivity|]. split; [vm_compute; reflexivity|].
  edestruct (runParallel_progress (int 3) (int 2) demo_build demo_tape demo_sched) as [_ Hp];
    [vm_compute; reflexivity|].
  destruct (Hp 1 _ ltac:(vm_compute; reflexivity)) as (-> & -> & -> & _). reflexivity.
Defined.

Lemma parallel_agrees_sequential_witness :
  let f i := if i =? 0 then Out_fail else if i =? 1 then Out_ok else Out_duplicate in
  exists res st, demo_run = Some (res, st) /\
    ok res = ok (fst (fst (runSequential (int 3) (int 50) demo_build f demo_tape))).
Proof.
  intros f. eexists _, _. split; [vm_compute; reflexivity|].
  eassert (_ = _) as E;
    [eapply (parallel_agrees_sequential (int 3) (int 2) (int 50) demo_build demo_build f
       demo_tape demo_tape demo_sched); [vm_compute; reflexivity|]|].
  - rewrite demo_settled. repeat constructor.
  - exact (f_equal (fun q => fst (fst (fst q))) E).
Defined.

(* A count of 2.5 issues three requests and reports a total of 2.5. *)
Lemma reported_total_witness :
  exists res st, runParallel (Num 25 1) (int 2) demo_build demo_tape demo_sched = Some (res, st) /\
    settled_count res = 3 /\ total res = Num 25 1 /\
    eqb (of_nat (settled_count res)) (total res) <> true.
Proof.
  eexists _, _. split; [vm_compute; reflexivity|].
  edestruct (reported_total (Num 25 1) (int 2) demo_build demo_tape demo_sched)
    as [H1 H2]; [vm_compute; reflexivity|].
  split; [apply Nat2Z.inj; exact H1|]. split; [reflexivity|].
  intros [_ H]%H2. discriminate H.
Defined.
End Witnesses.
