(* ===== verification/Client.v ===== *)
(** * The API client (web/src/api/client.ts)

    A request is a call of the browser's fetch; what the network answers is the
    state of the world it runs in ([Network]).  Bodies are JavaScript values:
    the casts of the source check nothing, so the functions below are defined
    on every value a body can parse to, and throw where the source would. *)

From S2P Require Import Prelude JsNumber JsString JsValue Types.

(** ** The network *)

Record call : Type := Call {
  url : string;
  method : option string;
  body : option string;
  headers : list (string * string)
}.

Record response : Type := Response { status : Z; statusText : string; content : string }.

(** The browser's fetch and the base URL fixed when the console is built. *)
Class Network (W : Type) : Type := {
  fetch : call -> W -> result response * W;
  VITE_API_BASE : option string
}.

(** [res.ok]. *)
Definition res_ok (r : response) : bool := (200 <=? status r)%Z && (status r <=? 299)%Z.

(** [res.json()]. *)
Definition res_json (r : response) : result value :=
  match JSON_parse (content r) with
  | Some v => Ok v
  | None => Throw (SyntaxError "Unexpected token in JSON")
  end.

(** An asynchronous computation: a result, and the world it leaves. *)
Definition task (W A : Type) : Type := W -> result A * W.
Definition resolve {W A} (r : result A) : task W A := fun w => (r, w).
Definition await {W A B} (m : task W A) (k : A -> task W B) : task W B :=
  fun w => match m w with
           | (Ok a, w') => k a w'
           | (Throw e, w') => (Throw e, w')
           end.
Notation "x <-a m ;; k" := (await m (fun x => k))
  (at level 60, m at next level, right associativity) : console_scope.

(** ** Fields *)

Definition get_or (k : string) (d v : value) : result value :=
  x <-r get k v;; Ok (nullish x d).

Definition parseJSONField (v : value) : value :=
  match v with
  | VObj _ => v
  | VStr s =>
      match JSON_parse s with
      | Some (VObj props) => VObj props
      | _ => VNull
      end
  | _ => VNull
  end.

(** An object literal that starts with a spread: [{ ...v, k1: x1, ... }]. *)
Definition literal (v : value) (props : list (string * value)) : value :=
  VObj (assign (spread v) props).

Definition asDeliveryRow (d : value) : result value :=
  last_error <-r get_or "last_error" (VStr "") d;;
  priority <-r get_or "priority" (VStr "normal") d;;
  recipient <-r get "recipient" d;;
  template <-r get "template" d;;
  payload <-r get "payload" d;;
  scheduled_at <-r get_or "scheduled_at" VNull d;;
  Ok (literal d
        [("last_error", last_error); ("priority", priority);
         ("recipient", parseJSONField recipient); ("template", parseJSONField template);
         ("payload", parseJSONField payload); ("scheduled_at", scheduled_at)]).

Definition asAttempt (a : value) : result value :=
  error_message <-r get_or "error_message" (VStr "") a;;
  finished <-r get "finished_at" a;;
  started_at <-r get "started_at" a;;
  provider_response <-r get_or "provider_response" (VObj []) a;;
  Ok (literal a
        [("error_message", error_message); ("finished_at", nullish finished started_at);
         ("provider_response", provider_response)]).

Definition asAudit (e : value) : result value :=
  id <-r get "id" e;;
  delivery_id <-r get "delivery_id" e;;
  event_type <-r get "event_type" e;;
  payload <-r get "payload" e;;
  created_at <-r get "created_at" e;;
  Ok (VObj [("id", id); ("delivery_id", delivery_id); ("event_type", event_type);
            ("payload", nullish (parseJSONField payload) VUndef); ("created_at", created_at)]).

(** [payload && typeof payload === "object" && !Array.isArray(payload)]. *)
Definition object_or_empty (v : value) : value :=
  match v with VObj _ => v | _ => VObj [] end.

Definition asActivity (e : value) : result value :=
  payload <-r get "payload" e;;
  id <-r get "id" e;;
  delivery_id <-r get "delivery_id" e;;
  event_type <-r get "event_type" e;;
  created_at <-r get "created_at" e;;
  Ok (VObj [("id", id); ("delivery_id", delivery_id); ("event_type", event_type);
            ("payload", object_or_empty payload); ("created_at", created_at)]).

Definition asOutbox (o : value) : result value :=
  published_at <-r get_or "published_at" VNull o;;
  status <-r get "status" o;;
  Ok (literal o [("published_at", published_at); ("status", status)]).

(** [v.map(f)]: only arrays have the method. *)
Definition map_array (f : value -> result value) (v : value) : result value :=
  match v with
  | VArr l => l' <-r rmap f l;; Ok (VArr l')
  | _ => Throw (TypeError "map is not a function")
  end.

(** [(raw[k] ?? []).map(f)]. *)
Definition map_field (k : string) (f : value -> result value) (raw : value) : result value :=
  l <-r get_or k (VArr []) raw;; map_array f l.

Definition normalizeSummary (raw : value) : result value :=
  status_counts <-r get_or "status_counts" (VObj []) raw;;
  outbox_pending <-r get_or "outbox_pending" (VNum (int 0)) raw;;
  scheduled_due <-r get_or "scheduled_due" (VNum (int 0)) raw;;
  recent_activity <-r map_field "recent_activity" asActivity raw;;
  deliveries <-r map_field "deliveries" asDeliveryRow raw;;
  Ok (VObj [("status_counts", status_counts); ("outbox_pending", outbox_pending);
            ("scheduled_due", scheduled_due); ("recent_activity", recent_activity);
            ("deliveries", deliveries)]).

Definition normalizeDetail (raw : value) : result value :=
  d <-r get "delivery" raw;;
  delivery <-r asDeliveryRow d;;
  attempts <-r map_field "attempts" asAttempt raw;;
  audit <-r map_field "audit" asAudit raw;;
  outbox <-r map_field "outbox" asOutbox raw;;
  Ok (VObj [("delivery", delivery); ("attempts", attempts); ("audit", audit); ("outbox", outbox)]).

(** ** Requests *)

Record RequestInit : Type := Init {
  init_apiKey : option string;
  init_headers : list (string * string);
  init_method : option string;
  init_body : option string
}.

Section Requests.
Context {W : Type} `{Network W}.

Definition API_BASE : string := default "" VITE_API_BASE.

(** The headers of a request: the content type, the key when there is one, and
    the caller's own. *)
Definition request_headers (i : RequestInit) : list (string * string) :=
  assign (assign [("Content-Type", "application/json")]
            match init_apiKey i with
            | Some k => if bool_decide (k = "") then [] else [("X-API-Key", k)]
            | None => []
            end)
         (init_headers i).

(** The error of a response that is not ok. *)
Definition response_error (res : response) : exn :=
  let body := match res_json res with Ok v => v | Throw _ => VObj [] end in
  match get "error" body with
  | Ok e => Error (to_text (nullish e (VStr (statusText res))))
  | Throw e => e
  end.

Definition request (path : string) (init : RequestInit) : task W value :=
  res <-a fetch (Call (API_BASE +:+ path) (init_method init) (init_body init) (request_headers init));;
  if res_ok res then resolve (res_json res) else resolve (Throw (response_error res)).

Definition no_init : RequestInit := Init None [] None None.

Definition getHealth : task W value :=
  data <-a request "/health" no_init;;
  resolve (status <-r get "status" data;;
           time <-r get "time" data;;
           Ok (VObj [("status", VStr (if is_str "ok" status then "ok" else "down")); ("time", time)])).

(** The default of [limit] is 30. *)
Definition getSummary (limit : option num) : task W value :=
  data <-a request ("/v1/dashboard/summary?limit=" +:+ toString (default (int 30) limit)) no_init;;
  resolve (normalizeSummary data).

Definition getDelivery (id : string) : task W value :=
  data <-a request ("/v1/dashboard/deliveries/" +:+ id) no_init;;
  resolve (normalizeDetail data).

Definition sendNotification (req : SendNotificationReq.t) (apiKey : string) : task W value :=
  if bool_decide (apiKey = "") then resolve (Throw (Error "Missing X-API-Key"))
  else
    data <-a request "/v1/notifications"
               (Init (Some apiKey) [] (Some "POST")
                  (JSON_stringify (SendNotificationReq.to_value req)));;
    resolve (status <-r get "status" data;; Ok (literal data [("status", status)])).

Definition replayDelivery (id apiKey : string) : task W value :=
  if bool_decide (apiKey = "") then resolve (Throw (Error "Missing X-API-Key"))
  else
    data <-a request ("/v1/notifications/" +:+ id +:+ "/replay")
               (Init (Some apiKey) [] (Some "POST") None);;
    resolve (delivery_id <-r get "delivery_id" data;;
             status <-r get "status" data;;
             Ok (VObj [("delivery_id", delivery_id); ("status", status)])).
End Requests.

(** * What the normalisation promises

    The service omits empty fields and may send a JSON column as an object or as
    its text.  The readers below say what a wire value means; the theorems show
    that the normalised value has the interface's shape and that meaning. *)

(** A JSON column is an object, or the text of one. *)
Definition wire_record (v : value) : option record :=
  match v with
  | VObj props => Some props
  | VStr text => match JSON_parse text with Some (VObj props) => Some props | _ => None end
  | _ => None
  end.

Definition row_of_wire (v : value) : option DeliveryRow.t :=
  id ← as_string (field "id" v);
  idempotency_key ← as_string (field "idempotency_key" v);
  tenant_id ← as_optional as_string (field "tenant_id" v);
  channel ← as_enum (field "channel" v);
  priority ← as_nullable as_enum (field "priority" v);
  status ← as_enum (field "status" v);
  retry_count ← as_number (field "retry_count" v);
  last_error ← as_nullable as_string (field "last_error" v);
  correlation_id ← as_optional as_string (field "correlation_id" v);
  causation_id ← as_optional as_string (field "causation_id" v);
  created_at ← as_string (field "created_at" v);
  updated_at ← as_string (field "updated_at" v);
  scheduled_at ← as_nullable as_string (field "scheduled_at" v);
  Some (DeliveryRow.Make id idempotency_key tenant_id channel (default Normal priority) status
          retry_count (default "" last_error) (wire_record (field "recipient" v))
          (wire_record (field "template" v)) (wire_record (field "payload" v))
          correlation_id causation_id created_at updated_at scheduled_at).

Definition attempt_of_wire (v : value) : option AttemptRow.t :=
  id ← as_string (field "id" v);
  attempt_number ← as_number (field "attempt_number" v);
  success ← as_boolean (field "success" v);
  error_message ← as_nullable as_string (field "error_message" v);
  started_at ← as_string (field "started_at" v);
  finished_at ← as_nullable as_string (field "finished_at" v);
  provider_response ← as_nullable as_record (field "provider_response" v);
  Some (AttemptRow.Make id attempt_number success (default "" error_message) started_at
          (default started_at finished_at) (default [] provider_response)).

Definition audit_of_wire (v : value) : option AuditRow.t :=
  id ← as_number (field "id" v);
  delivery_id ← as_string (field "delivery_id" v);
  event_type ← as_string (field "event_type" v);
  created_at ← as_string (field "created_at" v);
  Some (AuditRow.Make id delivery_id event_type (wire_record (field "payload" v)) created_at).


Definition outbox_of_wire (v : value) : option OutboxRow.t :=
  id ← as_number (field "id" v);
  status ← as_enum (field "status" v);
  subject ← as_string (field "subject" v);
  attempts ← as_number (field "attempts" v);
  created_at ← as_string (field "created_at" v);
  published_at ← as_nullable as_string (field "published_at" v);
  Some (OutboxRow.Make id status subject attempts created_at published_at).

(** A missing or null array is empty. *)
Definition array_of_wire {T} (f : value -> option T) (v : value) : option (list T) :=
  match v with VUndef | VNull => Some [] | _ => as_array f v end.


Definition detail_of_wire (v : value) : option DeliveryDetailResp.t :=
  delivery ← row_of_wire (field "delivery" v);
  attempts ← array_of_wire attempt_of_wire (field "attempts" v);
  audit ← array_of_wire audit_of_wire (field "audit" v);
  outbox ← array_of_wire outbox_of_wire (field "outbox" v);
  Some (DeliveryDetailResp.Make delivery attempts audit outbox).

(** [norm] turns every wire value into one of the interface, with its meaning. *)
Definition conforms {T} (norm : value -> result value) (of_wire of_value : value -> option T) : Prop :=
  forall v x, of_wire v = Some x -> exists v', norm v = Ok v' /\ of_value v' = Some x.

(** ** Lemmas *)

Lemma get_obj k props : get k (VObj props) = Ok (field k (VObj props)).
Proof. reflexivity. Qed.

Lemma field_literal k props extra :
  field k (literal (VObj props) extra) =
  match lookup_prop k (rev extra) with Some x => x | None => field k (VObj props) end.
Proof. unfold literal, field at 1. cbn [spread]. rewrite lookup_assign. by destruct (lookup_prop k (rev extra)). Qed.

Lemma field_cons k k' x props :
  field k (VObj ((k', x) :: props)) = if bool_decide (k' = k) then x else field k (VObj props).
Proof. unfold field. simpl. by destruct (bool_decide (k' = k)). Qed.

Lemma field_defined {T} (f : value -> option T) k v x :
  f VUndef = None -> f (field k v) = Some x -> exists props, v = VObj props.
Proof. intros Hf. destruct v; simpl; rewrite ?Hf; try done; eauto. Qed.

Lemma read_default {T} (f : value -> option T) (x : T) d v y :
  f d = Some x -> as_nullable f v = Some y -> f (nullish v d) = Some (default x y).
Proof.
  intros Hd E. destruct v; try (injection E as <-; exact Hd);
    apply fmap_Some in E as (z & Ez & ->); exact Ez.
Qed.

Lemma read_null {T} (f : value -> option T) v y :
  as_nullable f v = Some y -> as_nullable f (nullish v VNull) = Some y.
Proof. by destruct v. Qed.

Lemma read_or_null {T} (f : value -> option T) v y :
  as_nullable f v = Some y -> as_null f (nullish v VNull) = Some y.
Proof. by destruct v. Qed.

Lemma read_json v : as_nullable as_record (parseJSONField v) = Some (wire_record v).
Proof.
  unfold wire_record, parseJSONField. destruct v; try done.
  by destruct (JSON_parse s) as [[]|].
Qed.

Lemma read_optional_json v :
  as_optional as_record (nullish (parseJSONField v) VUndef) = Some (wire_record v).
Proof.
  unfold wire_record, parseJSONField. destruct v; try done.
  by destruct (JSON_parse s) as [[]|].
Qed.

Lemma parseJSONField_cases v : parseJSONField v = VNull \/ exists props, parseJSONField v = VObj props.
Proof. unfold parseJSONField. destruct v; eauto. destruct (JSON_parse s) as [[]|]; eauto. Qed.

Arguments field : simpl never.

(** Read the bound fields of a wire reader. *)
Ltac wire_fields :=
  repeat match goal with
  | H : (_ ← ?m; _) = Some _ |- _ =>
      let E := fresh "E" in destruct m as [?|] eqn:E; cbn [mbind option_bind] in H; [|discriminate H]
  end.

(** Compute the fields of a normalised object. *)
Ltac literal_fields :=
  rewrite !field_literal; cbn [rev app lookup_prop]; decide_names.

(** Run a normaliser on an object. *)
Ltac run_object :=
  eexists; split; [unfold get_or, map_field; rewrite ?get_obj; cbn [rbind]; reflexivity|].

(** Rewrite with what the wire reader read. *)
Ltac use_fields :=
  repeat match goal with
  | H : as_nullable ?f ?v = Some _ |- context [?f (nullish ?v ?d)] =>
      rewrite (read_default f _ d v _ eq_refl H); cbn [mbind option_bind]
  | H : as_nullable ?f ?v = Some _, H' : ?f ?d = Some _ |- context [?f (nullish ?v ?d)] =>
      rewrite (read_default f _ d v _ H' H); cbn [mbind option_bind]
  | H : as_nullable ?f ?v = Some _ |- context [as_nullable ?f (nullish ?v VNull)] =>
      rewrite (read_null f v _ H); cbn [mbind option_bind]
  | |- context [as_nullable as_record (parseJSONField ?v)] =>
      rewrite (read_json v); cbn [mbind option_bind]
  | H : ?m = Some _ |- context [?m] => rewrite H; cbn [mbind option_bind]
  end.

Ltac object_fields := rewrite !field_cons; decide_names.

Lemma asDeliveryRow_conforms : conforms asDeliveryRow row_of_wire DeliveryRow.of_value.
Proof.
  intros v r Hw. unfold row_of_wire in Hw. wire_fields. injection Hw as <-.
  destruct (field_defined as_string _ _ _ eq_refl E) as [props ->].
  unfold asDeliveryRow. run_object. unfold DeliveryRow.of_value. literal_fields. use_fields. done.
Qed.

Lemma asAttempt_conforms : conforms asAttempt attempt_of_wire AttemptRow.of_value.
Proof.
  intros v r Hw. unfold attempt_of_wire in Hw. wire_fields. injection Hw as <-.
  destruct (field_defined as_string _ _ _ eq_refl E) as [props ->].
  unfold asAttempt. run_object. unfold AttemptRow.of_value. literal_fields.
  use_fields. done.
Qed.

Lemma asAudit_conforms : conforms asAudit audit_of_wire AuditRow.of_value.
Proof.
  intros v r Hw. unfold audit_of_wire in Hw. wire_fields. injection Hw as <-.
  destruct (field_defined as_number _ _ _ eq_refl E) as [props ->].
  unfold asAudit. run_object. unfold AuditRow.of_value. object_fields. use_fields.
  by rewrite read_optional_json.
Qed.


Lemma asOutbox_conforms : conforms asOutbox outbox_of_wire OutboxRow.of_value.
Proof.
  intros v r Hw. unfold outbox_of_wire in Hw. wire_fields. injection Hw as <-.
  destruct (field_defined as_number _ _ _ eq_refl E) as [props ->].
  unfold asOutbox. run_object. unfold OutboxRow.of_value. literal_fields.
  use_fields. by rewrite (read_or_null as_string _ _ E4).
Qed.

(** Normalising an array normalises its elements. *)
Lemma map_array_conforms {T} norm (of_wire of_value : value -> option T) l xs :
  conforms norm of_wire of_value -> mapM of_wire l = Some xs ->
  exists l', map_array norm (VArr l) = Ok (VArr l') /\ mapM of_value l' = Some xs.
Proof.
  intros Hn. revert xs. induction l as [|v l IH]; intros xs Hl.
  - injection Hl as <-. by exists [].
  - apply mapM_Some_1 in Hl. inversion Hl as [|? x ? xs' Hx Hxs]; subst.
    destruct (Hn v x Hx) as (v' & Hv & Hv').
    destruct (IH xs') as (l' & Hl' & Hm); [by apply mapM_Some_2|].
    exists (v' :: l'). simpl in *. rewrite Hv. simpl.
    destruct (rmap norm l) as [l2|]; simpl in *; [|done]. injection Hl' as ->.
    split; [done|]. rewrite Hv'. simpl. by rewrite Hm.
Qed.

Lemma map_field_conforms {T} norm (of_wire of_value : value -> option T) k props xs :
  conforms norm of_wire of_value -> array_of_wire of_wire (field k (VObj props)) = Some xs ->
  exists v', map_field k norm (VObj props) = Ok v' /\ as_array of_value v' = Some xs.
Proof.
  intros Hn Hl. unfold map_field, get_or. rewrite get_obj. cbn [rbind].
  destruct (field k (VObj props)); try discriminate Hl; simpl in Hl;
    try (injection Hl as <-; by exists (VArr [])).
  destruct (map_array_conforms norm of_wire of_value _ _ Hn Hl) as (l' & H1 & H2).
  by exists (VArr l').
Qed.

(** ** Normalising twice *)

Definition stable (norm : value -> result value) : Prop :=
  forall v v', norm v = Ok v' -> norm v' = Ok v'.

Lemma numeral_digits i : all_chars is_digit (Z_to_string (Z.of_nat i)) = true.
Proof.
  destruct (Z_to_string_digits (Z.of_nat i)) as (u & -> & _); [lia|]. apply uint_chars.
Qed.

(** A name that is not a numeral is not a key of a string or an array. *)
Lemma named_chars k i s : all_chars is_digit k = false -> lookup_prop k (chars_props i s) = None.
Proof.
  intros Hk. revert i. induction s as [|c s IH]; intros i; [done|]. cbn [chars_props lookup_prop].
  rewrite bool_decide_false; [apply IH|]. intros <-.
  by rewrite numeral_digits in Hk.
Qed.

Lemma named_items k i l : all_chars is_digit k = false -> lookup_prop k (items_props i l) = None.
Proof.
  intros Hk. revert i. induction l as [|x l IH]; intros i; [done|]. cbn [items_props lookup_prop].
  rewrite bool_decide_false; [apply IH|]. intros <-.
  by rewrite numeral_digits in Hk.
Qed.

Lemma field_literal_get k v x extra : all_chars is_digit k = false -> get k v = Ok x ->
  field k (literal v extra) = match lookup_prop k (rev extra) with Some y => y | None => x end.
Proof.
  intros Hk Hg. unfold literal, field. rewrite lookup_assign.
  destruct (lookup_prop k (rev extra)); [done|].
  destruct v; simpl in *; try discriminate Hg; try congruence.
  - rewrite (named_chars _ _ _ Hk). congruence.
  - rewrite (named_items _ _ _ Hk). congruence.
Qed.

Lemma nullish_twice v d : nullish (nullish v d) d = nullish v d.
Proof. destruct v; try done; by destruct d. Qed.

Lemma parse_twice v : parseJSONField (parseJSONField v) = parseJSONField v.
Proof. by destruct (parseJSONField_cases v) as [->|[props ->]]. Qed.

(** Assigning to a literal the properties it was made with, last names first. *)
Lemma literal_same v extra : NoDup extra.*1 -> literal (literal v extra) extra = literal v extra.
Proof.
  intros Hn. unfold literal at 1 3. f_equal. apply assign_same. apply Forall_forall. intros [k x] Hin.
  unfold literal. cbn [spread fst snd]. rewrite lookup_assign.
  assert (lookup_prop k (rev extra) = Some x) as ->; [|done].
  assert (NoDup (rev extra).*1) as Hn'.
  { by rewrite <- (Permutation_rev extra). }
  assert ((k, x) ∈ rev extra) as Hin' by (by rewrite <- (Permutation_rev extra)).
  clear Hn Hin. induction (rev extra) as [|[j y] l IH]; [set_solver|]. simpl.
  apply NoDup_cons in Hn' as [Hj Hn']. apply elem_of_cons in Hin' as [E|Hin'].
  - injection E as <- <-. by rewrite bool_decide_true.
  - rewrite bool_decide_false; [by apply IH|]. intros ->. apply Hj.
    by apply (list_elem_of_fmap_2 fst) in Hin'.
Qed.

(** Take apart the steps of a normaliser that returned. *)
Ltac returned H :=
  repeat match type of H with
  | (_ <-r ?m;; _) = Ok _ =>
      let E := fresh "E" in destruct m as [?|] eqn:E; cbn [rbind] in H; [|discriminate H]
  end; injection H as <-.

(** Read the fields of a literal from what was read to make it. *)
Ltac literal_get :=
  repeat match goal with
  | |- context [field ?k (literal ?v ?extra)] =>
      first [ erewrite (field_literal_get k v _ extra) by first [reflexivity | eassumption]
            ]; cbn [rev app lookup_prop]; decide_names
  end.

Lemma get_literal k v extra : get k (literal v extra) = Ok (field k (literal v extra)).
Proof. reflexivity. Qed.

Lemma get_or_inv k d v y : get_or k d v = Ok y -> exists x, get k v = Ok x /\ y = nullish x d.
Proof. unfold get_or. destruct (get k v) as [x|]; [|done]. intros [= <-]. eauto. Qed.

Ltac open_defaults :=
  repeat match goal with
  | H : get_or _ _ _ = Ok _ |- _ => apply get_or_inv in H as (? & H & ->)
  end.

(** A record normaliser, run on its own result. *)
Ltac literal_stable :=
  unfold get_or; rewrite !get_literal; cbn [rbind]; literal_get;
  rewrite ?parse_twice, ?nullish_twice;
  rewrite literal_same; [reflexivity|];
  apply (bool_decide_eq_true_1 _); vm_compute; reflexivity.

Lemma asDeliveryRow_stable : stable asDeliveryRow.
Proof.
  intros v v' H. unfold asDeliveryRow in H. returned H. open_defaults.
  unfold asDeliveryRow. literal_stable.
Qed.

Lemma asAttempt_stable : stable asAttempt.
Proof.
  intros v v' H. unfold asAttempt in H. returned H. open_defaults.
  unfold asAttempt. literal_stable.
Qed.

Lemma asOutbox_stable : stable asOutbox.
Proof.
  intros v v' H. unfold asOutbox in H. returned H. open_defaults.
  unfold asOutbox. literal_stable.
Qed.

Lemma asAudit_stable : stable asAudit.
Proof.
  intros v v' H. unfold asAudit in H. returned H. unfold asAudit.
  rewrite !get_obj. cbn [rbind]. object_fields.
  by destruct (parseJSONField_cases a2) as [->|[props ->]].
Qed.

Lemma asActivity_stable : stable asActivity.
Proof.
  intros v v' H. unfold asActivity in H. returned H. unfold asActivity.
  rewrite !get_obj. cbn [rbind]. object_fields. by destruct a.
Qed.

Lemma map_field_stable k f raw v : stable f -> map_field k f raw = Ok v ->
  map_array f v = Ok v /\ nullish v (VArr []) = v.
Proof.
  intros Hf. unfold map_field, map_array. destruct (get_or k _ raw) as [[]|]; try done.
  cbn [rbind]. destruct (rmap f l) as [l'|] eqn:E; [|done]. intros [= <-]. split; [|done].
  assert (rmap f l' = Ok l') as ->; [|done]. apply rmap_Ok in E. apply rmap_Ok.
  induction E as [|x y l l' Hx Hl IH]; constructor; [by eapply Hf|done].
Qed.

(** [map_field] on an object whose field is already normalised. *)
Lemma map_field_again k f raw l props : stable f -> map_field k f raw = Ok l ->
  field k (VObj props) = l -> map_field k f (VObj props) = Ok l.
Proof.
  intros Hf Hl <-. destruct (map_field_stable _ _ _ _ Hf Hl) as [H1 H2].
  unfold map_field, get_or. rewrite get_obj. cbn [rbind]. by rewrite H2, H1.
Qed.

(** * Properties *)


(** C15.  The same for the detail view: a delivery with its attempts, audit trail
    and outbox rows as the service sends them is normalised without a throw to a
    value of [DeliveryDetailResp] with the meaning the wire value has. *)
Theorem normalizeDetail_conforms :
  conforms normalizeDetail detail_of_wire DeliveryDetailResp.of_value.
Proof.
  intros v r Hw. unfold detail_of_wire in Hw. wire_fields. injection Hw as <-.
  destruct (field_defined row_of_wire _ _ _ eq_refl E) as [props ->].
  destruct (asDeliveryRow_conforms _ _ E) as (d & Hd & Hd').
  destruct (map_field_conforms asAttempt _ _ _ _ _ asAttempt_conforms E0) as (a & Ha & Ha').
  destruct (map_field_conforms asAudit _ _ _ _ _ asAudit_conforms E1) as (u & Hu & Hu').
  destruct (map_field_conforms asOutbox _ _ _ _ _ asOutbox_conforms E2) as (o & Ho & Ho').
  unfold normalizeDetail. rewrite get_obj. cbn [rbind]. rewrite Hd. cbn [rbind].
  rewrite Ha, Hu, Ho. cbn [rbind].
  eexists. split; [reflexivity|]. unfold DeliveryDetailResp.of_value. object_fields. use_fields. done.
Qed.

(** C25.  Normalising is idempotent: a summary or a detail view that was
    normalised, from any value at all, is left exactly as it is by normalising it
    again. *)
Theorem normalize_idempotent : stable normalizeSummary /\ stable normalizeDetail.
Proof.
  split; intros raw v H.
  - unfold normalizeSummary in H. returned H. open_defaults. unfold normalizeSummary.
    erewrite (map_field_again "recent_activity"); [|exact asActivity_stable|exact E2|by object_fields].
    erewrite (map_field_again "deliveries"); [|exact asDeliveryRow_stable|exact E3|by object_fields].
    unfold get_or. rewrite !get_obj. cbn [rbind]. object_fields. by rewrite !nullish_twice.
  - unfold normalizeDetail in H. returned H. unfold normalizeDetail.
    rewrite get_obj. cbn [rbind]. object_fields. rewrite (asDeliveryRow_stable _ _ E0). cbn [rbind].
    erewrite (map_field_again "attempts"); [|exact asAttempt_stable|exact E1|by object_fields].
    erewrite (map_field_again "audit"); [|exact asAudit_stable|exact E2|by object_fields].
    erewrite (map_field_again "outbox"); [|exact asOutbox_stable|exact E3|by object_fields].
    done.
Qed.

(** C26.  A JSON column that arrives as text is decoded back to the object it was
    written from, compactly or indented, where its numbers are integers. *)
Theorem parseJSONField_roundtrip props text : plain (VObj props) ->
  JSON_stringify (VObj props) = Some text \/ JSON_stringify2 (VObj props) = Some text ->
  parseJSONField (VStr text) = VObj props.
Proof.
  intros Hp [E|E]; unfold JSON_stringify, JSON_stringify2 in E;
    rewrite serialize_Some in E by done; injection E as <-; cbn [parseJSONField];
    rewrite parse_text_of; done.
Qed.

Section RequestFacts.
Context {W : Type} `{Network W}.

Lemma plain_request req : plain (VObj (SendNotificationReq.template_data req)) ->
  plain (SendNotificationReq.to_value req).
Proof.
  intros Hp. apply plain_obj. split; [reflexivity|].
  repeat apply Forall_cons_2; try exact I; [..|constructor];
    (apply plain_obj; split; [reflexivity|]; repeat apply Forall_cons_2; try exact I; [..|constructor]).
  exact Hp.
Qed.

(** What an answer of the network makes of a request: [request] returns it. *)
Definition answer (r : result response) : result value :=
  res <-r r;; if res_ok res then res_json res else Throw (response_error res).

Lemma request_answer path init w :
  request path init w =
  let '(r, w') := fetch (Call (API_BASE +:+ path) (init_method init) (init_body init)
                           (request_headers init)) w in (answer r, w').
Proof.
  unfold request, await. destruct (fetch _ w) as [[res|e] w']; [|done]. simpl.
  by destruct (res_ok res).
Qed.

(** The headers of a request with a key. *)
Lemma keyed_headers apiKey m b : apiKey <> "" ->
  request_headers (Init (Some apiKey) [] m b) =
    [("Content-Type", "application/json"); ("X-API-Key", apiKey)].
Proof. intros Hk. unfold request_headers. cbn [init_apiKey]. by rewrite bool_decide_false. Qed.

(** A submission with a key is one POST, and what it makes of the answer. *)
Lemma sendNotification_posts req apiKey w :
  plain (VObj (SendNotificationReq.template_data req)) -> apiKey <> "" ->
  sendNotification req apiKey w =
  let '(r, w') := fetch (Call (API_BASE +:+ "/v1/notifications") (Some "POST")
                           (Some (text_of "" "" (SendNotificationReq.to_value req)))
                           [("Content-Type", "application/json"); ("X-API-Key", apiKey)]) w in
  (data <-r answer r;; status <-r get "status" data;; Ok (literal data [("status", status)]), w').
Proof.
  intros Hp Hk. unfold sendNotification. rewrite bool_decide_false by done.
  unfold JSON_stringify. rewrite serialize_Some by (by apply plain_not_undef, plain_request).
  unfold await at 1. rewrite request_answer. cbn [init_method init_body]. rewrite keyed_headers by done.
  destruct (fetch _ w) as [r w']. by destruct (answer r).
Qed.

(** The body of a submission reads back as the request. *)
Lemma request_text_reads req : plain (VObj (SendNotificationReq.template_data req)) ->
  (v ← JSON_parse (text_of "" "" (SendNotificationReq.to_value req)); SendNotificationReq.of_value v) =
    Some req.
Proof.
  intros Hp. rewrite parse_text_of by (done || by apply plain_request).
  apply SendNotificationReq.of_to_value.
Qed.

(** A replay with a key is one POST without a body. *)
Lemma replayDelivery_posts id apiKey w : apiKey <> "" ->
  replayDelivery id apiKey w =
  let '(r, w') := fetch (Call (API_BASE +:+ "/v1/notifications/" +:+ id +:+ "/replay") (Some "POST") None
                           [("Content-Type", "application/json"); ("X-API-Key", apiKey)]) w in
  (data <-r answer r;; delivery_id <-r get "delivery_id" data;; status <-r get "status" data;;
   Ok (VObj [("delivery_id", delivery_id); ("status", status)]), w').
Proof.
  intros Hk. unfold replayDelivery. rewrite bool_decide_false by done.
  unfold await at 1. rewrite request_answer. cbn [init_method init_body]. rewrite keyed_headers by done.
  destruct (fetch _ w) as [r w']. by destruct (answer r).
Qed.

(** C16.  Submitting without a key fails before anything is sent.  With a key it
    is exactly one POST of /v1/notifications carrying that key, whose body reads
    back as the request, where the numbers of its template data are integers; a
    rejected or failed call rejects with the client's error, and an answer that has the response's shape resolves to a value with
    the same meaning. *)
Theorem sendNotification_call req apiKey w :
  plain (VObj (SendNotificationReq.template_data req)) ->
  (apiKey = "" -> sendNotification req apiKey w = (Throw (Error "Missing X-API-Key"), w)) /\
  (apiKey <> "" -> exists text out,
     (v ← JSON_parse text; SendNotificationReq.of_value v) = Some req /\
     let '(r, w') := fetch (Call (API_BASE +:+ "/v1/notifications") (Some "POST") (Some text)
                              [("Content-Type", "application/json"); ("X-API-Key", apiKey)]) w in
     sendNotification req apiKey w = (out, w') /\
     (forall e, answer r = Throw e -> out = Throw e) /\
     (forall v x, answer r = Ok v -> SendNotificationResp.of_value v = Some x ->
        exists v', out = Ok v' /\ SendNotificationResp.of_value v' = Some x)).
Proof.
  intros Hp. split; [intros ->; reflexivity|]. intros Hk.
  rewrite sendNotification_posts by done. eexists. destruct (fetch _ w) as [r w'] eqn:Hf.
  eexists. split; [by apply request_text_reads|]. rewrite Hf. split; [reflexivity|].
  destruct (answer r) as [v|e]; [|by split; [intros ? [= <-]|intros ? ? [=]]].
  split; [by intros ? [=]|].
  intros v' x [= <-] Hx. unfold SendNotificationResp.of_value in Hx. wire_fields.
  injection Hx as <-. destruct (field_defined as_string _ _ _ eq_refl E) as [props ->].
  cbn [rbind]. run_object. unfold SendNotificationResp.of_value. literal_fields. use_fields. done.
Qed.

(** C27.  A failed response becomes an error that says why: the [error] text of
    its JSON body when there is one, the status text when the body is not JSON or
    has no error. *)
Theorem request_failure path init w res w' :
  fetch (Call (API_BASE +:+ path) (init_method init) (init_body init) (request_headers init)) w =
    (Ok res, w') -> res_ok res = false ->
  match JSON_parse (content res) with
  | Some (VObj props) =>
      match lookup_prop "error" props with
      | Some (VStr s) => request path init w = (Throw (Error s), w')
      | None | Some VNull => request path init w = (Throw (Error (statusText res)), w')
      | Some v => exists s, request path init w = (Throw (Error s), w')
      end
  | Some VNull | Some VUndef => exists s, request path init w = (Throw (TypeError s), w')
  | Some _ => request path init w = (Throw (Error (statusText res)), w')
  | None => request path init w = (Throw (Error (statusText res)), w')
  end.
Proof.
  intros Hf Hok. rewrite request_answer, Hf. cbn [answer rbind]. rewrite Hok.
  unfold response_error, res_json.
  destruct (JSON_parse (content res)) as [[| | | | | |props]|] eqn:E; cbn [get]; eauto.
  destruct (lookup_prop "error" props) as [[]|]; cbn [get nullish]; eauto.
Qed.
End RequestFacts.

(** * The properties at concrete values *)

Section Witnesses.
(* A network that logs the calls and gives one answer. *)
Definition answering (r : response) : Network (list call) :=
  {| fetch c log := (Ok r, log ++ [c]); VITE_API_BASE := None |}.
Fixpoint with_quotes (s : string) : string :=
  match s with
  | "" => ""
  | String c s' => String (if bool_decide (c = "'"%char) then dquote else c) (with_quotes s')
  end.
Definition accepted : response :=
  Response 202 "Accepted" (with_quotes "{'delivery_id':'d1','status':'pending'}").
Definition demo_req : SendNotificationReq.t :=
  SendNotificationReq.Make "1.0" "load-1" Sms High "user@example.com" "welcome" [].

Definition wire_row : value :=
  VObj [("id", VStr "d1"); ("idempotency_key", VStr "k1"); ("channel", VStr "sms");
        ("priority", VNull); ("status", VStr "dlq"); ("retry_count", VNum (int 3));
        ("recipient", VStr (with_quotes "{'address':'user@example.com'}"));
        ("created_at", VStr "2024-01-01T00:00:00Z"); ("updated_at", VStr "2024-01-01T00:00:00Z")].
Definition wire_summary : value :=
  VObj [("status_counts", VObj [("dlq", VNum (int 1))]); ("outbox_pending", VNum (int 2));
        ("recent_activity", VNull); ("deliveries", VArr [wire_row])].


Lemma normalizeDetail_conforms_witness :
  exists v x, normalizeDetail (VObj [("delivery", wire_row)]) = Ok v /\
    DeliveryDetailResp.of_value v = Some x /\
    DeliveryRow.priority (DeliveryDetailResp.delivery x) = Normal.
Proof.
  destruct (detail_of_wire (VObj [("delivery", wire_row)])) as [x|] eqn:E;
    [|vm_compute in E; discriminate E].
  destruct (normalizeDetail_conforms _ x E) as (v & Hv & Hx).
  exists v, x. split; [exact Hv|]. split; [exact Hx|].
  vm_compute in E. injection E as <-. reflexivity.
Defined.

Lemma normalize_idempotent_witness :
  exists v, normalizeSummary wire_summary = Ok v /\ normalizeSummary v = Ok v.
Proof.
  eexists. split; [vm_compute; reflexivity|]. apply (proj1 normalize_idempotent wire_summary).
  vm_compute. reflexivity.
Defined.

Lemma parseJSONField_roundtrip_witness :
  parseJSONField (VStr (with_quotes "{'a':[1,'x']}")) = VObj [("a", VArr [VNum (int 1); VStr "x"])].
Proof.
  apply parseJSONField_roundtrip; [|left; vm_compute; reflexivity].
  apply plain_obj. split; [reflexivity|]. repeat constructor.
Defined.

Lemma sendNotification_call_witness :
  let net := answering accepted in
  fst (sendNotification demo_req "" []) = Throw (Error "Missing X-API-Key").
Proof.
  intros net. destruct (sendNotification_call demo_req "" []) as [H _].
  - apply plain_obj. split; [reflexivity|constructor].
  - rewrite (H eq_refl). reflexivity.
Defined.

Lemma request_failure_witness :
  let net := answering (Response 503 "Service Unavailable" "upstream") in
  fst (request "/health" no_init []) = Throw (Error "Service Unavailable").
Proof.
  intros net.
  pose proof (request_failure "/health" no_init [] (Response 503 "Service Unavailable" "upstream")
    [Call "/health" None None [("Content-Type", "application/json")]] eq_refl eq_refl) as H.
  vm_compute in H. vm_compute. exact (f_equal fst H).
Defined.
End Witnesses.
