(* ===== verification/UiKit.v ===== *)
(** * The controls of the console (web/src/components/ui)

    The wrappers the console is built from: each is an element of a Radix
    primitive or of HTML with the wrapper's classes, the caller's className
    merged last, and the caller's other props spread over it.  Refs are left
    out. *)

From S2P Require Import Prelude JsNumber JsString JsValue React.

Section UiKit.
Context `{Styling} {A : Type}.
Implicit Types (props : list (string * attr A)) (children : list (node A)).

(** [<Tag className={cn(...classes, className)} {...props}>]: [fixed] are the
    attributes the wrapper sets before the spread, [names] the other props it
    destructures. *)
Definition styled_except (names : list string) (tag : string) (fixed : list (string * attr A))
    (classes : list cls) props children : node A :=
  El tag (with_props (("className", AStr (cn (classes ++ [className_of props]))) :: fixed)
            (without ("className" :: names) props)) children.
Definition styled := styled_except [].

(** [const { name = d, ...props } = ...] for a string prop. *)
Definition str_prop (name : string) props : option string :=
  match attr_of name props with Some (AStr s) => Some s | _ => None end.
Definition bool_prop (name : string) props : option bool :=
  match attr_of name props with Some (ABool b) => Some b | _ => None end.

(** [const { name = d, ...props } = ...]: the default replaces a missing prop and an
    undefined one. *)
Definition prop_or (name : string) (d : attr A) props : attr A :=
  match attr_of name props with Some AUndef | None => d | Some a => a end.

(** ** button.tsx *)

Definition buttonVariants_base : string :=
  "inline-flex items-center justify-center gap-2 whitespace-nowrap rounded-md text-sm font-medium cursor-pointer transition-colors focus-visible:outline-none focus-visible:ring-1 focus-visible:ring-ring disabled:pointer-events-none disabled:opacity-50 disabled:cursor-not-allowed [&_svg]:pointer-events-none [&_svg]:size-4 [&_svg]:shrink-0".

Definition buttonVariants_config : cva_config :=
  CvaConfig
    [("variant",
      [("default", "bg-primary text-primary-foreground shadow hover:bg-primary/90");
       ("destructive", "bg-destructive text-destructive-foreground shadow-sm hover:bg-destructive/90");
       ("outline",
        "border border-input bg-background shadow-sm hover:bg-accent hover:text-accent-foreground");
       ("secondary", "bg-secondary text-secondary-foreground shadow-sm hover:bg-secondary/80");
       ("ghost", "hover:bg-accent hover:text-accent-foreground");
       ("link", "text-primary underline-offset-4 hover:underline")]);
     ("size",
      [("default", "h-9 px-4 py-2"); ("sm", "h-8 rounded-md px-3 text-xs");
       ("lg", "h-10 rounded-md px-8"); ("icon", "h-9 w-9")])]
    [("variant", "default"); ("size", "default")].

(** [buttonVariants({ variant, size, className })]. *)
Definition buttonVariants (variant size className : option string) : string :=
  cva buttonVariants_base buttonVariants_config [("variant", variant); ("size", size)] className.

Definition Button props children : node A :=
  El (if default false (bool_prop "asChild" props) then "Slot" else "button")
    (with_props
       [("className",
         AStr (cn [CStr (buttonVariants (str_prop "variant" props) (str_prop "size" props)
                           (str_prop "className" props))]))]
       (without ["className"; "variant"; "size"; "asChild"] props))
    children.

(** ** input.tsx, label.tsx, switch.tsx, checkbox.tsx *)

Definition Input props : node A :=
  El "input"
    (with_props
       [("type", default AUndef (attr_of "type" props));
        ("className", AStr (cn
          [CStr "flex h-9 w-full rounded-md border border-input bg-transparent px-3 py-1 text-base shadow-sm transition-colors file:border-0 file:bg-transparent file:text-sm file:font-medium file:text-foreground placeholder:text-muted-foreground focus-visible:outline-none focus-visible:ring-1 focus-visible:ring-ring disabled:cursor-not-allowed disabled:opacity-50 md:text-sm";
           className_of props]))]
       (without ["className"; "type"] props)) [].

Definition labelVariants : string :=
  cva "text-sm font-medium leading-none peer-disabled:cursor-not-allowed peer-disabled:opacity-70"
    (CvaConfig [] []) [] None.

Definition Label props children : node A :=
  styled "LabelPrimitive.Root" [] [CStr labelVariants] props children.

Definition Switch props : node A :=
  styled "SwitchPrimitives.Root" []
    [CStr "peer inline-flex h-5 w-9 shrink-0 cursor-pointer items-center rounded-full border-2 border-transparent shadow-sm transition-colors focus-visible:outline-none focus-visible:ring-2 focus-visible:ring-ring focus-visible:ring-offset-2 focus-visible:ring-offset-background disabled:cursor-not-allowed disabled:opacity-50 data-[state=checked]:bg-primary data-[state=unchecked]:bg-input"]
    props
    [El "SwitchPrimitives.Thumb"
       [("className", AStr (cn
          [CStr "pointer-events-none block h-4 w-4 rounded-full bg-background shadow-lg ring-0 transition-transform data-[state=checked]:translate-x-4 data-[state=unchecked]:translate-x-0"]))]
       []].

Definition Checkbox props : node A :=
  styled "CheckboxPrimitive.Root" []
    [CStr "grid place-content-center peer h-4 w-4 shrink-0 rounded-sm border border-primary shadow cursor-pointer focus-visible:outline-none focus-visible:ring-1 focus-visible:ring-ring disabled:cursor-not-allowed disabled:opacity-50 data-[state=checked]:bg-primary data-[state=checked]:text-primary-foreground"]
    props
    [El "CheckboxPrimitive.Indicator"
       [("className", AStr (cn [CStr "grid place-content-center text-current"]))]
       [El "lucide.Check" [("className", AStr "h-4 w-4")] []]].

(** ** select.tsx *)

Definition Select props children : node A := El "SelectPrimitive.Root" props children.
Definition SelectGroup props children : node A := El "SelectPrimitive.Group" props children.
Definition SelectValue props : node A := El "SelectPrimitive.Value" props [].

Definition SelectTrigger props children : node A :=
  styled "SelectPrimitive.Trigger" []
    [CStr "flex h-9 w-full items-center justify-between whitespace-nowrap rounded-md border border-input bg-transparent px-3 py-2 text-sm shadow-sm ring-offset-background cursor-pointer data-[placeholder]:text-muted-foreground focus:outline-none focus:ring-1 focus:ring-ring disabled:cursor-not-allowed disabled:opacity-50 [&>span]:line-clamp-1"]
    props
    (children ++
     [El "SelectPrimitive.Icon" [("asChild", ABool true)]
        [El "lucide.ChevronDown" [("className", AStr "h-4 w-4 opacity-50")] []]]).

Definition SelectScrollUpButton props : node A :=
  styled "SelectPrimitive.ScrollUpButton" []
    [CStr "flex cursor-default items-center justify-center py-1"] props
    [El "lucide.ChevronUp" [("className", AStr "h-4 w-4")] []].

Definition SelectScrollDownButton props : node A :=
  styled "SelectPrimitive.ScrollDownButton" []
    [CStr "flex cursor-default items-center justify-center py-1"] props
    [El "lucide.ChevronDown" [("className", AStr "h-4 w-4")] []].

Definition SelectContent props children : node A :=
  let position := default "popper" (str_prop "position" props) in
  let popper := bool_decide (position = "popper") in
  El "SelectPrimitive.Portal" []
    [El "SelectPrimitive.Content"
       (with_props
          [("className", AStr (cn
             [CStr "relative z-50 max-h-(--radix-select-content-available-height) min-w-[8rem] overflow-y-auto overflow-x-hidden rounded-md border bg-popover text-popover-foreground shadow-md data-[state=open]:animate-in data-[state=closed]:animate-out data-[state=closed]:fade-out-0 data-[state=open]:fade-in-0 data-[state=closed]:zoom-out-95 data-[state=open]:zoom-in-95 data-[side=bottom]:slide-in-from-top-2 data-[side=left]:slide-in-from-right-2 data-[side=right]:slide-in-from-left-2 data-[side=top]:slide-in-from-bottom-2 origin-(--radix-select-content-transform-origin)";
              cwhen popper
                "data-[side=bottom]:translate-y-1 data-[side=left]:-translate-x-1 data-[side=right]:translate-x-1 data-[side=top]:-translate-y-1";
              className_of props]));
           ("position", AStr position)]
          (without ["className"; "position"] props))
       [SelectScrollUpButton [];
        El "SelectPrimitive.Viewport"
          [("className", AStr (cn
             [CStr "p-1";
              cwhen popper
                "h-[var(--radix-select-trigger-height)] w-full min-w-[var(--radix-select-trigger-width)]"]))]
          children;
        SelectScrollDownButton []]].

Definition SelectLabel props children : node A :=
  styled "SelectPrimitive.Label" [] [CStr "px-2 py-1.5 text-sm font-semibold"] props children.

Definition SelectItem props children : node A :=
  styled "SelectPrimitive.Item" []
    [CStr "relative flex w-full cursor-default select-none items-center rounded-sm py-1.5 pl-2 pr-8 text-sm outline-none focus:bg-accent focus:text-accent-foreground data-[disabled]:pointer-events-none data-[disabled]:opacity-50"]
    props
    [El "span" [("className", AStr "absolute right-2 flex h-3.5 w-3.5 items-center justify-center")]
       [El "SelectPrimitive.ItemIndicator" []
          [El "lucide.Check" [("className", AStr "h-4 w-4")] []]];
     El "SelectPrimitive.ItemText" [] children].

Definition SelectSeparator props : node A :=
  styled "SelectPrimitive.Separator" [] [CStr "-mx-1 my-1 h-px bg-muted"] props [].

(** ** collapsible.tsx, scroll-area.tsx *)

Definition Collapsible props children : node A := El "CollapsiblePrimitive.Root" props children.
Definition CollapsibleTrigger props children : node A :=
  El "CollapsiblePrimitive.CollapsibleTrigger" props children.
Definition CollapsibleContent props children : node A :=
  El "CollapsiblePrimitive.CollapsibleContent" props children.

Definition ScrollBar props : node A :=
  let orientation := default "vertical" (str_prop "orientation" props) in
  styled_except ["orientation"] "ScrollAreaPrimitive.ScrollAreaScrollbar"
    [("orientation", prop_or "orientation" (AStr "vertical") props)]
    [CStr "flex touch-none select-none transition-colors";
     cwhen (bool_decide (orientation = "vertical")) "h-full w-2.5 border-l border-l-transparent p-[1px]";
     cwhen (bool_decide (orientation = "horizontal")) "h-2.5 flex-col border-t border-t-transparent p-[1px]"]
    props
    [El "ScrollAreaPrimitive.ScrollAreaThumb"
       [("className", AStr "relative flex-1 rounded-full bg-border")] []].

Definition ScrollArea props children : node A :=
  styled "ScrollAreaPrimitive.Root" [] [CStr "relative overflow-hidden"] props
    [El "ScrollAreaPrimitive.Viewport" [("className", AStr "h-full w-full rounded-[inherit]")] children;
     ScrollBar [];
     El "ScrollAreaPrimitive.Corner" [] []].
End UiKit.

(** ** Attributes a component leaves out *)

Lemma lookup_without {A} names k (props : list (string * attr A)) : k ∉ names ->
  lookup_prop k (without names props) = lookup_prop k props.
Proof.
  intros Hk. induction props as [|[j y] props IH]; [done|]. cbn [without List.filter fst].
  case_bool_decide as E; cbn [negb lookup_prop]; fold (without names props).
  - rewrite IH. case_bool_decide; [by subst|done].
  - by rewrite IH.
Qed.

Lemma lookup_without_in {A} names k (props : list (string * attr A)) : k ∈ names ->
  lookup_prop k (without names props) = None.
Proof.
  intros Hk. induction props as [|[j y] props IH]; [done|]. cbn [without List.filter fst].
  case_bool_decide as E; cbn [negb lookup_prop]; fold (without names props); [done|].
  case_bool_decide; [by subst|done].
Qed.

Lemma without_NoDup {A} names (props : list (string * attr A)) :
  NoDup props.*1 -> NoDup (without names props).*1.
Proof.
  induction props as [|[j y] props IH]; intros Hn; [done|]. apply NoDup_cons in Hn as [Hj Hn].
  cbn [without List.filter fst]. case_bool_decide; cbn [negb]; fold (without names props); [auto|].
  apply NoDup_cons. split; [|auto]. intros Hin. apply Hj.
  apply list_elem_of_fmap in Hin as ([i z] & -> & Hin). unfold without in Hin.
  apply elem_of_Lfilter in Hin as [Hin _]. apply list_elem_of_fmap. by exists (i, z).
Qed.
