(* ===== verification/Interact.v ===== *)
(** * What a user can do with a tree

    The actions a rendered tree offers: those its handlers dispatch, except the
    handlers of a disabled control.  A form is submitted through its default
    button, so it offers nothing while that button is disabled. *)

From S2P Require Import Prelude JsNumber JsString JsValue React UiKit.

(** Induction on a tree, with the hypothesis for every child. *)
Section NodeInduction.
Context {A : Type} (P : node A -> Prop).
Context (HText : forall s, P (Text s)) (HNum : forall n, P (NumText n)) (HNothing : P Nothing).
Context (HFrag : forall ch, Forall P ch -> P (Frag ch)).
Context (HEl : forall tag attrs ch, Forall P ch -> P (El tag attrs ch)).

Fixpoint node_induction (t : node A) : P t :=
  let all := fix all (l : list (node A)) : Forall P l :=
    match l with
    | [] => @List.Forall_nil _ P
    | x :: l' => @List.Forall_cons _ P x l' (node_induction x) (all l')
    end in
  match t with
  | Text s => HText s
  | NumText n => HNum n
  | Nothing => HNothing
  | Frag ch => HFrag ch (all ch)
  | El tag attrs ch => HEl tag attrs ch (all ch)
  end.
End NodeInduction.

Section Offers.
Context {A : Type}.
Implicit Types (attrs : list (string * attr A)) (ch : list (node A)).

(** The actions of a handler. *)
Definition yields (v : attr A) (a : A) : Prop :=
  match v with
  | AAct b => a = b
  | AText f => exists s, a = f s
  | AFlag f => exists b, a = f b
  | _ => False
  end.

(** A button submits unless it has another type. *)
Definition submits attrs : bool :=
  match attr_of "type" attrs with
  | Some (AStr s) => bool_decide (s = "submit")
  | _ => true
  end.

(** The default button of a form: the first that submits. *)
Definition default_button ch : option (list (string * attr A)) :=
  List.find submits (List.map fst (List.flat_map (elements "button") ch)).

Definition blocked (tag : string) attrs ch : bool :=
  disabled attrs ||
  (bool_decide (tag = "form") &&
   match default_button ch with Some b => disabled b | None => false end).

Inductive offered (a : A) : node A -> Prop :=
| offered_here tag attrs ch n v :
    blocked tag attrs ch = false -> (n, v) ∈ attrs -> yields v a -> offered a (El tag attrs ch)
| offered_child tag attrs ch t : t ∈ ch -> offered a t -> offered a (El tag attrs ch)
| offered_frag ch t : t ∈ ch -> offered a t -> offered a (Frag ch).

(** Every action that the handlers of a tree dispatch has a property, the
    disabled ones left out. *)
Definition attrs_offer (P : A -> Prop) attrs : Prop :=
  Forall (fun kv => forall a, yields kv.2 a -> P a) attrs.

Fixpoint offers_only (P : A -> Prop) (t : node A) : Prop :=
  match t with
  | Text _ | NumText _ | Nothing => True
  | Frag ch => foldr (fun x r => offers_only P x /\ r) True ch
  | El tag attrs ch =>
      (blocked tag attrs ch = false -> attrs_offer P attrs) /\
      foldr (fun x r => offers_only P x /\ r) True ch
  end.

Definition all_offer_only (P : A -> Prop) ch : Prop :=
  foldr (fun x r => offers_only P x /\ r) True ch.

Lemma all_offer_only_Forall P ch : all_offer_only P ch <-> Forall (offers_only P) ch.
Proof.
  induction ch as [|x ch IH]; cbn; [split; constructor|].
  rewrite Forall_cons. unfold all_offer_only in IH. by rewrite IH.
Qed.

Lemma all_offer_only_app P ch ch' :
  all_offer_only P (ch ++ ch') <-> all_offer_only P ch /\ all_offer_only P ch'.
Proof. by rewrite !all_offer_only_Forall, Forall_app. Qed.

Lemma all_offer_only_map P {B} (f : B -> node A) (l : list B) :
  (forall x, offers_only P (f x)) -> all_offer_only P (List.map f l).
Proof. intros Hf. rewrite all_offer_only_Forall. apply Forall_forall. intros x. rewrite list_elem_of_fmap. by intros (y & -> & _). Qed.

Lemma all_offer_only_imap P {B} (f : nat -> B -> node A) (l : list B) :
  (forall i x, offers_only P (f i x)) -> all_offer_only P (imap f l).
Proof.
  intros Hf. rewrite all_offer_only_Forall. apply Forall_lookup. intros i t.
  rewrite list_lookup_imap. destruct (l !! i); [|done]. by intros [= <-].
Qed.

Lemma offers_only_offered P t a : offers_only P t -> offered a t -> P a.
Proof.
  intros Ho Ht. revert Ho. induction Ht as [tag attrs ch n v Hb Hin Hy|tag attrs ch t Hin Ht IH|ch t Hin Ht IH].
  - intros [Ha _]. specialize (Ha Hb). unfold attrs_offer in Ha. rewrite Forall_forall in Ha.
    exact (Ha _ Hin a Hy).
  - intros [_ Hc]. apply IH. apply all_offer_only_Forall in Hc. rewrite Forall_forall in Hc. auto.
  - intros Hc. apply IH. apply (all_offer_only_Forall P) in Hc. rewrite Forall_forall in Hc. auto.
Qed.

Lemma attr_of_elem n v attrs : attr_of n attrs = Some v -> (n, v) ∈ attrs.
Proof.
  unfold attr_of. induction attrs as [|[m w] attrs IH]; [done|]. cbn [lookup_prop].
  case_bool_decide; [intros [= <-]; subst; left|right; auto].
Qed.

(** A handler of an element that is not blocked is offered. *)
Lemma offered_element tag t attrs ch n v a : (attrs, ch) ∈ elements tag t ->
  blocked tag attrs ch = false -> (n, v) ∈ attrs -> yields v a -> offered a t.
Proof.
  intros Hin Hb Hn Hy. revert Hin.
  assert (forall l, Forall (fun t => (attrs, ch) ∈ elements tag t -> offered a t) l ->
    (attrs, ch) ∈ List.flat_map (elements tag) l -> exists t, t ∈ l /\ offered a t) as Hl.
  { induction 1 as [|u l Hu _ IH]; cbn [List.flat_map]; [by intros ?%elem_of_nil|].
    rewrite elem_of_app. intros [Hi|Hi]; [by exists u; split; [left|auto]|].
    destruct (IH Hi) as (t' & Ht' & Ho). exists t'. by split; [right|]. }
  induction t as [s|m| |l IH|tg at' l IH] using node_induction; cbn [elements];
    try (by intros ?%elem_of_nil).
  - intros Hi. destruct (Hl _ IH Hi) as (u & Hu & Ho). by eapply offered_frag.
  - rewrite elem_of_app. intros [Hi|Hi].
    + case_bool_decide as Ht; [|by apply elem_of_nil in Hi]. subst tg.
      apply list_elem_of_singleton in Hi as [= <- <-]. by eapply offered_here.
    + destruct (Hl _ IH Hi) as (u & Hu & Ho). by eapply offered_child.
Qed.
End Offers.

(** ** The actions of a component inside a parent *)

Section Mapped.
Context {A B : Type} (f : A -> B).
Implicit Types (attrs : list (string * attr A)).

Definition map_attrs attrs : list (string * attr B) :=
  List.map (fun kv => (kv.1, map_attr f kv.2)) attrs.

Lemma attr_of_map n attrs : attr_of n (map_attrs attrs) = map_attr f <$> attr_of n attrs.
Proof.
  unfold attr_of. induction attrs as [|[m v] attrs IH]; [done|].
  cbn [map_attrs List.map fst snd lookup_prop]. by case_bool_decide.
Qed.

Lemma disabled_map attrs : disabled (map_attrs attrs) = disabled attrs.
Proof. unfold disabled. rewrite attr_of_map. by destruct (attr_of "disabled" attrs) as [[]|]. Qed.

Lemma submits_map attrs : submits (map_attrs attrs) = submits attrs.
Proof. unfold submits. rewrite attr_of_map. by destruct (attr_of "type" attrs) as [[]|]. Qed.

Lemma elements_map_node tag (t : node A) :
  elements tag (map_node f t) =
  List.map (fun e => (map_attrs e.1, List.map (map_node f) e.2)) (elements tag t).
Proof.
  assert (forall ch, Forall (fun t => elements tag (map_node f t) =
      List.map (fun e => (map_attrs e.1, List.map (map_node f) e.2)) (elements tag t)) ch ->
    List.flat_map (elements tag) (List.map (map_node f) ch) =
    List.map (fun e => (map_attrs e.1, List.map (map_node f) e.2)) (List.flat_map (elements tag) ch)) as Hch.
  { induction 1 as [|u ch Hu _ IH]; [done|]. cbn [List.map List.flat_map]. by rewrite Hu, IH, List.map_app. }
  induction t as [s|n| |ch IH|tg attrs ch IH] using node_induction; try done; cbn [map_node elements].
  - by apply Hch.
  - rewrite List.map_app, Hch by done. by case_bool_decide.
Qed.

Lemma blocked_map tag attrs (ch : list (node A)) :
  blocked tag (map_attrs attrs) (List.map (map_node f) ch) = blocked tag attrs ch.
Proof.
  unfold blocked, default_button. rewrite disabled_map. f_equal. f_equal.
  assert (List.map fst (List.flat_map (elements "button") (List.map (map_node f) ch)) =
    List.map map_attrs (List.map fst (List.flat_map (elements "button") ch))) as ->.
  { induction ch as [|t ch IH]; [done|]. cbn [List.map List.flat_map].
    by rewrite !List.map_app, IH, elements_map_node, !List.map_map. }
  induction (List.map fst (List.flat_map (elements "button") ch)) as [|b l IH]; [done|].
  cbn [List.map List.find]. rewrite submits_map. destruct (submits b); [apply disabled_map|done].
Qed.

Lemma yields_map v b : yields (map_attr f v) b -> exists a, b = f a /\ yields v a.
Proof. destruct v; cbn; try done; naive_solver. Qed.

(** What a mapped tree offers is what the tree offers. *)
Lemma offered_map b (t : node A) : offered b (map_node f t) -> exists a, b = f a /\ offered a t.
Proof.
  induction t as [s|n| |ch IH|tag attrs ch IH] using node_induction; cbn [map_node];
    inversion 1 as [tag' attrs' ch' n' v Hb Hin Hy|tag' attrs' ch' u Hin Ht|ch' u Hin Ht]; subst.
  - apply list_elem_of_fmap in Hin as (t' & -> & Hin). rewrite Forall_forall in IH.
    destruct (IH _ Hin Ht) as (a & -> & Ha). exists a. split; [done|]. by eapply offered_frag.
  - fold (map_attrs attrs) in Hb. rewrite blocked_map in Hb.
    apply list_elem_of_fmap in Hin as ([m w] & [= -> ->] & Hin).
    apply yields_map in Hy as (a & -> & Hy). exists a. split; [done|]. by eapply offered_here.
  - apply list_elem_of_fmap in Hin as (t' & -> & Hin). rewrite Forall_forall in IH.
    destruct (IH _ Hin Ht) as (a & -> & Ha). exists a. split; [done|]. by eapply offered_child.
Qed.

Lemma yields_map_intro v a : yields v a -> yields (map_attr f v) (f a).
Proof. destruct v; cbn; try done; naive_solver. Qed.

Lemma offered_map_intro a (t : node A) : offered a t -> offered (f a) (map_node f t).
Proof.
  induction 1 as [tag attrs ch n v Hb Hin Hy|tag attrs ch t Hin Ht IH|ch t Hin Ht IH]; cbn [map_node].
  - eapply (offered_here _ _ _ _ n (map_attr f v)); [by fold (map_attrs attrs); rewrite blocked_map| |by apply yields_map_intro].
    apply list_elem_of_fmap. by exists (n, v).
  - eapply offered_child; [|exact IH]. by apply list_elem_of_fmap_2.
  - eapply offered_frag; [|exact IH]. by apply list_elem_of_fmap_2.
Qed.

Lemma offers_map (P : B -> Prop) (t : node A) : offers_only (fun a => P (f a)) t -> offers_only P (map_node f t).
Proof.
  assert (forall ch, Forall (fun t => offers_only (fun a => P (f a)) t -> offers_only P (map_node f t)) ch ->
    all_offer_only (fun a => P (f a)) ch -> all_offer_only P (List.map (map_node f) ch)) as Hch.
  { induction 1 as [|u ch Hu _ IH]; [done|]. intros [H1 H2]. split; auto. }
  induction t as [s|n| |ch IH|tag attrs ch IH] using node_induction; try done; cbn [map_node offers_only].
  - by apply Hch.
  - intros [Ha Hc]. split; [|by apply Hch]. fold (map_attrs attrs). rewrite blocked_map.
    intros Hb. specialize (Ha Hb). unfold attrs_offer in *. apply List.Forall_map.
    eapply Forall_impl; [exact Ha|]. intros [n v] Hv b Hy. apply yields_map in Hy as (a & -> & Hy). by apply Hv.
Qed.
End Mapped.

(** ** The controls of the console *)

Section Kit.
Context `{Styling} {A : Type} (P : A -> Prop).
Implicit Types (attrs props : list (string * attr A)) (ch : list (node A)).

Lemma offers_El tag attrs ch : attrs_offer P attrs -> all_offer_only P ch -> offers_only P (El tag attrs ch).
Proof. done. Qed.

Lemma offers_blocked tag attrs ch : blocked tag attrs ch = true -> all_offer_only P ch ->
  offers_only P (El tag attrs ch).
Proof. intros Hb Hc. split; [congruence|exact Hc]. Qed.

Lemma offers_Frag ch : all_offer_only P ch -> offers_only P (Frag ch).
Proof. done. Qed.

Lemma attrs_offer_cons n v attrs : (forall a, yields v a -> P a) -> attrs_offer P attrs -> attrs_offer P ((n, v) :: attrs).
Proof. intros Hv Ha. by constructor. Qed.

Lemma attrs_offer_without names attrs : attrs_offer P attrs -> attrs_offer P (without names attrs).
Proof.
  unfold attrs_offer. rewrite !Forall_forall. intros Ha x Hx. apply Ha.
  apply list_elem_of_In in Hx. apply filter_In in Hx as [Hx _]. by apply list_elem_of_In.
Qed.

Lemma attrs_offer_set_prop attrs kv : attrs_offer P attrs -> (forall a, yields kv.2 a -> P a) ->
  attrs_offer P (set_prop attrs kv).
Proof.
  destruct kv as [n v]. intros Ha Hv. cbn [set_prop].
  destruct (lookup_prop n attrs);
    (induction Ha as [|[m w] attrs Hw Ha IH]; cbn [replace_prop insert_prop]; [by repeat constructor|]);
    repeat case_match; repeat constructor; done.
Qed.

Lemma attrs_offer_with_props base props : attrs_offer P base -> attrs_offer P props ->
  attrs_offer P (with_props base props).
Proof.
  unfold with_props, assign. intros Hb Hp. revert base Hb.
  induction Hp as [|kv props Hv _ IH]; intros base Hb; [done|]. cbn [fold_left].
  apply IH, attrs_offer_set_prop; done.
Qed.

Lemma attrs_offer_class n s attrs : attrs_offer P attrs -> attrs_offer P ((n, AStr s) :: attrs).
Proof. by constructor. Qed.

Lemma offers_styled_except names tag fixed classes props ch :
  attrs_offer P fixed -> attrs_offer P props -> all_offer_only P ch ->
  offers_only P (styled_except names tag fixed classes props ch).
Proof.
  intros Hf Hp Hc. apply offers_El; [|done].
  apply attrs_offer_with_props; [by constructor|by apply attrs_offer_without].
Qed.

Lemma offers_Button props ch : attrs_offer P props -> all_offer_only P ch -> offers_only P (Button props ch).
Proof.
  intros Hp Hc. apply offers_El; [|done].
  apply attrs_offer_with_props; [by repeat constructor|by apply attrs_offer_without].
Qed.

Lemma offers_Input props : attrs_offer P props -> offers_only P (Input props).
Proof.
  intros Hp. apply offers_El; [|done].
  apply attrs_offer_with_props; [|by apply attrs_offer_without].
  constructor; [|by repeat constructor]. cbn [snd]. intros a.
  destruct (attr_of "type" props) as [v|] eqn:E; [|done]. cbn [default]. revert a.
  unfold attr_of in E. induction Hp as [|[m w] attrs Hw _ IH]; [done|]. cbn [lookup_prop] in E.
  case_bool_decide; [by injection E as <-|auto].
Qed.

(** A disabled button offers what its children offer. *)
Lemma offers_Button_disabled props ch : 
  disabled (with_props [("className", AStr (cn [CStr (buttonVariants (str_prop "variant" props)
     (str_prop "size" props) (str_prop "className" props))]))]
     (without ["className"; "variant"; "size"; "asChild"] props)) = true ->
  all_offer_only P ch -> offers_only P (Button props ch).
Proof. intros Hd. apply offers_blocked. by apply orb_true_iff; left. Qed.

Lemma offers_when b (t : node A) : (b = true -> offers_only P t) -> offers_only P (when b t).
Proof. destruct b; [by auto|done]. Qed.

Lemma rmap_offers {B} (f : B -> result (node A)) l ts :
  (forall x t, f x = Ok t -> offers_only P t) -> rmap f l = Ok ts -> all_offer_only P ts.
Proof.
  intros Hf Hr. apply rmap_Ok in Hr. apply all_offer_only_Forall.
  induction Hr as [|x t xs ts Hx _ IH]; constructor; eauto.
Qed.

Lemma Ok_inj {T} (x y : T) : Ok x = Ok y -> x = y.
Proof. by intros [= ->]. Qed.

(** A tree that offers nothing. *)
Definition silent (t : node A) : Prop := forall Q, offers_only Q t.

Lemma rmap_silent {B} (f : B -> result (node A)) l ts :
  (forall x t, f x = Ok t -> silent t) -> rmap f l = Ok ts -> all_offer_only P ts.
Proof. intros Hf. apply (rmap_offers f). intros x t Hx. by eapply Hf. Qed.

Lemma all_offer_only_cons t ch : offers_only P t -> all_offer_only P ch -> all_offer_only P (t :: ch).
Proof. done. Qed.
End Kit.

(** ** Automation *)

(** Walk down a tree whose handlers all qualify: a conditional is split, and a
    component that is not one of the controls above is opened, unless the
    database [offers] has a lemma for it.  A component's tree inside its parent is
    left to [offers_map]. *)
Create HintDb offers discriminated.
#[export] Hint Constants Opaque : offers.

Ltac head_of t := lazymatch t with ?f _ => head_of f | _ => t end.

Ltac offers_step :=
  lazymatch goal with
  | |- all_offer_only _ [] => exact I
  | |- all_offer_only _ (_ :: _) => apply all_offer_only_cons
  | |- all_offer_only _ (_ ++ _) => apply all_offer_only_app; split
  | |- all_offer_only _ (List.map _ _) => apply all_offer_only_map; intros ?
  | |- all_offer_only _ (imap _ _) => apply all_offer_only_imap; intros ? ?
  | |- all_offer_only _ (if ?b then _ else _) => destruct b
  | |- all_offer_only _ ?l => let f := head_of l in progress unfold f
  | |- attrs_offer _ [] => apply List.Forall_nil
  | |- attrs_offer _ (_ :: _) =>
      apply attrs_offer_cons; [cbn [yields]; intros; try done; naive_solver|]
  | |- attrs_offer _ (with_props _ _) => apply attrs_offer_with_props
  | |- attrs_offer _ (without _ _) => apply attrs_offer_without
  | |- offers_only _ (Text _) => exact I
  | |- offers_only _ (NumText _) => exact I
  | |- offers_only _ Nothing => exact I
  | |- offers_only _ (Frag _) => apply offers_Frag
  | |- offers_only _ (map_node _ _) => fail
  | |- offers_only _ (El _ _ _) => apply offers_El
  | |- offers_only _ (when _ _) => apply offers_when; intros ?
  | |- offers_only _ (styled_except _ _ _ _ _ _) => apply offers_styled_except
  | |- offers_only _ (Button _ _) =>
      first [apply offers_Button_disabled; [reflexivity|] | apply offers_Button]
  | |- offers_only _ (Input _) => apply offers_Input
  | |- offers_only _ (if ?b then _ else _) => destruct b
  | |- offers_only _ (match ?b with _ => _ end) => destruct b eqn:?
  | |- offers_only _ ?t =>
      first [solve [auto 1 with offers] | let f := head_of t in progress unfold f]
  end.
Ltac offers := repeat offers_step.

(** Open the computations of a hypothesis that a rendering returned a tree. *)
Ltac open_result H :=
  repeat match type of H with
  | rbind ?m _ = Ok _ => let E := fresh "E" in destruct m eqn:E; cbn [rbind] in H; [|discriminate H]
  end;
  apply Ok_inj in H; destruct H.
