(* ===== verification/JsSort.v ===== *)
(** * Array.prototype.sort

    The language's Array_sort is stable, and takes a comparator that answers NaN as
    equal.  For a consistent comparator the result is the only stable
    arrangement ([sort_unique]); the definition is an insertion Array_sort. *)

From S2P Require Import Prelude.
From Stdlib Require Import Sorting.Sorted.

Section Sort.
Context {A : Type}.
(** [None] is NaN. *)
Variable cmp : A -> A -> option Z.

(** [x] may stand before [y]. *)
Definition before (x y : A) : bool := (default 0 (cmp x y) <=? 0)%Z.

Fixpoint sort_insert (x : A) (l : list A) : list A :=
  match l with
  | [] => [x]
  | y :: l' => if before x y then x :: l else y :: sort_insert x l'
  end.

Fixpoint Array_sort (l : list A) : list A :=
  match l with
  | [] => []
  | x :: l' => sort_insert x (Array_sort l')
  end.

Lemma sort_insert_Permutation x l : sort_insert x l ≡ₚ x :: l.
Proof.
  induction l as [|y l IH]; simpl; [done|]. destruct (before x y); [done|].
  rewrite IH. apply Permutation_swap.
Qed.

Lemma sort_Permutation l : Array_sort l ≡ₚ l.
Proof. induction l as [|x l IH]; simpl; [done|]. by rewrite sort_insert_Permutation, IH. Qed.

Lemma sort_length l : length (Array_sort l) = length l.
Proof. by rewrite sort_Permutation. Qed.

(** ** Consistent comparators *)

(** The comparator orders the elements of [l] by an integer key. *)
Definition keyed (key : A -> Z) (l : list A) : Prop :=
  forall x y, x ∈ l -> y ∈ l -> before x y = (key x <=? key y)%Z.

Lemma keyed_sub key l l' : l' ⊆ l -> keyed key l -> keyed key l'.
Proof. intros Hs Hk x y Hx Hy. apply Hk; by apply Hs. Qed.

Lemma sort_insert_sorted key x l : keyed key (x :: l) ->
  StronglySorted (fun a b => (key a <= key b)%Z) l ->
  StronglySorted (fun a b => (key a <= key b)%Z) (sort_insert x l).
Proof.
  intros Hk Hl. induction l as [|y l IH]; simpl; [by repeat constructor|].
  rewrite (Hk x y) by set_solver.
  inversion Hl as [|? ? Hl' Hy]; subst. destruct (Z.leb_spec (key x) (key y)).
  - constructor; [done|]. constructor; [done|].
    eapply List.Forall_impl, Hy. intros a Ha. simpl in Ha. lia.
  - constructor.
    + apply IH; [|done]. eapply keyed_sub, Hk. set_solver.
    + apply List.Forall_forall. intros a Ha%list_elem_of_In.
      rewrite sort_insert_Permutation in Ha. apply elem_of_cons in Ha as [->|Ha]; [lia|].
      rewrite List.Forall_forall in Hy. by apply Hy, list_elem_of_In.
Qed.

Lemma sort_sorted key l : keyed key l -> StronglySorted (fun a b => (key a <= key b)%Z) (Array_sort l).
Proof.
  induction l as [|x l IH]; simpl; intros Hk; [constructor|].
  apply sort_insert_sorted.
  - eapply keyed_sub, Hk. intros a Ha. rewrite sort_Permutation in Ha. done.
  - apply IH. eapply keyed_sub, Hk. set_solver.
Qed.

(** Elements of one key keep their order. *)
Lemma sort_insert_stable key k x l : keyed key (x :: l) ->
  StronglySorted (fun a b => (key a <= key b)%Z) l ->
  List.filter (fun a => (key a =? k)%Z) (sort_insert x l) =
  List.filter (fun a => (key a =? k)%Z) (x :: l).
Proof.
  intros Hk Hl. induction l as [|y l IH]; [done|].
  cbn [sort_insert]. rewrite (Hk x y) by set_solver.
  destruct (Z.leb_spec (key x) (key y)); [done|].
  inversion Hl; subst. cbn [List.filter].
  rewrite IH; [|eapply keyed_sub, Hk; set_solver|done]. cbn [List.filter].
  destruct (Z.eqb_spec (key y) k), (Z.eqb_spec (key x) k); try done; lia.
Qed.

Lemma sort_stable key k l : keyed key l ->
  List.filter (fun a => (key a =? k)%Z) (Array_sort l) = List.filter (fun a => (key a =? k)%Z) l.
Proof.
  induction l as [|x l IH]; intros Hk; [done|]. cbn [Array_sort].
  assert (keyed key l) as Hk' by (eapply keyed_sub, Hk; set_solver).
  rewrite (sort_insert_stable key).
  - cbn [List.filter]. by rewrite IH.
  - eapply keyed_sub, Hk. intros a Ha.
    apply elem_of_cons in Ha as [->|Ha]; [set_solver|]. rewrite sort_Permutation in Ha. set_solver.
  - by apply sort_sorted.
Qed.
End Sort.

(** A sorted list is determined by its elements of each key. *)
Lemma sorted_unique {A} (key : A -> Z) (l l' : list A) :
  StronglySorted (fun a b => (key a <= key b)%Z) l ->
  StronglySorted (fun a b => (key a <= key b)%Z) l' ->
  (forall k, List.filter (fun a => (key a =? k)%Z) l = List.filter (fun a => (key a =? k)%Z) l') ->
  l = l'.
Proof.
  assert (forall (m : list A), StronglySorted (fun a b => (key a <= key b)%Z) m ->
    forall y, y ∈ m -> forall h, hd_error m = Some h -> (key h <= key y)%Z) as Hhd.
  { intros m Hm y Hy h. inversion Hm as [|z m' Hm' Hz]; subst; [done|]. intros [= ->].
    apply elem_of_cons in Hy as [->|Hy]; [lia|]. rewrite List.Forall_forall in Hz.
    by apply Hz, list_elem_of_In. }
  assert (forall (m m' : list A) y, (forall k, List.filter (fun a => (key a =? k)%Z) m =
     List.filter (fun a => (key a =? k)%Z) m') -> y ∈ m -> y ∈ m') as Hin.
  { intros m m' y Hf Hy. assert (y ∈ List.filter (fun a => (key a =? key y)%Z) m) as H
      by (apply elem_of_Lfilter; split; [done|apply Z.eqb_refl]).
    rewrite Hf in H. by apply elem_of_Lfilter in H as [H _]. }
  intros Hl. revert l'. induction Hl as [|x l Hl IH Hx]; intros l' Hl' Hf.
  - destruct l' as [|y l']; [done|]. exfalso. specialize (Hf (key y)). simpl in Hf.
    by rewrite Z.eqb_refl in Hf.
  - destruct l' as [|y l'].
    { specialize (Hf (key x)). simpl in Hf. by rewrite Z.eqb_refl in Hf. }
    assert (key x = key y) as Hxy.
    { apply Z.le_antisymm.
      - eapply (Hhd (x :: l)); [by constructor| |done]. eapply Hin; [|by left].
        intros k. symmetry. apply Hf.
      - eapply (Hhd (y :: l')); [done| |done]. eapply Hin; [exact Hf|by left]. }
    pose proof (Hf (key x)) as Hfx. simpl in Hfx. rewrite <- Hxy, Z.eqb_refl in Hfx.
    injection Hfx as ->. f_equal. apply IH; [by inversion Hl'|].
    intros k. specialize (Hf k). simpl in Hf. destruct (key y =? k)%Z; [by injection Hf|done].
Qed.

(** The result is the only stable arrangement. *)
Lemma sort_unique {A} (cmp : A -> A -> option Z) (key : A -> Z) (l l' : list A) :
  keyed cmp key l -> StronglySorted (fun a b => (key a <= key b)%Z) l' ->
  (forall k, List.filter (fun a => (key a =? k)%Z) l' = List.filter (fun a => (key a =? k)%Z) l) ->
  l' = Array_sort cmp l.
Proof.
  intros Hk Hs Hf. apply (sorted_unique key); [done|by apply sort_sorted|].
  intros k. rewrite Hf. symmetry. by apply sort_stable.
Qed.
