(* ===== verification/Store.v ===== *)
(** * The shared state of the console

    The zustand store (web/src/stores/appStore.ts), the queries and mutations
    over it (web/src/hooks/useDashboard.ts) and the viewport hook
    (web/src/hooks/use-mobile.tsx).

    What the components do besides updating their own state is a list of
    effects; the state of a query, and when it refetches, belong to TanStack
    Query, so a query's result is a record a component is given. *)

From S2P Require Import Prelude JsNumber JsString JsValue Types Client.

(** ** appStore.ts *)

Record AppState : Type := App {
  apiKey : string;
  autoRefresh : bool;
  selectedDeliveryId : option string
}.

Inductive store_action : Type :=
| SetApiKey (k : string)
| SetAutoRefresh (v : bool)
| SetSelectedDeliveryId (id : option string).

Definition initial_state : AppState := App "dev-api-key" true None.

Definition store_step (a : store_action) (s : AppState) : AppState :=
  match a with
  | SetApiKey k => App k (autoRefresh s) (selectedDeliveryId s)
  | SetAutoRefresh v => App (apiKey s) v (selectedDeliveryId s)
  | SetSelectedDeliveryId id => App (apiKey s) (autoRefresh s) id
  end.

(** The part of the state that is written to local storage. *)
Definition partialize (s : AppState) : list (string * value) :=
  [("apiKey", VStr (apiKey s)); ("autoRefresh", VBool (autoRefresh s))].

(** ** Effects *)

Inductive toast_kind : Type := ToastMessage | ToastSuccess | ToastError.

Inductive effect : Type :=
| Dispatch (a : store_action)
| Invalidate (queryKey : list (option string))
| Toast (kind : toast_kind) (title : string) (description : option string)
| WriteText (s : string)
| SendMutation (req : SendNotificationReq.t)
| ReplayMutation (id : string).

Definition run_effect (s : AppState) (e : effect) : AppState :=
  match e with Dispatch a => store_step a s | _ => s end.
Definition run_effects (es : list effect) (s : AppState) : AppState := fold_left run_effect es s.

(** ** useDashboard.ts *)

(** What useQuery returns, as far as the components read it. *)
Record query (T : Type) : Type := Query {
  data : option T;
  isLoading : bool;
  isError : bool;
  isFetching : bool;
  error : option exn;
  dataUpdatedAt : Z
}.
Arguments Query {T}.
Arguments data {T}.
Arguments isLoading {T}.
Arguments isError {T}.
Arguments isFetching {T}.
Arguments error {T}.
Arguments dataUpdatedAt {T}.

(** The options of a query: [refetchInterval] is None for false, [retry] None for
    the default. *)
Record query_options (W : Type) : Type := QueryOptions {
  queryKey : list (option string);
  queryFn : task W value;
  enabled : bool;
  refetchInterval : option Z;
  retry : option bool
}.
Arguments QueryOptions {W}.
Arguments queryKey {W}.
Arguments queryFn {W}.
Arguments enabled {W}.
Arguments refetchInterval {W}.
Arguments retry {W}.

Section Hooks.
Context {W : Type} `{Network W}.

Definition useHealth (s : AppState) : query_options W :=
  QueryOptions [Some "health"] getHealth true (if autoRefresh s then Some 5000%Z else None)
    (Some false).

Definition useSummary (s : AppState) : query_options W :=
  QueryOptions [Some "summary"] (getSummary (Some (int 30))) true
    (if autoRefresh s then Some 2000%Z else None) None.

(** [!!id]. *)
Definition has_id (id : option string) : bool :=
  match id with Some i => negb (bool_decide (i = "")) | None => false end.

Definition useDeliveryDetail (id : option string) (s : AppState) : query_options W :=
  QueryOptions [Some "delivery"; id] (getDelivery (default "null" id)) (has_id id)
    (if autoRefresh s && has_id id then Some 2000%Z else None) None.

(** The mutations: the function they run, and what follows a success. *)
Definition useSendNotification_fn (s : AppState) (req : SendNotificationReq.t) : task W value :=
  sendNotification req (apiKey s).
Definition useSendNotification_onSuccess (res : SendNotificationResp.t) : list effect :=
  [Invalidate [Some "summary"];
   Dispatch (SetSelectedDeliveryId (Some (SendNotificationResp.delivery_id res)))].

Definition useReplay_fn (s : AppState) (id : string) : task W value :=
  replayDelivery id (apiKey s).
Definition useReplay_onSuccess (id : string) : list effect :=
  [Invalidate [Some "summary"]; Invalidate [Some "delivery"; Some id]].
End Hooks.

(** ** use-mobile.tsx *)

Definition MOBILE_BREAKPOINT : Z := 768.

Inductive viewport_event : Type :=
| Mounted (innerWidth : Z)
| Changed (innerWidth : Z)    (* the media query's change event *)
| Unmounted.

Record mobile_state : Type := Mobile { isMobile : option bool; listening : bool }.

Definition mobile_initial : mobile_state := Mobile None false.

Definition mobile_step (e : viewport_event) (s : mobile_state) : mobile_state :=
  match e with
  | Mounted w => Mobile (Some (w <? MOBILE_BREAKPOINT)%Z) true
  | Changed w =>
      if listening s then Mobile (Some (w <? MOBILE_BREAKPOINT)%Z) true else s
  | Unmounted => Mobile (isMobile s) false
  end.

Definition useIsMobile (s : mobile_state) : bool := default false (isMobile s).

(** The media query of the listener. *)
Definition mobile_query : string :=
  "(max-width: " +:+ Z_to_string (MOBILE_BREAKPOINT - 1) +:+ "px)".
