(* ===== verification/StatusViews.v ===== *)
(** * Status views: StatusBadge, PipelineFlow and StatsBar
    (web/src/components/ops) *)

From S2P Require Import Prelude JsNumber JsString JsValue JsDate React Types LoadConfig Store.

(** The attributes most elements have. *)
Definition class {A} (s : string) : string * attr A := ("className", AStr s).
Definition key {A} (s : string) : string * attr A := ("key", AStr s).

(** ** StatusBadge.tsx *)

Section StatusBadge.
Context `{Styling} {A : Type}.

(** [TONE[status]]: the tone and the label of a status. *)
Definition TONE (s : DeliveryStatus) : Tone * string :=
  match s with
  | Succeeded => (Tone_success, "succeeded")
  | Queued => (Tone_warning, "queued")
  | Processing => (Tone_warning, "processing")
  | Retrying => (Tone_warning, "retrying")
  | Pending => (Tone_warning, "pending")
  | Dlq => (Tone_danger, "dlq")
  | Failed => (Tone_danger, "failed")
  | Rejected => (Tone_danger, "rejected")
  | Cancelled => (Tone_neutral, "cancelled")
  end.

Definition is_tone (t u : Tone) : bool := bool_decide (t = u).

Definition StatusBadge (status : DeliveryStatus) (className : option string) : node A :=
  let '(tone, label) := TONE status in
  El "span"
    [class (cn
       [CStr "inline-flex items-center gap-1.5 rounded-md border px-1.5 py-0.5 text-[11px] font-medium uppercase tracking-wide mono";
        cwhen (is_tone tone Tone_success) "border-status-success/30 bg-status-success/10 text-status-success";
        cwhen (is_tone tone Tone_warning) "border-status-warning/30 bg-status-warning/10 text-status-warning";
        cwhen (is_tone tone Tone_danger) "border-status-danger/30 bg-status-danger/10 text-status-danger";
        cwhen (is_tone tone Tone_neutral) "border-status-neutral/30 bg-status-neutral/10 text-status-neutral";
        copt className])]
    [El "span"
       [class (cn
          [CStr "h-1.5 w-1.5 rounded-full";
           cwhen (is_tone tone Tone_success) "bg-status-success";
           cwhen (is_tone tone Tone_warning) "bg-status-warning animate-pulse";
           cwhen (is_tone tone Tone_danger) "bg-status-danger";
           cwhen (is_tone tone Tone_neutral) "bg-status-neutral"])] [];
     Text label].
End StatusBadge.

(** ** PipelineFlow.tsx *)

Inductive StepId : Type := Ingest | Pg | Outbox | Nats | Worker | Provider.
#[export] Instance StepId_eq_dec : EqDecision StepId.
Proof. solve_decision. Defined.

Definition StepId_text (s : StepId) : string :=
  match s with
  | Ingest => "ingest" | Pg => "pg" | Outbox => "outbox" | Nats => "nats"
  | Worker => "worker" | Provider => "provider"
  end.

(** A step: its id, its label, and the lucide icon. *)
Record step : Type := Step { step_id : StepId; step_label : string; step_icon : string }.

Definition STEPS : list step :=
  [ Step Ingest "Ingest API" "lucide.Inbox";
    Step Pg "PostgreSQL" "lucide.Database";
    Step Outbox "Outbox" "lucide.Send";
    Step Nats "NATS JetStream" "lucide.Network";
    Step Worker "Worker" "lucide.Server";
    Step Provider "Provider" "lucide.Mail" ].

Definition activeStepsFor (status : option DeliveryStatus) : list StepId :=
  match status with
  | None => []
  | Some Pending => [Ingest]
  | Some Queued => [Ingest; Pg; Outbox]
  | Some Processing | Some Retrying => [Ingest; Pg; Outbox; Nats; Worker]
  | Some Succeeded => [Ingest; Pg; Outbox; Nats; Worker; Provider]
  | Some Dlq | Some Failed | Some Rejected => [Ingest; Pg; Outbox; Nats; Worker]
  | Some Cancelled => [Ingest; Pg]
  end.

Definition tone (status : option DeliveryStatus) : Tone :=
  match status with
  | None => Tone_neutral
  | Some Succeeded => Tone_success
  | Some Dlq | Some Failed | Some Rejected => Tone_danger
  | Some Cancelled => Tone_neutral
  | Some _ => Tone_warning
  end.

Section PipelineFlow.
Context `{Styling} {A : Type}.

(** [STEPS[STEPS.length - 1].id]. *)
Definition head_step : option StepId := step_id <$> STEPS !! (length STEPS - 1)%nat.

(** The last active step of a delivery that is neither done nor neutral. *)
Definition stoppedAt (status : option DeliveryStatus) : option StepId :=
  let t := tone status in
  if bool_decide (status <> None) && negb (is_tone t Tone_success) && negb (is_tone t Tone_neutral)
  then last (activeStepsFor status) else None.

Definition has (active : list StepId) (s : StepId) : bool := bool_decide (s ∈ active).

Definition isHead (status : option DeliveryStatus) (s : StepId) : bool :=
  bool_decide (stoppedAt status = Some s) ||
  (is_tone (tone status) Tone_success && bool_decide (head_step = Some s)).

(** The colour of the link between a step and the next. *)
Definition link_class (status : option DeliveryStatus) (s next : StepId) : string :=
  let active := activeStepsFor status in
  if has active s && has active next then
    if is_tone (tone status) Tone_danger then "bg-status-danger/50"
    else if is_tone (tone status) Tone_success then "bg-status-success/50"
    else "bg-status-warning/50"
  else "bg-border".

Definition step_view (status : option DeliveryStatus) (idx : nat) (s : step) : node A :=
  let t := tone status in
  let isActive := has (activeStepsFor status) (step_id s) in
  let head := isHead status (step_id s) in
  Frag
    [El "div" [class "flex min-w-[110px] flex-1 flex-col items-center gap-1.5"]
       [El "div"
          [class (cn
             [CStr "grid h-10 w-10 place-items-center rounded-md border transition-colors";
              cwhen (negb isActive) "border-border bg-background text-muted-foreground";
              cwhen (isActive && is_tone t Tone_warning) "border-status-warning/40 bg-status-warning/10 text-status-warning";
              cwhen (isActive && is_tone t Tone_success) "border-status-success/40 bg-status-success/10 text-status-success";
              cwhen (isActive && is_tone t Tone_danger) "border-status-danger/40 bg-status-danger/10 text-status-danger";
              cwhen (isActive && is_tone t Tone_neutral) "border-border bg-secondary text-foreground";
              cwhen head "ring-2 ring-offset-2 ring-offset-card";
              cwhen (head && is_tone t Tone_warning) "ring-status-warning/50";
              cwhen (head && is_tone t Tone_success) "ring-status-success/50";
              cwhen (head && is_tone t Tone_danger) "ring-status-danger/50"])]
          [El (step_icon s) [class "h-4 w-4"] []];
        El "div"
          [class (cn [CStr "text-[11px] mono";
                      CStr (if isActive then "text-foreground" else "text-muted-foreground")])]
          [Text (step_label s)]];
     match STEPS !! S idx with
     | Some next =>
         when (idx <? length STEPS - 1)%nat
           (El "div" [class "flex flex-1 items-center pt-5"]
              [El "div"
                 [class (cn [CStr "h-px w-full"; CStr (link_class status (step_id s) (step_id next))])]
                 []])
     | None => Nothing
     end].

Definition PipelineFlow (selectedStatus : option DeliveryStatus) : node A :=
  El "div" [class "rounded-lg border border-border bg-card"]
    [El "div" [class "flex items-center justify-between gap-4 border-b border-border px-4 py-2"]
       [El "div" [class "text-xs font-medium uppercase tracking-wider text-muted-foreground"]
          [Text "Pipeline"];
        match selectedStatus with
        | Some s =>
            El "div" [class "text-[11px] text-muted-foreground mono"]
              [Text "tracking selected delivery → ";
               El "span" [class "text-foreground"] [Text (enum_text s)]]
        | None =>
            El "div" [class "text-[11px] text-muted-foreground"]
              [Text "Select a delivery to trace its position"]
        end];
     El "div" [class "flex items-stretch gap-1 overflow-x-auto px-3 py-4"]
       (imap (step_view selectedStatus) STEPS)].
End PipelineFlow.

(** ** StatsBar.tsx *)

Definition STATUS_ORDER : list DeliveryStatus :=
  [Succeeded; Processing; Queued; Retrying; Pending; Dlq; Failed; Rejected; Cancelled].

(** [useStaleSeconds]: the seconds shown, the instant the value became positive,
    and whether the interval runs. *)
Record stale : Type := Stale { seconds : Z; startedAt : option Z; ticking : bool }.

Definition stale_initial : stale := Stale 0 None false.

Inductive stale_event : Type :=
(** The effect runs: at mount and whenever the value changes. *)
| ValueSet (value : num) (now : Z)
(** The interval fires. *)
| Ticked (now : Z).

Definition stale_step (e : stale_event) (s : stale) : stale :=
  match e with
  | ValueSet value now =>
      if ltb (int 0) value
      then Stale (seconds s) (Some (default now (startedAt s))) true
      else Stale 0 None false
  | Ticked now =>
      if ticking s
      then Stale ((now - default now (startedAt s)) / 1000) (startedAt s) true
      else s
  end.

Section StatsBar.
Context `{Styling} {A : Type}.

Definition Kpi (label : string) (value : num) (icon : node A) (t : Tone) (hint : option string) :
    node A :=
  let color :=
    match t with
    | Tone_danger => "text-status-danger"
    | Tone_warning => "text-status-warning"
    | Tone_success => "text-status-success"
    | Tone_neutral => "text-foreground"
    end in
  El "div" [class "rounded-lg border border-border bg-card p-3"]
    [El "div" [class "mb-1 flex items-center gap-2 text-[11px] uppercase tracking-wider text-muted-foreground"]
       [icon; Text label];
     El "div" [class ("mono text-2xl font-semibold tabular-nums " +:+ color)] [NumText value];
     match hint with
     | Some h => when (negb (bool_decide (h = "")))
                   (El "div" [class "text-[11px] text-muted-foreground mt-0.5"] [Text h])
     | None => Nothing
     end].

(** [summary?.status_counts?.[s] ?? 0]. *)
Definition count_for (summary : option DashboardSummary.t) (s : DeliveryStatus) : num :=
  match summary with
  | Some r => default (int 0) (DashboardSummary.status_counts r s)
  | None => int 0
  end.

Definition status_count_view (summary : option DashboardSummary.t) (s : DeliveryStatus) : node A :=
  let c := count_for summary s in
  if negb (JsNumber.truthy c) then Nothing
  else El "span" [key (enum_text s); class "inline-flex items-center gap-1.5"]
         [StatusBadge s None; El "span" [class "mono text-xs text-foreground"] [NumText c]].

Definition outboxPending (summary : option DashboardSummary.t) : num :=
  match summary with Some r => DashboardSummary.outbox_pending r | None => int 0 end.
Definition scheduledDue (summary : option DashboardSummary.t) : num :=
  match summary with Some r => DashboardSummary.scheduled_due r | None => int 0 end.
Definition total_deliveries (summary : option DashboardSummary.t) : num :=
  match summary with
  | Some r => of_nat (length (DashboardSummary.deliveries r))
  | None => int 0
  end.

Definition outboxAlert (pending : num) (staleSeconds : Z) : bool :=
  ltb (int 0) pending && (30 <? staleSeconds)%Z.

Definition StatsBar (summary : option DashboardSummary.t) (staleSeconds : Z) : node A :=
  let pending := outboxPending summary in
  let due := scheduledDue summary in
  let alert := outboxAlert pending staleSeconds in
  El "div" [class "grid grid-cols-2 gap-3 md:grid-cols-4"]
    [Kpi "Outbox pending" pending (El "lucide.Database" [class "h-3.5 w-3.5"] [])
       (if alert then Tone_danger else if ltb (int 0) pending then Tone_warning else Tone_neutral)
       (Some (if alert then "stuck " +:+ Z_to_string staleSeconds +:+ "s" else "publish backlog"));
     Kpi "Scheduled due" due (El "lucide.Clock" [class "h-3.5 w-3.5"] [])
       (if ltb (int 0) due then Tone_warning else Tone_neutral) (Some "ready to fire");
     Kpi "Total deliveries" (total_deliveries summary)
       (El "lucide.Layers" [class "h-3.5 w-3.5"] []) Tone_neutral (Some "in current window");
     El "div" [class "rounded-lg border border-border bg-card p-3"]
       [El "div" [class "mb-2 flex items-center gap-2 text-[11px] uppercase tracking-wider text-muted-foreground"]
          [El "lucide.AlertTriangle" [class "h-3.5 w-3.5"] []; Text " By status"];
        El "div" [class "flex flex-wrap gap-1.5"]
          (map (status_count_view summary) STATUS_ORDER ++
           [when (forallb (fun s => negb (JsNumber.truthy (count_for summary s))) STATUS_ORDER)
              (El "span" [class "text-xs text-muted-foreground"] [Text "No deliveries"])])]].
End StatsBar.

(** * Properties *)

(** The colour of the links between lit steps. *)
Definition lit_link (t : Tone) : string :=
  match t with
  | Tone_danger => "bg-status-danger/50"
  | Tone_success => "bg-status-success/50"
  | _ => "bg-status-warning/50"
  end.

(** The pipeline view is consistent: the steps it lights are an initial segment of
    the pipeline; its tone is the tone of the status badge; it rings the last lit
    step and no other, or none when the tone is neutral (nothing selected, or
    cancelled); and the links up to the last lit step, and no others, have the
    colour of the tone. *)
Theorem pipeline_consistent status :
  let n := length (activeStepsFor status) in
  activeStepsFor status = take n (map step_id STEPS) /\
  tone status = match status with Some s => fst (TONE s) | None => Tone_neutral end /\
  List.filter (isHead status) (map step_id STEPS) =
    (if is_tone (tone status) Tone_neutral then []
     else match last (activeStepsFor status) with Some s => [s] | None => [] end) /\
  map (fun p => link_class status p.1 p.2) (zip (map step_id STEPS) (tail (map step_id STEPS))) =
    repeat (lit_link (tone status)) (n - 1) ++ repeat "bg-border" (5 - (n - 1)).
Proof. by destruct status as [[]|]. Qed.

(** *** The stuck-outbox alert *)

Definition run_stale (es : list stale_event) : stale := fold_left (fun s e => stale_step e s) es stale_initial.

(** The value of the last [ValueSet], [v] when there is none. *)
Definition last_value (v : num) (es : list stale_event) : num :=
  fold_left (fun v e => match e with ValueSet w _ => w | Ticked _ => v end) es v.

(** The time of the last [Ticked]. *)
Definition last_tick (es : list stale_event) : option Z :=
  fold_left (fun t e => match e with ValueSet _ _ => t | Ticked t' => Some t' end) es None.

Definition is_positive (v : num) : bool := ltb (int 0) v.

(** No value set in [es] ends a stretch of positive values. *)
Definition stays_positive (e : stale_event) : Prop :=
  match e with ValueSet v _ => is_positive v = true | Ticked _ => True end.

(** The history [es] ends in a stretch of positive values, which began at [t0];
    [post] is what happened since. *)
Definition stretch (es : list stale_event) (t0 : Z) (post : list stale_event) : Prop :=
  exists pre v, es = pre ++ ValueSet v t0 :: post /\
    is_positive (last_value (int 0) pre) = false /\
    is_positive v = true /\ Forall stays_positive post.

Lemma run_stale_snoc es e : run_stale (es ++ [e]) = stale_step e (run_stale es).
Proof. unfold run_stale. by rewrite fold_left_app. Qed.

Lemma last_value_snoc v es e : last_value v (es ++ [e]) =
  match e with ValueSet w _ => w | Ticked _ => last_value v es end.
Proof. unfold last_value. rewrite fold_left_app. by destruct e. Qed.

Lemma last_tick_snoc es e : last_tick (es ++ [e]) =
  match e with ValueSet _ _ => last_tick es | Ticked t => Some t end.
Proof. unfold last_tick. rewrite fold_left_app. by destruct e. Qed.

Lemma stretch_snoc es t0 post e : stays_positive e -> stretch es t0 post ->
  stretch (es ++ [e]) t0 (post ++ [e]).
Proof.
  intros He (pre & v & -> & H1 & H2 & H3). exists pre, v. rewrite <- app_assoc.
  split; [done|]. split; [done|]. split; [done|]. apply Forall_app. by repeat constructor.
Qed.

Lemma stale_idle_or_stretch es :
  (is_positive (last_value (int 0) es) = false /\ run_stale es = stale_initial) \/
  (is_positive (last_value (int 0) es) = true /\
   exists t0 post, stretch es t0 post /\
     run_stale es = Stale (match last_tick post with Some t => (t - t0) / 1000 | None => 0 end)%Z
                      (Some t0) true).
Proof.
  induction es as [|e es IH] using rev_ind; [by left|].
  rewrite run_stale_snoc, last_value_snoc. destruct e as [v now|now]; cbn [stale_step].
  - fold (is_positive v). destruct (is_positive v) eqn:Hv; [right|by left]. split; [done|].
    destruct IH as [(Hi & ->)|(Hp & t0 & post & Hs & ->)].
    + exists now, []. split; [|done]. by exists es, v.
    + exists t0, (post ++ [ValueSet v now]). split; [by apply stretch_snoc|].
      by rewrite last_tick_snoc.
  - destruct IH as [(Hi & ->)|(Hp & t0 & post & Hs & ->)]; [by left|right]. split; [done|].
    exists t0, (post ++ [Ticked now]). split; [by apply stretch_snoc|].
    by rewrite last_tick_snoc.
Qed.

(** C21.  The outbox alert says what it means: after any history of summaries and
    ticks, it is raised exactly when the backlog is positive, has been positive
    without interruption since some [t0], and the last tick since [t0] came at
    least 31 seconds after it; the number shown is the whole seconds between the
    two, and a backlog that drains clears both. *)
Theorem outbox_alert es :
  let s := run_stale es in
  let pending := last_value (int 0) es in
  (outboxAlert pending (seconds s) = true <->
   exists t0 post t, stretch es t0 post /\ last_tick post = Some t /\ (31000 <= t - t0)%Z /\
     is_positive pending = true /\ seconds s = ((t - t0) / 1000)%Z) /\
  (is_positive pending = false -> seconds s = 0%Z /\ startedAt s = None).
Proof.
  cbv zeta. unfold outboxAlert. fold (is_positive (last_value (int 0) es)).
  assert (forall x, (30 < x / 1000)%Z <-> (31000 <= x)%Z) as Hdiv.
  { intros x. pose proof (Z.div_mod x 1000 ltac:(lia)). pose proof (Z.mod_pos_bound x 1000 ltac:(lia)). lia. }
  destruct (stale_idle_or_stretch es) as [(Hi & ->)|(Hp & t0 & post & Hs & ->)].
  - rewrite Hi. split; [|done]. split; [done|]. by intros (? & ? & ? & _ & _ & _ & ? & _).
  - rewrite Hp. cbn [andb seconds startedAt]. split; [|done]. rewrite Z.ltb_lt. split.
    + destruct (last_tick post) as [t|] eqn:Et; [|lia]. intros Hl. exists t0, post, t.
      by rewrite <- Hdiv.
    + intros (t1 & post1 & t & _ & _ & Ht & _ & ->). by apply Hdiv.
Qed.
