(* ===== verification/Feeds.v ===== *)
(** * ActivityFeed and Header (web/src/components/ops)

    Each of the two, and the deliveries table, has its own [relative]; they
    differ in the texts only, so the age is computed once here.  [now] is
    the component's clock: Date.now() at mount and then once a second. *)

From S2P Require Import Prelude JsNumber JsString JsValue JsDate React UiKit Types Store StatusViews.

(** ** Ages *)

(** [Math.max(0, Math.floor((now - then) / 1000))]; [None] is NaN. *)
Definition age_seconds (since : option Z) (now : Z) : option Z :=
  t ← since; Some (Z.max 0 ((now - t) / 1000)).

(** The unit of an age: its count is [None] when it is NaN, which fails every
    comparison and so reaches the hours. *)
Inductive age : Type := JustNow | Seconds (n : Z) | Minutes (n : Z) | Hours (n : option Z).

Definition age_of (s : option Z) : age :=
  match s with
  | None => Hours None
  | Some s =>
      if (s <? 2)%Z then JustNow
      else if (s <? 60)%Z then Seconds s
      else let m := (s / 60)%Z in
           if (m <? 60)%Z then Minutes m else Hours (Some (m / 60)%Z)
  end.

Definition hours_text (n : option Z) : string :=
  match n with Some n => Z_to_string n | None => "NaN" end.

(** [relative] with the text of the first unit and the suffix of the others. *)
Definition relative_text (now_text suffix : string) (a : age) : string :=
  match a with
  | JustNow => now_text
  | Seconds n => Z_to_string n +:+ "s" +:+ suffix
  | Minutes n => Z_to_string n +:+ "m" +:+ suffix
  | Hours n => hours_text n +:+ "h" +:+ suffix
  end.

(** ** ActivityFeed.tsx *)

Definition eventTone (type : string) : string :=
  if includes "Succeeded" type then "text-status-success"
  else if includes "DLQ" type || includes "Failed" type || includes "Rejected" type
  then "text-status-danger"
  else if includes "Retrying" type || includes "Attempted" type || includes "Queued" type
  then "text-status-warning"
  else "text-muted-foreground".

Section ActivityFeed.
Context `{Host} `{Styling}.

Definition relative (iso : string) (now : Z) : string :=
  relative_text "now" "" (age_of (age_seconds (Date_parse iso) now)).

Definition activity_item (selected : option string) (now : Z) (e : ActivityEvent.t) :
    node store_action :=
  El "li"
    [key (toString (ActivityEvent.id e));
     ("onClick", AAct (SetSelectedDeliveryId (Some (ActivityEvent.delivery_id e))));
     class (cn [CStr "cursor-pointer px-3 py-2 transition-colors hover:bg-accent/50";
                cwhen (bool_decide (selected = Some (ActivityEvent.delivery_id e))) "bg-accent/40"])]
    [El "div" [class "flex items-center justify-between gap-2"]
       [El "span" [class (cn [CStr "text-xs mono truncate"; CStr (eventTone (ActivityEvent.event_type e))])]
          [Text (ActivityEvent.event_type e)];
        El "span" [class "shrink-0 text-[10px] text-muted-foreground mono"]
          [Text (relative (ActivityEvent.created_at e) now)]];
     El "div" [class "mt-0.5 truncate text-[11px] text-muted-foreground mono"]
       [Text (slice 0 8 (ActivityEvent.delivery_id e)); Text "…"]].

Definition ActivityFeed (events : list ActivityEvent.t) (s : AppState) (now : Z) :
    node store_action :=
  El "div" [class "flex min-h-0 flex-col rounded-lg border border-border bg-card"]
    [El "div" [class "flex items-center justify-between border-b border-border px-3 py-2"]
       [El "div" [class "text-xs font-medium uppercase tracking-wider text-muted-foreground"]
          [Text "Activity"];
        El "div" [class "text-[10px] text-muted-foreground mono"]
          [NumText (of_nat (length events)); Text " events"]];
     El "div" [class "max-h-[420px] overflow-y-auto"]
       [if (length events =? 0)%nat
        then El "div" [class "px-3 py-6 text-center text-xs text-muted-foreground"]
               [Text "No activity yet"]
        else El "ul" [class "divide-y divide-border"]
               (map (activity_item (selectedDeliveryId s) now) events)]].
End ActivityFeed.

(** ** Header.tsx *)

(** The no-break space, in UTF-8. *)
Definition nbsp : string := String (Ascii.ascii_of_nat 194) (String (Ascii.ascii_of_nat 160) "").

Section Header.
Context `{Styling}.

Definition header_relative (date now : Z) : string :=
  relative_text "just now" " ago" (age_of (age_seconds (Some date) now)).

Definition healthy (health : query HealthResp.t) : bool :=
  match data health with
  | Some h => bool_decide (HealthResp.status h = HealthOk)
  | None => false
  end && negb (isError health).

Definition Header (s : AppState) (health : query HealthResp.t)
    (summary : query DashboardSummary.t) (now : Z) : node store_action :=
  let lastUpdated := dataUpdatedAt summary in
  let ok := healthy health in
  El "header" [class "sticky top-0 z-20 border-b border-border bg-background/80 backdrop-blur"]
    [El "div" [class "mx-auto flex max-w-[1600px] flex-wrap items-center gap-x-6 gap-y-3 px-4 py-3 sm:px-6"]
       [El "div" [class "flex items-center gap-3"]
          [El "div" [class "grid h-8 w-8 place-items-center rounded-md border border-border bg-card"]
             [El "lucide.Activity" [class "h-4 w-4 text-status-info"] []];
           El "div" [class "leading-tight"]
             [El "div" [class "text-sm font-semibold tracking-tight"] [Text "Gocourier"];
              El "div" [class "text-[11px] text-muted-foreground"]
                [Text "Notification pipeline — live ops"]]];
        El "div" [class "flex items-center gap-2"]
          [El "span"
             [class (cn
                [CStr "inline-flex items-center gap-1.5 rounded-full border px-2 py-0.5 text-[11px] mono";
                 CStr (if ok
                       then "border-status-success/30 bg-status-success/10 text-status-success"
                       else "border-status-danger/30 bg-status-danger/10 text-status-danger")])]
             [El "span"
                [class (cn [CStr "h-1.5 w-1.5 rounded-full";
                            CStr (if ok then "bg-status-success" else "bg-status-danger animate-pulse")])]
                [];
              Text "api "; Text (if ok then "ok" else "down")]];
        El "div" [class "ml-auto flex flex-wrap items-center gap-4"]
          [El "div" [class "flex items-center gap-2 text-[11px] text-muted-foreground"]
             [El "lucide.RefreshCw"
                [class (cn [CStr "h-3.5 w-3.5";
                            cwhen (autoRefresh s && isFetching summary) "animate-spin"])] [];
              El "span" [class "mono"]
                [Text (if (lastUpdated =? 0)%Z then "—" else header_relative lastUpdated now)];
              Switch [("checked", ABool (autoRefresh s)); ("onCheckedChange", AFlag SetAutoRefresh);
                      ("aria-label", AStr "auto refresh")];
            El "span" [] [Text ("auto" +:+ nbsp +:+ "2s")]];
           El "div" [class "flex items-center gap-2"]
             [El "lucide.KeyRound" [class "h-3.5 w-3.5 text-muted-foreground"] [];
              Input [("type", AStr "password"); ("autoComplete", AStr "off");
                     ("spellCheck", ABool false); ("value", AStr (apiKey s));
                     ("onChange", AText SetApiKey); ("placeholder", AStr "X-API-Key");
                     class "h-8 w-44 mono text-xs"]]]]].
End Header.

(** * Properties *)

(** An age is shown in the largest unit that fits, rounded down, and a time in
    the future counts as now: the milliseconds elapsed lie within the unit shown.
    Only an unreadable date has no number. *)
Theorem relative_bounds since now :
  match age_of (age_seconds since now), since with
  | JustNow, Some t => (now - t < 2000)%Z
  | Seconds n, Some t => (2 <= n < 60)%Z /\ (n * 1000 <= now - t < (n + 1) * 1000)%Z
  | Minutes n, Some t => (1 <= n < 60)%Z /\ (n * 60000 <= now - t < (n + 1) * 60000)%Z
  | Hours (Some n), Some t => (1 <= n)%Z /\ (n * 3600000 <= now - t < (n + 1) * 3600000)%Z
  | Hours None, None => True
  | _, _ => False
  end.
Proof.
  destruct since as [t|]; [|done]. cbn [age_seconds mbind option_bind].
  set (s := ((now - t) / 1000)%Z).
  pose proof (Z.div_mod (now - t) 1000 ltac:(lia)) as Hd. fold s in Hd.
  pose proof (Z.mod_pos_bound (now - t) 1000 ltac:(lia)) as Hm.
  unfold age_of. set (a := Z.max 0 s).
  pose proof (Z.div_mod a 60 ltac:(lia)). pose proof (Z.mod_pos_bound a 60 ltac:(lia)).
  pose proof (Z.div_mod (a / 60) 60 ltac:(lia)). pose proof (Z.mod_pos_bound (a / 60) 60 ltac:(lia)).
  destruct (Z.ltb_spec a 2); [lia|]. destruct (Z.ltb_spec a 60); [lia|].
  destruct (Z.ltb_spec (a / 60) 60); lia.
Qed.

Section FeedFacts.
Context `{Host} `{Styling}.

(** The feed lists every event once, in the order given, and clicking an
    item selects the delivery of its event. *)
Theorem activity_selects events s now :
  omap (fun e => click e.1) (elements "li" (ActivityFeed events s now)) =
    map (fun e => SetSelectedDeliveryId (Some (ActivityEvent.delivery_id e))) events.
Proof.
  destruct events as [|e l]; [reflexivity|].
  transitivity (omap (fun e => click e.1)
    (flat_map (elements (A := store_action) "li")
       (map (activity_item (selectedDeliveryId s) now) (e :: l)))).
  - unfold ActivityFeed. cbn [length Nat.eqb elements flat_map]. decide_names. cbn [app].
    by rewrite !app_nil_r.
  - generalize (e :: l). clear. intros l. induction l as [|e l IH]; [done|].
    cbn [map flat_map]. rewrite omap_app, IH. reflexivity.
Qed.
End FeedFacts.
