(* ===== verification/DeliveriesTable.v ===== *)
(** * DeliveriesTable (web/src/components/ops/DeliveriesTable.tsx)

    A filtered and sorted view of the delivery rows: its filters and its order
    are component state, the selection is the store's. *)

From S2P Require Import Prelude JsNumber JsString JsValue JsDate JsSort React UiKit Types Store.
From S2P Require Import StatusViews Feeds.
From Stdlib Require Import Sorting.Sorted.

(** ** State and actions *)

(** The filters: [None] is "all". *)
Record table_state : Type := Table {
  statusFilter : option DeliveryStatus;
  channelFilter : option Channel;
  sortDesc : bool;
  table_now : Z
}.

Definition table_initial (now : Z) : table_state := Table None None true now.

Inductive table_action : Type :=
| SetStatusFilter (v : string)
| SetChannelFilter (v : string)
| ToggleSort
| TableTick (now : Z)
| Select_row (id : string).

(** [v as DeliveryStatus | "all"]: the select only offers those values. *)
Definition filter_of {T} `{StringEnum T} (v : string) : option T := enum_of v.

Definition table_step (a : table_action) (s : table_state) : table_state * list effect :=
  match a with
  | SetStatusFilter v => (Table (filter_of v) (channelFilter s) (sortDesc s) (table_now s), [])
  | SetChannelFilter v => (Table (statusFilter s) (filter_of v) (sortDesc s) (table_now s), [])
  | ToggleSort => (Table (statusFilter s) (channelFilter s) (negb (sortDesc s)) (table_now s), [])
  | TableTick now => (Table (statusFilter s) (channelFilter s) (sortDesc s) now, [])
  | Select_row id => (s, [Dispatch (SetSelectedDeliveryId (Some id))])
  end.

(** ** The rows shown *)

Section Rows.
Context `{Host}.

(** [new Date(row.created_at).getTime()]. *)
Definition created (d : DeliveryRow.t) : option Z := Date_parse (DeliveryRow.created_at d).

(** The comparator of the sort. *)
Definition by_created (desc : bool) (a b : DeliveryRow.t) : option Z :=
  tb ← created b; ta ← created a;
  Some (if desc then tb - ta else - (tb - ta))%Z.

Definition keeps (s : table_state) (d : DeliveryRow.t) : bool :=
  match statusFilter s with Some x => bool_decide (DeliveryRow.status d = x) | None => true end &&
  match channelFilter s with Some c => bool_decide (DeliveryRow.channel d = c) | None => true end.

Definition filter_rows (s : table_state) (rows : list DeliveryRow.t) : list DeliveryRow.t :=
  let r := match statusFilter s with
           | Some x => List.filter (fun d => bool_decide (DeliveryRow.status d = x)) rows
           | None => rows
           end in
  match channelFilter s with
  | Some c => List.filter (fun d => bool_decide (DeliveryRow.channel d = c)) r
  | None => r
  end.

Definition filtered (s : table_state) (rows : list DeliveryRow.t) : list DeliveryRow.t :=
  Array_sort (by_created (sortDesc s)) (filter_rows s rows).
End Rows.

(** ** Rendering *)

Section View.
Context `{Host} `{Styling}.

Definition table_relative (iso : string) (now : Z) : string :=
  relative_text "now" " ago" (age_of (age_seconds (Date_parse iso) now)).

Definition key_text (k : string) : string :=
  if (32 <? String.length k)%nat then slice 0 30 k +:+ "…" else k.

Definition option_item {A} (v label : string) : node A :=
  SelectItem [key v; ("value", AStr v)] [Text label].

Definition fixed_item {A} (v label : string) : node A :=
  SelectItem [("value", AStr v)] [Text label].

Definition STATUS_OPTIONS : list string :=
  ["pending"; "queued"; "processing"; "retrying"; "succeeded"; "failed"; "dlq"; "cancelled";
   "rejected"].

Definition filter_text {T} `{StringEnum T} (f : option T) : string :=
  match f with Some x => enum_text x | None => "all" end.

Definition table_filters (s : table_state) : node table_action :=
  El "div" [class "flex items-center gap-2"]
    [Select [("value", AStr (filter_text (statusFilter s)));
             ("onValueChange", AText SetStatusFilter)]
       [SelectTrigger [class "h-7 w-32 text-[11px] mono"] [SelectValue [("placeholder", AStr "status")]];
        SelectContent []
          (fixed_item "all" "all statuses" :: map (fun v => option_item v v) STATUS_OPTIONS)];
     Select [("value", AStr (filter_text (channelFilter s)));
             ("onValueChange", AText SetChannelFilter)]
       [SelectTrigger [class "h-7 w-28 text-[11px] mono"] [SelectValue []];
        SelectContent []
          [fixed_item "all" "all channels"; fixed_item "email" "email"; fixed_item "sms" "sms";
           fixed_item "push" "push"; fixed_item "webhook" "webhook"]]].

Definition row_view (selected : option string) (now : Z) (d : DeliveryRow.t) : node table_action :=
  El "tr"
    [key (DeliveryRow.id d);
     ("onClick", AAct (Select_row (DeliveryRow.id d)));
     class (cn [CStr "cursor-pointer border-b border-border/50 transition-colors hover:bg-accent/40";
                cwhen (bool_decide (selected = Some (DeliveryRow.id d))) "bg-accent/60"])]
    [El "td" [class "px-3 py-2 mono text-muted-foreground whitespace-nowrap"]
       [Text (table_relative (DeliveryRow.created_at d) now)];
     El "td" [class "px-3 py-2 mono"] [Text (enum_text (DeliveryRow.channel d))];
     El "td" [class "px-3 py-2"] [StatusBadge (DeliveryRow.status d) None];
     El "td" [class "px-3 py-2 mono text-foreground/80"]
       [El "span" [("title", AStr (DeliveryRow.idempotency_key d))]
          [Text (key_text (DeliveryRow.idempotency_key d))]];
     El "td" [class (cn [CStr "px-3 py-2 text-right mono tabular-nums";
                         cwhen (ltb (int 0) (DeliveryRow.retry_count d)) "text-status-warning"])]
       [NumText (DeliveryRow.retry_count d)]].

Definition header_cell {A} (extra label : string) : node A :=
  El "th" [class ("border-b border-border px-3 py-2 " +:+ extra +:+ "font-medium")] [Text label].

Definition table_head : node table_action :=
  El "thead" [class "sticky top-0 z-10 bg-card"]
    [El "tr" [class "text-left text-[10px] uppercase tracking-wider text-muted-foreground"]
       [El "th" [class "border-b border-border px-3 py-2 font-medium"]
          [El "button"
             [("onClick", AAct ToggleSort);
              class "inline-flex items-center gap-1 hover:text-foreground"]
             [Text "Time "; El "lucide.ArrowDownUp" [class "h-3 w-3"] []]];
        header_cell "" "Channel"; header_cell "" "Status"; header_cell "" "Idempotency Key";
        header_cell "text-right " "Retries"]].

Definition DeliveriesTable (rows : list DeliveryRow.t) (app : AppState) (s : table_state) :
    node table_action :=
  let shown := filtered s rows in
  El "div" [class "flex min-h-0 flex-1 flex-col rounded-lg border border-border bg-card"]
    [El "div" [class "flex flex-wrap items-center justify-between gap-2 border-b border-border px-3 py-2"]
       [El "div" [class "text-xs font-medium uppercase tracking-wider text-muted-foreground"]
          [Text "Deliveries ";
           El "span" [class "ml-2 mono text-[10px] normal-case text-foreground/60"]
             [NumText (of_nat (length shown)); Text " / "; NumText (of_nat (length rows))]];
        table_filters s];
     El "div" [class "min-h-0 flex-1 overflow-auto"]
       [if (length shown =? 0)%nat
        then El "div" [class "flex h-full flex-col items-center justify-center gap-2 py-12 text-muted-foreground"]
               [El "lucide.Inbox" [class "h-6 w-6"] [];
                El "div" [class "text-xs"] [Text "No deliveries yet — send a test notification"]]
        else El "table" [class "w-full border-collapse text-xs"]
               [table_head;
                El "tbody" [] (map (row_view (selectedDeliveryId app) (table_now s)) shown)]]].
End View.

(** ** The view is what the filters and the order say *)

Section Facts.
Context `{Host}.

Lemma filter_rows_spec s rows : filter_rows s rows = List.filter (keeps s) rows.
Proof.
  unfold filter_rows, keeps. induction rows as [|d rows IH]; [by destruct (statusFilter s), (channelFilter s)|].
  simpl in *. destruct (statusFilter s) as [x|], (channelFilter s) as [c|]; simpl in *;
    rewrite <- ?IH; try done; repeat case_bool_decide; simpl; try done;
    by rewrite ?bool_decide_true, ?bool_decide_false by done.
Qed.

(** The sort key of a row whose date is readable. *)
Definition sort_key (desc : bool) (d : DeliveryRow.t) : Z :=
  let t := default 0%Z (created d) in if desc then (- t)%Z else t.

Lemma by_created_keyed desc rows : (forall d, d ∈ rows -> created d <> None) ->
  keyed (by_created desc) (sort_key desc) rows.
Proof.
  intros Hd x y Hx Hy. unfold before, by_created, sort_key.
  destruct (created y) as [ty|] eqn:Ey; [|by apply Hd in Hy].
  destruct (created x) as [tx|] eqn:Ex; [|by apply Hd in Hx]. simpl.
  destruct desc; match goal with |- (?a <=? ?b)%Z = (?c <=? ?d)%Z =>
    destruct (Z.leb_spec a b), (Z.leb_spec c d); lia || done end.
Qed.

Lemma filtered_Permutation s rows : filtered s rows ≡ₚ List.filter (keeps s) rows.
Proof. unfold filtered. rewrite filter_rows_spec. apply sort_Permutation. Qed.

(** C19.  The table shows exactly the rows that pass both filters, each as often
    as it was given, and, when the rows' dates are readable, newest first (or
    oldest first after the order is toggled) with rows of the same instant in
    the order they were given: it is the only such arrangement. *)
Theorem filtered_spec s rows :
  filtered s rows ≡ₚ List.filter (keeps s) rows /\
  ((forall d, d ∈ rows -> created d <> None) ->
   StronglySorted (fun a b => (sort_key (sortDesc s) a <= sort_key (sortDesc s) b)%Z)
     (filtered s rows) /\
   (forall k, List.filter (fun d => (sort_key (sortDesc s) d =? k)%Z) (filtered s rows) =
              List.filter (fun d => (sort_key (sortDesc s) d =? k)%Z) (List.filter (keeps s) rows)) /\
   forall l,
     StronglySorted (fun a b => (sort_key (sortDesc s) a <= sort_key (sortDesc s) b)%Z) l ->
     (forall k, List.filter (fun d => (sort_key (sortDesc s) d =? k)%Z) l =
                List.filter (fun d => (sort_key (sortDesc s) d =? k)%Z) (List.filter (keeps s) rows)) ->
     l = filtered s rows).
Proof.
  split; [apply filtered_Permutation|]. intros Hd. unfold filtered. rewrite filter_rows_spec.
  assert (keyed (by_created (sortDesc s)) (sort_key (sortDesc s)) (List.filter (keeps s) rows)) as Hk.
  { apply by_created_keyed. intros d [Hin _]%elem_of_Lfilter. by apply Hd. }
  split; [by apply sort_sorted|]. split; [intros k; by apply sort_stable|].
  intros l Hs Hf. by eapply sort_unique.
Qed.
End Facts.

Section ViewFacts.
Context `{Host} `{Styling}.

(** What clicking the rows of a tree dispatches, in document order. *)
Definition row_clicks (t : node table_action) : list table_action :=
  omap (fun e => click e.1) (elements "tr" t).

Lemma elements_rows sel now rows :
  flat_map (elements "tr") (map (row_view sel now) rows) =
  map (fun d => match row_view sel now d with El _ attrs ch => (attrs, ch) | _ => ([], []) end) rows.
Proof.
  induction rows as [|d rows IH]; [done|]. cbn [map flat_map]. rewrite IH. unfold row_view.
  by destruct (DeliveryRow.status d).
Qed.

Lemma row_clicks_view rows ap s :
  row_clicks (DeliveriesTable rows ap s) = map (fun d => Select_row (DeliveryRow.id d)) (filtered s rows).
Proof.
  unfold row_clicks, DeliveriesTable. cbv zeta.
  destruct (filtered s rows) as [|d l] eqn:E; [reflexivity|].
  transitivity (omap (fun e => click e.1)
    (flat_map (elements (A := table_action) "tr") (map (row_view (selectedDeliveryId ap) (table_now s)) (d :: l)))).

  - cbn [length Nat.eqb]. cbn [elements flat_map]. decide_names. cbn [app].
    rewrite !app_nil_r. reflexivity.
  - rewrite elements_rows. generalize (d :: l). clear. intros l. induction l as [|d l IH]; [done|].
    cbn [map]. cbn [omap list_omap]. unfold click at 1. cbn. by rewrite <- IH.
Qed.

(** The rendered rows are the rows shown, in their order: clicking the n-th
    one selects the n-th delivery of the view, the deliveries that can be
    selected are exactly those that pass the filters, and selecting one changes
    nothing else of the shared state. *)
Theorem table_selection rows ap s :
  row_clicks (DeliveriesTable rows ap s) =
    map (fun d => Select_row (DeliveryRow.id d)) (filtered s rows) /\
  forall id, Select_row id ∈ row_clicks (DeliveriesTable rows ap s) <->
    exists d, d ∈ rows /\ keeps s d = true /\ DeliveryRow.id d = id /\
      run_effects (snd (table_step (Select_row id) s)) ap =
        App (apiKey ap) (autoRefresh ap) (Some (DeliveryRow.id d)).
Proof.
  rewrite row_clicks_view. split; [done|]. intros id. rewrite list_elem_of_fmap.
  pose proof (filtered_Permutation s rows) as Hp. split.
  - intros (d & [= ->] & Hin). rewrite Hp, elem_of_Lfilter in Hin. destruct Hin. by exists d.
  - intros (d & Hin & Hk & <- & _). exists d. split; [done|].
    rewrite Hp, elem_of_Lfilter. done.
Qed.
End ViewFacts.

(** ** The properties at a concrete table *)

Section Witnesses.
#[local] Existing Instance sample_host.

Definition demo_row (id : string) (c : Channel) (st : DeliveryStatus) (at_ : string) : DeliveryRow.t :=
  DeliveryRow.Make id ("key-" +:+ id) None c Normal st (int 0) "" None None None None None at_ at_ None.
Definition demo_rows : list DeliveryRow.t :=
  [ demo_row "a" Email Dlq "2024-01-01T00:00:00Z";
    demo_row "b" Sms Dlq "2024-01-01T00:00:02Z";
    demo_row "c" Email Succeeded "2024-01-01T00:00:03Z";
    demo_row "d" Push Dlq "2024-01-01T00:00:02Z" ].
Definition demo_table : table_state := Table (Some Dlq) None true 0.

Lemma filtered_spec_witness :
  map DeliveryRow.id (filtered demo_table demo_rows) = ["b"; "d"; "a"] /\
  StronglySorted (fun a b => (sort_key true a <= sort_key true b)%Z) (filtered demo_table demo_rows).
Proof.
  split; [vm_compute; reflexivity|].
  refine (proj1 (proj2 (filtered_spec demo_table demo_rows) _)).
  assert (forallb (fun d => bool_decide (created d <> None)) demo_rows = true) as Hd
    by (vm_compute; reflexivity).
  intros d Hin. rewrite forallb_forall in Hd. specialize (Hd d).
  apply list_elem_of_In in Hin. apply Hd in Hin. by bsimp.
Defined.
End Witnesses.
