(* ===== verification/DeliveryDetail.v ===== *)
(** * DeliveryDetail (web/src/components/ops/DeliveryDetail.tsx)

    The panel of the selected delivery, with the lookup form.  Formatting an
    unreadable date throws, so rendering is a [result]. *)

From S2P Require Import Prelude JsNumber JsString JsValue JsDate JsSort React UiKit Types Store.
From S2P Require Import StatusViews.
From Stdlib Require Import Sorting.Sorted.

(** ** Helpers *)

Definition eventDotTone (type : string) : string :=
  if includes "Succeeded" type then "bg-status-success"
  else if includes "DLQ" type || includes "Failed" type || includes "Rejected" type
  then "bg-status-danger"
  else if includes "Retrying" type || includes "Attempted" type || includes "Queued" type
          || includes "Replayed" type
  then "bg-status-warning"
  else "bg-status-neutral".

Definition fmt `{Host} (iso : string) : result string :=
  match Date_parse iso with
  | Some t => Ok (replace "Z" "" (replace "T" " " (toISOString t)))
  | None => Throw (RangeError "Invalid time value")
  end.

Definition fmtJSON (v : option record) : option string :=
  match v with
  | None | Some [] => None
  | Some props => JSON_stringify2 (VObj props)
  end.

(** ** UUID_RE *)

Definition in_range (a b : nat) (c : Ascii.ascii) : bool :=
  let n := Ascii.nat_of_ascii c in (a <=? n)%nat && (n <=? b)%nat.
(** [[0-9a-f]], [[1-5]], [[89ab]] and [-], ignoring case. *)
Definition hex_class (c : Ascii.ascii) : bool :=
  in_range 48 57 c || in_range 97 102 c || in_range 65 70 c.
Definition version_class (c : Ascii.ascii) : bool := in_range 49 53 c.
Definition variant_class (c : Ascii.ascii) : bool :=
  in_range 56 57 c || in_range 97 98 c || in_range 65 66 c.
Definition dash_class (c : Ascii.ascii) : bool := in_range 45 45 c.

Definition UUID_RE : list (Ascii.ascii -> bool) :=
  repeat hex_class 8 ++ [dash_class] ++ repeat hex_class 4 ++ [dash_class] ++
  version_class :: repeat hex_class 3 ++ [dash_class] ++
  variant_class :: repeat hex_class 3 ++ [dash_class] ++ repeat hex_class 12.

(** A pattern anchored at both ends: one class per character. *)
Fixpoint test (re : list (Ascii.ascii -> bool)) (s : string) : bool :=
  match re, s with
  | [], "" => true
  | p :: re', String c s' => p c && test re' s'
  | _, _ => false
  end.

(** ** State and actions *)

Inductive detail_action : Type :=
| SubmitLookup
| SetLookup (v : string)
| CopyId
| DoReplay
| CloseDetail.

Definition submitLookup (lookup : string) : list effect :=
  let trimmed := trim lookup in
  if bool_decide (trimmed = "") then [Toast ToastError "Enter a delivery id" None]
  else if negb (test UUID_RE trimmed) then
    [Toast ToastError "Invalid delivery id"
       (Some "Expected a UUID like 1d0973f2-5512-494c-b767-c44614b08…")]
  else [Dispatch (SetSelectedDeliveryId (Some trimmed))].

(** The lookup text after an action, and its effects; [id] is the id of the
    delivery the panel shows. *)
Definition detail_step (id : string) (a : detail_action) (lookup : string) : string * list effect :=
  match a with
  | SubmitLookup => (lookup, submitLookup lookup)
  | SetLookup v => (v, [])
  | CopyId => (lookup, [WriteText id])
  | DoReplay => (lookup, [ReplayMutation id])
  | CloseDetail => (lookup, [Dispatch (SetSelectedDeliveryId None)])
  end.

(** The effect on [id]: the lookup text follows the selection. *)
Definition lookup_follows (id : option string) : string := default "" id.

(** What follows the copy, and the settled replay. *)
Definition copied : list effect := [Toast ToastSuccess "Copied delivery id" None].
Definition replay_settled (id : string) (r : result SendNotificationResp.t) : list effect :=
  match r with
  | Ok _ => useReplay_onSuccess id ++ [Toast ToastSuccess "Replay queued" None]
  | Throw e => [Toast ToastError "Replay failed" (Some (exn_message e))]
  end.

(** ** Rendering *)

Section View.
Context `{Host} `{Styling}.
Local Notation node := (node detail_action).

Definition SectionLabel (children : list node) : node :=
  El "div" [class "text-[10px] font-medium uppercase tracking-wider text-muted-foreground"] children.

Definition MetaRow (label : string) (children : list node) : node :=
  El "div" [class "grid gap-0.5"]
    [El "dt" [class "text-[10px] uppercase tracking-wider text-muted-foreground"] [Text label];
     El "dd" [] children].

Definition non_empty (s : option string) : option string :=
  match s with Some "" | None => None | Some t => Some t end.

(** [{s && (<.../>)}] for an optional text. *)
Definition when_text (s : option string) (f : string -> node) : node :=
  match non_empty s with Some t => f t | None => Nothing end.

(** The same when the element formats a date. *)
Definition when_date (s : option string) (f : string -> node) : result node :=
  match non_empty s with
  | Some t => d <-r fmt t;; Ok (f d)
  | None => Ok Nothing
  end.

Definition json_view (t : string) : node :=
  El "pre" [class "mono overflow-x-auto whitespace-pre-wrap break-words text-foreground"] [Text t].
Definition json_or_dash (t : option string) : node :=
  match t with
  | Some t => json_view t
  | None => El "span" [class "text-muted-foreground"] [Text "—"]
  end.

Definition small_json (v : option record) : node :=
  match fmtJSON v with
  | Some t =>
      El "pre" [class "mt-1 mono text-[10px] text-muted-foreground whitespace-pre-wrap break-words"]
        [Text t]
  | None => Nothing
  end.

Definition lookupBar (lookup : string) (busy : bool) : node :=
  El "form" [("onSubmit", AAct SubmitLookup); class "border-b border-border px-3 py-2.5"]
    [El "div" [class "mb-1.5 text-[10px] font-medium uppercase tracking-wider text-muted-foreground"]
       [Text "Lookup delivery"];
     El "div" [class "flex gap-1.5"]
       [Input [("value", AStr lookup); ("onChange", AText SetLookup);
               ("placeholder", AStr "Paste delivery UUID…"); class "h-8 mono text-[11px]";
               ("spellCheck", ABool false)];
        Button [("type", AStr "submit"); ("size", AStr "sm"); class "h-8 shrink-0 px-2.5";
                ("disabled", ABool busy)]
          [El "lucide.Search" [class "h-3.5 w-3.5"] []]]].

Definition aside (children : list node) : node :=
  El "aside"
    [class "flex h-full min-h-0 flex-col overflow-hidden rounded-lg border border-border bg-card"]
    children.

Definition audit_item (a : AuditRow.t) : result node :=
  at_ <-r fmt (AuditRow.created_at a);;
  Ok (El "li" [key (toString (AuditRow.id a)); class "relative"]
        [El "span"
           [class (cn [CStr "absolute -left-[21px] top-1 grid h-3 w-3 place-items-center rounded-full ring-2 ring-card";
                       CStr (eventDotTone (AuditRow.event_type a))])] [];
         El "div" [class "mono text-xs text-foreground"] [Text (AuditRow.event_type a)];
         El "div" [class "mono text-[10px] text-muted-foreground"] [Text at_];
         small_json (AuditRow.payload a)]).

Definition attempt_item (a : AttemptRow.t) : result node :=
  at_ <-r fmt (AttemptRow.started_at a);;
  let success := AttemptRow.success a in
  Ok (El "li"
        [key (AttemptRow.id a);
         class "flex items-start gap-2 rounded-md border border-border bg-background/40 p-2"]
        [El "span"
           [class (cn [CStr "mt-0.5 grid h-4 w-4 shrink-0 place-items-center rounded-full";
                       CStr (if success then "bg-status-success/15 text-status-success"
                             else "bg-status-danger/15 text-status-danger")])]
           [if success then El "lucide.Check" [class "h-2.5 w-2.5"] []
            else El "lucide.X" [class "h-2.5 w-2.5"] []];
         El "div" [class "min-w-0 flex-1"]
           [El "div" [class "flex items-center justify-between gap-2"]
              [El "span" [class "mono text-[11px]"]
                 [Text "attempt #"; NumText (AttemptRow.attempt_number a)];
               El "span" [class "mono text-[10px] text-muted-foreground"] [Text at_]];
            when (negb success && negb (bool_decide (AttemptRow.error_message a = "")))
              (El "div" [class "mt-0.5 mono text-[11px] text-status-danger break-words"]
                 [Text (AttemptRow.error_message a)]);
            if success then small_json (Some (AttemptRow.provider_response a)) else Nothing]]).

Definition outbox_item (o : OutboxRow.t) : result node :=
  created <-r fmt (OutboxRow.created_at o);;
  published <-r when_date (OutboxRow.published_at o) (fun d => Text (" · published " +:+ d));;
  let st_is s := bool_decide (OutboxRow.status o = s) in
  Ok (El "li"
        [key (toString (OutboxRow.id o));
         class "flex items-start justify-between gap-2 rounded-md border border-border bg-background/40 p-2"]
        [El "div" [class "min-w-0"]
           [El "div" [class "mono text-[11px] text-foreground truncate"] [Text (OutboxRow.subject o)];
            El "div" [class "mono text-[10px] text-muted-foreground"]
              [Text "created "; Text created; published]];
         El "span"
           [class (cn [CStr "mono text-[10px] uppercase tracking-wider";
                       cwhen (st_is OutboxPublished) "text-status-success";
                       cwhen (st_is OutboxPending) "text-status-warning";
                       cwhen (st_is OutboxFailed) "text-status-danger"])]
           [Text (enum_text (OutboxRow.status o))]]).

(** The comparator of the timeline. *)
Definition by_audit (a b : AuditRow.t) : option Z :=
  ta ← Date_parse (AuditRow.created_at a); tb ← Date_parse (AuditRow.created_at b);
  Some (ta - tb)%Z.
Definition sortedAudit (audit : list AuditRow.t) : list AuditRow.t := Array_sort by_audit audit.

Definition summary_bar (d : DeliveryRow.t) (replaying : bool) : node :=
  El "div" [class "flex items-start justify-between gap-2 border-b border-border px-3 py-2.5"]
    [El "div" [class "min-w-0 space-y-1.5"]
       [El "div" [class "flex items-center gap-2"]
          [StatusBadge (DeliveryRow.status d) None;
           El "span" [class "mono text-[11px] text-muted-foreground uppercase"]
             [Text (enum_text (DeliveryRow.channel d)); Text " · ";
              Text (enum_text (DeliveryRow.priority d))]];
        El "div" [class "flex items-center gap-1"]
          [El "code" [class "block truncate mono text-[11px] text-foreground/80"]
             [Text (DeliveryRow.id d)];
           El "button"
             [("onClick", AAct CopyId);
              class "rounded p-1 text-muted-foreground hover:text-foreground";
              ("title", AStr "Copy id")]
             [El "lucide.Copy" [class "h-3 w-3"] []]]];
     El "div" [class "flex items-center gap-1"]
       [when (bool_decide (DeliveryRow.status d = Dlq))
          (Button [("size", AStr "sm"); ("variant", AStr "default"); class "h-7 text-[11px]";
                   ("onClick", AAct DoReplay); ("disabled", ABool replaying)]
             [El "lucide.RotateCw"
                [class (cn [CStr "mr-1 h-3 w-3"; cwhen replaying "animate-spin"])] [];
              Text "Replay"]);
        El "button"
          [("onClick", AAct CloseDetail);
           class "rounded p-1 text-muted-foreground hover:text-foreground"; ("title", AStr "Close")]
          [El "lucide.X" [class "h-4 w-4"] []]]].

Definition error_box (message : string) : node :=
  El "div" [class "rounded-md border border-status-danger/30 bg-status-danger/10 p-2.5"]
    [El "div" [class "mb-1 flex items-center gap-1.5 text-[11px] font-medium uppercase tracking-wider text-status-danger"]
       [El "lucide.AlertCircle" [class "h-3 w-3"] []; Text " Last error"];
     El "code" [class "block mono text-[11px] text-status-danger break-words"] [Text message]].

Definition notification_section (d : DeliveryRow.t) : node :=
  El "section" []
    [SectionLabel [Text "Notification"];
     El "dl" [class "mt-2 space-y-1.5 rounded-md border border-border bg-background/40 p-2.5 text-[11px]"]
       [MetaRow "Recipient" [json_or_dash (fmtJSON (DeliveryRow.recipient d))];
        MetaRow "Template" [json_or_dash (fmtJSON (DeliveryRow.template d))];
        match fmtJSON (DeliveryRow.payload d) with
        | Some t => MetaRow "Payload" [json_view t]
        | None => Nothing
        end]].

Definition code_row (label cls : string) (t : string) : node :=
  MetaRow label [El "code" [class cls] [Text t]].
Definition date_row (label : string) (t : string) : node :=
  MetaRow label [El "span" [class "mono text-muted-foreground"] [Text t]].

Definition metadata_section (d : DeliveryRow.t) : result node :=
  created <-r fmt (DeliveryRow.created_at d);;
  updated <-r fmt (DeliveryRow.updated_at d);;
  scheduled <-r when_date (DeliveryRow.scheduled_at d) (date_row "Scheduled at");;
  Ok (El "section" []
    [SectionLabel [Text "Metadata"];
     El "dl" [class "mt-2 space-y-1 rounded-md border border-border bg-background/40 p-2.5 text-[11px]"]
       [code_row "Idempotency key" "mono break-all" (DeliveryRow.idempotency_key d);
        when_text (DeliveryRow.tenant_id d) (code_row "Tenant" "mono");
        when_text (DeliveryRow.correlation_id d) (code_row "Correlation id" "mono break-all");
        when_text (DeliveryRow.causation_id d) (code_row "Causation id" "mono break-all");
        MetaRow "Retries" [El "span" [class "mono"] [NumText (DeliveryRow.retry_count d)]];
        date_row "Created" created;
        date_row "Updated" updated;
        scheduled]]).

Definition empty_item (t : string) : node := El "li" [class "text-[11px] text-muted-foreground"] [Text t].

Definition timeline_section (audit : list AuditRow.t) : result node :=
  let sorted := sortedAudit audit in
  items <-r rmap audit_item sorted;;
  Ok (El "section" []
        [SectionLabel [Text "Timeline"];
         El "ol" [class "relative ml-2 mt-2 space-y-3 border-l border-border pl-4"]
           (items ++ [when (length sorted =? 0)%nat (empty_item "No audit events")])]).

Definition attempts_section (attempts : list AttemptRow.t) : result node :=
  items <-r rmap attempt_item attempts;;
  Ok (El "section" []
        [SectionLabel [Text "Dispatch attempts ("; NumText (of_nat (length attempts)); Text ")"];
         El "ul" [class "mt-2 space-y-1.5"]
           (items ++ [when (length attempts =? 0)%nat (empty_item "No attempts yet")])]).

Definition outbox_section (outbox : list OutboxRow.t) : result node :=
  items <-r rmap outbox_item outbox;;
  Ok (El "section" []
        [SectionLabel [Text "Outbox ("; NumText (of_nat (length outbox)); Text ")"];
         El "ul" [class "mt-2 space-y-1.5"]
           (items ++ [when (length outbox =? 0)%nat (empty_item "No outbox rows")])]).

Definition shown_detail (bar : node) (d : DeliveryDetailResp.t) (replaying : bool) : result node :=
  let delivery := DeliveryDetailResp.delivery d in
  metadata <-r metadata_section delivery;;
  timeline <-r timeline_section (DeliveryDetailResp.audit d);;
  attempts <-r attempts_section (DeliveryDetailResp.attempts d);;
  outbox <-r outbox_section (DeliveryDetailResp.outbox d);;
  Ok (aside
        [bar; summary_bar delivery replaying;
         ScrollArea [class "min-h-0 flex-1"]
           [El "div" [class "space-y-4 p-3"]
              [when_text (Some (DeliveryRow.last_error delivery)) error_box;
               notification_section delivery; metadata; timeline; attempts; outbox]]]).

(** [(error as Error)?.message && ...]. *)
Definition not_found (bar : node) (id : string) (e : option exn) : node :=
  aside
    [bar;
     El "div" [class "m-3 rounded-md border border-status-danger/30 bg-status-danger/10 p-3 text-xs text-status-danger"]
       [El "div" [class "mb-1 font-medium"] [Text "Delivery not found"];
        El "code" [class "mono break-all text-[11px]"] [Text id];
        when_text (exn_message <$> e)
          (fun m => El "div" [class "mt-1 text-[11px] opacity-90"] [Text m])]].

Definition DeliveryDetail (id : option string) (q : query DeliveryDetailResp.t)
    (replaying : bool) (lookup : string) : result node :=
  let bar := lookupBar lookup (isLoading q && has_id id) in
  if negb (has_id id) then
    Ok (aside
          [bar;
           El "div" [class "flex flex-1 flex-col items-center justify-center gap-2 p-6 text-center text-xs text-muted-foreground"]
             [El "div" [class "mono"] [Text "No delivery selected"];
              El "div" [] [Text "Paste an id above, or click a row in the table / activity feed"]]])
  else if isLoading q && match data q with None => true | Some _ => false end then
    Ok (aside [bar; El "div" [class "p-4 text-xs text-muted-foreground"] [Text "Loading delivery…"]])
  else
    match data q with
    | Some d =>
        if isError q then Ok (not_found bar (default "" id) (error q))
        else shown_detail bar d replaying
    | None => Ok (not_found bar (default "" id) (error q))
    end.
End View.

(** ** When rendering throws *)

Section RenderFacts.
Context `{Host} `{Styling}.

(** The dates a panel formats, in order. *)
Definition optional_date (s : option string) : list string :=
  match non_empty s with Some t => [t] | None => [] end.
Definition outbox_dates (o : OutboxRow.t) : list string :=
  OutboxRow.created_at o :: optional_date (OutboxRow.published_at o).
Definition detail_dates (d : DeliveryDetailResp.t) : list string :=
  let r := DeliveryDetailResp.delivery d in
  [DeliveryRow.created_at r; DeliveryRow.updated_at r] ++
  optional_date (DeliveryRow.scheduled_at r) ++
  map AuditRow.created_at (DeliveryDetailResp.audit d) ++
  map AttemptRow.started_at (DeliveryDetailResp.attempts d) ++
  flat_map outbox_dates (DeliveryDetailResp.outbox d).

Definition readable (iso : string) : Prop := Date_parse iso <> None.

(** [m] returns when every date is readable, and is the date's RangeError
    otherwise. *)
Definition formats {T} (m : result T) (dates : list string) : Prop :=
  (Forall readable dates -> exists x, m = Ok x) /\
  (~ Forall readable dates -> m = Throw (RangeError "Invalid time value")).

Lemma formats_ok {T} (x : T) : formats (Ok x) [].
Proof. split; [by exists x|]. intros Hn. exfalso. apply Hn. constructor. Qed.

Lemma formats_fmt iso : formats (fmt iso) [iso].
Proof.
  unfold formats, fmt, readable. rewrite Forall_singleton.
  destruct (Date_parse iso) as [t|]; split; try done; [by eexists|..]; intros Hn; exfalso; by apply Hn.
Qed.

Lemma readable_dec iso : Decision (readable iso).
Proof. unfold readable. destruct (Date_parse iso); [by left|right]. by intros Hn. Defined.
#[local] Existing Instance readable_dec.

Lemma formats_bind {T U} (m : result T) (k : T -> result U) l l' :
  formats m l -> (forall x, formats (k x) l') -> formats (rbind m k) (l ++ l').
Proof.
  intros [Hm1 Hm2] Hk. unfold formats. rewrite Forall_app. split.
  - intros [Hl Hl']. destruct (Hm1 Hl) as [x ->]. by apply (proj1 (Hk x)).
  - intros Hn. destruct (decide (Forall readable l)) as [Hl|Hl]; [|by rewrite Hm2].
    destruct (Hm1 Hl) as [x ->]. apply (proj2 (Hk x)). tauto.
Qed.

Lemma formats_map {T U} (m : result T) (f : T -> U) l :
  formats m l -> formats (x <-r m;; Ok (f x)) l.
Proof.
  intros Hm. rewrite <- (app_nil_r l). apply formats_bind; [done|]. intros x. apply formats_ok.
Qed.

Lemma formats_rmap {T U} (f : T -> result U) (dates : T -> list string) xs :
  (forall x, formats (f x) (dates x)) -> formats (rmap f xs) (flat_map dates xs).
Proof.
  intros Hf. induction xs as [|x xs IH]; [apply formats_ok|]. simpl.
  apply formats_bind; [done|]. intros y. by apply formats_map.
Qed.

Lemma formats_when_date s f : formats (when_date s f) (optional_date s).
Proof.
  unfold when_date, optional_date. destruct (non_empty s); [|apply formats_ok].
  apply formats_map, formats_fmt.
Qed.

Lemma formats_perm {T} (m : result T) l l' : l ≡ₚ l' -> formats m l -> formats m l'.
Proof. intros Hp [H1 H2]. split; by rewrite <- Hp. Qed.

Lemma flat_map_single {T} (f : T -> string) l : flat_map (fun x => [f x]) l = map f l.
Proof. induction l as [|x l IH]; [done|]. simpl. by rewrite IH. Qed.

Lemma formats_timeline audit :
  formats (timeline_section audit) (map AuditRow.created_at audit).
Proof.
  unfold timeline_section. apply formats_map.
  eapply formats_perm; [|apply (formats_rmap _ (fun a => [AuditRow.created_at a]))].
  - rewrite flat_map_single. apply Permutation_map, sort_Permutation.
  - intros a. apply formats_map, formats_fmt.
Qed.

Lemma formats_attempts l : formats (attempts_section l) (map AttemptRow.started_at l).
Proof.
  unfold attempts_section. apply formats_map. rewrite <- flat_map_single.
  apply formats_rmap. intros a. apply formats_map, formats_fmt.
Qed.

Lemma formats_outbox l : formats (outbox_section l) (flat_map outbox_dates l).
Proof.
  unfold outbox_section. apply formats_map, formats_rmap. intros o. unfold outbox_item, outbox_dates.
  apply (formats_bind _ _ [_] (optional_date _)); [apply formats_fmt|]. intros c.
  apply formats_map, formats_when_date.
Qed.

Lemma formats_metadata d : formats (metadata_section d)
  ([DeliveryRow.created_at d] ++ [DeliveryRow.updated_at d] ++ optional_date (DeliveryRow.scheduled_at d)).
Proof.
  unfold metadata_section. apply formats_bind; [apply formats_fmt|]. intros c.
  apply formats_bind; [apply formats_fmt|]. intros u. apply formats_map, formats_when_date.
Qed.

Lemma formats_shown bar d replaying : formats (shown_detail bar d replaying) (detail_dates d).
Proof.
  unfold shown_detail, detail_dates. cbv zeta.
  match goal with |- formats _ (?a ++ ?b ++ ?r) => rewrite (app_assoc a b r) end.
  apply formats_bind; [apply formats_metadata|]. intros m.
  apply formats_bind; [apply formats_timeline|]. intros t.
  apply formats_bind; [apply formats_attempts|]. intros a.
  apply formats_map, formats_outbox.
Qed.

(** Whether the panel shows the delivery: an id is selected, its data is there
    and the query has not failed. *)
Definition showing (id : option string) (q : query DeliveryDetailResp.t) :
    option DeliveryDetailResp.t :=
  if has_id id && negb (isError q) then data q else None.

(** C20.  The panel renders in every state of its query; the only exception is a
    delivery that is shown with a date the host cannot read (its own, or one of
    its audit, attempt or outbox rows): then rendering throws the RangeError of
    the date, and with readable dates it never throws. *)
Theorem detail_renders id q replaying lookup :
  (exists v, DeliveryDetail id q replaying lookup = Ok v) /\
    (forall d, showing id q = Some d -> Forall readable (detail_dates d)) \/
  DeliveryDetail id q replaying lookup = Throw (RangeError "Invalid time value") /\
    exists d, showing id q = Some d /\ ~ Forall readable (detail_dates d).
Proof.
  unfold showing, DeliveryDetail. destruct (has_id id); cbn [negb andb]; [|left; split; [eauto|by intros ? [=]]].
  destruct (data q) as [d|]; rewrite ?andb_false_r;
    [|left; destruct (isLoading q), (isError q); simpl; (split; [eauto|by intros ? [=]])].
  destruct (isError q); cbn [negb]; [left; split; [eauto|by intros ? [=]]|].
  destruct (decide (Forall readable (detail_dates d))) as [Hd|Hd];
    [left|right]; pose proof (formats_shown (lookupBar lookup (isLoading q && true)) d replaying)
      as [H1 H2].
  - split; [by apply H1|]. by intros ? [= <-].
  - split; [by apply H2|]. eauto.
Qed.
End RenderFacts.

(** ** The lookup form *)

Section Lookup.
Lemma in_range_spec a b c : in_range a b c = true <-> (a <= Ascii.nat_of_ascii c <= b)%nat.
Proof. unfold in_range. rewrite andb_true_iff, !Nat.leb_le. done. Qed.

(** The characters of an id are none of them white space. *)
Lemma class_not_space p c : p ∈ UUID_RE -> p c = true -> not_space c = true.
Proof.
  intros Hp Hc.
  assert (33 <= Ascii.nat_of_ascii c < 128)%nat as Hn.
  { assert (p = hex_class \/ p = version_class \/ p = variant_class \/ p = dash_class) as Hcl
      by (unfold UUID_RE in Hp; cbn [repeat app] in Hp; set_solver).
    destruct Hcl as [-> | [-> | [-> | ->]]];
      unfold hex_class, version_class, variant_class, dash_class in Hc;
      rewrite ?orb_true_iff, !in_range_spec in Hc; lia. }
  unfold not_space, space1. apply andb_true_iff. split; [|apply Nat.ltb_lt; lia].
  apply negb_true_iff, orb_false_iff. split.
  - apply andb_false_iff. right. apply Nat.leb_gt. lia.
  - apply Nat.eqb_neq. lia.
Qed.

Lemma test_chars re s : re ⊆ UUID_RE -> test re s = true ->
  all_chars not_space s = true /\ String.length s = length re.
Proof.
  revert s. induction re as [|p re IH]; intros [|c s] Hs Ht; simpl in *; try done. bsimp.
  destruct (IH s) as [H1 H2]; [set_solver|done|]. rewrite H1, H2.
  rewrite (class_not_space p c); [done|set_solver|done].
Qed.

(** C23.  Submitting the lookup form selects a delivery exactly when the text is a
    UUID between white space of the language: then it selects that UUID, of 36 characters, and
    nothing around it; any other text is answered by an error toast and leaves
    the selection alone. *)
Theorem submitLookup_spec lookup :
  (exists w u w', lookup = w +:+ u +:+ w' /\
     spaces w = true /\ spaces w' = true /\
     test UUID_RE u = true /\ String.length u = 36%nat /\
     submitLookup lookup = [Dispatch (SetSelectedDeliveryId (Some u))]) \/
  (exists title description, submitLookup lookup = [Toast ToastError title description] /\
     forall w u w', lookup = w +:+ u +:+ w' -> spaces w = true -> spaces w' = true ->
       test UUID_RE u = false).
Proof.
  unfold submitLookup. case_bool_decide as Ht; [right|].
  - eexists _, _. split; [done|]. intros w u w' -> Hw Hw'. destruct (test UUID_RE u) eqn:Hu; [|done].
    destruct (test_chars UUID_RE u) as [Hc Hl]; [done|done|].
    rewrite trim_padded in Ht by done. by subst u.
  - destruct (test UUID_RE (trim lookup)) eqn:Hu; cbn [negb].
    + left. destruct (trim_split lookup) as (w & w' & Hw & Hw' & Hs).
      destruct (test_chars UUID_RE (trim lookup)) as [_ Hl]; [done|done|].
      exists w, (trim lookup), w'. done.
    + right. eexists _, _. split; [done|]. intros w u w' -> Hw Hw'.
      destruct (test UUID_RE u) eqn:Hu'; [|done].
      destruct (test_chars UUID_RE u) as [Hc _]; [done|done|].
      by rewrite trim_padded, Hu' in Hu.
Qed.
End Lookup.

(** ** Replay *)

Section Replay.
Context `{Host} `{Styling}.

(** The buttons of a tree that dispatch [a]. *)
Definition buttons_for (is_a : detail_action -> bool) (t : node detail_action) :=
  List.filter (fun e => match click e.1 with Some a => is_a a | None => false end)
    (elements "button" t).
Definition is_replay (a : detail_action) : bool :=
  match a with DoReplay => true | _ => false end.

Definition plain_view (t : node detail_action) : Prop := elements "button" t = [].

Lemma plain_items {T} (f : T -> result (node detail_action)) xs items :
  (forall x v, f x = Ok v -> plain_view v) -> rmap f xs = Ok items ->
  flat_map (elements "button") items = [].
Proof.
  intros Hf Hr. apply rmap_Ok in Hr. induction Hr as [|x v xs items Hx _ IH]; [done|].
  simpl. by rewrite (Hf x v Hx), IH.
Qed.

Lemma plain_small_json v : plain_view (small_json v).
Proof. unfold small_json. by destruct (fmtJSON v). Qed.

Lemma plain_audit a v : audit_item a = Ok v -> plain_view v.
Proof.
  unfold audit_item. destruct (fmt _) as [t|]; [|done]. intros [= <-].
  unfold plain_view. cbn [elements flat_map]. decide_names. cbn [app].
  by rewrite (plain_small_json (AuditRow.payload a)).
Qed.

Lemma plain_attempt a v : attempt_item a = Ok v -> plain_view v.
Proof.
  unfold attempt_item. destruct (fmt _) as [t|]; [|done]. intros [= <-].
  unfold plain_view. cbn [elements flat_map]. decide_names. cbn [app].
  destruct (AttemptRow.success a); cbn [negb andb when].
  - rewrite (plain_small_json (Some (AttemptRow.provider_response a))). reflexivity.
  - by destruct (bool_decide _).
Qed.

Lemma plain_outbox o v : outbox_item o = Ok v -> plain_view v.
Proof.
  unfold outbox_item, when_date. destruct (fmt _) as [t|]; [|done]. cbn [rbind].
  destruct (non_empty _) as [p|]; [destruct (fmt p) as [t'|]; [|done]|];
    cbn [rbind]; intros [= <-]; reflexivity.
Qed.

Lemma plain_metadata d v : metadata_section d = Ok v -> plain_view v.
Proof.
  unfold metadata_section, when_date, when_text.
  destruct (fmt (DeliveryRow.created_at d)) as [c|]; [|done].
  destruct (fmt (DeliveryRow.updated_at d)) as [u|]; [|done]. cbn [rbind].
  destruct (non_empty (DeliveryRow.scheduled_at d)) as [p|]; [destruct (fmt p) as [t'|]; [|done]|];
    cbn [rbind]; intros [= <-];
    by destruct (non_empty (DeliveryRow.tenant_id d)), (non_empty (DeliveryRow.correlation_id d)),
      (non_empty (DeliveryRow.causation_id d)).
Qed.

(** A list of items that are plain, then the row shown when there is none. *)
Lemma plain_section label items (b : bool) t cls tag :
  tag = "ol" \/ tag = "ul" -> plain_view (SectionLabel label) ->
  flat_map (elements "button") items = [] ->
  plain_view (El "section" [] [SectionLabel label; El tag [class cls] (items ++ [when b (empty_item t)])]).
Proof.
  intros [-> | ->] Hl Hi; unfold plain_view in *; cbn [elements flat_map]; decide_names;
    cbn [app]; rewrite ?app_nil_r, flat_map_app, Hi, Hl; by destruct b.
Qed.

Lemma plain_timeline l v : timeline_section l = Ok v -> plain_view v.
Proof.
  unfold timeline_section. destruct (rmap _ _) as [items|] eqn:E; [|done]. intros [= <-].
  apply plain_section; [by left|done|]. eapply plain_items, E. apply plain_audit.
Qed.

Lemma plain_attempts l v : attempts_section l = Ok v -> plain_view v.
Proof.
  unfold attempts_section. destruct (rmap _ _) as [items|] eqn:E; [|done]. intros [= <-].
  apply plain_section; [by right|done|]. eapply plain_items, E. apply plain_attempt.
Qed.

Lemma plain_outboxes l v : outbox_section l = Ok v -> plain_view v.
Proof.
  unfold outbox_section. destruct (rmap _ _) as [items|] eqn:E; [|done]. intros [= <-].
  apply plain_section; [by right|done|]. eapply plain_items, E. apply plain_outbox.
Qed.

Lemma plain_notification d : plain_view (notification_section d).
Proof.
  unfold notification_section, json_or_dash, plain_view.
  by destruct (fmtJSON (DeliveryRow.recipient d)), (fmtJSON (DeliveryRow.template d)),
    (fmtJSON (DeliveryRow.payload d)).
Qed.

Lemma shown_buttons bar d replaying v : shown_detail bar d replaying = Ok v ->
  elements "button" v =
    elements "button" bar ++
    elements "button" (summary_bar (DeliveryDetailResp.delivery d) replaying).
Proof.
  unfold shown_detail. cbv zeta.
  destruct (metadata_section _) as [m|] eqn:Em; [|done].
  destruct (timeline_section _) as [t|] eqn:Et; [|done].
  destruct (attempts_section _) as [a|] eqn:Ea; [|done].
  destruct (outbox_section _) as [o|] eqn:Eo; [|done]. cbn [rbind]. intros [= <-].
  apply plain_metadata in Em. apply plain_timeline in Et. apply plain_attempts in Ea.
  apply plain_outboxes in Eo. pose proof (plain_notification (DeliveryDetailResp.delivery d)) as En.
  unfold plain_view in *.
  transitivity (elements "button" bar ++
    elements "button" (summary_bar (DeliveryDetailResp.delivery d) replaying) ++
    (elements "button" (when_text (Some (DeliveryRow.last_error (DeliveryDetailResp.delivery d))) error_box) ++
     elements "button" (notification_section (DeliveryDetailResp.delivery d)) ++
     elements "button" m ++ elements "button" t ++ elements "button" a ++ elements "button" o ++ [])).
  - unfold aside, ScrollArea, styled, styled_except. cbn [elements flat_map]. decide_names.
    cbn [app]. rewrite ?app_nil_r. reflexivity.
  - rewrite Em, Et, Ea, Eo, En. cbn [app]. unfold when_text. destruct (non_empty _); cbn; by rewrite app_nil_r.
Qed.

Lemma replay_buttons_bar lookup busy : buttons_for is_replay (lookupBar lookup busy) = [].
Proof. reflexivity. Qed.

Lemma replay_buttons_summary d replaying :
  map (fun e => disabled e.1) (buttons_for is_replay (summary_bar d replaying)) =
  if bool_decide (DeliveryRow.status d = Dlq) then [replaying] else [].
Proof. unfold summary_bar. by destruct (DeliveryRow.status d). Qed.

(** C28.  A replay is offered exactly when the panel shows a delivery that is in
    the dead-letter queue; the one button that dispatches it is disabled while a
    replay is pending. *)
Theorem replay_button id q replaying lookup v :
  DeliveryDetail id q replaying lookup = Ok v ->
  map (fun e => disabled e.1) (buttons_for is_replay v) =
  match showing id q with
  | Some d =>
      if bool_decide (DeliveryRow.status (DeliveryDetailResp.delivery d) = Dlq)
      then [replaying] else []
  | None => []
  end.
Proof.
  assert (forall bar w rest, buttons_for is_replay bar = [] ->
    elements "button" w = elements "button" bar ++ rest ->
    buttons_for is_replay w = List.filter (fun e => match click e.1 with
      Some a => is_replay a | None => false end) rest) as Hb.
  { intros bar w rest H1 H2. unfold buttons_for in *. by rewrite H2, List.filter_app, H1. }
  pose proof (replay_buttons_bar lookup (isLoading q && has_id id)) as Hbar.
  unfold DeliveryDetail, showing. destruct (has_id id); cbn [negb andb]; [|by intros [= <-]].
  assert (forall i e, buttons_for is_replay
    (not_found (lookupBar lookup (isLoading q && true)) i e) = []) as Hn.
  { intros i e. rewrite (Hb (lookupBar lookup (isLoading q && true)) _ []); [done|done|].
    unfold not_found, when_text. by destruct (non_empty _). }
  destruct (data q) as [d|]; rewrite ?andb_false_r, ?andb_true_r in *.
  - destruct (isError q); cbn [negb]; [intros [= <-]; by rewrite Hn|].
    intros Hs. erewrite Hb; [|exact Hbar|by apply (shown_buttons _ _ _ _ Hs)].
    apply replay_buttons_summary.
  - destruct (isLoading q); [intros [= <-]; by destruct (isError q)|].
    intros [= <-]. rewrite Hn. by destruct (isError q).
Qed.
End Replay.

(** ** The properties at a concrete panel *)

Section Witnesses.
#[local] Existing Instance sample_host.
#[local] Existing Instance sample_styling.

Definition demo_delivery : DeliveryRow.t :=
  DeliveryRow.Make "1d0973f2-5512-494c-b767-c44614b08e11" "k" None Email Normal Dlq (int 5) "smtp"
    None None None None None "2024-01-01T00:00:00Z" "2024-01-01T00:00:01Z" None.
Definition demo_query : query DeliveryDetailResp.t :=
  Query (Some (DeliveryDetailResp.Make demo_delivery [] [] [])) false false false None 0.

Example fmt_demo : fmt "2024-01-01T00:00:01.5Z" = Ok "2024-01-01 00:00:01.500".
Proof. vm_compute. reflexivity. Qed.
Example lookup_demo :
  submitLookup " 1D0973f2-5512-494c-b767-c44614b08e11 " =
  [Dispatch (SetSelectedDeliveryId (Some "1D0973f2-5512-494c-b767-c44614b08e11"))].
Proof. vm_compute. reflexivity. Qed.

Lemma replay_button_witness :
  exists v, DeliveryDetail (Some "x") demo_query true "" = Ok v /\
    map (fun e => disabled e.1) (buttons_for is_replay v) = [true].
Proof.
  destruct (DeliveryDetail (Some "x") demo_query true "") as [v|e] eqn:E;
    [|vm_compute in E; discriminate E].
  exists v. split; [reflexivity|].
  rewrite (replay_button (Some "x") demo_query true "" v E). vm_compute. reflexivity.
Defined.
End Witnesses.
