(* ===== verification/SendTestForm.v ===== *)
(** * SendTestForm (web/src/components/ops/SendTestForm.tsx)

    The form that submits one notification. *)

From S2P Require Import Prelude JsNumber JsString JsValue JsDate React UiKit Types Effects LoadConfig.
From S2P Require Import Store StatusViews DeliveriesTable.

Definition PRESETS : list preset :=
  [ Preset "Happy path" "user@example.com" Tone_success;
    Preset "Permanent fail" "fail-permanent@example.com" Tone_danger;
    Preset "Transient fail" "fail-transient@example.com" Tone_warning ].

(** ** State and actions *)

Record form_state : Type := Form { form_channel : Channel; form_address : string; form_key : string }.

Inductive form_action : Type :=
| Submit
| PickPreset (addr : string)
| PickChannel (v : string)
| SetAddress (v : string)
| SetKey (v : string)
| Regenerate.

Section Form.
Context `{Host}.

Definition genKey : M string :=
  r <-- Math_random;;
  n <-- Date_now;;
  ret ("test-" +:+ slice 2 8 (random_toString36 r) +:+ "-" +:+ slice_last 4 (toString36 n)).

Definition form_initial : M form_state :=
  k <-- genKey;; ret (Form Email "user@example.com" k).

(** The request of a submission. *)
Definition form_request (s : form_state) : SendNotificationReq.t :=
  SendNotificationReq.Make "1.0" (form_key s) (form_channel s) Normal (form_address s) "welcome" [].

(** [v as Channel]: the select only offers channels. *)
Definition channel_of (v : string) (c : Channel) : Channel := default c (enum_of v).

Definition form_step (a : form_action) (s : form_state) : M (form_state * list effect) :=
  match a with
  | Submit => ret (s, [SendMutation (form_request s)])
  | PickPreset addr => ret (Form Email addr (form_key s), [])
  | PickChannel v => ret (Form (channel_of v (form_channel s)) (form_address s) (form_key s), [])
  | SetAddress v => ret (Form (form_channel s) v (form_key s), [])
  | SetKey v => ret (Form (form_channel s) (form_address s) v, [])
  | Regenerate => k <-- genKey;; ret (Form (form_channel s) (form_address s) k, [])
  end.

(** What follows when the submission settles: the mutation's own callback, then
    the form's. *)
Definition form_settled (r : result SendNotificationResp.t) (s : form_state) :
    M (form_state * list effect) :=
  match r with
  | Ok res =>
      let id := SendNotificationResp.delivery_id res in
      let toast :=
        match SendNotificationResp.duplicate res with
        | Some true =>
            Toast ToastMessage "Duplicate idempotency key"
              (Some ("Returned existing delivery " +:+ slice 0 8 id +:+ "…"))
        | _ => Toast ToastSuccess "Notification queued"
                 (Some ("delivery_id " +:+ slice 0 8 id +:+ "…"))
        end in
      k <-- genKey;;
      ret (Form (form_channel s) (form_address s) k,
           useSendNotification_onSuccess res ++
           [toast; Dispatch (SetSelectedDeliveryId (Some id))])
  | Throw e => ret (s, [Toast ToastError "Send failed" (Some (exn_message e))])
  end.
End Form.

(** ** Rendering *)

Section View.
Context `{Styling}.

(** The classes of a preset button: highlighted when its address is in use. *)
Definition preset_class (p : preset) (current : string) : string :=
  cn [CStr "rounded-md border px-2 py-1 text-[11px] transition-colors";
      CStr (if bool_decide (current = preset_address p) then
              match preset_tone p with
              | Tone_success => "border-status-success/40 bg-status-success/10 text-status-success"
              | Tone_danger => "border-status-danger/40 bg-status-danger/10 text-status-danger"
              | _ => "border-status-warning/40 bg-status-warning/10 text-status-warning"
              end
            else "border-border bg-background text-muted-foreground hover:text-foreground")].

Definition preset_button (current : string) (p : preset) : node form_action :=
  El "button"
    [key (preset_label p); ("type", AStr "button"); ("onClick", AAct (PickPreset (preset_address p)));
     class (preset_class p current)]
    [Text (preset_label p)].

Definition field_label {A} (t : string) : node A :=
  Label [class "text-[11px] text-muted-foreground"] [Text t].

Definition form_field {A} (label : string) (children : list (node A)) : node A :=
  El "div" [class "space-y-1.5"] (field_label label :: children).

Definition SendTestForm (s : form_state) (isPending : bool) : node form_action :=
  El "form"
    [("onSubmit", AAct Submit); class "space-y-3 rounded-lg border border-border bg-card p-3"]
    [El "div" [class "text-xs font-medium uppercase tracking-wider text-muted-foreground"]
       [Text "Send test notification"];
     El "div" [class "flex flex-wrap gap-1.5"] (map (preset_button (form_address s)) PRESETS);
     form_field "Channel"
       [Select [("value", AStr (enum_text (form_channel s))); ("onValueChange", AText PickChannel)]
          [SelectTrigger [class "h-8 text-xs mono"] [SelectValue []];
           SelectContent []
             [fixed_item "email" "email"; fixed_item "sms" "sms"; fixed_item "push" "push";
              fixed_item "webhook" "webhook"]]];
     form_field "Recipient"
       [Input [("value", AStr (form_address s)); ("onChange", AText SetAddress);
               class "h-8 text-xs mono"; ("placeholder", AStr "user@example.com")]];
     form_field "Idempotency key"
       [El "div" [class "flex gap-1.5"]
          [Input [("value", AStr (form_key s)); ("onChange", AText SetKey); class "h-8 text-xs mono"];
           Button [("type", AStr "button"); ("variant", AStr "outline"); ("size", AStr "icon");
                   class "h-8 w-8 shrink-0"; ("onClick", AAct Regenerate);
                   ("title", AStr "Regenerate")]
             [El "lucide.Dices" [class "h-3.5 w-3.5"] []]]];
     Button [("type", AStr "submit"); ("disabled", ABool isPending); class "w-full h-8 text-xs"]
       [El "lucide.Send" [class "mr-1.5 h-3.5 w-3.5"] [];
        Text (if isPending then "Sending…" else "POST /v1/notifications")]].
End View.

(** ** Properties *)

Section Facts.
Context `{Host}.

(** C24.  A submission sends what the form shows.  When it fails, nothing changes
    but a toast, so submitting again retries with the same idempotency key; when
    it is accepted, the accepted delivery becomes the selected one, whatever was
    selected before, and the next submission has a new key and the same channel
    and address. *)
Theorem form_submission s t ap :
  fst (form_step Submit s t) = (s, [SendMutation (form_request s)]) /\
  (forall e, let '(s', es) := fst (form_settled (Throw e) s t) in
     form_request s' = form_request s /\ run_effects es ap = ap /\
     es = [Toast ToastError "Send failed" (Some (exn_message e))]) /\
  (forall res, let '(s', es) := fst (form_settled (Ok res) s t) in
     selectedDeliveryId (run_effects es ap) = Some (SendNotificationResp.delivery_id res) /\
     apiKey (run_effects es ap) = apiKey ap /\
     Invalidate [Some "summary"] ∈ es /\
     form_channel s' = form_channel s /\ form_address s' = form_address s /\
     form_key s' = fst (genKey t)).
Proof.
  split; [done|]. split; [done|]. intros res. unfold form_settled, bind, ret.
  destruct (genKey t) as [k t']. simpl.
  destruct (SendNotificationResp.duplicate res) as [[]|]; simpl; repeat split; set_solver.
Qed.
End Facts.
