(* ===== verification/LoadTestPanel.v ===== *)
(** * LoadTestPanel (web/src/components/ops/LoadTestPanel.tsx)

    The panel edits the configuration of LoadConfig and starts the runs of
    LoadRun; a run's sends are those of the send mutation. *)

From S2P Require Import Prelude JsNumber JsString JsValue JsDate React UiKit Types Effects LoadConfig.
From S2P Require Import LoadRun Store StatusViews DeliveriesTable SendTestForm.

(** ** State and actions *)

Record panel_state : Type := Panel {
  config : LoadTestConfig;
  advancedOpen : bool;
  running : option LoadScenarioId;
  panel_progress : option LoadRunResult
}.

Definition panel_initial : panel_state := Panel defaultLoadConfig false None None.

(** [Partial<LoadTestConfig>]: the fields [patch] overwrites. *)
Inductive partial : Type :=
| P_address (v : string)
| P_burstCount (v : num)
| P_duplicateCount (v : num)
| P_channelMode (m : ChannelMode)
| P_fixedChannel (c : Channel)
| P_selectedChannels (l : list Channel)
| P_priorityMode (m : PriorityMode)
| P_fixedPriority (p : Priority)
| P_concurrency (v : num)
| P_staggerMs (v : num).

(** [{ ...c, ...partial }]. *)
Definition merge (p : partial) (c : LoadTestConfig) : LoadTestConfig :=
  let '(LoadConfig a b d m f l pm fp k s) := c in
  match p with
  | P_address v => LoadConfig v b d m f l pm fp k s
  | P_burstCount v => LoadConfig a v d m f l pm fp k s
  | P_duplicateCount v => LoadConfig a b v m f l pm fp k s
  | P_channelMode v => LoadConfig a b d v f l pm fp k s
  | P_fixedChannel v => LoadConfig a b d m v l pm fp k s
  | P_selectedChannels v => LoadConfig a b d m f v pm fp k s
  | P_priorityMode v => LoadConfig a b d m f l v fp k s
  | P_fixedPriority v => LoadConfig a b d m f l pm v k s
  | P_concurrency v => LoadConfig a b d m f l pm fp v s
  | P_staggerMs v => LoadConfig a b d m f l pm fp k v
  end.

Definition patch (p : partial) (s : panel_state) : panel_state :=
  Panel (merge p (config s)) (advancedOpen s) (running s) (panel_progress s).

Definition toggleChannel (channel : Channel) (checked : bool) (s : panel_state) : panel_state :=
  let selected := selectedChannels (config s) in
  let next := if checked then uniq (selected ++ [channel])
              else List.filter (fun ch => negb (bool_decide (ch = channel))) selected in
  patch (P_selectedChannels (if (0 <? length next)%nat then next else [channel])) s.

(** The events of the controls; a text is what the control holds. *)
Inductive panel_action : Type :=
| EditAddress (v : string)
| EditBurst (v : string)
| EditDuplicate (v : string)
| SetAdvanced (b : bool)
| EditChannelMode (v : string)
| EditChannel (v : string)
| ToggleChannel (c : Channel) (checked : bool)
| EditPriorityMode (v : string)
| EditPriority (v : string)
| EditConcurrency (v : string)
| EditStagger (v : string)
| RunScenario (id : LoadScenarioId).

(** [v as T]: a select only offers the texts of the union. *)
Definition chosen {T} `{StringEnum T} (v : string) (current : T) : T := default current (enum_of v).

(** The edits of the configuration. *)
Definition panel_edit (a : panel_action) (s : panel_state) : panel_state :=
  match a with
  | EditAddress v => patch (P_address v) s
  | EditBurst v => patch (P_burstCount (Math_max (int 1) (Number_or v (int 1)))) s
  | EditDuplicate v => patch (P_duplicateCount (Math_max (int 1) (Number_or v (int 1)))) s
  | SetAdvanced b => Panel (config s) b (running s) (panel_progress s)
  | EditChannelMode v => patch (P_channelMode (chosen v (channelMode (config s)))) s
  | EditChannel v => patch (P_fixedChannel (chosen v (fixedChannel (config s)))) s
  | ToggleChannel c b => toggleChannel c b s
  | EditPriorityMode v => patch (P_priorityMode (chosen v (priorityMode (config s)))) s
  | EditPriority v => patch (P_fixedPriority (chosen v (fixedPriority (config s)))) s
  | EditConcurrency v =>
      patch (P_concurrency (Math_max (int 1) (Math_min (int 100) (Number_or v (int 1))))) s
  | EditStagger v => patch (P_staggerMs (Math_max (int 0) (Number_or v (int 0)))) s
  | RunScenario _ => s
  end.

(** ** Running a scenario *)

(** How a scenario runs. *)
Inductive launch : Type :=
| Sequential (count stagger : num)
| Parallel (count concurrency : num).

Definition launch_of (s : LoadScenarioId) (c : LoadTestConfig) : launch :=
  if bool_decide (s = DuplicateSeq) || bool_decide (s = Staggered)
  then Sequential (scenarioCount s c) (if bool_decide (s = Staggered) then staggerMs c else int 0)
  else Parallel (scenarioCount s c) (concurrency c).

(** [LOAD_SCENARIOS.find((s) => s.id === scenario)]. *)
Definition scenario_of (s : LoadScenarioId) : option scenario :=
  find (fun x => bool_decide (scenario_id x = s)) LOAD_SCENARIOS.

Section Runs.
Context `{Host}.

Definition shared_key (s : LoadScenarioId) : M (option string) :=
  if is_duplicate s
  then n <-- Date_now;; ret (Some ("dup-storm-" +:+ Z_to_string n))
  else ret None.

Definition run_build (s : LoadScenarioId) (c : LoadTestConfig) (sharedKey : option string)
    (i : nat) : M (option SendNotificationReq.t) := buildScenarioRequest s c i sharedKey.

Definition invalid_count : effect :=
  Toast ToastError "Invalid count" (Some "Count must be at least 1.").

(** [runScenario] up to its first await: a refusal, or the run it starts with the
    shared key of its requests. *)
Definition runScenario_start (scenario : LoadScenarioId) (s : panel_state) :
    M (panel_state * list effect * option (launch * option string)) :=
  if ltb (scenarioCount scenario (config s)) (int 1) then ret (s, [invalid_count], None)
  else
    k <-- shared_key scenario;;
    ret (Panel (config s) (advancedOpen s) (Some scenario) None, [],
         Some (launch_of scenario (config s), k)).

(** [onProgress]. *)
Definition on_progress (r : LoadRunResult) (s : panel_state) : panel_state :=
  Panel (config s) (advancedOpen s) (running s) (Some r).

(** The end of the run: its toast, and the finally block. *)
Definition runScenario_end (scenario : LoadScenarioId) (r : LoadRunResult) (s : panel_state) :
    panel_state * list effect :=
  (Panel (config s) (advancedOpen s) None None,
   [Toast (if (0 <? fail r)%nat then ToastMessage else ToastSuccess)
      (default "undefined" (scenario_label <$> scenario_of scenario) +:+ " complete")
      (Some (formatRunSummary r))]).

(** What the network does with a run: how each send of a sequential run settles,
    or in which order, and how, those of a parallel run do. *)
Record network_play : Type := Play { settles : nat -> outcome; sched : list (nat * outcome) }.

(** The requests and the result of a whole run: [None] while it is not over. *)
Definition run_launch (scenario : LoadScenarioId) (c : LoadTestConfig) (l : launch)
    (k : option string) (p : network_play) (t : tape) :
    option (LoadRunResult * list (nat * option SendNotificationReq.t)) :=
  match l with
  | Sequential count stagger =>
      let '(r, evs, _) := runSequential count stagger (run_build scenario c k) (settles p) t in
      Some (r, requests_of evs)
  | Parallel count conc =>
      '(r, st) ← runParallel count conc (run_build scenario c k) t (sched p); Some (r, sent st)
  end.
End Runs.

(** ** Rendering *)

Section View.
Context `{Styling}.
Local Notation node := (node panel_action).

Definition scenarioIcon (id : LoadScenarioId) : string :=
  if is_duplicate id then "lucide.Shuffle"
  else if bool_decide (id = Staggered) then "lucide.Waves"
  else if bool_decide (id = RetryStorm) || bool_decide (id = FailureMix) then "lucide.AlertTriangle"
  else "lucide.Zap".

Definition panel_preset (current : string) (p : preset) : node :=
  El "button"
    [key (preset_label p); ("type", AStr "button"); ("onClick", AAct (EditAddress (preset_address p)));
     class (preset_class p current)]
    [Text (preset_label p)].

Definition number_input (lo : num) (hi value : num) (f : string -> panel_action) : node :=
  Input [("type", AStr "number"); ("min", ANum lo); ("max", ANum hi); ("value", ANum value);
         ("onChange", AText f); class "h-8 text-xs mono"].

Definition choice (value : string) (f : string -> panel_action) (items : list node) : node :=
  Select [("value", AStr value); ("onValueChange", AText f)]
    [SelectTrigger [class "h-8 text-xs mono"] [SelectValue []]; SelectContent [] items].

Definition pool_checkbox (c : LoadTestConfig) (ch : Channel) : node :=
  El "label" [key (enum_text ch); class "flex cursor-pointer items-center gap-2 text-[11px] mono"]
    [Checkbox [("checked", ABool (bool_decide (ch ∈ selectedChannels c)));
               ("onCheckedChange", AFlag (fun checked => ToggleChannel ch checked))];
     Text (enum_text ch)].

Definition advanced (c : LoadTestConfig) : list node :=
  [form_field "Channel mode"
     [choice (enum_text (channelMode c)) EditChannelMode
        [fixed_item "fixed" "Fixed channel"; fixed_item "random" "Random from selection";
         fixed_item "round-robin" "Round-robin sweep"]];
   if bool_decide (channelMode c = ChannelFixed) then
     form_field "Channel"
       [choice (enum_text (fixedChannel c)) EditChannel
          (map (fun ch => option_item (enum_text ch) (enum_text ch)) ALL_CHANNELS)]
   else
     form_field "Channels in pool"
       [El "div" [class "grid grid-cols-2 gap-2"] (map (pool_checkbox c) ALL_CHANNELS)];
   El "div" [class "grid grid-cols-2 gap-2"]
     [form_field "Priority mode"
        [choice (enum_text (priorityMode c)) EditPriorityMode
           [fixed_item "fixed" "Fixed"; fixed_item "random" "Random"]];
      when (bool_decide (priorityMode c = PriorityFixed))
        (form_field "Priority"
           [choice (enum_text (fixedPriority c)) EditPriority
              (map (fun p => option_item (enum_text p) (enum_text p)) ALL_PRIORITIES)])];
   El "div" [class "grid grid-cols-2 gap-2"]
     [form_field "Concurrency" [number_input (int 1) (int 100) (concurrency c) EditConcurrency];
      form_field "Stagger (ms)" [number_input (int 0) (int 5000) (staggerMs c) EditStagger]]].

Definition progress_view (s : panel_state) : node :=
  match running s, panel_progress s with
  | Some id, Some p =>
      El "div" [class "rounded-md border border-border bg-muted/40 px-2 py-1.5 text-[10px] mono text-muted-foreground"]
        [match scenario_of id with Some x => Text (scenario_label x) | None => Nothing end;
         Text ": "; NumText (of_nat (ok p + duplicates p)); Text "/"; NumText (total p); Text " (";
         NumText (of_nat (fail p)); Text " failed) · "; NumText (int (Math_round (elapsedMs p)));
         Text " ms"]
  | _, _ => Nothing
  end.

Definition scenario_button (s : panel_state) (x : scenario) : node :=
  let id := scenario_id x in
  Button
    [key (enum_text id); ("type", AStr "button");
     ("variant", AStr (if is_duplicate id then "outline" else "secondary"));
     ("disabled", ABool (bool_decide (running s <> None)));
     class "h-auto min-h-8 justify-start py-1.5 text-left text-xs";
     ("title", AStr (scenario_description x)); ("onClick", AAct (RunScenario id))]
    [if bool_decide (running s = Some id)
     then El "lucide.Loader2" [class "mr-1.5 h-3.5 w-3.5 shrink-0 animate-spin"] []
     else El (scenarioIcon id) [class "mr-1.5 h-3.5 w-3.5 shrink-0"] [];
     El "span" [class "flex min-w-0 flex-col"]
       [El "span" []
          [Text (scenario_label x); Text " ("; NumText (scenarioCount id (config s)); Text ")"];
        El "span" [class "truncate text-[10px] font-normal text-muted-foreground"]
          [Text (scenario_description x)]]].

Definition LoadTestPanel (s : panel_state) : node :=
  let c := config s in
  El "div" [class "space-y-3 rounded-lg border border-border bg-card p-3"]
    [El "div" [class "text-xs font-medium uppercase tracking-wider text-muted-foreground"]
       [Text "Load test panel"];
     El "div" [class "flex flex-wrap gap-1.5"] (map (panel_preset (address c)) RECIPIENT_PRESETS);
     form_field "Recipient"
       [Input [("value", AStr (address c)); ("onChange", AText EditAddress); class "h-8 text-xs mono"]];
     El "div" [class "grid grid-cols-2 gap-2"]
       [form_field "Burst count" [number_input (int 1) (int 500) (burstCount c) EditBurst];
        form_field "Duplicate count" [number_input (int 1) (int 500) (duplicateCount c) EditDuplicate]];
     Collapsible [("open", ABool (advancedOpen s)); ("onOpenChange", AFlag SetAdvanced)]
       [CollapsibleTrigger [("asChild", ABool true)]
          [El "button"
             [("type", AStr "button");
              class "flex w-full items-center justify-between rounded-md border border-border px-2 py-1.5 text-[11px] text-muted-foreground hover:text-foreground"]
             [El "span" [] [Text "Advanced configuration"];
              El "lucide.ChevronDown"
                [class (cn [CStr "h-3.5 w-3.5 transition-transform";
                            cwhen (advancedOpen s) "rotate-180"])] []]];
        CollapsibleContent [class "mt-2 space-y-2"] (advanced c)];
     progress_view s;
     El "div" [class "flex max-h-[220px] flex-col gap-1.5 overflow-y-auto pr-0.5"]
       (map (scenario_button s) LOAD_SCENARIOS)].
End View.

(** ** The configuration stays valid *)

Record valid_config (c : LoadTestConfig) : Prop := {
  valid_burst : leb (int 1) (burstCount c) = true;
  valid_duplicate : leb (int 1) (duplicateCount c) = true;
  valid_pool : selectedChannels c <> [] /\ NoDup (selectedChannels c);
  valid_concurrency : leb (int 1) (concurrency c) = true /\ leb (concurrency c) (int 100) = true;
  valid_stagger : leb (int 0) (staggerMs c) = true
}.

Lemma valid_initial : valid_config (config panel_initial).
Proof. split; try done. split; [done|]. apply (bool_decide_eq_true_1 _). reflexivity. Qed.

Lemma toggle_pool (channel : Channel) (checked : bool) (selected : list Channel) :
  selected <> [] -> NoDup selected ->
  let next := if checked then uniq (selected ++ [channel])
              else List.filter (fun ch => negb (bool_decide (ch = channel))) selected in
  let l := if (0 <? length next)%nat then next else [channel] in
  l <> [] /\ NoDup l.
Proof.
  intros Hne Hnd next l. subst l. destruct next as [|x l] eqn:E; simpl.
  - split; [done|]. apply NoDup_singleton.
  - split; [done|]. rewrite <- E. subst next. destruct checked; auto with console.
Qed.

Lemma clamp_bounds lo hi x : leb lo hi = true ->
  leb lo (Math_max lo (Math_min hi x)) = true /\ leb (Math_max lo (Math_min hi x)) hi = true.
Proof. intros Hlh. split; [apply Math_max_l|]. apply Math_max_lub; [done|apply Math_min_l]. Qed.

Lemma panel_edit_valid a s : valid_config (config s) -> valid_config (config (panel_edit a s)).
Proof.
  intros [H1 H2 [H3 H3'] H4 H5]. destruct s as [[ad b d m f l pm fp k st] adv run prog].
  destruct a; simpl in *; split; simpl; auto with console.
  exact (toggle_pool c checked l H3 H3').
Qed.

(** The states the controls can lead to, whatever is typed and whatever runs. *)
Inductive panel_reachable `{Host} : panel_state -> Prop :=
| reach_initial : panel_reachable panel_initial
| reach_edit a s : panel_reachable s -> panel_reachable (panel_edit a s)
| reach_start x t s : panel_reachable s ->
    panel_reachable (fst (fst (fst (runScenario_start x s t))))
| reach_progress r s : panel_reachable s -> panel_reachable (on_progress r s)
| reach_end x r s : panel_reachable s -> panel_reachable (fst (runScenario_end x r s)).

Section Properties.
Context `{Host}.

Lemma reachable_valid s : panel_reachable s -> valid_config (config s).
Proof.
  induction 1 as [|a s _ IH|x t s _ IH|r s _ IH|x r s _ IH];
    [exact valid_initial|by apply panel_edit_valid| |exact IH|exact IH].
  unfold runScenario_start. destruct (ltb _ _); [exact IH|].
  unfold bind. destruct (shared_key x t) as [k t']. exact IH.
Qed.

Lemma valid_count x c : valid_config c -> leb (int 1) (scenarioCount x c) = true.
Proof. intros V. unfold scenarioCount. destruct (_ || _); apply V. Qed.

Lemma start_runs x s t : valid_config (config s) ->
  runScenario_start x s t =
    let '(k, t') := shared_key x t in
    (Panel (config s) (advancedOpen s) (Some x) None, [], Some (launch_of x (config s), k), t').
Proof.
  intros V. unfold runScenario_start. pose proof (valid_count x _ V) as Hc.
  rewrite leb_ltb in Hc. apply negb_true_iff in Hc. rewrite Hc. unfold bind.
  by destruct (shared_key x t).
Qed.

(** C17.  Whatever is typed into the panel, and whatever runs, the configuration
    stays one the scenarios can run with: both counts are at least 1, the pool of
    channels is never empty and never repeats a channel, the concurrency is
    between 1 and 100 and the delay is not negative.  So no scenario is ever
    refused for its count: clicking one always starts it. *)
Theorem panel_config_valid s x t : panel_reachable s ->
  valid_config (config s) /\
  exists t' k, runScenario_start x s t =
    (Panel (config s) (advancedOpen s) (Some x) None, [], Some (launch_of x (config s), k), t').
Proof.
  intros V%reachable_valid. split; [done|]. rewrite start_runs by done.
  destruct (shared_key x t) as [k t']. eauto.
Qed.

(** The requests of one run. *)
Definition run_requests (x : LoadScenarioId) (c : LoadTestConfig) (k : option string)
    (l : list (nat * option SendNotificationReq.t)) : Prop :=
  map fst l = seq 0 (requests (scenarioCount x c)) /\
  Forall (fun p => exists r, p.2 = Some r /\
    built (effective_config x c) (scenario_addresses x c) r /\
    (is_duplicate x = true -> k = Some (SendNotificationReq.idempotency_key r))) l.

Lemma shared_key_some x t : is_duplicate x = true ->
  exists k, fst (shared_key x t) = Some k.
Proof. unfold shared_key. intros ->. unfold bind, ret. destruct (Date_now t). eauto. Qed.

(** What [buildScenarioRequest] builds, as a fact about one send. *)
Lemma run_build_built x c k i t :
  (is_duplicate x = true -> exists k', k = Some k') ->
  exists r, fst (run_build x c k i t) = Some r /\
    built (effective_config x c) (scenario_addresses x c) r /\
    (is_duplicate x = true -> k = Some (SendNotificationReq.idempotency_key r)).
Proof.
  intros Hk. destruct (scenario_request_built x c i k t) as (r & Hr & Hb & Hd).
  exists r. split; [done|]. split; [done|]. intros Hx. destruct (Hk Hx) as [k' ->].
  by rewrite (Hd Hx k').
Qed.

Lemma built_requests x c k l n :
  (is_duplicate x = true -> exists k', k = Some k') ->
  map fst l = seq 0 n -> n = requests (scenarioCount x c) ->
  sent_built (run_build x c k) l -> run_requests x c k l.
Proof.
  intros Hk Hs -> Hb. split; [done|]. eapply Forall_impl; [exact Hb|].
  intros [i req] [t Ht]. simpl in *. destruct (run_build_built x c k i t Hk) as (r & Hr & Hd).
  exists r. by rewrite <- Ht.
Qed.

(** C9.  A scenario started from the panel, run to its end under any outcomes and
    any order of the parallel sends, issues one request for each index below its
    count, every one of them complete and as the scenario promises ([built]), and
    in a duplicate scenario all with the run's one shared key; every request is
    counted once, and the panel is idle again afterwards. *)
Theorem scenario_run x s t p s' es l k t1 t2 res sends :
  panel_reachable s -> runScenario_start x s t = (s', es, Some (l, k), t1) ->
  run_launch x (config s) l k p t2 = Some (res, sends) ->
  run_requests x (config s) k sends /\
  settled_count res = requests (scenarioCount x (config s)) /\
  running s' = Some x /\ running (fst (runScenario_end x res s')) = None.
Proof.
  intros V%reachable_valid Hst Hrun. rewrite start_runs in Hst by done.
  pose proof (shared_key_some x t) as Hk. destruct (shared_key x t) as [k0 t0].
  injection Hst as <- <- <- <- <-. simpl in Hk.
  unfold launch_of in Hrun. destruct (_ || _); cbn [run_launch] in Hrun.
  - match type of Hrun with context [runSequential ?a ?b ?c ?d ?e] =>
      pose proof (runSequential_requests a b c d e) as Hr;
      destruct (runSequential a b c d e) as [[r evs] t3] end.
    destruct Hr as (H1 & H2 & H3). injection Hrun as <- <-.
    split; [by eapply built_requests|]. done.
  - destruct (runParallel _ _ _ _ _) as [[r st]|] eqn:Hr; [|done].
    apply runParallel_requests in Hr as (H1 & H2 & H3). injection Hrun as <- <-.
    split; [by eapply built_requests|]. done.
Qed.
End Properties.

Section ViewFacts.
Context `{Styling}.

(** The scenarios a button of the tree runs, and whether the button is disabled. *)
Definition run_buttons (t : node panel_action) : list (LoadScenarioId * bool) :=
  omap (fun e => match click e.1 with
                 | Some (RunScenario x) => Some (x, disabled e.1)
                 | _ => None
                 end) (elements "button" t).

Lemma run_buttons_scenarios s :
  omap (fun e => match click e.1 with
                 | Some (RunScenario x) => Some (x, disabled e.1) | _ => None end)
    (flat_map (elements "button") (map (scenario_button s) LOAD_SCENARIOS)) =
  map (fun x => (scenario_id x, bool_decide (running s <> None))) LOAD_SCENARIOS.
Proof.
  induction LOAD_SCENARIOS as [|x l IH]; [done|]. cbn [map flat_map]. rewrite omap_app, IH.
  unfold scenario_button. cbv zeta. destruct (bool_decide (running s = Some (scenario_id x)));
    by destruct x as [[] lbl desc].
Qed.

Lemma run_buttons_advanced c :
  omap (fun e => match click e.1 with
                 | Some (RunScenario x) => Some (x, disabled e.1) | _ => None end)
    (flat_map (elements "button") (advanced c)) = [].
Proof.
  unfold advanced. by destruct (bool_decide (channelMode c = ChannelFixed)),
    (bool_decide (priorityMode c = PriorityFixed)).
Qed.

Lemma progress_view_plain s : elements "button" (progress_view s) = [].
Proof.
  unfold progress_view. destruct (running s) as [id|], (panel_progress s); try reflexivity.
  by destruct (scenario_of id).
Qed.

(** The buttons of the panel: the presets, the trigger of the advanced part, that
    part, and the scenarios. *)
Lemma panel_buttons s : exists e, click e.1 = None /\
  elements "button" (LoadTestPanel s) =
    flat_map (elements "button") (map (panel_preset (address (config s))) RECIPIENT_PRESETS) ++
    e :: flat_map (elements "button") (advanced (config s)) ++
    flat_map (elements "button") (map (scenario_button s) LOAD_SCENARIOS).
Proof.
  unfold LoadTestPanel. cbv zeta.
  generalize (map (panel_preset (address (config s))) RECIPIENT_PRESETS) as presets.
  generalize (advanced (config s)) as adv. generalize (map (scenario_button s) LOAD_SCENARIOS) as sc.
  intros sc adv presets. eexists. split; cycle 1.
  - unfold form_field, field_label, Label, number_input, Input, Collapsible, CollapsibleTrigger,
      CollapsibleContent, styled, styled_except.
    cbn [elements flat_map]. decide_names. cbn [app].
    rewrite progress_view_plain, !app_nil_r. cbn [app]. reflexivity.
  - reflexivity.
Qed.

(** The panel offers every scenario exactly once, and while one is running
    none of them can be started. *)
Theorem scenario_buttons s :
  run_buttons (LoadTestPanel s) =
    map (fun x => (x, bool_decide (running s <> None))) (map scenario_id LOAD_SCENARIOS) /\
  map scenario_id LOAD_SCENARIOS ≡ₚ enum_all.
Proof.
  split; [|by apply reflexive_eq]. rewrite map_map, <- run_buttons_scenarios. unfold run_buttons.
  destruct (panel_buttons s) as (e & He & ->). rewrite omap_app.
  cbn [omap list_omap]. rewrite He, omap_app, run_buttons_advanced. reflexivity.
Qed.
End ViewFacts.

(** * The properties at a concrete panel *)

Section Witnesses.
#[local] Existing Instance sample_host.

(* Two duplicates of one request. *)
Definition demo_panel : panel_state := panel_edit (EditDuplicate "2") panel_initial.

Example demo_edits :
  map (fun v => burstCount (config (panel_edit (EditBurst v) panel_initial)))
    ["12"; "-3"; "abc"; ""] = [int 12; int 1; int 1; int 1].
Proof. vm_compute. reflexivity. Qed.

Lemma panel_config_valid_witness :
  panel_reachable demo_panel /\ leb (int 1) (duplicateCount (config demo_panel)) = true.
Proof.
  assert (panel_reachable demo_panel) as Hr by (apply reach_edit, reach_initial).
  split; [exact Hr|]. exact (valid_duplicate _ (proj1 (panel_config_valid demo_panel Burst (Tape 0 0 0) Hr))).
Defined.

Lemma scenario_run_witness :
  exists s' es l k t1 res sends,
    runScenario_start DuplicateSeq demo_panel (Tape 0 0 0) = (s', es, Some (l, k), t1) /\
    run_launch DuplicateSeq (config demo_panel) l k (Play (fun _ => Out_ok) []) t1 = Some (res, sends) /\
    k = Some "dup-storm-1700000000000" /\ run_requests DuplicateSeq (config demo_panel) k sends.
Proof.
  destruct (runScenario_start DuplicateSeq demo_panel (Tape 0 0 0))
    as [[[s' es] [[l k]|]] t1] eqn:E1; [|vm_compute in E1; discriminate E1].
  destruct (run_launch DuplicateSeq (config demo_panel) l k (Play (fun _ => Out_ok) []) t1)
    as [[res sends]|] eqn:E2.
  - exists s', es, l, k, t1, res, sends. split; [reflexivity|]. split; [exact E2|].
    split; [vm_compute in E1; injection E1 as <- <- <- <- <-; reflexivity|].
    exact (proj1 (scenario_run DuplicateSeq demo_panel (Tape 0 0 0) (Play (fun _ => Out_ok) [])
      s' es l k t1 t1 res sends (reach_edit _ _ reach_initial) E1 E2)).
  - vm_compute in E1. injection E1 as <- <- <- <- <-. vm_compute in E2. discriminate E2.
Defined.
End Witnesses.
