(* ===== verification/LoadSteps.v ===== *)
(** * A load run one await at a time (web/src/lib/loadTest.ts)

    [LoadRun] gives a sequential run as one loop.  Here the loop is a machine that
    stops at every await, a send or a delay, so that it can be interleaved with
    the rest of the page, and [activity] is a run of either kind in flight.  The
    machine is the loop ([seq_drive_loop]), and refines the plan of what a run is
    to await ([seq_plan_refines]). *)

From S2P Require Import Prelude JsNumber JsString JsDate Types Effects LoadRun LoadConfig LoadTestPanel.

Open Scope nat_scope.

(** ** The sequential run as a machine *)

Inductive seq_phase : Type :=
| SeqSending (i : nat)    (* awaiting the send of index [i] *)
| SeqSleeping (i : nat)   (* awaiting the delay after index [i] *)
| SeqDone.

Section Machine.
Context `{Host} {Req : Type}.
Variables (count staggerMs : num) (build : nat -> M Req).

Record seq_run : Type := SeqRun {
  phase : seq_phase;
  seq_tally : LoadRunResult;
  trace : list (event (Req := Req))
}.

(** The loop head: the test of index [i], and its request up to the await. *)
Definition seq_enter (i : nat) (st : seq_run) (t : tape) : seq_run * tape :=
  if ltb (of_nat i) count then
    let '(req, t') := build i t in
    (SeqRun (SeqSending i) (seq_tally st) (trace st ++ [EvSend i req]), t')
  else (SeqRun SeqDone (seq_tally st) (trace st), t).

Definition seq_start (t : tape) : num * seq_run * tape :=
  let '(started, t1) := performance_now t in
  let '(st, t2) := seq_enter 0 (SeqRun SeqDone (initial_result count) []) t1 in
  (started, st, t2).

(** The send in flight settles: the rest of the loop body, up to the next await. *)
Definition seq_settle (started : num) (o : outcome) (st : seq_run) (t : tape) :
    option (seq_run * tape) :=
  match phase st with
  | SeqSending i =>
      let r := count_outcome o (seq_tally st) in
      let '(now, t1) := performance_now t in
      let st1 := SeqRun (SeqSending i) r
                   (trace st ++ [EvProgress (with_elapsed (sub now started) r)]) in
      if must_sleep count staggerMs i
      then Some (SeqRun (SeqSleeping i) r (trace st1 ++ [EvSleep staggerMs]), t1)
      else Some (seq_enter (S i) st1 t1)
  | _ => None
  end.

(** The timer of the delay fires. *)
Definition seq_wake (st : seq_run) (t : tape) : option (seq_run * tape) :=
  match phase st with
  | SeqSleeping i => Some (seq_enter (S i) st t)
  | _ => None
  end.

(** Settle every send as [settles] says and fire every timer, to the end. *)
Fixpoint seq_drive (fuel : nat) (started : num) (settles : nat -> outcome) (st : seq_run)
    (t : tape) : option (seq_run * tape) :=
  match phase st, fuel with
  | SeqDone, _ => Some (st, t)
  | _, O => None
  | SeqSending i, S fuel' =>
      '(st', t') ← seq_settle started (settles i) st t; seq_drive fuel' started settles st' t'
  | SeqSleeping _, S fuel' =>
      '(st', t') ← seq_wake st t; seq_drive fuel' started settles st' t'
  end.
End Machine.

Section Drive.
Context `{Host} {Req : Type}.
Variables (count staggerMs : num) (build : nat -> M Req) (settles : nat -> outcome).

Lemma seq_drive_sending fuel started i st t : phase st = SeqSending i ->
  seq_drive count staggerMs build (S fuel) started settles st t =
    '(st', t') ← seq_settle count staggerMs build started (settles i) st t;
    seq_drive count staggerMs build fuel started settles st' t'.
Proof. intros Hp. cbn [seq_drive]. by rewrite Hp. Qed.

Lemma seq_drive_sleeping fuel started i st t : phase st = SeqSleeping i ->
  seq_drive count staggerMs build (S fuel) started settles st t =
    let '(st', t') := seq_enter count build (S i) st t in
    seq_drive count staggerMs build fuel started settles st' t'.
Proof. intros Hp. cbn [seq_drive]. unfold seq_wake. by rewrite Hp. Qed.

Lemma seq_drive_loop n fuel i started st t : requests count <= i + n -> 2 * n <= fuel ->
  let '(st1, t1) := seq_enter count build i st t in
  let '(r, evs, t') := sequential_loop count staggerMs build settles n i started (seq_tally st) t in
  seq_drive count staggerMs build fuel started settles st1 t1 =
    Some (SeqRun SeqDone r (trace st ++ evs), t').
Proof.
  revert fuel i st t. induction n as [|n IH]; intros fuel i st t Hr Hf.
  - unfold seq_enter. rewrite loop_test. destruct (Nat.ltb_spec i (requests count)); [lia|].
    cbn [sequential_loop]. rewrite app_nil_r. by destruct fuel.
  - destruct fuel as [|[|fuel]]; [lia..|]. unfold seq_enter. cbn [sequential_loop].
    rewrite loop_test. destruct (Nat.ltb_spec i (requests count)) as [Hi|];
      [|cbn; by rewrite app_nil_r].
    destruct (build i t) as [req t1]. rewrite (seq_drive_sending _ _ i) by done.
    unfold seq_settle. cbn [phase seq_tally trace].
    destruct (performance_now t1) as [now t2].
    set (r1 := count_outcome (settles i) (seq_tally st)).
    destruct (must_sleep count staggerMs i); cbn [mbind option_bind].
    + specialize (IH fuel (S i) (SeqRun (SeqSleeping i) r1
        (((trace st ++ [EvSend i req]) ++ [EvProgress (with_elapsed (sub now started) r1)]) ++
         [EvSleep staggerMs])) t2 ltac:(lia) ltac:(lia)).
      rewrite (seq_drive_sleeping _ _ i) by done. cbn [seq_tally trace] in *.
      destruct (seq_enter count build (S i) _ t2) as [st2 t3].
      destruct (sequential_loop count staggerMs build settles n (S i) started r1 t2) as [[r evs] t'].
      rewrite IH. by rewrite <- !app_assoc.
    + specialize (IH (S fuel) (S i) (SeqRun (SeqSending i) r1
        ((trace st ++ [EvSend i req]) ++ [EvProgress (with_elapsed (sub now started) r1)])) t2
        ltac:(lia) ltac:(lia)).
      cbn [seq_tally trace] in *. destruct (seq_enter count build (S i) _ t2) as [st2 t3].
      destruct (sequential_loop count staggerMs build settles n (S i) started r1 t2) as [[r evs] t'].
      rewrite IH. by rewrite <- !app_assoc.
Qed.

(** The machine is the loop: driven to its end, whatever the outcomes, it stops
    within two steps per request with the trace, the counters and the consumption
    of the host of [runSequential]. *)
Theorem seq_machine_refines t :
  let '(res, evs, t') := runSequential count staggerMs build settles t in
  let '(started, st0, t0) := seq_start count build t in
  exists st t1, seq_drive count staggerMs build (2 * requests count) started settles st0 t0 = Some (st, t1) /\
    phase st = SeqDone /\ trace st = evs /\
    let '(now, t2) := performance_now t1 in
    with_elapsed (sub now started) (seq_tally st) = res /\ t2 = t'.
Proof.
  unfold runSequential, seq_start. destruct (performance_now t) as [started t1].
  pose proof (seq_drive_loop (requests count) (2 * requests count) 0 started
    (SeqRun SeqDone (initial_result count) []) t1 ltac:(lia) ltac:(lia)) as Hd.
  destruct (seq_enter count build 0 _ t1) as [st0 t0]. cbn [seq_tally trace] in Hd.
  destruct (sequential_loop count staggerMs build settles _ 0 started _ t1) as [[r evs] t2].
  destruct (performance_now t2) as [now t3] eqn:En. eexists _, t2. rewrite Hd, En.
  split; [reflexivity|]. done.
Qed.
End Drive.

(** ** A run in flight, of either kind *)

Section Activity.
Context `{Host} {Req : Type}.
Variables (l : launch) (build : nat -> M Req).

Inductive activity : Type :=
| ParActive (started : num) (st : run (Req := Req))
| SeqActive (started : num) (st : seq_run (Req := Req)).

Definition launch_count : num :=
  match l with Sequential count _ => count | Parallel count _ => count end.
Definition launch_concurrency : num :=
  match l with Sequential _ _ => int 1 | Parallel _ conc => conc end.
Definition launch_stagger : num :=
  match l with Sequential _ stagger => stagger | Parallel _ _ => int 0 end.

(** The host is shared with the rest of the page: a run continues from where the
    page left it. *)
Definition with_tape (t : tape) (st : run (Req := Req)) : run :=
  Run (next st) (workers st) (tally st) (sent st) (progress st) t.

(** The call of [runSequential] or [runParallel], up to its first await. *)
Definition activity_start (t : tape) : activity * tape :=
  match l with
  | Sequential count _ =>
      let '(started, st, t') := seq_start count build t in (SeqActive started st, t')
  | Parallel count conc =>
      let '(started, st) := start count conc build t in (ParActive started st, host_tape st)
  end.

(** The send of worker [w] settles; a sequential run is its own worker 0. *)
Definition activity_settle (w : nat) (o : outcome) (a : activity) (t : tape) :
    option (activity * tape) :=
  match a with
  | ParActive started st =>
      st' ← settle launch_count build started w o (with_tape t st);
      Some (ParActive started st', host_tape st')
  | SeqActive started st =>
      if (w =? 0)%nat then
        '(st', t') ← seq_settle launch_count launch_stagger build started o st t;
        Some (SeqActive started st', t')
      else None
  end.

Definition activity_wake (a : activity) (t : tape) : option (activity * tape) :=
  match a with
  | ParActive _ _ => None
  | SeqActive started st =>
      '(st', t') ← seq_wake launch_count build st t; Some (SeqActive started st', t')
  end.

Definition activity_over (a : activity) : bool :=
  match a with
  | ParActive _ st => finished st
  | SeqActive _ st => match phase st with SeqDone => true | _ => false end
  end.

Definition activity_tally (a : activity) : LoadRunResult :=
  match a with ParActive _ st => tally st | SeqActive _ st => seq_tally st end.

(** The last report to [onProgress]. *)
Definition activity_report (a : activity) : option LoadRunResult :=
  last (match a with ParActive _ st => progress st | SeqActive _ st => reports (trace st) end).

Definition activity_sent (a : activity) : list (nat * Req) :=
  match a with ParActive _ st => sent st | SeqActive _ st => requests_of (trace st) end.

(** The value of the promise once the run is over. *)
Definition activity_result (a : activity) : M LoadRunResult :=
  now <-- performance_now;;
  ret (with_elapsed
         (sub now match a with ParActive started _ | SeqActive started _ => started end)
         (activity_tally a)).

Definition awaiting (a : activity) (w : nat) : bool :=
  match a with
  | ParActive _ st => match workers st !! w with Some (Sending _) => true | _ => false end
  | SeqActive _ st => (w =? 0)%nat && match phase st with SeqSending _ => true | _ => false end
  end.
Definition sleeping (a : activity) : bool :=
  match a with
  | ParActive _ _ => false
  | SeqActive _ st => match phase st with SeqSleeping _ => true | _ => false end
  end.

Definition sends_in_flight (a : activity) : nat :=
  match a with
  | ParActive _ st => length (in_flight st)
  | SeqActive _ st => match phase st with SeqSending _ => 1 | _ => 0 end
  end.

(** *** What a run in flight satisfies *)

Definition seq_ok (count : num) (st : seq_run (Req := Req)) : Prop :=
  let '(sent_count, settled) :=
    match phase st with
    | SeqSending i => (S i, i)
    | SeqSleeping i => (S i, S i)
    | SeqDone => (requests count, requests count)
    end in
  sent_count <= requests count /\
  map fst (requests_of (trace st)) = seq 0 sent_count /\
  settled_count (seq_tally st) = settled /\ total (seq_tally st) = count /\
  sent_built build (requests_of (trace st)) /\
  length (reports (trace st)) = settled.

Definition activity_ok (a : activity) : Prop :=
  match l, a with
  | Sequential count _, SeqActive _ st => seq_ok count st
  | Parallel count conc, ParActive _ st =>
      invariant count st /\ length (workers st) = pool_size count conc /\
      sent_built build (sent st)
  | _, _ => False
  end.

(** What is left to do: it shrinks with every send that settles and every timer. *)
Definition work_left (a : activity) : nat :=
  2 * (requests launch_count - settled_count (activity_tally a)) + (if sleeping a then 1 else 0).
End Activity.
Arguments activity Req : clear implicits.

Section ActivityFacts.
Context `{Host} {Req : Type}.
Variables (l : launch) (build : nat -> M Req).
Implicit Types (a : activity Req) (t : tape).

Lemma requests_of_snoc (evs : list (event (Req := Req))) e :
  requests_of (evs ++ [e]) = requests_of evs ++ match e with EvSend i r => [(i, r)] | _ => [] end.
Proof. unfold requests_of. rewrite omap_app. by destruct e. Qed.

Lemma reports_snoc (evs : list (event (Req := Req))) e :
  reports (evs ++ [e]) = reports evs ++ match e with EvProgress r => [r] | _ => [] end.
Proof. unfold reports. rewrite omap_app. by destruct e. Qed.

(** What holds at the loop head of index [i]. *)
Definition seq_head (count : num) (i : nat) (st : seq_run (Req := Req)) : Prop :=
  i <= requests count /\ map fst (requests_of (trace st)) = seq 0 i /\
  settled_count (seq_tally st) = i /\ total (seq_tally st) = count /\
  sent_built build (requests_of (trace st)) /\ length (reports (trace st)) = i.

Lemma seq_enter_ok count i st t : seq_head count i st ->
  seq_ok build count (seq_enter count build i st t).1 /\
  seq_tally (seq_enter count build i st t).1 = seq_tally st /\
  sleeping (SeqActive (int 0) (seq_enter count build i st t).1) = false.
Proof.
  intros (Hi & Hs & Hc & Ht & Hb & Hr). unfold seq_enter. rewrite loop_test.
  destruct (Nat.ltb_spec i (requests count)).
  - destruct (build i t) as [req t'] eqn:E. split; [|done]. unfold seq_ok. cbn [fst phase trace seq_tally].
    rewrite requests_of_snoc, reports_snoc, map_app, Hs, app_nil_r.
    split_and!; [lia| |done|done| |done].
    + by rewrite List.seq_S.
    + apply Forall_app. split; [done|]. repeat constructor. exists t. cbn. by rewrite E.
  - assert (i = requests count) as -> by lia. split; [|done].
    unfold seq_ok. cbn [fst phase trace seq_tally]. done.
Qed.

Lemma seq_start_ok count t : seq_ok build count (seq_start count build t).1.2.
Proof.
  unfold seq_start. destruct (performance_now t) as [started t1].
  pose proof (seq_enter_ok count 0 (SeqRun SeqDone (initial_result count) []) t1) as Hs.
  destruct (seq_enter count build 0 _ t1) as [st t2]. apply Hs.
  split_and!; try done; [lia|constructor].
Qed.

Lemma seq_settle_ok count stagger started o st t st' t' : seq_ok build count st ->
  seq_settle count stagger build started o st t = Some (st', t') ->
  seq_ok build count st' /\ settled_count (seq_tally st') = S (settled_count (seq_tally st)).
Proof.
  unfold seq_settle. destruct (phase st) as [i|i|] eqn:Ep; try done. unfold seq_ok at 1. rewrite Ep.
  intros (Hi & Hs & Hc & Ht & Hb & Hr). destruct (performance_now t) as [now t1].
  set (r := count_outcome o (seq_tally st)).
  assert (settled_count r = S i) as Hc' by (subst r; by rewrite settled_count_outcome, Hc).
  assert (total r = count) as Ht' by (subst r; by destruct o).
  set (rep := with_elapsed _ r).
  assert (forall p, seq_head count (S i) (SeqRun p r (trace st ++ [EvProgress rep]))) as Hh.
  { intros p. unfold seq_head. cbn [trace seq_tally].
    rewrite requests_of_snoc, reports_snoc, app_nil_r, length_app, Hr. split_and!; try done. cbn. lia. }
  destruct (must_sleep count stagger i).
  - intros [= <- _]. destruct (Hh SeqDone) as (_ & H2 & _ & _ & H5 & H6). cbn [trace seq_tally] in *.
    unfold seq_ok. cbn [phase trace seq_tally]. rewrite requests_of_snoc, reports_snoc, !app_nil_r.
    rewrite Hc'. split; [split_and!; try done; lia|lia].
  - intros [= Hst]. destruct (seq_enter_ok count (S i) _ t1 (Hh (SeqSending i))) as (Hok & Htl & _).
    rewrite Hst in Hok, Htl. cbn [fst seq_tally] in *. split; [done|]. rewrite Htl. lia.
Qed.

Lemma seq_wake_ok count st t st' t' : seq_ok build count st ->
  seq_wake count build st t = Some (st', t') ->
  seq_ok build count st' /\ seq_tally st' = seq_tally st /\
  sleeping (SeqActive (int 0) st) = true /\ sleeping (SeqActive (int 0) st') = false.
Proof.
  unfold seq_wake. destruct (phase st) as [i|i|] eqn:Ep; try done. unfold seq_ok at 1. rewrite Ep.
  intros (Hi & Hs & Hc & Ht & Hb & Hr) [= Hst].
  destruct (seq_enter_ok count (S i) st t ltac:(done)) as (Hok & Htl & Hsl).
  rewrite Hst in Hok, Htl, Hsl. cbn [fst] in *. split_and!; try done. cbn. by rewrite Ep.
Qed.

(** *** Parallel runs, with the host's tape replaced *)

Lemma with_tape_ok count t (st : run (Req := Req)) : invariant count st -> invariant count (with_tape t st).
Proof. intros [I1 I2 I3 I4 I5 I6 I7]. by split. Qed.

Lemma settle_built count started w o st st' : sent_built build (sent st) ->
  settle count build started w o st = Some st' -> sent_built build (sent st').
Proof.
  intros Hb Hs. eapply (exec_built count build started [(w, o)]); [|exact Hb].
  cbn [exec]. by rewrite Hs.
Qed.

(** *** Runs of either kind *)

Lemma activity_start_ok t : activity_ok l build (activity_start l build t).1.
Proof.
  destruct l as [count stagger|count conc]; cbn [activity_start].
  - pose proof (seq_start_ok count t) as Hs.
    by destruct (seq_start count build t) as [[started st] t'].
  - assert (reachable count conc build t [] (snd (start count conc build t))) as Hr by done.
    pose proof (invariant_start count conc build t) as Hi.
    destruct (start count conc build t) as [started st]. cbn [snd fst activity_ok] in *.
    split_and!; [by eapply Hi|by eapply reachable_workers|by eapply reachable_built].
Qed.

Lemma awaiting_settles w o a t : awaiting a w = true ->
  exists a' t', activity_settle l build w o a t = Some (a', t').
Proof.
  destruct a as [started st|started st]; cbn [awaiting activity_settle].
  - unfold settle, with_tape. cbn [workers]. destruct (workers st !! w) as [[i|]|]; try done.
    intros _. destruct (performance_now _) as [now t1]. destruct (take_next _ _ _) as [w' st2]. eauto.
  - intros [-> Hp]%andb_true_iff. unfold seq_settle. destruct (phase st); try done.
    destruct (performance_now t) as [now t1]. destruct (must_sleep _ _ _); [by eauto|].
    destruct (seq_enter _ _ _ _ _) as [st2 t2]. cbn. eauto.
Qed.

Lemma settled_bound a : activity_ok l build a ->
  settled_count (activity_tally a) <= requests (launch_count l).
Proof.
  destruct l as [count stagger|count conc], a as [started st|started st]; try done.
  - unfold activity_ok, seq_ok. cbn [activity_tally launch_count].
    destruct (phase st); intros (? & _ & -> & _); lia.
  - intros (I & _). pose proof (inv_balance _ _ I) as Hb. pose proof (inv_sent _ _ I) as Hs.
    apply (f_equal length) in Hs. rewrite length_map, length_seq in Hs.
    cbn [activity_tally launch_count]. lia.
Qed.

Lemma activity_settle_ok w o a t a' t' : activity_ok l build a ->
  activity_settle l build w o a t = Some (a', t') ->
  activity_ok l build a' /\ settled_count (activity_tally a') = S (settled_count (activity_tally a)).
Proof.
  destruct l as [count stagger|count conc], a as [started st|started st];
    cbn [activity_ok activity_settle launch_count launch_stagger]; try done.
  - intros Hok. destruct (w =? 0); [|done].
    destruct (seq_settle _ _ _ _ _ _ _) as [[st' t2]|] eqn:E; [|done]. intros [= <- <-].
    by apply (seq_settle_ok _ _ _ _ _ _ _ _ Hok E).
  - intros (I & Hw & Hb). destruct (settle _ _ _ _ _ _) as [st'|] eqn:E; [|done].
    intros [= <- <-]. cbn [activity_ok activity_tally]. split_and!.
    + eapply invariant_settle; [|exact E]. by apply with_tape_ok.
    + rewrite (settle_workers _ _ _ _ _ _ _ E). done.
    + exact (settle_built count started w o (with_tape t st) st' Hb E).
    + apply (settle_settled _ _ _ _ _ _ _ E).
Qed.

Lemma activity_wake_ok a t a' t' : activity_ok l build a ->
  activity_wake l build a t = Some (a', t') ->
  activity_ok l build a' /\ activity_tally a' = activity_tally a /\
  sleeping a = true /\ sleeping a' = false.
Proof.
  destruct l as [count stagger|count conc], a as [started st|started st];
    cbn [activity_ok activity_wake launch_count]; try done.
  intros Hok. destruct (seq_wake _ _ _ _) as [[st' t2]|] eqn:E; [|done]. intros [= <- <-].
  by apply (seq_wake_ok _ _ _ _ _ Hok E).
Qed.

Lemma sleeping_wakes a t : sleeping a = true ->
  exists a' t', activity_wake l build a t = Some (a', t').
Proof.
  destruct a as [started st|started st]; [done|]. cbn. unfold seq_wake.
  destruct (phase st); try done. intros _. destruct (seq_enter _ _ _ _ _). cbn. eauto.
Qed.

(** Every step of a run leaves less to do. *)
Lemma settle_decreases w o a t a' t' : activity_ok l build a ->
  activity_settle l build w o a t = Some (a', t') -> work_left l a' < work_left l a.
Proof.
  intros Hok Hs. destruct (activity_settle_ok _ _ _ _ _ _ Hok Hs) as [Hok' Hc].
  pose proof (settled_bound _ Hok'). unfold work_left.
  destruct (sleeping a'), (sleeping a); lia.
Qed.

Lemma wake_decreases a t a' t' : activity_ok l build a ->
  activity_wake l build a t = Some (a', t') -> work_left l a' < work_left l a.
Proof.
  intros Hok Hs. destruct (activity_wake_ok _ _ _ _ Hok Hs) as (_ & Htl & H1 & H2).
  unfold work_left. rewrite Htl, H1, H2. lia.
Qed.

(** A run that is not over awaits something: it cannot hang. *)
Lemma not_over_awaits a : activity_over a = false ->
  (exists w, awaiting a w = true) \/ sleeping a = true.
Proof.
  destruct a as [started st|started st]; cbn [activity_over awaiting sleeping].
  - intros Hf. apply workers_split in Hf as (w & i & Hw). left. exists w. by rewrite Hw.
  - destruct (phase st); [left; by exists 0|by right|done].
Qed.

(** A run that is over sent every index once, in order, and counted each. *)
Lemma over_complete a : activity_ok l build a -> activity_over a = true ->
  map fst (activity_sent a) = seq 0 (requests (launch_count l)) /\
  settled_count (activity_tally a) = requests (launch_count l) /\
  total (activity_tally a) = launch_count l /\ sent_built build (activity_sent a).
Proof.
  destruct l as [count stagger|count conc], a as [started st|started st]; try done;
    cbn [activity_ok activity_over activity_sent activity_tally launch_count].
  - unfold seq_ok. destruct (phase st); [done..|]. intros (_ & ? & ? & ? & ? & _) _. done.
  - intros (I & Hw & Hb) Hf. pose proof (pool_size_pos count conc) as Hp.
    assert (workers st <> []) as Hne by (intros E; rewrite E in Hw; cbn in Hw; lia).
    pose proof (finished_sent count st I Hne Hf) as Hn.
    pose proof (inv_sent _ _ I) as Hs. rewrite Nat.min_r in Hs by done.
    apply finished_in_flight in Hf. pose proof (inv_balance _ _ I) as Hbal.
    rewrite Hf in Hbal. apply (f_equal length) in Hs as Hl. rewrite length_map, length_seq in Hl.
    cbn in Hbal. split_and!; [done|lia|apply I|done].
Qed.

(** The sends in flight stay within the bound of the pool. *)
Lemma flight_bound a : activity_ok l build a ->
  sends_in_flight a <= pool_size (launch_count l) (launch_concurrency l).
Proof.
  destruct l as [count stagger|count conc], a as [started st|started st]; try done;
    cbn [activity_ok sends_in_flight launch_count launch_concurrency].
  - intros _. pose proof (pool_size_pos count (int 1)). destruct (phase st); lia.
  - intros (_ & <- & _). apply in_flight_length.
Qed.

(** A run with something to send does not start over. *)
Lemma start_not_over t : 1 <= requests (launch_count l) ->
  activity_over (activity_start l build t).1 = false.
Proof.
  intros Hr. destruct (activity_over _) eqn:Ho; [|done].
  pose proof (over_complete _ (activity_start_ok t) Ho) as (_ & Hc & _).
  enough (settled_count (activity_tally (activity_start l build t).1) = 0) by lia.
  destruct l as [count stagger|count conc]; cbn [activity_start].
  - unfold seq_start. destruct (performance_now t) as [started t1]. unfold seq_enter.
    destruct (ltb _ _); [by destruct (build 0 t1)|done].
  - assert (reachable count conc build t [] (snd (start count conc build t))) as Hs by done.
    apply reachable_settled in Hs. by destruct (start count conc build t).
Qed.
End ActivityFacts.

(** ** What a step adds to a run *)

Section StepFacts.
Context `{Host} {R : Type}.
Variables (l : launch) (build : nat -> M R).

Lemma activity_start_tally t :
  activity_tally (activity_start l build t).1 = initial_result (launch_count l).
Proof.
  destruct l as [count stagger|count conc]; cbn [activity_start launch_count].
  - unfold seq_start. destruct (performance_now t) as [started t1]. unfold seq_enter.
    destruct (ltb _ _); [by destruct (build 0 t1)|done].
  - unfold start. destruct (performance_now t) as [started t1]. cbn [fst activity_tally].
    assert (forall k st, tally (spawn count build k st) = tally st) as Hs; [|by rewrite Hs].
    induction k as [|k IH]; intros st; [done|]. cbn [spawn].
    destruct (take_next count build st) as [w st'] eqn:E. rewrite IH.
    by apply take_next_spec in E as (_ & _ & Ht & _).
Qed.

Lemma seq_enter_sent count i (st : seq_run (Req := R)) t :
  seq_tally (seq_enter count build i st t).1 = seq_tally st /\
  exists ex, requests_of (trace (seq_enter count build i st t).1) = requests_of (trace st) ++ ex.
Proof.
  unfold seq_enter. destruct (ltb _ _).
  - destruct (build i t) as [r t']. split; [done|]. exists [(i, r)]. cbn [fst trace].
    by rewrite requests_of_snoc.
  - split; [done|]. exists []. by rewrite app_nil_r.
Qed.

Lemma activity_settle_extends w o a t a' t' : activity_settle l build w o a t = Some (a', t') ->
  activity_tally a' = count_outcome o (activity_tally a) /\
  exists ex, activity_sent a' = activity_sent a ++ ex.
Proof.
  destruct a as [started st|started st]; cbn [activity_settle].
  - destruct (settle _ _ _ _ _ _) as [st'|] eqn:E; [|done]. intros [= <- <-].
    apply settle_inv in E as (i & lf & r & st1 & w' & st2 & _ & _ & Hn & Hs & Ht & _ & Htk & ->).
    apply take_next_spec in Htk as (_ & _ & Htl & _ & Hse).
    cbn [activity_tally activity_sent tally sent set_workers]. split; [by rewrite Htl, Ht|].
    cbn [sent with_tape] in Hs. destruct (next st1 <? _).
    + destruct Hse as (_ & req & ->). eexists. by rewrite Hs.
    + destruct Hse as (_ & ->). exists []. by rewrite app_nil_r.
  - destruct (w =? 0); [|done]. unfold seq_settle. destruct (phase st); try done.
    destruct (performance_now t) as [now t1]. destruct (must_sleep _ _ _).
    + cbn [mbind option_bind]. intros [= <- <-]. cbn [activity_sent activity_tally trace seq_tally]. split; [done|]. exists []. by rewrite !requests_of_snoc, !app_nil_r.
    + destruct (seq_enter _ _ _ _ _) as [st' t2] eqn:E. cbn [mbind option_bind]. intros [= <- <-].
      match type of E with seq_enter ?c ?b ?i ?s ?t = _ => pose proof (seq_enter_sent c i s t) as [H1 [ex H2]] end.
      rewrite E in H1, H2. cbn [fst trace seq_tally activity_sent activity_tally] in *. split; [done|]. exists ex.
      by rewrite H2, requests_of_snoc, app_nil_r.
Qed.

Lemma activity_wake_extends (a : activity R) t a' t' : activity_wake l build a t = Some (a', t') ->
  activity_tally a' = activity_tally a /\ exists ex, activity_sent a' = activity_sent a ++ ex.
Proof.
  destruct a as [started st|started st]; [done|]. cbn [activity_wake]. unfold seq_wake.
  destruct (phase st); try done. destruct (seq_enter _ _ _ _ _) as [st' t2] eqn:E.
  cbn [mbind option_bind]. intros [= <- <-]. pose proof (seq_enter_sent (launch_count l) (S i) st t) as [H1 [ex H2]].
  rewrite E in H1, H2. cbn [fst activity_sent activity_tally] in *. split; [done|]. by exists ex.
Qed.
End StepFacts.

(** ** What a sequential run promises

    The specification of a run is the list of its awaits, known from the start:
    the sends of the indices in order, with a delay between any two when there is
    a stagger.  A send ends with an outcome, a delay when its timer fires; each
    takes the head off the list. *)

Inductive await_end : Type :=
| Settled (o : outcome)
| Fired.

(** The awaits to come and the outcomes so far. *)
Definition plan : Type := list (nat + num) * list outcome.

Definition plan_end (e : await_end) (s : plan) : option plan :=
  match e, s with
  | Settled o, (inl _ :: todo, os) => Some (todo, os ++ [o])
  | Fired, (inr _ :: todo, os) => Some (todo, os)
  | _, _ => None
  end.

Fixpoint plan_run (es : list await_end) (s : plan) : option plan :=
  match es with [] => Some s | e :: es' => s' ← plan_end e s; plan_run es' s' end.

Section Plans.
Context `{Host} {Req : Type}.
Variables (count staggerMs : num) (build : nat -> M Req).
Implicit Types (st : seq_run (Req := Req)).

(** The machine, an await at a time. *)
Definition seq_end (started : num) (e : await_end) st (t : tape) : option (seq_run * tape) :=
  match e with
  | Settled o => seq_settle count staggerMs build started o st t
  | Fired => seq_wake count build st t
  end.

Fixpoint seq_exec (started : num) (es : list await_end) st (t : tape) : option (seq_run * tape) :=
  match es with
  | [] => Some (st, t)
  | e :: es' => '(st', t') ← seq_end started e st t; seq_exec started es' st' t'
  end.

(** The machine awaits what the plan says. *)
Definition awaits (p : seq_phase) (todo : list (nat + num)) : Prop :=
  match todo with
  | [] => p = SeqDone
  | inl i :: _ => p = SeqSending i
  | inr ms :: _ => ms = staggerMs /\ exists i, p = SeqSleeping i
  end.

(** A state of the machine and one of the plan that belong together. *)
Record on_plan st (s : plan) : Prop := {
  plan_todo : match phase st with
    | SeqSending i => i < requests count /\ s.1 = spaced staggerMs i (requests count - i)
    | SeqSleeping i => i < requests count /\ s.1 = inr staggerMs :: spaced staggerMs (S i) (requests count - S i)
    | SeqDone => s.1 = []
    end;
  plan_trace : steps (trace st) ++ tail s.1 = spaced staggerMs 0 (requests count);
  plan_tally : seq_tally st = fold_left (fun r o => count_outcome o r) s.2 (initial_result count);
  plan_reports : map settled_count (reports (trace st)) = seq 1 (length s.2)
}.

Lemma steps_snoc (evs : list (event (Req := Req))) e :
  steps (evs ++ [e]) = steps evs ++
    match e with EvSend i _ => [inl i] | EvSleep ms => [inr ms] | EvProgress _ => [] end.
Proof. unfold steps. rewrite omap_app. by destruct e. Qed.

Lemma settled_count_fold os r :
  settled_count (fold_left (fun r o => count_outcome o r) os r) = settled_count r + length os.
Proof.
  revert r. induction os as [|o os IH]; intros r; cbn [fold_left length]; [lia|].
  rewrite IH, settled_count_outcome. lia.
Qed.

(** The loop head at index [i]. *)
Lemma enter_plan i st t os : i <= requests count ->
  steps (trace st) ++ spaced staggerMs i (requests count - i) = spaced staggerMs 0 (requests count) ->
  seq_tally st = fold_left (fun r o => count_outcome o r) os (initial_result count) ->
  map settled_count (reports (trace st)) = seq 1 (length os) ->
  on_plan (seq_enter count build i st t).1 (spaced staggerMs i (requests count - i), os).
Proof.
  intros Hi Ht Hc Hr. unfold seq_enter. rewrite loop_test. destruct (Nat.ltb_spec i (requests count)) as [Hl|Hl].
  - destruct (build i t) as [req t']. split; cbn [fst snd phase trace seq_tally]; [done| |done|].
    + rewrite steps_snoc, <- Ht, <- app_assoc. f_equal.
      by destruct (requests count - i) eqn:E; [lia|].
    + by rewrite reports_snoc, app_nil_r.
  - assert (requests count - i = 0) as E by lia. rewrite E in *. by split.
Qed.

Lemma start_on_plan t :
  on_plan (seq_start count build t).1.2 (spaced staggerMs 0 (requests count), []).
Proof.
  unfold seq_start. destruct (performance_now t) as [started t1].
  pose proof (enter_plan 0 (SeqRun SeqDone (initial_result count) []) t1 []) as He.
  rewrite Nat.sub_0_r in He. destruct (seq_enter count build 0 _ t1) as [st t2].
  apply He; [lia|done|done|done].
Qed.

(** One await: both sides refuse it, or both take it. *)
Lemma end_on_plan started e st t s : on_plan st s ->
  match plan_end e s with
  | Some s' => exists st' t', seq_end started e st t = Some (st', t') /\ on_plan st' s'
  | None => seq_end started e st t = None
  end.
Proof.
  intros [Ht Htr Hc Hr]. destruct s as [todo os]. cbn [fst snd] in *.
  destruct e as [o|]; cbn [seq_end]; unfold seq_settle, seq_wake; destruct (phase st) as [i|i|] eqn:Ep.
  2: by destruct Ht as [_ ->].
  2: by subst todo.
  2: (destruct Ht as [Hi ->]; by destruct (requests count - i) eqn:E; [lia|]).
  3: by subst todo.
  - destruct Ht as [Hi ->]. destruct (requests count - i) as [|k] eqn:Ek; [lia|].
    assert (requests count = i + S k) as Hk by lia. cbn [plan_end spaced]. rewrite (must_sleep_spec _ _ i k Hk).
    destruct (performance_now t) as [now t1]. set (rep := with_elapsed _ _).
    assert (settled_count rep = S (length os)) as Hrep.
    { change (settled_count rep) with (settled_count (count_outcome o (seq_tally st))).
      by rewrite settled_count_outcome, Hc, settled_count_fold. }
    assert (count_outcome o (seq_tally st) =
      fold_left (fun r o => count_outcome o r) (os ++ [o]) (initial_result count)) as Hc'
      by (by rewrite fold_left_app, <- Hc).
    assert (map settled_count (reports (trace st ++ [EvProgress rep])) = seq 1 (length (os ++ [o]))) as Hr'.
    { rewrite reports_snoc, map_app, Hr, length_app, Nat.add_1_r, List.seq_S. cbn [map]. by rewrite Hrep. }
    cbn [tail spaced] in Htr. destruct ((0 <? k) && ltb (int 0) staggerMs).
    + eexists _, _. split; [reflexivity|]. split; cbn [phase trace seq_tally fst snd]; [|..|done|].
      * split; [done|]. by replace (requests count - S i) with k by lia.
      * rewrite !steps_snoc, app_nil_r, <- app_assoc. exact Htr.
      * by rewrite reports_snoc, app_nil_r.
    + pose proof (enter_plan (S i) (SeqRun (SeqSending i) (count_outcome o (seq_tally st))
        (trace st ++ [EvProgress rep])) t1 (os ++ [o])) as He.
      replace (requests count - S i) with k in He by lia. cbn [seq_tally trace] in He.
      destruct (seq_enter count build (S i) _ t1) as [st' t']. exists st', t'. split; [done|].
      apply He; [lia| |done|done]. by rewrite steps_snoc, app_nil_r.
  - destruct Ht as [Hi ->]. cbn [plan_end tail] in *.
    pose proof (enter_plan (S i) st t os ltac:(lia) Htr Hc Hr) as He.
    destruct (seq_enter count build (S i) st t) as [st' t']. by exists st', t'.
Qed.

Lemma exec_on_plan started es st t s : on_plan st s ->
  match plan_run es s with
  | Some s' => exists st' t', seq_exec started es st t = Some (st', t') /\ on_plan st' s'
  | None => seq_exec started es st t = None
  end.
Proof.
  revert st t s. induction es as [|e es IH]; intros st t s Hs; cbn [plan_run seq_exec]; [by exists st, t|].
  pose proof (end_on_plan started e st t s Hs) as He. destruct (plan_end e s) as [s'|]; cbn [mbind option_bind].
  - destruct He as (st' & t' & -> & Hs'). by apply IH.
  - by rewrite He.
Qed.

Lemma on_plan_awaits st s : on_plan st s -> awaits (phase st) s.1.
Proof.
  intros [Ht _ _ _]. destruct (phase st) as [i|i|]; [| |by rewrite Ht].
  - destruct Ht as [Hi ->]. by destruct (requests count - i) eqn:E; [lia|].
  - destruct Ht as [Hi ->]. cbn. eauto.
Qed.

(** C13. A sequential run refines its plan.  The plan is a send for each index below
    the count, in order, with a delay of [staggerMs] between any two of them, none
    after the last and none at all without a stagger.  Whatever the outcomes,
    the run takes exactly the sequences of settlements and timers the plan takes.
    At any point it awaits the head of what is left, and is done exactly when
    nothing is; it has sent and delayed exactly what is not left; its counters are
    the numbers of each outcome so far; and it has reported progress after each. *)
Theorem seq_plan_refines es t :
  let '(started, st0, t0) := seq_start count build t in
  match plan_run es (spaced staggerMs 0 (requests count), []) with
  | Some (todo, os) => exists st t1, seq_exec started es st0 t0 = Some (st, t1) /\
      awaits (phase st) todo /\
      steps (trace st) ++ tail todo = spaced staggerMs 0 (requests count) /\
      seq_tally st = RunResult (count_of Out_ok os) (count_of Out_fail os) (count_of Out_duplicate os)
        count (elapsedMs (seq_tally st)) /\
      map settled_count (reports (trace st)) = seq 1 (length os)
  | None => seq_exec started es st0 t0 = None
  end.
Proof.
  pose proof (start_on_plan t) as Hs. destruct (seq_start count build t) as [[started st0] t0].
  cbn [fst snd] in Hs. pose proof (exec_on_plan started es st0 t0 _ Hs) as He.
  destruct (plan_run es _) as [[todo os]|]; [|done]. destruct He as (st & t1 & He & Hp).
  exists st, t1. split; [done|]. split; [by apply on_plan_awaits in Hp|].
  destruct Hp as [_ Htr Hc Hr]. split; [done|]. split; [|done]. rewrite Hc, fold_outcomes. done.
Qed.
End Plans.

(** Two requests with a stagger: the plan, and the counters at its end. *)
Example plan_two : plan_run [Settled Out_ok; Fired; Settled Out_duplicate]
  (spaced (int 50) 0 (requests (int 2)), []) = Some ([], [Out_ok; Out_duplicate]).
Proof. vm_compute. reflexivity. Qed.
