(* ===== verification/Dashboard.v ===== *)
(** * The dashboard (web/src/components/ops/Dashboard.tsx, web/src/App.tsx)

    The page puts the components together: they share the store and the
    queries, and each keeps its own state. *)

From S2P Require Import Prelude JsNumber JsString JsValue JsDate React UiKit Types Client Effects.
From S2P Require Import LoadConfig LoadRun Store StatusViews Feeds DeliveriesTable DeliveryDetail SendTestForm LoadTestPanel.

(** ** State *)

Record dash_state : Type := Dash {
  d_app : AppState;
  d_table : table_state;
  d_form : form_state;
  d_panel : panel_state;
  d_lookup : string;
  d_stale : stale;
  d_feed_now : Z;
  d_header_now : Z
}.

(** What the queries and mutations currently return. *)
Record dash_queries : Type := Queries {
  summaryQ : query DashboardSummary.t;
  healthQ : query HealthResp.t;
  detailQ : query DeliveryDetailResp.t;
  sending : bool;
  replaying : bool
}.

Inductive dash_action : Type :=
| A_header (a : store_action)
| A_feed (a : store_action)
| A_table (a : table_action)
| A_detail (a : detail_action)
| A_form (a : form_action)
| A_panel (a : panel_action).

Definition with_app (ap : AppState) (s : dash_state) : dash_state :=
  Dash ap (d_table s) (d_form s) (d_panel s) (d_lookup s) (d_stale s) (d_feed_now s) (d_header_now s).
Definition with_table (tb : table_state) (s : dash_state) : dash_state :=
  Dash (d_app s) tb (d_form s) (d_panel s) (d_lookup s) (d_stale s) (d_feed_now s) (d_header_now s).
Definition with_form (f : form_state) (s : dash_state) : dash_state :=
  Dash (d_app s) (d_table s) f (d_panel s) (d_lookup s) (d_stale s) (d_feed_now s) (d_header_now s).
Definition with_panel (p : panel_state) (s : dash_state) : dash_state :=
  Dash (d_app s) (d_table s) (d_form s) p (d_lookup s) (d_stale s) (d_feed_now s) (d_header_now s).
Definition with_lookup (l : string) (s : dash_state) : dash_state :=
  Dash (d_app s) (d_table s) (d_form s) (d_panel s) l (d_stale s) (d_feed_now s) (d_header_now s).

(** The effects of a handler on the store, and then the panel's effect on the
    selection: the lookup text follows it when it changes. *)
Definition commit (es : list effect) (s : dash_state) : dash_state :=
  let ap := run_effects es (d_app s) in
  let s' := with_app ap s in
  if bool_decide (selectedDeliveryId ap = selectedDeliveryId (d_app s)) then s'
  else with_lookup (lookup_follows (selectedDeliveryId ap)) s'.

Section Steps.
Context `{Host}.

(** The delivery the detail panel shows. *)
Definition shown_id (q : dash_queries) : string :=
  match data (detailQ q) with
  | Some d => DeliveryRow.id (DeliveryDetailResp.delivery d)
  | None => ""
  end.

(** One event of the page: the new state, the effects, and the run it starts. *)
Definition dash_step (q : dash_queries) (a : dash_action) (s : dash_state) :
    M (dash_state * list effect * option (launch * option string)) :=
  match a with
  | A_header a | A_feed a => ret (commit [Dispatch a] s, [Dispatch a], None)
  | A_table a =>
      let '(tb, es) := table_step a (d_table s) in
      ret (commit es (with_table tb s), es, None)
  | A_detail a =>
      let '(l, es) := detail_step (shown_id q) a (d_lookup s) in
      ret (commit es (with_lookup l s), es, None)
  | A_form a =>
      r <-- form_step a (d_form s);;
      let '(f, es) := r in ret (commit es (with_form f s), es, None)
  | A_panel (RunScenario x) =>
      r <-- runScenario_start x (d_panel s);;
      let '(p, es, l) := r in ret (commit es (with_panel p s), es, l)
  | A_panel a => ret (with_panel (panel_edit a (d_panel s)) s, [], None)
  end.
End Steps.

(** ** Rendering *)

Section View.
Context `{Host} `{Styling}.

Definition selectedStatus (q : dash_queries) : option DeliveryStatus :=
  DeliveryRow.status ∘ DeliveryDetailResp.delivery <$> data (detailQ q).
Definition rows_of (q : dash_queries) : list DeliveryRow.t :=
  match data (summaryQ q) with Some d => DashboardSummary.deliveries d | None => [] end.
Definition events_of (q : dash_queries) : list ActivityEvent.t :=
  match data (summaryQ q) with Some d => DashboardSummary.recent_activity d | None => [] end.

Definition api_down_banner {A} : node A :=
  El "div"
    [class "mb-3 flex items-center gap-2 rounded-md border border-status-danger/40 bg-status-danger/10 px-3 py-2 text-xs text-status-danger"]
    [El "lucide.AlertTriangle" [class "h-3.5 w-3.5"] [];
     Text "Can't reach API — is "; El "code" [class "mono"] [Text "docker compose up"]; Text "?"].

Definition Dashboard (q : dash_queries) (s : dash_state) : result (node dash_action) :=
  detail <-r DeliveryDetail (selectedDeliveryId (d_app s)) (detailQ q) (replaying q) (d_lookup s);;
  Ok (El "div" [class "flex min-h-screen flex-col"]
    [map_node A_header (Header (d_app s) (healthQ q) (summaryQ q) (d_header_now s));
     El "main" [class "mx-auto w-full max-w-[1600px] flex-1 px-4 py-4 sm:px-6"]
       [when (isError (healthQ q)) api_down_banner;
        El "div" [class "space-y-4"]
          [PipelineFlow (selectedStatus q);
           StatsBar (data (summaryQ q)) (seconds (d_stale s));
           El "div" [class "grid gap-4 lg:grid-cols-[300px_minmax(0,1fr)_380px]"]
             [El "div" [class "flex flex-col gap-4"]
                [map_node A_form (SendTestForm (d_form s) (sending q));
                 map_node A_panel (LoadTestPanel (d_panel s));
                 map_node A_feed (ActivityFeed (events_of q) (d_app s) (d_feed_now s))];
              El "div" [class "min-h-[520px]"]
                [map_node A_table (DeliveriesTable (rows_of q) (d_app s) (d_table s))];
              El "div" [class "min-h-[520px]"] [map_node A_detail detail]]];
        El "footer" [class "mt-6 text-center text-[10px] text-muted-foreground mono"]
          [Text "connected to Go API · postgres + nats jetstream + worker"]]]).

(** App.tsx. *)
Definition App (q : dash_queries) (s : dash_state) : result (node dash_action) := Dashboard q s.
End View.

(** * Properties *)

Section Properties.
Context `{Host} {W : Type} `{Network W}.

(** The actions that select [id]: a row of the table, an item of the feed, and
    the lookup form when its text is that id. *)
Inductive selects (s : dash_state) (id : string) : dash_action -> Prop :=
| by_row : selects s id (A_table (Select_row id))
| by_event : selects s id (A_feed (SetSelectedDeliveryId (Some id)))
| by_lookup : submitLookup (d_lookup s) = [Dispatch (SetSelectedDeliveryId (Some id))] ->
    selects s id (A_detail SubmitLookup).

(** C18.  However a delivery is selected, the page moves to it as one: the store's
    selection is its id, the detail query is enabled for exactly that delivery
    and polls it while auto refresh is on, the lookup field shows it when the
    selection changed, and the key, the refresh mode, the table, the form and the
    load panel are left alone. *)
Theorem selection_moves_page q a s t id : selects s id a -> id <> "" ->
  let s' := fst (fst (fst (dash_step q a s t))) in
  let options := useDeliveryDetail (W := W) (selectedDeliveryId (d_app s')) (d_app s') in
  selectedDeliveryId (d_app s') = Some id /\
  queryKey options = [Some "delivery"; Some id] /\ enabled options = true /\
  refetchInterval options = (if autoRefresh (d_app s) then Some 2000%Z else None) /\
  (selectedDeliveryId (d_app s) <> Some id -> d_lookup s' = id) /\
  apiKey (d_app s') = apiKey (d_app s) /\ autoRefresh (d_app s') = autoRefresh (d_app s) /\
  d_table s' = d_table s /\ d_form s' = d_form s /\ d_panel s' = d_panel s.
Proof.
  intros Hs Hid. assert (fst (fst (fst (dash_step q a s t))) =
    commit [Dispatch (SetSelectedDeliveryId (Some id))] s) as ->.
  { destruct Hs as [| |Hl]; [by destruct s|done|].
    cbn [dash_step detail_step]. rewrite Hl. by destruct s. }
  cbv zeta. unfold commit. cbn [run_effects fold_left run_effect store_step selectedDeliveryId].
  assert (has_id (Some id) = true) as Hh by (simpl; by rewrite bool_decide_false).
  case_bool_decide as E;
    (split; [done|]; split; [done|]; split; [exact Hh|]; split;
      [cbn [refetchInterval useDeliveryDetail with_app with_lookup d_app selectedDeliveryId autoRefresh];
       rewrite Hh; by destruct (autoRefresh (d_app s))|]; repeat split; congruence).
Qed.
End Properties.

Section Witnesses.
#[local] Existing Instance sample_host.

Lemma selection_moves_page_witness :
  let s := Dash (Store.App "k" true None) (table_initial 0) (Form Email "a" "k") panel_initial ""
             stale_initial 0 0 in
  let q := Queries (Query None true false true None 0) (Query None true false true None 0)
             (Query None false false false None 0) false false in
  d_lookup (fst (fst (fst (dash_step q (A_table (Select_row "d7")) s (Tape 0 0 0))))) = "d7".
Proof.
  intros s q.
  exact (proj1 (proj2 (proj2 (proj2 (proj2 (@selection_moves_page sample_host (list call) (answering accepted) q (A_table (Select_row "d7")) s
    (Tape 0 0 0) "d7" (by_row s "d7") ltac:(discriminate)))))) ltac:(discriminate)).
Defined.
End Witnesses.
