(* ===== verification/Offers.v ===== *)
(** * What the page lets the user do

    The controls that start work are disabled while that work is pending, so what
    a rendered page offers depends on what is pending: [page_offers]. *)

From S2P Require Import Prelude JsNumber JsString JsValue JsDate React Interact UiKit Types Client Effects.
From S2P Require Import LoadConfig LoadRun Store StatusViews Feeds DeliveriesTable DeliveryDetail SendTestForm.
From S2P Require Import LoadTestPanel Dashboard.

Section PanelOffers.
Context `{Styling}.

Definition starts_when_idle (s : panel_state) (a : panel_action) : Prop :=
  match a with RunScenario _ => running s = None | _ => True end.

Lemma scenario_button_offers s x : offers_only (starts_when_idle s) (scenario_button s x).
Proof.
  unfold scenario_button. cbv zeta. destruct (running s) eqn:E.
  - apply offers_Button_disabled; [reflexivity|offers].
  - offers.
Qed.
#[local] Hint Resolve scenario_button_offers : offers.

Lemma panel_offers s : offers_only (starts_when_idle s) (LoadTestPanel s).
Proof. unfold LoadTestPanel. cbv zeta. offers. Qed.

(** The form is submitted when no submission is pending. *)
Definition submits_when_free (busy : bool) (a : form_action) : Prop :=
  match a with Submit => busy = false | _ => True end.

Lemma form_offers s busy : offers_only (submits_when_free busy) (SendTestForm s busy).
Proof.
  unfold SendTestForm. destruct busy; [apply offers_blocked; [reflexivity|]|]; offers.
Qed.

(** A replay is started when none is pending. *)
Definition replays_when_free (busy : bool) (a : detail_action) : Prop :=
  match a with DoReplay => busy = false | _ => True end.
End PanelOffers.

Section DetailOffers.
Context `{Host} `{Styling}.

Implicit Types (busy : bool).

Lemma summary_bar_offers d busy : offers_only (replays_when_free busy) (summary_bar d busy).
Proof. unfold summary_bar. destruct busy; offers. Qed.

Lemma small_json_silent v : silent (small_json v).
Proof. intros Q. unfold small_json. offers. Qed.

#[local] Hint Resolve small_json_silent summary_bar_offers : offers.
#[local] Hint Extern 1 (offers_only _ ?t) =>
  match goal with E : silent t |- _ => apply E end : offers.

Lemma audit_silent a t : audit_item a = Ok t -> silent t.
Proof. intros Ht Q. unfold audit_item in Ht. open_result Ht. offers. Qed.

Lemma attempt_silent a t : attempt_item a = Ok t -> silent t.
Proof. intros Ht Q. unfold attempt_item in Ht. open_result Ht. offers. Qed.

Lemma when_date_silent s f t : (forall d, silent (f d)) -> when_date s f = Ok t -> silent t.
Proof.
  unfold when_date. intros Hf Ht. destruct (non_empty s); [open_result Ht; apply Hf|by injection Ht as <-].
Qed.

Lemma outbox_silent o t : outbox_item o = Ok t -> silent t.
Proof.
  intros Ht Q. unfold outbox_item in Ht. open_result Ht.
  apply when_date_silent in E0; [|done]. offers.
Qed.

Lemma metadata_silent d t : metadata_section d = Ok t -> silent t.
Proof.
  intros Ht Q. unfold metadata_section in Ht. open_result Ht.
  apply when_date_silent in E1; [|intros e R; offers]. unfold when_text. offers.
Qed.

Lemma items_silent {B} (f : B -> result (node detail_action)) (l : list B) label tag cls b text t :
  (forall x u, f x = Ok u -> silent u) -> (forall Q, all_offer_only Q label) ->
  (items <-r rmap f l;;
   Ok (El "section" [] [SectionLabel label; El tag [class cls] (items ++ [when b (empty_item text)])])) = Ok t ->
  silent t.
Proof.
  intros Hf Hl Ht Q. open_result Ht. offers; [apply Hl|by eapply rmap_silent].
Qed.

Lemma timeline_silent l t : timeline_section l = Ok t -> silent t.
Proof. apply items_silent; [apply audit_silent|by intros Q]. Qed.

Lemma attempts_silent l t : attempts_section l = Ok t -> silent t.
Proof. apply items_silent; [apply attempt_silent|by intros Q]. Qed.

Lemma outboxes_silent l t : outbox_section l = Ok t -> silent t.
Proof. apply items_silent; [apply outbox_silent|by intros Q]. Qed.

Lemma detail_offers id q busy lookup t : DeliveryDetail id q busy lookup = Ok t ->
  offers_only (replays_when_free busy) t.
Proof.
  unfold DeliveryDetail. cbv zeta. destruct (negb (has_id id)); [intros [= <-]; offers|].
  destruct (isLoading q && _); [intros [= <-]; offers|].
  destruct (data q) as [d|]; [|intros [= <-]; unfold not_found, when_text; offers].
  destruct (isError q); [intros [= <-]; unfold not_found, when_text; offers|].
  unfold shown_detail. cbv zeta. intros Ht. open_result Ht.
  apply metadata_silent in E. apply timeline_silent in E0. apply attempts_silent in E1.
  apply outboxes_silent in E2. unfold when_text. offers.
Qed.
End DetailOffers.

(** ** The page *)

(** What the controls of the page start, and when they may. *)
Definition page_allows (q : dash_queries) (s : dash_state) (a : dash_action) : Prop :=
  match a with
  | A_form a => submits_when_free (sending q) a
  | A_detail a => replays_when_free (replaying q) a
  | A_panel a => starts_when_idle (d_panel s) a
  | _ => True
  end.

Section PageOffers.
Context `{Host} `{Styling}.

Lemma anything_offered {A} (t : node A) : offers_only (fun _ => True) t.
Proof.
  assert (forall ch, Forall (offers_only (fun _ : A => True)) ch -> all_offer_only (fun _ => True) ch) as Hch
    by (intros ch; apply all_offer_only_Forall).
  induction t as [s|n| |ch IH|tag attrs ch IH] using node_induction; try done; cbn [offers_only].
  - by apply Hch.
  - split; [|by apply Hch]. intros _. by apply Forall_true.
Qed.

Lemma pipeline_silent {A} st : silent (PipelineFlow (A := A) st).
Proof. intros Q. offers. Qed.

Lemma stats_silent {A} d n : silent (StatsBar (A := A) d n).
Proof. intros Q. unfold StatsBar. cbv zeta. offers. Qed.
#[local] Hint Resolve pipeline_silent stats_silent : offers.

Lemma page_offers q s t a : App q s = Ok t -> offered a t -> page_allows q s a.
Proof.
  intros Ht. apply offers_only_offered. unfold App, Dashboard in Ht. open_result Ht.
  apply detail_offers in E. offers; apply offers_map;
    lazymatch goal with
    | |- offers_only _ (LoadTestPanel _) => apply panel_offers
    | |- offers_only _ (SendTestForm _ _) => apply form_offers
    | |- offers_only (fun x => page_allows q s (A_detail x)) _ => exact E
    | |- _ => apply anything_offered
    end.
Qed.

(** The other way: what the page offers when nothing is pending. *)
Lemma panel_offers_scenario s x : running s = None -> offered (RunScenario x) (LoadTestPanel s).
Proof.
  intros Hi. destruct (scenario_buttons s) as [Hb _]. rewrite Hi in Hb.
  assert ((x, false) ∈ run_buttons (LoadTestPanel s)) as Hin.
  { rewrite Hb, bool_decide_eq_false_2 by auto. clear. destruct x; vm_compute; repeat (left || right). }
  apply list_elem_of_omap in Hin as ([attrs ch] & Hin & Hc). cbn [fst] in Hc. unfold click in Hc.
  destruct (attr_of "onClick" attrs) as [[| | | | |a| |]|] eqn:Ha; try done.
  destruct a; try done. injection Hc as -> Hd.
  eapply (offered_element _ _ _ _ _ (AAct (RunScenario x))); [exact Hin|unfold blocked; by rewrite Hd| |done].
  by apply attr_of_elem.
Qed.

Lemma form_offers_submit s : offered Submit (SendTestForm s false).
Proof. eapply (offered_here _ _ _ _ "onSubmit" (AAct Submit)); [reflexivity|by left|done]. Qed.

Ltac nth_child n := lazymatch n with O => left | S ?m => right; nth_child m end.

(** The first column of the page. *)
Lemma column_offered q s t u a : App q s = Ok t ->
  u ∈ [map_node A_form (SendTestForm (d_form s) (sending q));
       map_node A_panel (LoadTestPanel (d_panel s));
       map_node A_feed (ActivityFeed (events_of q) (d_app s) (d_feed_now s))] ->
  offered a u -> offered a t.
Proof.
  intros Ht Hu Ha. unfold App, Dashboard in Ht. open_result Ht.
  eapply offered_child; [nth_child 1|]. eapply offered_child; [nth_child 1|].
  eapply offered_child; [nth_child 2|]. eapply offered_child; [nth_child 0|].
  by eapply offered_child.
Qed.

Lemma scenario_offered q s t x : App q s = Ok t -> running (d_panel s) = None ->
  offered (A_panel (RunScenario x)) t.
Proof.
  intros Ht Hi. eapply (column_offered _ _ _ _ _ Ht); [nth_child 1|].
  by apply offered_map_intro, panel_offers_scenario.
Qed.

(** C11. What a rendered page lets the user start.  A scenario can be started
    exactly when none is running, the form can be submitted exactly when no
    submission is pending, and a replay can be started only when none is. *)
Theorem page_controls q s t : App q s = Ok t ->
  (forall x, offered (A_panel (RunScenario x)) t <-> running (d_panel s) = None) /\
  (offered (A_form Submit) t <-> sending q = false) /\
  (offered (A_detail DoReplay) t -> replaying q = false).
Proof.
  intros Ht. split; [|split]; [intros x; split| split |];
    try (intros Ho; exact (page_offers _ _ _ _ Ht Ho)).
  - by apply (scenario_offered _ _ _ _ Ht).
  - intros Hf. eapply (column_offered _ _ _ _ _ Ht); [nth_child 0|].
    rewrite Hf. apply offered_map_intro, form_offers_submit.
Qed.
End PageOffers.

Section Witnesses.
#[local] Existing Instance sample_host.
#[local] Existing Instance sample_styling.

Definition blank_queries : dash_queries :=
  Queries (Query None true false true None 0) (Query None true false true None 0)
    (Query None false false false None 0) false false.
Definition blank_page : dash_state :=
  Dash initial_state (table_initial 0) (Form Email "a" "k") panel_initial "" stale_initial 0 0.

Lemma page_controls_witness : exists t, App blank_queries blank_page = Ok t /\
  offered (A_panel (RunScenario Burst)) t.
Proof.
  destruct (App blank_queries blank_page) as [t|] eqn:E; [|vm_compute in E; discriminate E].
  exists t. split; [reflexivity|]. exact (proj2 (proj1 (page_controls _ _ t E) Burst) eq_refl).
Defined.
End Witnesses.
