(* ===== verification/Session.v ===== *)
(** * A session of the page

    The page with everything that is pending around it: the runs in flight, the
    submissions and replays that have not settled, the requests sent so far and
    the effects so far.  An event is something the user does with a control the
    rendered page offers, or something the host does: a request settles, a timer
    fires, a query has a new result, a clock ticks.  JavaScript runs one event to
    completion before the next, so a session is a sequence of events.

    A mutation sends with the API key of the last render, and reports that it is
    pending from the call to the settlement; once a render has thrown, nothing is
    mounted any more, but the requests and the runs in flight go on. *)

From S2P Require Import Prelude JsNumber JsString JsValue JsDate React UiKit Interact Types Client Effects.
From S2P Require Import LoadConfig LoadRun Store StatusViews Feeds DeliveriesTable DeliveryDetail SendTestForm.
From S2P Require Import LoadTestPanel LoadSteps Dashboard Offers.

Open Scope nat_scope.

(** ** State *)

#[local] Abbreviation Req := (option SendNotificationReq.t).

(** A run in flight: what [runScenario] captured at the click, and the run. *)
Record flight : Type := Flight {
  f_scenario : LoadScenarioId;
  f_config : LoadTestConfig;
  f_key : option string;
  f_launch : launch;
  f_activity : activity Req
}.

(** A request that was sent, with its API key. *)
Inductive wired : Type :=
| FormSend (apiKey : string) (r : SendNotificationReq.t)
| LoadSend (apiKey : string) (i : nat) (r : Req)
| ReplaySend (apiKey : string) (id : string).

(** The page with its queries, what is pending, and what it has called so far: the
    mutations ([wire]), and the functions of sonner, of the query client and of
    the clipboard ([log]). *)
Record session : Type := Session {
  page : dash_state;
  summary_r : query DashboardSummary.t;
  health_r : query HealthResp.t;
  detail_r : query DeliveryDetailResp.t;
  flights : list flight;
  submissions : list SendNotificationReq.t;
  replays : list string;
  copies : nat;
  alive : bool;
  host : tape;
  wire : list wired;
  log : list effect
}.

Inductive session_event : Type :=
| User (a : dash_action)
| LoadSettles (n w : nat) (r : result SendNotificationResp.t)
| LoadWakes (n : nat)
| FormSettles (n : nat) (r : result SendNotificationResp.t)
| ReplaySettles (n : nat) (r : result SendNotificationResp.t)
| CopySettles (copied : bool)
| Refetched (sq : query DashboardSummary.t) (hq : query HealthResp.t) (dq : query DeliveryDetailResp.t)
| TableNow (now : Z)
| FeedNow (now : Z)
| HeaderNow (now : Z)
| StaleEvent (e : stale_event).

(** ** Events *)

(** The fields an event changes, one at a time. *)
Definition with_page (p : dash_state) (s : session) : session :=
  Session p (summary_r s) (health_r s) (detail_r s) (flights s) (submissions s) (replays s)
    (copies s) (alive s) (host s) (wire s) (log s).
Definition with_flights (fs : list flight) (s : session) : session :=
  Session (page s) (summary_r s) (health_r s) (detail_r s) fs (submissions s) (replays s)
    (copies s) (alive s) (host s) (wire s) (log s).
Definition with_host (t : tape) (s : session) : session :=
  Session (page s) (summary_r s) (health_r s) (detail_r s) (flights s) (submissions s) (replays s)
    (copies s) (alive s) t (wire s) (log s).
Definition with_wire (ws : list wired) (s : session) : session :=
  Session (page s) (summary_r s) (health_r s) (detail_r s) (flights s) (submissions s) (replays s)
    (copies s) (alive s) (host s) (wire s ++ ws) (log s).
Definition with_pending (subs : list SendNotificationReq.t) (reps : list string) (c : nat)
    (s : session) : session :=
  Session (page s) (summary_r s) (health_r s) (detail_r s) (flights s) subs reps
    c (alive s) (host s) (wire s) (log s).
Definition with_queries sq hq dq (s : session) : session :=
  Session (page s) sq hq dq (flights s) (submissions s) (replays s)
    (copies s) (alive s) (host s) (wire s) (log s).

(** The effects of a callback that leave the page: toasts, invalidations of
    queries, and writes to the clipboard. *)
Definition outputs (es : list effect) : list effect :=
  List.filter (fun e =>
    match e with Toast _ _ _ | Invalidate _ | WriteText _ => true | _ => false end) es.

(** The effects of a callback. *)
Definition logged (es : list effect) (s : session) : session :=
  Session (page s) (summary_r s) (health_r s) (detail_r s) (flights s) (submissions s) (replays s)
    (copies s) (alive s) (host s) (wire s) (log s ++ outputs es).
Definition enact (es : list effect) (s : session) : session :=
  logged es (with_page (commit es (page s)) s).

(** What the mutations of a handler send and leave pending. *)
Definition submissions_of (es : list effect) : list SendNotificationReq.t :=
  omap (fun e => match e with SendMutation r => Some r | _ => None end) es.
Definition replays_of (es : list effect) : list string :=
  omap (fun e => match e with ReplayMutation id => Some id | _ => None end) es.
Definition copies_of (es : list effect) : nat :=
  length (List.filter (fun e => match e with WriteText _ => true | _ => false end) es).

Definition key_of (s : session) : string := apiKey (d_app (page s)).

Definition queries_of (s : session) : dash_queries :=
  Queries (summary_r s) (health_r s) (detail_r s)
    (negb (bool_decide (submissions s = []))) (negb (bool_decide (replays s = []))).

Section Events.
Context `{Host}.

Definition flight_build (f : flight) : nat -> M Req :=
  run_build (f_scenario f) (f_config f) (f_key f).

(** The requests [a'] has sent and [a] has not. *)
Definition new_sends (key : string) (a a' : list (nat * Req)) : list wired :=
  map (fun p => LoadSend key p.1 p.2) (drop (length a) a').

(** The run resumes as [a]: it ends if it is over. *)
Definition resume (n : nat) (f : flight) (a : activity Req) (s : session) : session :=
  let s1 := with_wire (new_sends (key_of s) (activity_sent (f_activity f)) (activity_sent a)) s in
  if activity_over a then
    let '(r, t) := activity_result a (host s1) in
    let '(p, es) := runScenario_end (f_scenario f) r (d_panel (page s1)) in
    enact es (with_flights (delete n (flights s1))
      (with_page (Dashboard.with_panel p (page s1)) (with_host t s1)))
  else
    with_flights
      (<[n := Flight (f_scenario f) (f_config f) (f_key f) (f_launch f) a]> (flights s1)) s1.

(** The call of [runScenario]: the run up to its first await. *)
Definition take_off (x : LoadScenarioId) (c : LoadTestConfig) (k : option string) (l : launch)
    (s : session) : session :=
  let '(a, t) := activity_start l (run_build x c k) (host s) in
  let s1 := with_wire (new_sends (key_of s) [] (activity_sent a)) (with_host t s) in
  if activity_over a then
    let '(r, t') := activity_result a t in
    let '(p, es) := runScenario_end x r (d_panel (page s1)) in
    enact es (with_page (Dashboard.with_panel p (page s1)) (with_host t' s1))
  else with_flights (flights s1 ++ [Flight x c k l a]) s1.

(** A handler of the page. *)
Definition user_event (a : dash_action) (s : session) : session :=
  let '(p, es, l, t) := dash_step (queries_of s) a (page s) (host s) in
  let s1 := logged es (with_page p (with_host t s)) in
  let s2 :=
    with_wire (map (FormSend (key_of s)) (submissions_of es) ++ map (ReplaySend (key_of s)) (replays_of es))
      (with_pending (submissions s1 ++ submissions_of es) (replays s1 ++ replays_of es)
         (copies s1 + copies_of es) s1) in
  match a, l with
  | A_panel (RunScenario x), Some (l, k) => take_off x (config (d_panel (page s))) k l s2
  | _, _ => s2
  end.

(** [onProgress] with the last report. *)
Definition report (a : activity Req) (s : session) : session :=
  match activity_report a with
  | Some r => with_page (Dashboard.with_panel (on_progress r (d_panel (page s))) (page s)) s
  | None => s
  end.

(** The send of worker [w] settles: the mutation's own callback, then the run. *)
Definition load_settles (n w : nat) (r : result SendNotificationResp.t) (s : session) : option session :=
  f ← flights s !! n;
  '(a, t) ← activity_settle (f_launch f) (flight_build f) w (sendOne r) (f_activity f) (host s);
  let es := match r with Ok res => useSendNotification_onSuccess res | Throw _ => [] end in
  Some (resume n f a (report a (enact es (with_host t s)))).

Definition load_wakes (n : nat) (s : session) : option session :=
  f ← flights s !! n;
  '(a, t) ← activity_wake (f_launch f) (flight_build f) (f_activity f) (host s);
  Some (resume n f a (with_host t s)).

(** A submission settles: on an unmounted page only the mutation's callback runs. *)
Definition form_settles (n : nat) (r : result SendNotificationResp.t) (s : session) : option session :=
  _ ← submissions s !! n;
  let s1 := with_pending (delete n (submissions s)) (replays s) (copies s) s in
  Some (
    if alive s then
      let '(f, es, t) := form_settled r (d_form (page s)) (host s) in
      enact es (with_page (with_form f (page s)) (with_host t s1))
    else enact (match r with Ok res => useSendNotification_onSuccess res | Throw _ => [] end) s1).

Definition replay_settles (n : nat) (r : result SendNotificationResp.t) (s : session) : option session :=
  id ← replays s !! n;
  let s1 := with_pending (submissions s) (delete n (replays s)) (copies s) s in
  Some (
    if alive s then enact (replay_settled id r) s1
    else enact (match r with Ok _ => useReplay_onSuccess id | Throw _ => [] end) s1).

Definition copy_settles (done : bool) (s : session) : option session :=
  match copies s with
  | O => None
  | S c =>
      let s1 := with_pending (submissions s) (replays s) c s in
      Some (if done then enact copied s1 else s1)
  end.

Definition apply_event (e : session_event) (s : session) : option session :=
  let p := page s in
  match e with
  | User a => Some (user_event a s)
  | LoadSettles n w r => load_settles n w r s
  | LoadWakes n => load_wakes n s
  | FormSettles n r => form_settles n r s
  | ReplaySettles n r => replay_settles n r s
  | CopySettles done => copy_settles done s
  | Refetched sq hq dq => Some (with_queries sq hq dq s)
  | TableNow now => Some (with_page (with_table (table_step (TableTick now) (d_table p)).1 p) s)
  | FeedNow now =>
      Some (with_page (Dash (d_app p) (d_table p) (d_form p) (d_panel p) (d_lookup p) (d_stale p)
        now (d_header_now p)) s)
  | HeaderNow now =>
      Some (with_page (Dash (d_app p) (d_table p) (d_form p) (d_panel p) (d_lookup p) (d_stale p)
        (d_feed_now p) now) s)
  | StaleEvent e =>
      Some (with_page (Dash (d_app p) (d_table p) (d_form p) (d_panel p) (d_lookup p)
        (stale_step e (d_stale p)) (d_feed_now p) (d_header_now p)) s)
  end.
End Events.

(** ** Sessions *)

Section Sessions.
Context `{Host} `{Styling}.

Definition renders (s : session) : bool :=
  match App (queries_of s) (page s) with Ok _ => true | Throw _ => false end.

(** Every event is followed by a render; there is no error boundary. *)
Definition after_render (s : session) : session :=
  Session (page s) (summary_r s) (health_r s) (detail_r s) (flights s) (submissions s) (replays s)
    (copies s) (alive s && renders s) (host s) (wire s) (log s).

(** The first render: the store may come from local storage. *)
Definition session_start (ap : AppState) sq hq dq (t : tape) : session :=
  let '(n1, t1) := Date_now t in
  let '(f, t2) := form_initial t1 in
  let '(n2, t3) := Date_now t2 in
  let '(n3, t4) := Date_now t3 in
  after_render (Session
    (Dash ap (table_initial n3) f panel_initial (lookup_follows (selectedDeliveryId ap))
       stale_initial n2 n1)
    sq hq dq [] [] [] 0 true t4 [] []).

(** What the user can do is what the page offers; what the host does is free. *)
Inductive session_step (s : session) : session_event -> session -> Prop :=
| user_step a t s' :
    alive s = true -> App (queries_of s) (page s) = Ok t -> offered a t ->
    apply_event (User a) s = Some s' -> session_step s (User a) (after_render s')
| host_step e s' :
    (forall a, e <> User a) -> apply_event e s = Some s' -> session_step s e (after_render s').

(** A sequence of events, the last one last. *)
Inductive session_path (s : session) : list session_event -> session -> Prop :=
| path_here : session_path s [] s
| path_then es s1 e s2 : session_path s es s1 -> session_step s1 e s2 -> session_path s (es ++ [e]) s2.

Inductive session_reachable : session -> Prop :=
| session_starts ap sq hq dq t : session_reachable (session_start ap sq hq dq t)
| session_steps s e s' : session_reachable s -> session_step s e s' -> session_reachable s'.
End Sessions.

(** ** The invariant *)

Section Invariant.
Context `{Host} `{Styling}.

Record flight_ok (f : flight) : Prop := {
  flight_launch : f_launch f = launch_of (f_scenario f) (f_config f);
  flight_config : valid_config (f_config f);
  flight_key : is_duplicate (f_scenario f) = true -> exists k, f_key f = Some k;
  flight_run : activity_ok (f_launch f) (flight_build f) (f_activity f);
  flight_going : activity_over (f_activity f) = false
}.

(** The panel and the runs in flight agree. *)
Definition panel_ok (p : panel_state) (fs : list flight) : Prop :=
  match fs with
  | [] => running p = None
  | [f] => running p = Some (f_scenario f) /\ flight_ok f
  | _ => False
  end /\ valid_config (config p).

Record session_ok (s : session) : Prop := {
  session_panel : panel_ok (d_panel (page s)) (flights s);
  session_submissions : length (submissions s) <= 1;
  session_replays : length (replays s) <= 1
}.

Lemma panel_commit es p : d_panel (commit es p) = d_panel p.
Proof. unfold commit. by case_bool_decide. Qed.

Lemma form_commit es p : d_form (commit es p) = d_form p.
Proof. unfold commit. by case_bool_decide. Qed.

Lemma launch_of_count x c : launch_count (launch_of x c) = scenarioCount x c.
Proof. unfold launch_of. by destruct (_ || _). Qed.

(** A handler of the page: what it does to the panel, and what it leaves pending. *)
Lemma dash_step_facts q a s t : valid_config (config (d_panel s)) ->
  let '(p, es, l, t1) := dash_step q a s t in
  valid_config (config (d_panel p)) /\
  length (submissions_of es) <= match a with A_form Submit => 1 | _ => 0 end /\
  length (replays_of es) <= match a with A_detail DoReplay => 1 | _ => 0 end /\
  match a with
  | A_panel (RunScenario x) =>
      running (d_panel p) = Some x /\
      exists k, l = Some (launch_of x (config (d_panel s)), k) /\
        (is_duplicate x = true -> exists k', k = Some k')
  | _ => running (d_panel p) = running (d_panel s) /\ l = None
  end.
Proof.
  intros V. destruct a as [a|a|a|a|a|a]; cbn [dash_step].
  - unfold ret. rewrite panel_commit. by destruct a.
  - unfold ret. rewrite panel_commit. by destruct a.
  - destruct (table_step a (d_table s)) as [tb es] eqn:E. unfold ret. rewrite panel_commit.
    destruct a; injection E as <- <-; done.
  - destruct (detail_step _ a (d_lookup s)) as [lk es] eqn:E. unfold ret. rewrite panel_commit.
    destruct a; injection E as <- <-; try done.
    unfold submitLookup. by repeat case_match.
  - unfold bind. destruct (form_step a (d_form s) t) as [[f es] t1] eqn:E. unfold ret.
    rewrite panel_commit. cbn [d_panel with_form].
    destruct a; cbn [form_step] in E; unfold bind, ret in E;
      try (destruct (genKey t)); injection E as <- <- <-; split_and!; done || (cbn; lia).
  - pose proof (panel_edit_valid a _ V) as Ve.
    destruct a; try (unfold ret; split_and!; done).
    unfold bind. rewrite start_runs by done. pose proof (shared_key_some id t) as Hk.
    destruct (shared_key id t) as [k t1]. unfold ret. rewrite panel_commit.
    split_and!; try done. eauto.
Qed.

Lemma valid_requests x c : valid_config c -> 1 <= requests (scenarioCount x c).
Proof.
  intros V%(valid_count x). unfold requests. rewrite leb_int_floor in V.
  pose proof (Math_floor_ceil (scenarioCount x c)). lia.
Qed.

(** What a run that resumes does to the session. *)
Lemma resume_facts n f a s : let s' := resume n f a s in
  submissions s' = submissions s /\ replays s' = replays s /\
  config (d_panel (page s')) = config (d_panel (page s)) /\
  if activity_over a then
    flights s' = delete n (flights s) /\ running (d_panel (page s')) = None
  else
    flights s' = <[n := Flight (f_scenario f) (f_config f) (f_key f) (f_launch f) a]> (flights s) /\
    d_panel (page s') = d_panel (page s).
Proof.
  cbv zeta. unfold resume. destruct (activity_over a); [|done].
  destruct (activity_result a _) as [r t]. unfold enact, logged.
  cbn [runScenario_end page flights submissions replays with_page with_flights]. by rewrite panel_commit.
Qed.

Lemma report_facts a s : let s' := report a s in
  flights s' = flights s /\ submissions s' = submissions s /\ replays s' = replays s /\
  config (d_panel (page s')) = config (d_panel (page s)) /\
  running (d_panel (page s')) = running (d_panel (page s)).
Proof. cbv zeta. unfold report. by destruct (activity_report a). Qed.

Lemma resume_ok f a s : flight_ok f -> activity_ok (f_launch f) (flight_build f) a ->
  flights s = [f] -> session_ok s -> session_ok (resume 0 f a s).
Proof.
  intros [F1 F2 F3 F4 F5] Ha Hf [[Hr Hc] H1 H2]. rewrite Hf in Hr.
  pose proof (resume_facts 0 f a s) as (E1 & E2 & E3 & E4). rewrite Hf in E4.
  split; [|congruence|congruence]. unfold panel_ok. rewrite E3. split; [|done].
  destruct (activity_over a) eqn:Ho; destruct E4 as [-> E4]; cbn [delete list_delete list_insert insert];
    [done|]. rewrite E4. split; [apply Hr|]. by split.
Qed.

Lemma take_off_ok x k s : flights s = [] -> running (d_panel (page s)) = Some x ->
  valid_config (config (d_panel (page s))) -> (is_duplicate x = true -> exists k', k = Some k') ->
  length (submissions s) <= 1 -> length (replays s) <= 1 ->
  forall c, valid_config c -> session_ok (take_off x c k (launch_of x c) s).
Proof.
  intros Hf Hr V Hk H1 H2 c Vc. unfold take_off.
  pose proof (activity_start_ok (launch_of x c) (run_build x c k) (host s)) as Ha.
  pose proof (start_not_over (launch_of x c) (run_build x c k) (host s)) as Hn.
  rewrite launch_of_count in Hn. specialize (Hn (valid_requests x c Vc)).
  destruct (activity_start _ _ (host s)) as [a t]. cbn [fst] in *. rewrite Hn.
  split; [|done|done]. unfold panel_ok. cbn [page flights with_flights with_wire with_host].
  rewrite Hf. cbn [app]. split; [|done]. split; [done|]. by split.
Qed.

(** Nothing but the handlers and the runs touches what the invariant is about. *)
Lemma enact_ok es s : session_ok s -> session_ok (enact es s).
Proof. intros [? ? ?]. split; try done. cbn [enact logged page with_page flights]. by rewrite panel_commit. Qed.

Lemma report_ok a s : session_ok s -> session_ok (report a s).
Proof.
  intros [[Hr Hc] ? ?]. destruct (report_facts a s) as (E1 & E2 & E3 & E4 & E5).
  split; [|congruence|congruence]. unfold panel_ok in *. by rewrite E1, E4, E5.
Qed.

Lemma with_host_ok t s : session_ok s -> session_ok (with_host t s).
Proof. by intros [? ? ?]. Qed.

Lemma with_pending_ok subs reps c s : length subs <= 1 -> length reps <= 1 ->
  session_ok s -> session_ok (with_pending subs reps c s).
Proof. by intros ? ? [? ? ?]. Qed.

Lemma with_page_ok p s : d_panel p = d_panel (page s) -> session_ok s -> session_ok (with_page p s).
Proof. intros Hp [? ? ?]. split; try done. cbn [page flights with_page]. by rewrite Hp. Qed.
Create HintDb session.
#[local] Hint Resolve enact_ok report_ok with_host_ok with_pending_ok : session.

(** The one run in flight of an event about run [n]. *)
Lemma the_flight s n f : session_ok s -> flights s !! n = Some f ->
  n = 0 /\ flights s = [f] /\ flight_ok f.
Proof.
  intros [[Hp _] _ _] Hn. destruct (flights s) as [|g [|]]; [done| |done].
  destruct n; [|done]. injection Hn as ->. by destruct Hp.
Qed.

Lemma load_settles_ok n w r s s' : session_ok s -> load_settles n w r s = Some s' -> session_ok s'.
Proof.
  intros Hok. unfold load_settles. destruct (flights s !! n) as [f|] eqn:En; [|done].
  destruct (the_flight _ _ _ Hok En) as (-> & Hf & Ho). cbn [mbind option_bind].
  destruct (activity_settle _ _ _ _ _ _) as [[a t]|] eqn:Ea; [|done]. intros [= <-].
  apply activity_settle_ok in Ea as [Ha _]; [|apply Ho].
  apply resume_ok; auto with session. by rewrite (proj1 (report_facts _ _)).
Qed.

Lemma load_wakes_ok n s s' : session_ok s -> load_wakes n s = Some s' -> session_ok s'.
Proof.
  intros Hok. unfold load_wakes. destruct (flights s !! n) as [f|] eqn:En; [|done].
  destruct (the_flight _ _ _ Hok En) as (-> & Hf & Ho). cbn [mbind option_bind].
  destruct (activity_wake _ _ _ _) as [[a t]|] eqn:Ea; [|done]. intros [= <-].
  apply activity_wake_ok in Ea as [Ha _]; [|apply Ho]. apply resume_ok; auto with session.
Qed.

Lemma length_delete_le {A} n (l : list A) : length l <= 1 -> length (delete n l) <= 1.
Proof.
  destruct l as [|x [|]]; [by destruct n| |cbn; lia]. intros _. destruct n as [|[]]; cbn; lia.
Qed.
#[local] Hint Resolve length_delete_le session_submissions session_replays : session.

Lemma form_settles_ok n r s s' : session_ok s -> form_settles n r s = Some s' -> session_ok s'.
Proof.
  intros Hok. unfold form_settles. destruct (submissions s !! n); [|done]. cbn [mbind option_bind].
  assert (session_ok (with_pending (delete n (submissions s)) (replays s) (copies s) s))
    by auto with session.
  destruct (alive s); [|by intros [= <-]; auto with session].
  destruct (form_settled r (d_form (page s)) (host s)) as [[f es] t1]. intros [= <-].
  apply enact_ok, with_page_ok; [done|by auto with session].
Qed.

Lemma replay_settles_ok n r s s' : session_ok s -> replay_settles n r s = Some s' -> session_ok s'.
Proof.
  intros Hok. unfold replay_settles. destruct (replays s !! n); [|done]. cbn [mbind option_bind].
  destruct (alive s); intros [= <-]; auto 6 with session.
Qed.

Lemma copy_settles_ok b s s' : session_ok s -> copy_settles b s = Some s' -> session_ok s'.
Proof.
  intros Hok. unfold copy_settles. destruct (copies s); [done|].
  destruct b; intros [= <-]; auto 6 with session.
Qed.

(** A handler that the page offers. *)
Lemma user_event_ok a s : page_allows (queries_of s) (page s) a -> session_ok s ->
  session_ok (user_event a s).
Proof.
  intros Hal Hok. pose proof Hok as [[Hp V] Hs Hr]. unfold user_event.
  pose proof (dash_step_facts (queries_of s) a (page s) (host s) V) as Hd.
  destruct (dash_step _ a (page s) (host s)) as [[[p es] l] t]. destruct Hd as (V' & Ls & Lr & Hx).
  assert (length (submissions s ++ submissions_of es) <= 1) as Hs'.
  { rewrite length_app. destruct a as [| | | |[]|]; try lia.
    cbn in Hal. by destruct (submissions s). }
  assert (length (replays s ++ replays_of es) <= 1) as Hr'.
  { rewrite length_app. destruct a as [| | |[]| |]; try lia.
    cbn in Hal. by destruct (replays s). }
  assert (forall a', (forall x, a' <> A_panel (RunScenario x)) -> a = a' ->
    session_ok (with_wire (map (FormSend (key_of s)) (submissions_of es) ++ map (ReplaySend (key_of s)) (replays_of es))
      (with_pending (submissions s ++ submissions_of es) (replays s ++ replays_of es) (copies s + copies_of es)
        (logged es (with_page p (with_host t s)))))) as Hother.
  { intros a' Ha' ->. assert (running (d_panel p) = running (d_panel (page s))) as Hrun.
    { destruct a' as [| | | | |[]]; try apply Hx. by destruct (Ha' id). }
    split; try done. unfold panel_ok in *. cbn [page flights with_wire with_pending logged with_page with_host].
    by rewrite Hrun. }
  destruct a as [a|a|a|a|a|a]; try (by refine (Hother _ _ eq_refl)).
  destruct a; try (by refine (Hother _ _ eq_refl)).
  destruct Hx as (Hrun & sk & -> & Hk). cbn in Hal.
  assert (flights s = []) as Hf.
  { destruct (flights s) as [|f [|]]; [done| |done]. destruct Hp as [Hp _]. congruence. }
  by apply take_off_ok.
Qed.

Lemma apply_event_ok e s s' : (forall a, e = User a -> page_allows (queries_of s) (page s) a) ->
  session_ok s -> apply_event e s = Some s' -> session_ok s'.
Proof.
  intros Hu Hok. destruct e; cbn [apply_event].
  - intros [= <-]. apply user_event_ok; auto.
  - by apply load_settles_ok.
  - by apply load_wakes_ok.
  - by apply form_settles_ok.
  - by apply replay_settles_ok.
  - by apply copy_settles_ok.
  - intros [= <-]. by destruct Hok.
  - intros [= <-]. by apply with_page_ok.
  - intros [= <-]. by apply with_page_ok.
  - intros [= <-]. by apply with_page_ok.
  - intros [= <-]. by apply with_page_ok.
Qed.

Lemma after_render_ok s : session_ok s -> session_ok (after_render s).
Proof. by intros [? ? ?]. Qed.

Lemma session_step_ok s e s' : session_ok s -> session_step s e s' -> session_ok s'.
Proof.
  intros Hok [a t s1 Ha Ht Ho He|e1 s1 Hu He]; apply after_render_ok.
  - eapply apply_event_ok, He; [|done]. intros b [= ->]. by eapply page_offers.
  - eapply apply_event_ok, He; [|done]. intros b ->. by destruct (Hu b).
Qed.

Lemma reachable_session_ok s : session_reachable s -> session_ok s.
Proof.
  induction 1 as [ap sq hq dq t|s e s' _ IH Hs]; [|by eapply session_step_ok].
  unfold session_start. destruct (Date_now t) as [n1 t1]. destruct (form_initial t1) as [f t2].
  destruct (Date_now t2) as [n2 t3]. destruct (Date_now t3) as [n3 t4].
  apply after_render_ok. split; [|cbn; lia|cbn; lia]. split; [done|]. apply valid_initial.
Qed.

(** The sends in flight of a run. *)
Lemma flight_sends f : flight_ok f -> sends_in_flight (f_activity f) <= 100.
Proof.
  intros [F1 F2 F3 F4 F5]. etrans; [by eapply flight_bound|]. rewrite F1. unfold pool_size, limit.
  assert (leb (Math_max (int 1) (Math_min (launch_concurrency (launch_of (f_scenario f) (f_config f)))
    (launch_count (launch_of (f_scenario f) (f_config f))))) (int 100) = true) as Hl.
  { apply Math_max_lub; [done|]. eapply leb_trans; [apply Math_min_l|]. unfold launch_of.
    destruct (_ || _); [done|]. apply F2. }
  apply Math_floor_mono in Hl. rewrite Math_floor_int in Hl. lia.
Qed.
End Invariant.

(** ** What an event does *)






Section Frame.
Context `{Host} `{Styling}.












End Frame.

Section Safety.
Context `{Host} `{Styling}.

(** C4. However the user works the page and in whatever order the host answers, at
    most one load run is in flight, and it is the one the panel shows as running;
    at most one submission of the form and one replay are pending; the requests
    of the run that have not settled are at most 100; and the panel's
    configuration is one every scenario can run with. *)
Theorem session_exclusive s : session_reachable s ->
  match flights s with
  | [] => running (d_panel (page s)) = None
  | [f] => running (d_panel (page s)) = Some (f_scenario f) /\ sends_in_flight (f_activity f) <= 100
  | _ => False
  end /\
  length (submissions s) <= 1 /\ length (replays s) <= 1 /\ valid_config (config (d_panel (page s))).
Proof.
  intros [[Hp V] H1 H2]%reachable_session_ok. split_and!; [|done..].
  destruct (flights s) as [|f [|]]; [done| |done]. destruct Hp as [-> F]. by split; [|apply flight_sends].
Qed.

End Safety.

(** * The properties at a concrete session *)

(** Playing a list of events, and a check that a session allows them. *)
Section Play.
Context `{Host} `{Styling}.

Definition play_event (s : session) (e : session_event) : session :=
  default s (after_render <$> apply_event e s).
Definition play (s : session) (es : list session_event) : session := fold_left play_event es s.

Definition playable_event (s : session) (e : session_event) : bool :=
  match e with
  | User (A_panel (RunScenario _)) =>
      alive s && renders s && bool_decide (running (d_panel (page s)) = None)
  | User _ => false
  | _ => match apply_event e s with Some _ => true | None => false end
  end.

Fixpoint playable (s : session) (es : list session_event) : bool :=
  match es with
  | [] => true
  | e :: es' => playable_event s e && playable (play_event s e) es'
  end.

Lemma play_event_step s e : playable_event s e = true -> session_step s e (play_event s e).
Proof.
  intros Hp. assert ((forall a, e <> User a) \/ exists x, e = User (A_panel (RunScenario x))) as [Hn|[x ->]].
  { destruct e as [[| | | | |[]]| | | | | | | | | |]; try done; eauto. }
  - unfold play_event. destruct (apply_event e s) as [s'|] eqn:E; [by apply host_step|].
    destruct e; cbn [playable_event] in Hp; try (by rewrite E in Hp). by destruct (Hn a).
  - cbn [playable_event] in Hp. rewrite !andb_true_iff, bool_decide_eq_true in Hp. destruct Hp as [[Ha Hr] Hi].
    unfold renders in Hr. destruct (App (queries_of s) (page s)) as [t|] eqn:Et; [|done].
    eapply user_step; [done|exact Et|by eapply scenario_offered|done].
Qed.
End Play.

Section Witnesses.
#[local] Existing Instance sample_host.
#[local] Existing Instance sample_styling.

Definition demo_session : session :=
  session_start initial_state (Query None true false true None 0) (Query None true false true None 0)
    (Query None false false false None 0) (Tape 0 0 0).

(* A click on the sequential duplicates. *)
Definition demo_click : session_event := User (A_panel (RunScenario DuplicateSeq)).

Lemma demo_clicked : session_reachable (play_event demo_session demo_click).
Proof.
  apply (session_steps demo_session demo_click); [apply session_starts|].
  apply play_event_step. vm_compute. reflexivity.
Qed.

Lemma session_exclusive_witness : exists s, session_reachable s /\ length (flights s) = 1 /\
  length (submissions s) <= 1.
Proof.
  exists (play_event demo_session demo_click). split; [exact demo_clicked|].
  split; [vm_compute; reflexivity|].
  destruct (session_exclusive _ demo_clicked) as (_ & H1 & _). exact H1.
Defined.

End Witnesses.
