(* ===== verification/SessionRuns.v ===== *)
(** * The runs of a session

    What becomes of a run among everything else that happens on the page: what it
    sends is fixed by the click that started it, and it ends if its requests
    settle and its timers fire. *)

From S2P Require Import Prelude JsNumber JsString JsValue JsDate React UiKit Interact Types Client Effects.
From S2P Require Import LoadConfig LoadRun Store StatusViews Feeds DeliveriesTable DeliveryDetail SendTestForm.
From S2P Require Import LoadTestPanel LoadSteps Dashboard Offers Session.

Open Scope nat_scope.

#[local] Abbreviation Req := (option SendNotificationReq.t).

(** ** What becomes of a run *)

(** The requests of runs that were sent. *)
Definition load_sends (ws : list wired) : list (nat * Req) :=
  omap (fun w => match w with LoadSend _ i r => Some (i, r) | _ => None end) ws.

(** How the sends of runs settled. *)
Definition outcomes (es : list session_event) : list outcome :=
  omap (fun e => match e with LoadSettles _ _ r => Some (sendOne r) | _ => None end) es.

(** The counters after some outcomes. *)
Definition counted (count : num) (os : list outcome) : LoadRunResult :=
  fold_left (fun r o => count_outcome o r) os (initial_result count).

Definition is_start (e : session_event) : bool :=
  match e with User (A_panel (RunScenario _)) => true | _ => false end.

Section RunFacts.
Context `{Host} `{Styling}.

(** How a run that resumed as [a] leaves the session, [es] being what happened
    before it resumed. *)
Record resumed (f : flight) (a : activity Req) (es : list effect) (s s' : session) : Prop := {
  resumed_sends :
    load_sends (wire s') = load_sends (wire s) ++ drop (length (activity_sent (f_activity f))) (activity_sent a);
  resumed_end : activity_over a = true ->
    flights s' = [] /\ running (d_panel (page s')) = None /\
    exists r, with_elapsed (elapsedMs r) (activity_tally a) = r /\
      log s' = log s ++ es ++ (runScenario_end (f_scenario f) r (d_panel (page s))).2;
  resumed_flight : activity_over a = false ->
    flights s' = [Flight (f_scenario f) (f_config f) (f_key f) (f_launch f) a] /\ log s' = log s ++ es
}.

Lemma load_sends_new key sent sent' : load_sends (new_sends key sent sent') = drop (length sent) sent'.
Proof.
  unfold load_sends, new_sends. induction (drop (length sent) sent') as [|[i r] ps IH]; [done|].
  cbn [map omap list_omap]. by rewrite IH.
Qed.

Lemma resume_resumed f a es s s0 : flights s = [f] ->
  wire s = wire s0 -> log s = log s0 ++ es -> resumed f a es s0 (resume 0 f a s).
Proof.
  intros Hf Hw Hl. pose proof (load_sends_new (key_of s) (activity_sent (f_activity f)) (activity_sent a)) as Hn.
  unfold resume. destruct (activity_over a) eqn:Ho.
  - unfold activity_result, bind. destruct (performance_now (host _)) as [now t] eqn:En. unfold ret.
    split; cbn [runScenario_end flights wire log enact logged with_page with_flights with_host with_wire];
      rewrite ?Hw, ?Hl; [|intros _|by rewrite Ho].
    + unfold load_sends at 1. by rewrite omap_app, <- Hn.
    + rewrite Hf. split; [done|]. cbn [page enact logged with_page with_flights with_host with_wire].
      rewrite panel_commit. split; [done|]. rewrite <- app_assoc. eexists. split; [|reflexivity]. done.
  - split; cbn [flights wire log with_flights with_wire]; rewrite ?Hw, ?Hl; [|by rewrite Ho|by rewrite Hf].
    unfold load_sends at 1. by rewrite omap_app, <- Hn.
Qed.

Lemma load_settles_resumed n w r s s' : session_ok s -> load_settles n w r s = Some s' ->
  exists f a t es, n = 0 /\ flights s = [f] /\ flight_ok f /\
    activity_settle (f_launch f) (flight_build f) w (sendOne r) (f_activity f) (host s) = Some (a, t) /\
    resumed f a es s s'.
Proof.
  intros Hok. unfold load_settles. destruct (flights s !! n) as [f|] eqn:En; [|done].
  destruct (the_flight _ _ _ Hok En) as (-> & Hf & Ho). cbn [mbind option_bind].
  destruct (activity_settle _ _ _ _ _ _) as [[a t]|] eqn:Ea; [|done]. intros [= <-].
  do 4 eexists. split_and!; [done..|]. apply resume_resumed.
  - by rewrite (proj1 (report_facts _ _)).
  - unfold report. by destruct (activity_report a).
  - unfold report. by destruct (activity_report a).
Qed.

Lemma load_wakes_resumed n s s' : session_ok s -> load_wakes n s = Some s' ->
  exists f a t es, n = 0 /\ flights s = [f] /\ flight_ok f /\
    activity_wake (f_launch f) (flight_build f) (f_activity f) (host s) = Some (a, t) /\
    resumed f a es s s'.
Proof.
  intros Hok. unfold load_wakes. destruct (flights s !! n) as [f|] eqn:En; [|done].
  destruct (the_flight _ _ _ Hok En) as (-> & Hf & Ho). cbn [mbind option_bind].
  destruct (activity_wake _ _ _ _) as [[a t]|] eqn:Ea; [|done]. intros [= <-].
  do 3 eexists. exists []. split_and!; [done..|]. by apply resume_resumed; [|rewrite ?app_nil_r..].
Qed.

(** An event that is not about a run leaves the runs alone. *)
Definition about_runs (e : session_event) : bool :=
  match e with
  | LoadSettles _ _ _ | LoadWakes _ => true
  | _ => is_start e
  end.

Lemma other_event e s s' : about_runs e = false -> valid_config (config (d_panel (page s))) ->
  apply_event e s = Some s' -> flights s' = flights s /\ load_sends (wire s') = load_sends (wire s).
Proof.
  intros He V. destruct e; try done; cbn [apply_event].
  - intros [= <-]. unfold user_event.
    pose proof (dash_step_facts (queries_of s) a (page s) (host s) V) as Hd.
    destruct (dash_step _ a (page s) (host s)) as [[[p es] l] t]. destruct Hd as (_ & _ & _ & Hx).
    assert (forall ws, load_sends (wire s ++ map (FormSend (key_of s)) (submissions_of es) ++ map (ReplaySend (key_of s)) ws) =
      load_sends (wire s)) as Hw.
    { intros ws. unfold load_sends. rewrite !omap_app.
      induction (submissions_of es) as [|? ? IH]; [|by cbn]. cbn [map omap list_omap app].
      rewrite <- (app_nil_r (omap _ (wire s))) at 2. f_equal. by induction ws. }
    destruct a as [a|a|a|a|a|a]; try (split; [done|apply Hw]).
    destruct a; try done; (split; [done|apply Hw]).
  - unfold form_settles. destruct (submissions s !! n); [|done]. cbn [mbind option_bind].
    destruct (alive s); [|by intros [= <-]].
    destruct (form_settled r (d_form (page s)) (host s)) as [[f es] t1]. by intros [= <-].
  - unfold replay_settles. destruct (replays s !! n); [|done]. cbn [mbind option_bind].
    destruct (alive s); by intros [= <-].
  - unfold copy_settles. destruct (copies s); [done|]. destruct copied; by intros [= <-].
  - by intros [= <-].
  - by intros [= <-].
  - by intros [= <-].
  - by intros [= <-].
  - by intros [= <-].
Qed.

Lemma resumed_after_render f a es s s' : resumed f a es s s' -> resumed f a es s (after_render s').
Proof. by intros [? ? ?]. Qed.

(** The step of a run: which await ended, and what the run became. *)
Inductive run_step (s : session) (f : flight) (a : activity Req) : session_event -> Prop :=
| run_settles w r t :
    activity_settle (f_launch f) (flight_build f) w (sendOne r) (f_activity f) (host s) = Some (a, t) ->
    run_step s f a (LoadSettles 0 w r)
| run_wakes t :
    activity_wake (f_launch f) (flight_build f) (f_activity f) (host s) = Some (a, t) ->
    run_step s f a (LoadWakes 0).

Inductive step_kind (s : session) (e : session_event) (s' : session) : Prop :=
| step_other : about_runs e = false -> flights s' = flights s ->
    load_sends (wire s') = load_sends (wire s) -> step_kind s e s'
| step_start x : e = User (A_panel (RunScenario x)) -> flights s = [] -> step_kind s e s'
| step_run f a es : flights s = [f] -> flight_ok f -> run_step s f a e -> resumed f a es s s' ->
    step_kind s e s'.

Lemma session_step_kind s e s' : session_ok s -> session_step s e s' -> step_kind s e s'.
Proof.
  intros Hok Hs. pose proof (session_panel _ Hok) as [Hp V].
  destruct (about_runs e) eqn:He.
  - destruct Hs as [a t s1 Ha Ht Ho E|e s1 Hu E].
    + apply (page_offers _ _ _ _ Ht) in Ho. destruct a as [| | | | |[]]; try done.
      eapply step_start; [done|]. cbn in Ho.
      destruct (flights s) as [|f [|]]; [done| |done]. destruct Hp as [Hp _]. congruence.
    + destruct e as [a|n w r|n| | | | | | | |]; try done; [by destruct (Hu a)|..]; cbn [apply_event] in E.
      * apply load_settles_resumed in E as (f & a & t & es & -> & Hf & Hfo & Ha & Hr); [|done].
        eapply step_run; [done..| |by apply resumed_after_render]. by econstructor.
      * apply load_wakes_resumed in E as (f & a & t & es & -> & Hf & Hfo & Ha & Hr); [|done].
        eapply step_run; [done..| |by apply resumed_after_render]. by econstructor.
  - assert (exists s1, apply_event e s = Some s1 /\ s' = after_render s1) as (s1 & E & ->)
      by (destruct Hs; eauto).
    destruct (other_event e s s1 He V E) as [Hf Hw]. by apply step_other.
Qed.

Lemma run_step_ok s f a e : flight_ok f -> run_step s f a e ->
  activity_ok (f_launch f) (flight_build f) a /\
  work_left (f_launch f) a < work_left (f_launch f) (f_activity f) /\
  activity_tally a = fold_left (fun r o => count_outcome o r) (outcomes [e]) (activity_tally (f_activity f)) /\
  exists ex, activity_sent a = activity_sent (f_activity f) ++ ex.
Proof.
  intros F [w r t Ha|t Ha]; pose proof (flight_run _ F) as Hok.
  - pose proof (activity_settle_ok _ _ _ _ _ _ _ _ Hok Ha) as [? _].
    pose proof (settle_decreases _ _ _ _ _ _ _ _ Hok Ha).
    pose proof (activity_settle_extends _ _ _ _ _ _ _ _ Ha) as [? ?]. done.
  - pose proof (activity_wake_ok _ _ _ _ _ _ Hok Ha) as [? _].
    pose proof (wake_decreases _ _ _ _ _ _ Hok Ha).
    pose proof (activity_wake_extends _ _ _ _ _ _ Ha) as [? ?]. done.
Qed.

(** ** The run of one click *)

(** While the run is in flight, what it captured at the click is unchanged, and
    the wire and the counters say what it has done. *)
Record running_since (s0 : session) x c k (os : list outcome) (s : session) (a : activity Req) : Prop := {
  since_flight : flights s = [Flight x c k (launch_of x c) a];
  since_sends : load_sends (wire s) = load_sends (wire s0) ++ activity_sent a;
  since_tally : activity_tally a = counted (scenarioCount x c) os
}.

Lemma running_starts s x s0 : session_ok s -> session_step s (User (A_panel (RunScenario x))) s0 ->
  exists k a, running_since s x (config (d_panel (page s))) k [] s0 a.
Proof.
  intros Hok Hs. pose proof (session_panel _ Hok) as [Hp V].
  inversion Hs as [a t s1 Ha Ht Ho E|e s1 Hu E]; subst; [|by destruct (Hu (A_panel (RunScenario x)))].
  apply (page_offers _ _ _ _ Ht) in Ho. cbn in Ho.
  assert (flights s = []) as Hf.
  { destruct (flights s) as [|f [|]]; [done| |done]. destruct Hp as [Hp _]. congruence. }
  cbn [apply_event] in E. injection E as <-. unfold user_event.
  cbn [dash_step]. unfold bind. rewrite start_runs by done. destruct (shared_key x (host s)) as [k t1].
  unfold ret. cbn [submissions_of replays_of]. exists k. unfold take_off.
  set (h := host _). pose proof (activity_start_tally (launch_of x (config (d_panel (page s))))
    (run_build x (config (d_panel (page s))) k) h) as Htl.
  pose proof (start_not_over (launch_of x (config (d_panel (page s))))
    (run_build x (config (d_panel (page s))) k) h) as Hn.
  rewrite launch_of_count in Hn, Htl. specialize (Hn (valid_requests _ _ V)).
  destruct (activity_start _ _ h) as [a t2]. cbn [fst] in *. rewrite Hn. exists a.
  split; cbn [flights wire after_render with_flights with_wire with_host with_pending logged with_page].
  - by rewrite Hf.
  - unfold load_sends. rewrite !omap_app, app_nil_r. f_equal. by rewrite (load_sends_new _ [] (activity_sent a)).
  - done.
Qed.

(** The end of a run: all that it sent, counted, and its summary in a toast. *)
Record run_ended (s0 : session) x c k (os : list outcome) (s : session) : Prop := {
  ended_idle : flights s = [] /\ running (d_panel (page s)) = None;
  ended_sends : exists sends, load_sends (wire s) = load_sends (wire s0) ++ sends /\ run_requests x c k sends;
  ended_toast : exists elapsed, let r := with_elapsed elapsed (counted (scenarioCount x c) os) in
    settled_count r = requests (scenarioCount x c) /\ total r = scenarioCount x c /\
    last (log s) = Some (Toast (if 0 <? fail r then ToastMessage else ToastSuccess)
      (default "undefined" (scenario_label <$> scenario_of x) +:+ " complete") (Some (formatRunSummary r)))
}.

Lemma running_steps s0 x c k os s a e s' : session_ok s -> running_since s0 x c k os s a ->
  session_step s e s' ->
  is_start e = false /\
  ((exists a', running_since s0 x c k (os ++ outcomes [e]) s' a' /\
      work_left (launch_of x c) a' <= work_left (launch_of x c) a) \/
   run_ended s0 x c k (os ++ outcomes [e]) s').
Proof.
  intros Hok [Hf Hw Ht] Hs.
  destruct (session_step_kind _ _ _ Hok Hs) as [Hns Hf' Hw'|y -> Hf'|f a' es Hf' F Hr [Rs Re Rf]].
  - split; [by destruct e|]. left. exists a. split; [|lia]. split; [congruence|congruence|].
    replace (outcomes [e]) with ([] : list outcome) by (by destruct e). by rewrite app_nil_r.
  - congruence.
  - assert (f = Flight x c k (launch_of x c) a) as -> by congruence.
    destruct (run_step_ok _ _ _ _ F Hr) as (Ha & Hwk & Htl & [ex Hse]).
    cbn [f_launch f_activity f_scenario f_config f_key] in *.
    assert (activity_tally a' = counted (scenarioCount x c) (os ++ outcomes [e])) as Htl'.
    { unfold counted. rewrite fold_left_app. fold (counted (scenarioCount x c) os). by rewrite <- Ht. }
    assert (load_sends (wire s') = load_sends (wire s0) ++ activity_sent a') as Hs'.
    { by rewrite Rs, Hw, <- app_assoc, Hse, drop_app_length. }
    split; [by destruct Hr|]. destruct (activity_over a') eqn:Hov.
    + right. destruct (Re eq_refl) as (H1 & H2 & r & Hel & Hlog).
      pose proof (over_complete _ _ _ Ha Hov) as (C1 & C2 & C3 & C4). rewrite launch_of_count in C1, C2, C3.
      split; [done| |].
      * exists (activity_sent a'). split; [done|]. eapply built_requests; [apply F|exact C1|done|exact C4].
      * exists (elapsedMs r). rewrite <- Htl', Hel. cbv zeta. split_and!.
        -- rewrite <- C2, <- Hel. done.
        -- rewrite <- C3, <- Hel. done.
        -- rewrite Hlog, app_assoc. apply last_snoc.
    + left. exists a'. split; [|lia]. split; [|done|done]. by destruct (Rf eq_refl) as [-> _].
Qed.

Lemma path_ok s es s' : session_ok s -> session_path s es s' -> session_ok s'.
Proof. induction 2; [done|]. eapply session_step_ok; eauto. Qed.

Lemma path_running s0 x c k os s a es s' : session_ok s -> running_since s0 x c k os s a ->
  session_path s es s' -> forallb (fun e => negb (is_start e)) es = true ->
  (exists a', running_since s0 x c k (os ++ outcomes es) s' a') \/ flights s' = [].
Proof.
  intros Hok Hrun Hp. induction Hp as [|es s1 e s2 Hp IH Hs]; intros Hn.
  - left. exists a. by rewrite app_nil_r.
  - rewrite forallb_app in Hn. apply andb_true_iff in Hn as [Hn He]. cbn in He.
    pose proof (path_ok _ _ _ Hok Hp) as Hok1.
    destruct (IH Hn) as [[a' Hr]|Hf].
    + unfold outcomes. rewrite omap_app, app_assoc.
      destruct (running_steps _ _ _ _ _ _ _ _ _ Hok1 Hr Hs) as [_ [(a2 & Hr2 & _)|Hend]];
        [by left; exists a2|right; apply Hend].
    + right. destruct (session_step_kind _ _ _ Hok1 Hs) as [_ Hf' _|y -> _|f a' es' Hf' _ _ _];
        [congruence|done|congruence].
Qed.
End RunFacts.

(** * Properties *)

Section Properties.
Context `{Host} `{Styling}.

(** C3. One click on a scenario is one run of it.  Whatever the user edits and
    whatever else settles before the run ends, the requests of runs that go out
    in between are exactly those of the scenario under the configuration at the
    click: one for each index, in order, with the shared key of a duplicate
    scenario.  When the last one settles the panel is idle, and the toast's
    summary counts how each of them settled. *)
Theorem session_run_complete s x s0 es s1 e s2 :
  session_reachable s -> session_step s (User (A_panel (RunScenario x))) s0 ->
  session_path s0 es s1 -> forallb (fun e => negb (is_start e)) es = true -> flights s1 <> [] ->
  session_step s1 e s2 -> flights s2 = [] ->
  exists k, run_ended s x (config (d_panel (page s))) k (outcomes (es ++ [e])) s2.
Proof.
  intros Hr Hc Hp Hn Hf1 Hs Hf2. pose proof (reachable_session_ok _ Hr) as Hok.
  destruct (running_starts _ _ _ Hok Hc) as (k & a & Hrun). exists k.
  pose proof (session_step_ok _ _ _ Hok Hc) as Hok0. pose proof (path_ok _ _ _ Hok0 Hp) as Hok1.
  destruct (path_running _ _ _ _ _ _ _ _ _ Hok0 Hrun Hp Hn) as [[a' Hr']|]; [|done].
  destruct (running_steps _ _ _ _ _ _ _ _ _ Hok1 Hr' Hs) as [_ [(a2 & Hr2 & _)|Hend]].
  - destruct Hr2. congruence.
  - unfold outcomes. by rewrite omap_app.
Qed.
End Properties.

(** ** Every run ends *)

Section Liveness.
Context `{Host} `{Styling}.
Variables (state : nat -> session) (event_at : nat -> option session_event).

(** An infinite history of the page, with pauses. *)
Definition history : Prop :=
  session_reachable (state 0) /\
  forall i, match event_at i with
            | Some e => session_step (state i) e (state (S i))
            | None => state (S i) = state i
            end.

(** A request in flight settles at some time, one way or the other. *)
Definition sends_settle : Prop :=
  forall i n f w, flights (state i) !! n = Some f -> awaiting (f_activity f) w = true ->
    exists j r, i <= j /\ event_at j = Some (LoadSettles n w r).

(** A timer fires at some time. *)
Definition timers_fire : Prop :=
  forall i n f, flights (state i) !! n = Some f -> sleeping (f_activity f) = true ->
    exists j, i <= j /\ event_at j = Some (LoadWakes n).

Context (Hhist : history) (Hsettle : sends_settle) (Htimer : timers_fire).

Lemma history_ok i : session_ok (state i).
Proof.
  destruct Hhist as [H0' Hs]. induction i as [|i IH]; [by apply reachable_session_ok|].
  specialize (Hs i). destruct (event_at i) as [e|]; [by eapply session_step_ok|by rewrite Hs].
Qed.

(** The run in flight takes a step at [k]. *)
Definition moves (f : flight) (k : nat) : Prop :=
  flights (state k) = [f] /\
  exists e a es, run_step (state k) f a e /\ resumed f a es (state k) (state (S k)).

Lemma stays_until f i d : flights (state i) = [f] ->
  flights (state (i + d)) = [f] \/ exists k, i <= k < i + d /\ moves f k.
Proof.
  intros Hf. induction d as [|d IH]; [left; by rewrite Nat.add_0_r|].
  destruct IH as [Hd|(k & Hk & Hm)]; [|right; exists k; split; [lia|done]].
  rewrite Nat.add_succ_r. pose proof (proj2 Hhist (i + d)) as Hs.
  destruct (event_at (i + d)) as [e|]; [|left; congruence].
  destruct (session_step_kind _ _ _ (history_ok _) Hs) as [_ Hf' _|y _ Hf'|g a es Hf' _ Hr Hre].
  - left. congruence.
  - congruence.
  - right. exists (i + d). split; [lia|]. split; [done|].
    assert (g = f) as -> by congruence. by exists e, a, es.
Qed.

Lemma event_moves f j e : flights (state j) = [f] -> event_at j = Some e -> about_runs e = true ->
  moves f j.
Proof.
  intros Hf He Ha. pose proof (proj2 Hhist j) as Hs. rewrite He in Hs.
  destruct (session_step_kind _ _ _ (history_ok _) Hs) as [Hn _ _|y _ Hf'|g a es Hf' _ Hr Hre];
    [congruence|congruence|].
  split; [done|]. assert (g = f) as -> by congruence. by exists e, a, es.
Qed.

Lemma flight_moves f i : flights (state i) = [f] -> exists k, i <= k /\ moves f k.
Proof.
  intros Hf. assert (flight_ok f) as F.
  { pose proof (session_panel _ (history_ok i)) as [Hp _]. rewrite Hf in Hp. apply Hp. }
  assert (flights (state i) !! 0 = Some f) as H0' by by rewrite Hf.
  assert (exists j e, i <= j /\ event_at j = Some e /\ about_runs e = true) as (j & e & Hj & He & Ha).
  { destruct (not_over_awaits _ (flight_going _ F)) as [[w Hw]|Hsl].
    - destruct (Hsettle _ _ _ _ H0' Hw) as (j & r & Hj & He). by exists j, (LoadSettles 0 w r).
    - destruct (Htimer _ _ _ H0' Hsl) as (j & Hj & He). by exists j, (LoadWakes 0). }
  destruct (stays_until f i (j - i) Hf) as [Hfj|(k & Hk & Hm)].
  - replace (i + (j - i)) with j in Hfj by lia. exists j. split; [done|]. by eapply event_moves.
  - exists k. split; [lia|done].
Qed.

(** The end of the run [f]: the panel is idle, and a toast sums up all its requests. *)
Definition ends_at (f : flight) (j : nat) : Prop :=
  flights (state j) = [] /\ running (d_panel (page (state j))) = None /\
  exists r, settled_count r = requests (scenarioCount (f_scenario f) (f_config f)) /\
    last (log (state j)) = last (runScenario_end (f_scenario f) r (d_panel (page (state j)))).2.

Lemma flight_ends n : forall f i, flights (state i) = [f] ->
  work_left (f_launch f) (f_activity f) <= n -> exists j, i < j /\ ends_at f j.
Proof.
  induction n as [n IH] using lt_wf_ind. intros f i Hf Hn.
  destruct (flight_moves f i Hf) as (k & Hk & Hfk & e & a & es & Hr & [_ Re Rf]).
  pose proof (session_panel _ (history_ok k)) as [Hp _]. rewrite Hfk in Hp. destruct Hp as [_ F].
  destruct (run_step_ok _ _ _ _ F Hr) as (Ha & Hw & _ & _).
  destruct (activity_over a) eqn:Ho.
  - exists (S k). split; [lia|]. destruct (Re eq_refl) as (H1 & H2 & r & Hel & Hlog). split_and!; [done..|].
    exists r. split; [|by rewrite Hlog, app_assoc; apply last_snoc].
    pose proof (over_complete _ _ _ Ha Ho) as (_ & C2 & _ & _).
    rewrite (flight_launch _ F), launch_of_count in C2. rewrite <- C2, <- Hel. done.
  - destruct (Rf eq_refl) as [Hf' _].
    destruct (IH (work_left (f_launch f) a) ltac:(lia) _ _ Hf' ltac:(done)) as (j & Hj & He).
    exists j. split; [lia|exact He].
Qed.
End Liveness.

Section Ends.
Context `{Host} `{Styling}.

(** C2. Every load run ends.  If each request in flight settles at some time, with a
    response or a failure, and each timer fires, then a run in flight, whatever
    else happens on the page, comes to an end: the panel is idle again, and the
    last toast is the summary of as many settled requests as the scenario has. *)
Theorem every_run_ends state event_at i x :
  history state event_at -> sends_settle state event_at -> timers_fire state event_at ->
  running (d_panel (page (state i))) = Some x ->
  exists f j, flights (state i) = [f] /\ f_scenario f = x /\ i < j /\ ends_at state f j.
Proof.
  intros Hh Hs Ht Hr. pose proof (session_panel _ (history_ok _ _ Hh i)) as [Hp _].
  destruct (flights (state i)) as [|f [|]] eqn:Hf; [congruence| |done].
  destruct Hp as [Hp _]. destruct (flight_ends _ _ Hh Hs Ht _ f i Hf ltac:(done)) as (j & Hj & He).
  exists f, j. split_and!; [done|congruence|done|done].
Qed.
End Ends.

(** * The properties at a concrete session *)

Section Play.
Context `{Host} `{Styling}.

Lemma play_path s es : playable s es = true -> session_path s es (play s es).
Proof.
  intros Hp. assert (forall es0 es1 s1, session_path s es0 s1 -> playable s1 es1 = true ->
    session_path s (es0 ++ es1) (play s1 es1)) as Hg; [|exact (Hg [] es s (path_here s) Hp)].
  intros es0 es1. revert es0. induction es1 as [|e es1 IH]; intros es0 s1 H0' Hp1; cbn [playable play fold_left].
  - by rewrite app_nil_r.
  - cbn [playable] in Hp1. apply andb_true_iff in Hp1 as [He Hp1].
    change (session_path s (es0 ++ [e] ++ es1) (play (play_event s1 e) es1)). rewrite app_assoc.
    apply IH; [|done]. eapply path_then; [done|by apply play_event_step].
Qed.

Lemma playable_at s es i e : playable s es = true -> es !! i = Some e ->
  session_step (play s (take i es)) e (play s (take (S i) es)).
Proof.
  revert s i. induction es as [|e' es IH]; intros s i Hp Hi; [done|].
  cbn [playable] in Hp. apply andb_true_iff in Hp as [He Hp]. destruct i as [|i].
  - injection Hi as ->. rewrite firstn_O. cbn [take play fold_left]. destruct es; by apply play_event_step.
  - exact (IH _ i Hp Hi).
Qed.

(** The first event, the events between, and the last. *)
Lemma play_ends s e es e' : playable s (e :: es ++ [e']) = true ->
  session_step s e (play s [e]) /\ session_path (play s [e]) es (play s (e :: es)) /\
  session_step (play s (e :: es)) e' (play s (e :: es ++ [e'])).
Proof.
  intros Hp. split_and!.
  - exact (playable_at s _ 0 e Hp eq_refl).
  - cbn [playable] in Hp. apply andb_true_iff in Hp as [_ Hp]. apply (play_path (play_event s e)).
    clear -Hp. revert Hp. generalize (play_event s e). induction es as [|e1 es IH]; intros s1; [done|].
    cbn [app playable]. intros [H1 H2]%andb_true_iff. rewrite H1. by apply IH.
  - pose proof (playable_at s (e :: es ++ [e']) (S (length es)) e' Hp) as Hl.
    rewrite !firstn_cons, take_app_length, (take_ge (es ++ [e'])) in Hl by (rewrite length_app; cbn; lia).
    apply Hl. change ((es ++ [e']) !! length es = Some e'). by rewrite lookup_app_r, Nat.sub_diag by lia.
Qed.

(** A finished history: the events of a list, and then nothing. *)
Lemma play_history s es : session_reachable s -> playable s es = true ->
  history (fun i => play s (take i es)) (fun i => es !! i).
Proof.
  intros Hs Hp. split; [done|]. intros i. destruct (es !! i) as [e|] eqn:Hi.
  - by apply playable_at.
  - apply lookup_ge_None in Hi. by rewrite !take_ge by lia.
Qed.

(** Every event settles what the run is awaiting, until there is no run. *)
Fixpoint prompt (s : session) (es : list session_event) : bool :=
  match flights s with
  | [] => true
  | [f] =>
      match f_activity f, es with
      | SeqActive _ st, LoadSettles 0 0 _ :: _ => match phase st with SeqSending _ => true | _ => false end
      | _, _ => false
      end
  | _ => false
  end &&
  match es with [] => true | e :: es' => prompt (play_event s e) es' end.

Lemma prompt_at s es i n f w : prompt s es = true -> flights (play s (take i es)) !! n = Some f ->
  sleeping (f_activity f) = false /\
  (awaiting (f_activity f) w = true -> exists r, es !! i = Some (LoadSettles n w r)).
Proof.
  revert s i. induction es as [|e es IH]; intros s i Hp Hf.
  - rewrite take_nil in Hf. cbn [prompt play fold_left] in Hp, Hf.
    destruct (flights s) as [|g [|]]; [done| |done]. by destruct (f_activity g).
  - cbn [prompt] in Hp. apply andb_true_iff in Hp as [He Hp]. destruct i as [|i]; [|by apply (IH (play_event s e))].
    cbn [take play fold_left] in Hf. destruct (flights s) as [|g [|]]; [done| |done].
    destruct n; [|done]. injection Hf as ->. destruct (f_activity f) as [|started st]; [done|].
    destruct e as [|[|n] [|w'] r| | | | | | | | |]; try done. cbn [sleeping awaiting].
    destruct (phase st); try done. split; [done|]. intros [->%Nat.eqb_eq _]%andb_true_iff. by exists r.
Qed.

Lemma prompt_settles s es : prompt s es = true ->
  let state i := play s (take i es) in
  sends_settle state (fun i => es !! i) /\ timers_fire state (fun i => es !! i).
Proof.
  intros Hp state. split.
  - intros i n f w Hf Hw. destruct (proj2 (prompt_at _ _ _ _ _ w Hp Hf) Hw) as [r Hr]. by exists i, r.
  - intros i n f Hf Hsl. pose proof (proj1 (prompt_at _ _ _ _ _ 0 Hp Hf)). congruence.
Qed.
End Play.

Section Witnesses.
#[local] Existing Instance sample_host.
#[local] Existing Instance sample_styling.

(* The 25 requests of the click all fail. *)
Definition demo_failure : session_event := LoadSettles 0 0 (Throw (TypeError "Failed to fetch")).

Definition demo_failures : list session_event := repeat demo_failure 24.

Lemma session_run_complete_witness : exists k,
  run_ended demo_session DuplicateSeq (config (d_panel (page demo_session))) k
    (outcomes (demo_failures ++ [demo_failure]))
    (play demo_session (demo_click :: demo_failures ++ [demo_failure])) /\
  outcomes (demo_failures ++ [demo_failure]) = repeat Out_fail 25.
Proof.
  destruct (play_ends demo_session demo_click demo_failures demo_failure) as (H1 & H2 & H3);
    [vm_compute; reflexivity|].
  assert (flights (play demo_session (demo_click :: demo_failures)) <> []) as H4 by (vm_compute; discriminate).
  assert (flights (play demo_session (demo_click :: demo_failures ++ [demo_failure])) = []) as H5
    by (vm_compute; reflexivity).
  destruct (session_run_complete demo_session DuplicateSeq _ demo_failures _ demo_failure _
    (session_starts _ _ _ _ _) H1 H2 eq_refl H4 H3 H5) as [k Hk].
  exists k. split; [exact Hk|vm_compute; reflexivity].
Defined.

Lemma every_run_ends_witness : exists f j,
  flights (play demo_session [demo_click]) = [f] /\ 1 < j /\
  flights (play demo_session (take j (demo_click :: demo_failures ++ [demo_failure]))) = [].
Proof.
  assert (playable demo_session (demo_click :: demo_failures ++ [demo_failure]) = true) as H1
    by (vm_compute; reflexivity).
  assert (prompt demo_session (demo_click :: demo_failures ++ [demo_failure]) = true) as H2
    by (vm_compute; reflexivity).
  assert (running (d_panel (page (play demo_session [demo_click]))) = Some DuplicateSeq) as H3
    by (vm_compute; reflexivity).
  pose proof (play_history _ _ (session_starts _ _ _ _ _) H1) as Hh.
  destruct (prompt_settles _ _ H2) as [Hs Ht].
  destruct (every_run_ends _ _ 1 DuplicateSeq Hh Hs Ht H3) as (f & j & Hf & _ & Hj & He & _).
  exists f, j. exact (conj Hf (conj Hj He)).
Defined.
End Witnesses.
