(* ===== verification/Wire.v ===== *)
(** * What a session sends (web/src/hooks/useDashboard.ts over web/src/api/client.ts)

    The wire of a session lists the mutations it called.  Here each of them is run:
    [transmit] is the function of its mutation, a task over the network.  The
    builders of the requests, the runs, the page and the client meet in one
    theorem: whatever the session, what it calls is a complete request, and goes
    out as one call that says exactly that. *)

From S2P Require Import Prelude JsNumber JsString JsValue JsDate React UiKit Interact Types Client Effects.
From S2P Require Import LoadConfig LoadRun Store StatusViews Feeds DeliveriesTable DeliveryDetail SendTestForm.
From S2P Require Import LoadTestPanel LoadSteps Dashboard Offers Session.

Open Scope nat_scope.

#[local] Abbreviation Req := (option SendNotificationReq.t).

(** ** Running a mutation *)

Definition wired_key (en : wired) : string :=
  match en with FormSend k _ | LoadSend k _ _ | ReplaySend k _ => k end.

(** The notification a mutation submits, when it submits one. *)
Definition wired_request (en : wired) : Req :=
  match en with FormSend _ r => Some r | LoadSend _ _ r => r | ReplaySend _ _ => None end.

Section Transmit.
Context {W : Type} `{Network W}.

(** The [mutationFn] of an entry; a request with an undefined part is none of the
    client's. *)
Definition transmit (en : wired) : option (task W value) :=
  match en with
  | FormSend k r => Some (sendNotification r k)
  | LoadSend k _ r => (fun r => sendNotification r k) <$> r
  | ReplaySend k id => Some (replayDelivery id k)
  end.

(** The call [c] says what the entry means, with its key. *)
Record says (en : wired) (c : call) : Prop := {
  says_method : method c = Some "POST";
  says_headers : headers c = [("Content-Type", "application/json"); ("X-API-Key", wired_key en)];
  says_url : url c = API_BASE +:+ match en with
    | ReplaySend _ id => "/v1/notifications/" +:+ id +:+ "/replay"
    | _ => "/v1/notifications"
    end;
  says_body : match body c with
    | Some text => (v ← JSON_parse text; SendNotificationReq.of_value v) = wired_request en
    | None => wired_request en = None
    end
}.

(** The task [m] makes the one call [c], and fails as the call does. *)
Definition makes_one_call (m : task W value) (c : call) (w : W) : Prop :=
  (m w).2 = (fetch c w).2 /\
  forall e, answer (fetch c w).1 = Throw e -> (m w).1 = Throw e.
End Transmit.

(** ** What is on the wire *)

(** A request of the console: of the form as it stood, or of a scenario under a
    configuration the panel can have. *)
Definition complete (en : wired) : Prop :=
  match en with
  | FormSend _ r => exists f, r = form_request f
  | LoadSend _ _ r => exists x c r', r = Some r' /\ valid_config c /\
      built (effective_config x c) (scenario_addresses x c) r'
  | ReplaySend _ _ => True
  end.

Section Sent.
Context `{Host} `{Styling}.

(** What a run in flight has sent was built for it. *)
Lemma activity_built l build (a : activity Req) : activity_ok l build a -> sent_built build (activity_sent a).
Proof.
  destruct l as [count stagger|count conc], a as [started st|started st]; try done.
  - unfold activity_ok, seq_ok. cbn [activity_sent]. destruct (phase st); tauto.
  - by intros (_ & _ & Hb).
Qed.

Lemma new_sends_complete x c k key sent sent' : valid_config c ->
  (is_duplicate x = true -> exists k', k = Some k') ->
  sent_built (run_build x c k) sent' -> Forall complete (new_sends key sent sent').
Proof.
  intros V Hk Hb. apply Forall_map, Forall_drop. eapply Forall_impl; [exact Hb|].
  intros [i r] [t Ht]. destruct (run_build_built x c k i t Hk) as (r' & Hr & Hbt & _).
  exists x, c, r'. cbn in *. by rewrite <- Ht.
Qed.

(** An event adds complete requests to the wire. *)
Definition adds (s s' : session) : Prop := exists ws, wire s' = wire s ++ ws /\ Forall complete ws.

Lemma adds_none s s' : wire s' = wire s -> adds s s'.
Proof. intros E. exists []. by rewrite app_nil_r. Qed.

Lemma adds_trans s s1 s2 : adds s s1 -> adds s1 s2 -> adds s s2.
Proof.
  intros (ws & E & Hw) (ws' & E' & Hw'). exists (ws ++ ws').
  rewrite E', E, app_assoc. split; [done|]. by apply Forall_app.
Qed.

Lemma adds_resume f a s : flight_ok f -> activity_ok (f_launch f) (flight_build f) a ->
  adds s (resume 0 f a s).
Proof.
  intros F Ha. eexists. split; [|eapply (new_sends_complete (f_scenario f) (f_config f) (f_key f))].
  - unfold resume. destruct (activity_over a); [|reflexivity].
    by destruct (activity_result a _) as [r t].
  - apply F.
  - apply F.
  - by eapply activity_built.
Qed.

Lemma adds_take_off x c k s : valid_config c ->
  (is_duplicate x = true -> exists k', k = Some k') -> adds s (take_off x c k (launch_of x c) s).
Proof.
  intros V Hk. pose proof (activity_start_ok (launch_of x c) (run_build x c k) (host s)) as Ha.
  unfold take_off. destruct (activity_start _ _ (host s)) as [a t]. cbn [fst] in Ha.
  eexists. split; [|eapply (new_sends_complete x c k); [done..|by eapply activity_built]].
  destruct (activity_over a); [|reflexivity]. by destruct (activity_result a t) as [r t'].
Qed.

(** The submissions of a handler are those of the form. *)
Lemma dash_step_submits q a s t :
  Forall (fun r => exists f, r = form_request f) (submissions_of (dash_step q a s t).1.1.2).
Proof.
  destruct a as [a|a|a|a|a|a]; cbn [dash_step]; unfold ret, bind; try (by constructor).
  - destruct a; by constructor.
  - destruct a; try by constructor. cbn. unfold submitLookup. by repeat case_match; constructor.
  - destruct a; cbn [form_step]; unfold ret, bind; try (by repeat econstructor).
  - destruct a; try by constructor. unfold runScenario_start, ret, bind.
    destruct (ltb _ _); [by constructor|]. by destruct (shared_key id t).
Qed.

Lemma adds_user a s : valid_config (config (d_panel (page s))) -> adds s (user_event a s).
Proof.
  intros V. unfold user_event.
  pose proof (dash_step_facts (queries_of s) a (page s) (host s) V) as Hd.
  pose proof (dash_step_submits (queries_of s) a (page s) (host s)) as Hf.
  destruct (dash_step _ a (page s) (host s)) as [[[p es] l] t]. cbn [fst snd] in Hf.
  destruct Hd as (_ & _ & _ & Hx). cbv zeta. set (s2 := with_wire _ _). assert (adds s s2) as Hs2.
  { eexists. split; [reflexivity|]. apply Forall_app. split; apply Forall_map; [exact Hf|].
    by apply Forall_true. }
  destruct a as [| | | | |[]]; try exact Hs2.
  destruct Hx as (_ & k & -> & Hk). eapply adds_trans; [exact Hs2|]. by apply adds_take_off.
Qed.

Lemma adds_event e s s' : session_ok s -> apply_event e s = Some s' -> adds s s'.
Proof.
  intros Hok. destruct e; cbn [apply_event]; try (by intros [= <-]; apply adds_none).
  - intros [= <-]. apply adds_user, (session_panel _ Hok).
  - unfold load_settles. destruct (flights s !! n) as [f|] eqn:En; [|done].
    destruct (the_flight _ _ _ Hok En) as (-> & _ & F). cbn [mbind option_bind].
    destruct (activity_settle _ _ _ _ _ _) as [[a t]|] eqn:Ea; [|done]. intros [= <-].
    apply activity_settle_ok in Ea as [Ha _]; [|apply F].
    eapply adds_trans; [|by apply adds_resume]. apply adds_none. unfold report.
    by destruct (activity_report a).
  - unfold load_wakes. destruct (flights s !! n) as [f|] eqn:En; [|done].
    destruct (the_flight _ _ _ Hok En) as (-> & _ & F). cbn [mbind option_bind].
    destruct (activity_wake _ _ _ _) as [[a t]|] eqn:Ea; [|done]. intros [= <-].
    apply activity_wake_ok in Ea as [Ha _]; [|apply F].
    eapply adds_trans; [|by apply adds_resume]. by apply adds_none.
  - unfold form_settles. destruct (submissions s !! n); [|done]. cbn [mbind option_bind].
    destruct (alive s); [|intros [= <-]; by apply adds_none].
    destruct (form_settled r (d_form (page s)) (host s)) as [[f es] t1]. intros [= <-]. by apply adds_none.
  - unfold replay_settles. destruct (replays s !! n); [|done]. cbn [mbind option_bind].
    destruct (alive s); intros [= <-]; by apply adds_none.
  - unfold copy_settles. destruct (copies s); [done|].
    destruct copied; intros [= <-]; by apply adds_none.
Qed.

Lemma wire_complete s : session_reachable s -> Forall complete (wire s).
Proof.
  induction 1 as [ap sq hq dq t|s e s' Hr IH Hs].
  - unfold session_start. destruct (Date_now t) as [n1 t1]. destruct (form_initial t1) as [f t2].
    destruct (Date_now t2) as [n2 t3]. by destruct (Date_now t3) as [n3 t4].
  - assert (exists s1, apply_event e s = Some s1 /\ s' = after_render s1) as (s1 & E & ->)
      by (destruct Hs; eauto).
    destruct (adds_event _ _ _ (reachable_session_ok _ Hr) E) as (ws & Hwire & Hw).
    change (Forall complete (wire s1)). rewrite Hwire. by apply Forall_app.
Qed.
End Sent.

(** ** One call each *)

Section Calls.
Context {W : Type} `{Network W}.

(** A call of the client with a key. *)
Definition post (path : string) (text : option string) (key : string) : call :=
  Call (API_BASE +:+ path) (Some "POST") text [("Content-Type", "application/json"); ("X-API-Key", key)].

Lemma throws_on {A B} (r : result A) (k : A -> result B) e : r = Throw e -> (x <-r r;; k x) = Throw e.
Proof. by intros ->. Qed.

(** A notification of the console has no template data, so its body is plain. *)
Lemma complete_plain en r : complete en -> wired_request en = Some r ->
  plain (VObj (SendNotificationReq.template_data r)).
Proof.
  assert (plain (VObj [])) as Hp by (apply plain_obj; by split).
  destruct en as [k r'|k i r'|k id]; cbn.
  - by intros [f ->] [= <-].
  - intros (x & c & r2 & -> & _ & Hb) [= <-]. by rewrite (built_data _ _ _ Hb).
  - done.
Qed.

Lemma submission_says en r : wired_request en = Some r ->
  plain (VObj (SendNotificationReq.template_data r)) ->
  says en (post "/v1/notifications" (Some (text_of "" "" (SendNotificationReq.to_value r))) (wired_key en)).
Proof.
  intros Hr Hp. split; cbn [post method headers url body]; [done|done|by destruct en|].
  rewrite Hr. exact (request_text_reads r Hp).
Qed.

Lemma submission_calls r k w : plain (VObj (SendNotificationReq.template_data r)) -> k <> "" ->
  makes_one_call (sendNotification r k)
    (post "/v1/notifications" (Some (text_of "" "" (SendNotificationReq.to_value r))) k) w.
Proof.
  intros Hp Hk. unfold makes_one_call. rewrite sendNotification_posts by done. fold (post "/v1/notifications").
  destruct (fetch _ w) as [res w']. split; [done|]. intros e He. by apply throws_on.
Qed.

Lemma replay_calls id k w : k <> "" ->
  exists c, says (ReplaySend k id) c /\ makes_one_call (replayDelivery id k) c w.
Proof.
  intros Hk. exists (post ("/v1/notifications/" +:+ id +:+ "/replay") None k).
  split; [done|]. unfold makes_one_call, post. rewrite replayDelivery_posts by done.
  destruct (fetch _ w) as [res w']. split; [done|]. intros e He. by apply throws_on.
Qed.
End Calls.

Section Properties.
Context `{Host} `{Styling} {W : Type} `{Network W}.

(** C5. What the page sends is what it promises, down to the network.  Whatever the
    session, each mutation it has called submits a complete request, of the form
    as it stood or of a scenario under a valid configuration, or replays a
    delivery.  Without a key it fails and nothing goes out; with one exactly one
    POST goes out, to the path of its kind, with the key, and with a body that
    reads back as the request, and it fails as that call fails. *)
Theorem session_sends s en (w : W) : session_reachable s -> en ∈ wire s ->
  complete en /\ exists m, transmit (W := W) en = Some m /\
  (wired_key en = "" -> m w = (Throw (Error "Missing X-API-Key"), w)) /\
  (wired_key en <> "" -> exists c, says en c /\ makes_one_call m c w).
Proof.
  intros Hs Hin. pose proof (proj1 (Forall_forall _ _) (wire_complete _ Hs) _ Hin) as Hc.
  split; [done|]. pose proof (complete_plain en) as Hp.
  destruct en as [k r|k i r|k id]; cbn [transmit wired_key wired_request] in *.
  - eexists. split; [done|]. split; [by intros ->|]. intros Hk.
    eexists. split; [by apply submission_says; auto|]. by apply submission_calls; auto.
  - pose proof Hc as (x & c & r' & -> & _). eexists. split; [done|]. split; [by intros ->|].
    intros Hk. eexists. split; [by apply submission_says; auto|]. by apply submission_calls; auto.
  - eexists. split; [done|]. split; [by intros ->|]. intros Hk. by apply replay_calls.
Qed.
End Properties.

Section Witnesses.
#[local] Existing Instance sample_host.
#[local] Existing Instance sample_styling.

Lemma session_sends_witness :
  let net := answering accepted in
  exists en c m, wire (play_event demo_session demo_click) = [en] /\ transmit en = Some m /\
    says en c /\ (m []).2 = [c].
Proof.
  intros net. assert (exists en, wire (play_event demo_session demo_click) = [en] /\
    wired_key en = "dev-api-key") as (en & Hw & Hk) by (vm_compute; eauto).
  destruct (session_sends _ en [] demo_clicked) as (_ & m & Hm & _ & Hc).
  { rewrite Hw. by apply list_elem_of_singleton. }
  destruct Hc as (c & Hs & Ho & _); [by rewrite Hk|]. by exists en, c, m.
Defined.
End Witnesses.
