(* ===== verification/FormField.v ===== *)
(** * Form fields (web/src/components/ui/form.tsx)

    The parts of a field read three contexts: the form's, from react-hook-form,
    the field's and the item's.  A part is a function of the contexts it is
    rendered in; [None] is a context no provider sets.  What react-hook-form says
    about a field, and React's ids, are arguments. *)

From S2P Require Import Prelude JsNumber JsString JsValue React UiKit.

(** ** The contexts *)

(** A FieldError, as far as the parts read it. *)
Record FieldError : Type := MakeFieldError { error_message : option string }.

(** The result of getFieldState. *)
Record FieldState : Type := MakeFieldState {
  invalid : bool;
  isDirty : bool;
  isTouched : bool;
  isValidating : bool;
  field_error : option FieldError
}.

(** What useFormContext returns: getFieldState over the current formState. *)
Record FormContext : Type := MakeFormContext { getFieldState : string -> FieldState }.

Record scope : Type := Scope {
  form_context : option FormContext;
  fieldContext : option string;   (* the name of FormFieldContext *)
  itemContext : option string     (* the id of FormItemContext *)
}.

(** ** useFormField *)

Record form_field_info : Type := FormFieldInfo {
  item_id : string;
  field_name : string;
  formItemId : string;
  formDescriptionId : string;
  formMessageId : string;
  fieldState : FieldState
}.

Definition useFormField (sc : scope) : result form_field_info :=
  match form_context sc with
  | None => Throw (TypeError "Cannot destructure property 'getFieldState'")
  | Some f =>
      match fieldContext sc with
      | None => Throw (Error "useFormField should be used within <FormField>")
      | Some name =>
          match itemContext sc with
          | None => Throw (Error "useFormField should be used within <FormItem>")
          | Some id =>
              Ok (FormFieldInfo id name (id +:+ "-form-item") (id +:+ "-form-item-description")
                    (id +:+ "-form-item-message") (getFieldState f name))
          end
      end
  end.

(** [!!error]. *)
Definition has_error (s : form_field_info) : bool :=
  match field_error (fieldState s) with Some _ => true | None => false end.

(** ** The parts *)

Section Parts.
Context `{Styling} {A : Type}.
Implicit Types (props : list (string * attr A)) (children : list (node A)).

Definition part : Type := scope -> result (node A).

(** The form's provider, which renders its children. *)
Definition Form (f : FormContext) (children : list part) : part := fun sc =>
  ts <-r rmap (fun p => p (Scope (Some f) (fieldContext sc) (itemContext sc))) children;;
  Ok (Frag ts).

(** react-hook-form's Controller renders what its render prop returns. *)
Definition FormField (name : string) props (render : part) : part := fun sc =>
  t <-r render (Scope (form_context sc) (Some name) (itemContext sc));;
  Ok (El "Controller" (with_props props [("name", AStr name)]) [t]).

(** [id] is React's useId. *)
Definition FormItem (id : string) props (children : list part) : part := fun sc =>
  ts <-r rmap (fun p => p (Scope (form_context sc) (fieldContext sc) (Some id))) children;;
  Ok (styled "div" [] [CStr "space-y-2"] props ts).

Definition FormLabel props children : part := fun sc =>
  s <-r useFormField sc;;
  Ok (Label
        (with_props
           [("className", AStr (cn [cwhen (has_error s) "text-destructive"; className_of props]));
            ("htmlFor", AStr (formItemId s))]
           (without ["className"] props))
        children).

Definition describedby (s : form_field_info) : string :=
  if negb (has_error s) then formDescriptionId s
  else formDescriptionId s +:+ " " +:+ formMessageId s.

Definition FormControl props children : part := fun sc =>
  s <-r useFormField sc;;
  Ok (El "Slot"
        (with_props
           [("id", AStr (formItemId s)); ("aria-describedby", AStr (describedby s));
            ("aria-invalid", ABool (has_error s))]
           props)
        children).

Definition FormDescription props children : part := fun sc =>
  s <-r useFormField sc;;
  Ok (El "p"
        (with_props
           [("id", AStr (formDescriptionId s));
            ("className", AStr (cn [CStr "text-[0.8rem] text-muted-foreground"; className_of props]))]
           (without ["className"] props))
        children).

(** [!children] of the children prop: no child is undefined, several are an array. *)
Definition falsy_children children : bool :=
  match children with
  | [] => true
  | [e] => negb (node_truthy e)
  | _ => false
  end.

(** [error ? String(error?.message ?? "") : children]. *)
Definition message_body (s : form_field_info) children : list (node A) :=
  match field_error (fieldState s) with
  | Some e => [Text (default "" (error_message e))]
  | None => children
  end.

Definition FormMessage props children : part := fun sc =>
  s <-r useFormField sc;;
  let body := message_body s children in
  if falsy_children body then Ok Nothing
  else
    Ok (El "p"
          (with_props
             [("id", AStr (formMessageId s));
              ("className", AStr (cn [CStr "text-[0.8rem] font-medium text-destructive";
                                      className_of props]))]
             (without ["className"] props))
          body).
End Parts.
Arguments part : clear implicits.

(** ** Identifiers *)

(** The ids of the elements of a tree, in document order. *)
Fixpoint ids {A} (t : node A) : list string :=
  match t with
  | Text _ | NumText _ | Nothing => []
  | Frag ch => List.flat_map ids ch
  | El _ attrs ch =>
      match attr_of "id" attrs with Some (AStr s) => [s] | _ => [] end ++ List.flat_map ids ch
  end.

(** Two texts with a common end have a common start. *)
Lemma append_inj_r s s' t : s +:+ t = s' +:+ t -> s = s'.
Proof.
  intros E. assert (String.length s = String.length s') as Hl.
  { apply (f_equal String.length) in E. rewrite !length_append in E. lia. }
  revert s' Hl E. induction s as [|c s IH]; intros [|c' s'] Hl E; try done.
  cbn in Hl, E. injection E as -> E. f_equal. apply IH; [congruence|done].
Qed.

(** The last character of a text that ends with [t]. *)
Definition last_char (s : string) : option Ascii.ascii := last (String.list_ascii_of_string s).

Lemma last_char_append a t : t <> "" -> last_char (a +:+ t) = last_char t.
Proof.
  intros Ht. unfold last_char. induction a as [|c a IH]; [done|].
  rewrite append_cons. cbn [String.list_ascii_of_string]. rewrite <- IH.
  destruct a; [by destruct t|done].
Qed.

(** The three ids of an item. *)
Definition own_ids (s : form_field_info) : list string :=
  [formItemId s; formDescriptionId s; formMessageId s].

Lemma useFormField_ids sc s : useFormField sc = Ok s ->
  formItemId s = item_id s +:+ "-form-item" /\
  formDescriptionId s = item_id s +:+ "-form-item-description" /\
  formMessageId s = item_id s +:+ "-form-item-message".
Proof.
  unfold useFormField. destruct (form_context sc), (fieldContext sc), (itemContext sc); try done.
  by intros [= <-].
Qed.

(** Ids with different ends differ. *)
Lemma ends_differ a b t t' : t <> "" -> t' <> "" -> last_char t <> last_char t' -> a +:+ t <> b +:+ t'.
Proof. intros Ht Ht' Hn E. apply (f_equal last_char) in E. rewrite !last_char_append in E; done. Qed.

Lemma own_ids_differ sc s : useFormField sc = Ok s ->
  formItemId s <> formDescriptionId s /\ formItemId s <> formMessageId s /\
  formDescriptionId s <> formMessageId s.
Proof. intros (-> & -> & ->)%useFormField_ids. split_and!; by apply ends_differ. Qed.

(** The ids a field hands to its parts never clash: the control, the
    description and the message of one item have different ids, and items with
    different ids of React share none. *)
Theorem form_ids_distinct sc sc' s s' : useFormField sc = Ok s -> useFormField sc' = Ok s' ->
  NoDup (own_ids s) /\
  (item_id s <> item_id s' -> forall i, i ∈ own_ids s -> i ∉ own_ids s').
Proof.
  intros (E1 & E2 & E3)%useFormField_ids (F1 & F2 & F3)%useFormField_ids.
  assert (forall a b, a +:+ "-form-item" <> b +:+ "-form-item-description" /\
    a +:+ "-form-item" <> b +:+ "-form-item-message" /\
    a +:+ "-form-item-description" <> b +:+ "-form-item-message") as Hd.
  { intros a b. split_and!; by apply ends_differ. }
  unfold own_ids. rewrite E1, E2, E3, F1, F2, F3. clear -Hd. split.
  - destruct (Hd (item_id s) (item_id s)) as (? & ? & ?).
    repeat (apply NoDup_cons; split; [set_solver|]). constructor.
  - intros Hn i. destruct (Hd (item_id s) (item_id s')) as (? & ? & ?).
    destruct (Hd (item_id s') (item_id s)) as (? & ? & ?).
    rewrite !elem_of_cons, !elem_of_nil.
    intros [->|[->|[->|[]]]] [E|[E|[E|[]]]]; try congruence; by apply append_inj_r in E.
Qed.

(** * Properties of a whole field *)

Section Field.
Context `{Styling} {A : Type}.

(** A field as it is composed: a label, a control, a description, a message. *)
Definition field_tree (f : FormContext) (name id label hint message : string) : part A :=
  Form f [FormField name []
    (FormItem id []
       [FormLabel [] [Text label]; FormControl [] [El "input" [] []];
        FormDescription [] [Text hint]; FormMessage [] [Text message]])].

(** The ids the control says it is described by. *)
Definition described (s : form_field_info) : list string :=
  formDescriptionId s :: if has_error s then [formMessageId s] else [].

(** The attributes of the elements with tag [tag]. *)
Definition attrs_of (tag : string) (t : node A) : list (list (string * attr A)) :=
  map fst (elements tag t).

(** The text of the message. *)
Definition shown_message (s : form_field_info) (message : string) : string :=
  match field_error (fieldState s) with Some e => default "" (error_message e) | None => message end.

Lemma describedby_join s : describedby s = join " " (described s).
Proof. unfold describedby, described. by destruct (has_error s). Qed.

Lemma field_tree_shape f name id label hint message sc s :
  useFormField (Scope (Some f) (Some name) (Some id)) = Ok s ->
  exists t, field_tree f name id label hint message sc = Ok t /\
  ids t = [formItemId s; formDescriptionId s] ++
          (if bool_decide (shown_message s message = "") then [] else [formMessageId s]) /\
  (exists a, attrs_of "LabelPrimitive.Root" t = [a] /\ attr_of "htmlFor" a = Some (AStr (formItemId s))) /\
  (exists a, attrs_of "Slot" t = [a] /\ attr_of "id" a = Some (AStr (formItemId s)) /\
     attr_of "aria-describedby" a = Some (AStr (describedby s)) /\
     attr_of "aria-invalid" a = Some (ABool (has_error s))).
Proof.
  intros Hs. unfold field_tree, Form, FormField, FormItem. cbn [rmap form_context fieldContext itemContext].
  unfold FormLabel, FormControl, FormDescription, FormMessage. rewrite Hs. cbn [rbind].
  unfold message_body, shown_message, describedby, has_error.
  destruct (field_error (fieldState s)) as [e|]; cbn [falsy_children node_truthy];
    case_bool_decide; cbn [negb rbind];
    (eexists; split; [reflexivity|]; split; [reflexivity|]; split; eexists; repeat split; reflexivity).
Qed.

(** C36. A field in a form is wired up.  The label points at the control, the control
    is announced as invalid exactly when react-hook-form has an error for the
    field's name, and the message is the error's text, or the part's own while
    there is none.  Every id the control is described by is rendered, except that
    an error without a text leaves the control described by a message that is not
    there. *)
Theorem field_linked f name id label hint message sc s :
  useFormField (Scope (Some f) (Some name) (Some id)) = Ok s ->
  exists t l c, field_tree f name id label hint message sc = Ok t /\
    attrs_of "LabelPrimitive.Root" t = [l] /\ attrs_of "Slot" t = [c] /\
    attr_of "htmlFor" l = attr_of "id" c /\ attr_of "id" c = Some (AStr (formItemId s)) /\
    attr_of "aria-invalid" c =
      Some (ABool (match field_error (getFieldState f name) with Some _ => true | None => false end)) /\
    attr_of "aria-describedby" c = Some (AStr (join " " (described s))) /\
    ((forall i, i ∈ described s -> i ∈ ids t) <->
     forall e, field_error (getFieldState f name) = Some e -> default "" (error_message e) <> "").
Proof.
  intros Hs. destruct (field_tree_shape f name id label hint message sc s Hs)
    as (t & Ht & Hi & (l & Hl & Hl') & c & Hc & H1 & H2 & H3).
  assert (fieldState s = getFieldState f name) as Hst by (cbn in Hs; by injection Hs as <-).
  exists t, l, c. rewrite Hl', H1, H2, H3, describedby_join. split_and!; try done.
  - unfold has_error. by rewrite Hst.
  - rewrite Hi. destruct (own_ids_differ _ _ Hs) as (N1 & N2 & N3).
    unfold described, has_error, shown_message. rewrite Hst.
    destruct (field_error (getFieldState f name)) as [e|].
    + destruct (decide (default "" (error_message e) = "")) as [Em|Em];
        [rewrite (bool_decide_eq_true_2 _ Em)|rewrite (bool_decide_eq_false_2 _ Em)]; split.
      * intros Hd. specialize (Hd (formMessageId s) ltac:(set_solver)). set_solver.
      * intros He. by destruct (He e eq_refl).
      * by intros _ e' [= <-].
      * set_solver.
    + split; [done|]. set_solver.
Qed.
End Field.

Section Outside.
Context `{Styling} {A : Type}.

(** The parts that read the field. *)
Definition field_parts : list (list (string * attr A) -> list (node A) -> part A) :=
  [FormLabel; FormControl; FormDescription; FormMessage].

(** C37. The parts of a field only work inside it: each throws outside a form,
    outside a FormField and outside a FormItem, saying which provider is missing
    when it is one of the last two, and renders inside all three. *)
Theorem field_parts_outside sc p props children : p ∈ field_parts ->
  match form_context sc, fieldContext sc, itemContext sc with
  | None, _, _ => exists m, p props children sc = Throw (TypeError m)
  | Some _, None, _ => p props children sc = Throw (Error "useFormField should be used within <FormField>")
  | Some _, Some _, None => p props children sc = Throw (Error "useFormField should be used within <FormItem>")
  | Some _, Some _, Some _ => exists t, p props children sc = Ok t
  end.
Proof.
  intros Hp. assert (match useFormField sc with
    | Ok _ => exists t, p props children sc = Ok t
    | Throw e => p props children sc = Throw e end) as Ht.
  { unfold field_parts in Hp. rewrite !elem_of_cons, elem_of_nil in Hp.
    destruct Hp as [->|[->|[->|[->|[]]]]];
      unfold FormLabel, FormControl, FormDescription, FormMessage;
      (destruct (useFormField sc) as [s|e]; cbn [rbind]; [|done]); eauto.
    destruct (falsy_children _); eauto. }
  revert Ht. unfold useFormField. destruct (form_context sc), (fieldContext sc), (itemContext sc); eauto.
Qed.
End Outside.

Section Witnesses.
#[local] Existing Instance sample_styling.

(* The field "email" has an error without a text. *)
Definition demo_form : FormContext :=
  MakeFormContext (fun name =>
    MakeFieldState true false true false
      (if bool_decide (name = "email") then Some (MakeFieldError None) else None)).
Definition demo_scope (id : string) : scope := Scope (Some demo_form) (Some "email") (Some id).

Lemma form_ids_distinct_witness : exists s s',
  useFormField (demo_scope ":r1:") = Ok s /\ useFormField (demo_scope ":r2:") = Ok s' /\
  formItemId s ∉ own_ids s'.
Proof.
  destruct (useFormField (demo_scope ":r1:")) as [s|] eqn:E1; [|discriminate E1].
  destruct (useFormField (demo_scope ":r2:")) as [s'|] eqn:E2; [|discriminate E2].
  exists s, s'. split; [reflexivity|]. split; [reflexivity|].
  apply (proj2 (form_ids_distinct _ _ s s' E1 E2)); [|by left].
  injection E1 as <-. injection E2 as <-. discriminate.
Defined.

Lemma field_linked_witness : exists t l c,
  field_tree (A := unit) demo_form "email" ":r1:" "Email" "Your address" "" (Scope None None None) = Ok t /\
  attrs_of "Slot" t = [c] /\ attr_of "htmlFor" l = attr_of "id" c.
Proof.
  destruct (useFormField (demo_scope ":r1:")) as [s|] eqn:E; [|discriminate E].
  destruct (field_linked (A := unit) demo_form "email" ":r1:" "Email" "Your address" "" (Scope None None None) s E)
    as (t & l & c & Ht & _ & Hc & Hl & _).
  exists t, l, c. exact (conj Ht (conj Hc Hl)).
Defined.

Lemma field_parts_outside_witness :
  FormLabel (A := unit) [] [] (Scope (Some demo_form) None None) =
    Throw (Error "useFormField should be used within <FormField>").
Proof.
  exact (field_parts_outside (A := unit) (Scope (Some demo_form) None None) FormLabel [] []
    (list_elem_of_here FormLabel [FormControl; FormDescription; FormMessage])).
Defined.
End Witnesses.
