(* ===== verification/Chart.v ===== *)
(** * Charts (web/src/components/ui/chart.tsx)

    The container of a chart with its style sheet, the tooltip and the legend.
    recharts hands the tooltip and the legend their payload, an array of
    JavaScript values; the context of the container is an argument, [None]
    outside.  A dataKey that is a function is left out: a payload is a value
    without functions.  [toLocaleString] is the host's. *)

From S2P Require Import Prelude JsNumber JsString JsValue React UiKit.

(** ** The configuration *)

Definition nl : string := String (Ascii.ascii_of_nat 10) "".

(** The names and the selectors of the themes. *)
Definition THEMES : list (string * string) := [("light", ""); ("dark", ".dark")].

(** One series: [icon] is the name of a component, [theme] the colours of the light
    and of the dark theme. *)
Record chart_item (A : Type) : Type := ChartItem {
  item_label : option (node A);
  item_icon : option string;
  item_color : option string;
  item_theme : option (string * string)
}.
Arguments ChartItem {A}.
Arguments item_label {A}.
Arguments item_icon {A}.
Arguments item_color {A}.
Arguments item_theme {A}.

(** The own properties of the object, in its order. *)
Definition ChartConfig (A : Type) : Type := list (string * chart_item A).

(** The names every object has from its prototype; their values have no label, icon
    or colour. *)
Definition prototype_names : list string :=
  ["constructor"; "__defineGetter__"; "__defineSetter__"; "hasOwnProperty"; "__lookupGetter__";
   "__lookupSetter__"; "isPrototypeOf"; "propertyIsEnumerable"; "toString"; "valueOf"; "__proto__";
   "toLocaleString"].

Section Config.
Context {A : Type}.
Implicit Types (config : ChartConfig A).

(** [config[k]]. *)
Definition config_get (k : string) config : option (chart_item A) :=
  match lookup_prop k config with
  | Some i => Some i
  | None => if bool_decide (k ∈ prototype_names) then Some (ChartItem None None None None) else None
  end.
(** [k in config]. *)
Definition config_has (k : string) config : bool :=
  match config_get k config with Some _ => true | None => false end.

(** [typeof v === "object" && v !== null]. *)
Definition is_object (v : value) : bool := match v with VArr _ | VObj _ => true | _ => false end.

(** [k in v && typeof v[k] === "string"], for an object: the text.  What an object
    inherits is never a string. *)
Definition string_at (k : string) (v : value) : option string :=
  match v with
  | VObj props => match lookup_prop k props with Some (VStr s) => Some s | _ => None end
  | VArr l =>
      match index_key k with
      | Some i => match l !! Z.to_nat i with Some (VStr s) => Some s | _ => None end
      | None => None
      end
  | _ => None
  end.

(** [payload.payload] when it is an object. *)
Definition payload_payload (payload : value) : option value :=
  match payload with
  | VObj props =>
      match lookup_prop "payload" props with
      | Some v => if is_object v then Some v else None
      | None => None
      end
  | _ => None
  end.

Definition configLabelKey (payload : value) (k : string) : string :=
  match string_at k payload with
  | Some s => s
  | None =>
      match payload_payload payload with
      | Some p => default k (string_at k p)
      | None => k
      end
  end.

Definition getPayloadConfigFromPayload config (payload : value) (k : string) : option (chart_item A) :=
  if is_object payload then
    let label_key := configLabelKey payload k in
    if config_has label_key config then config_get label_key config else config_get k config
  else None.

(** ** The style sheet *)

(** [s || t] of texts that may be missing. *)
Definition text_or (s t : option string) : option string :=
  match s with Some "" | None => t | Some s => Some s end.

(** The colour of an item in a theme. *)
Definition theme_color (theme : string) (i : chart_item A) : option string :=
  text_or
    (match item_theme i with
     | Some (light, dark) => if bool_decide (theme = "light") then Some light else Some dark
     | None => None
     end)
    (item_color i).

Definition colorConfig config : ChartConfig A :=
  List.filter (fun kv =>
    match item_theme kv.2 with
    | Some _ => true
    | None => match item_color kv.2 with Some "" | None => false | Some _ => true end
    end) config.

(** The line of a colour; [null] is joined as an empty text. *)
Definition color_line (theme : string) (kv : string * chart_item A) : string :=
  match theme_color theme kv.2 with
  | Some "" | None => ""
  | Some color => "  --color-" +:+ kv.1 +:+ ": " +:+ color +:+ ";"
  end.

Definition theme_rule (id : string) (colors : ChartConfig A) (t : string * string) : string :=
  let '(theme, prefix) := t in
  nl +:+ prefix +:+ " [data-chart=" +:+ id +:+ "] {" +:+ nl +:+
  join nl (map (color_line theme) colors) +:+ nl +:+ "}" +:+ nl.

Definition style_html (id : string) config : string :=
  join nl (map (theme_rule id (colorConfig config)) THEMES).

Definition ChartStyle (id : string) config : node A :=
  if (length (colorConfig config) =? 0)%nat then Nothing
  else El "style" [("dangerouslySetInnerHTML", AStyle [("__html", style_html id config)])] [].

(** ** The container *)

(** The context is null outside a container. *)
Definition useChart (context : option (ChartConfig A)) : result (ChartConfig A) :=
  match context with
  | Some c => Ok c
  | None => Throw (Error "useChart must be used within a <ChartContainer />")
  end.
End Config.

Section Container.
Context `{Styling} {A : Type}.
Implicit Types (props : list (string * attr A)) (config : ChartConfig A).

(** [id || uniqueId.replace(/:/g, "")], with React's useId. *)
Definition chartId (uniqueId : string) props : string :=
  "chart-" +:+ default (remove_all ":"%char uniqueId) (text_or (str_prop "id" props) None).

(** The children are rendered in the context of [config]. *)
Definition ChartContainer (uniqueId : string) config props
    (children : option (ChartConfig A) -> result (list (node A))) : result (node A) :=
  let id := chartId uniqueId props in
  ts <-r children (Some config);;
  Ok (El "div"
        (with_props
           [("data-chart", AStr id);
            ("className", AStr (cn
              [CStr "flex aspect-video justify-center text-xs [&_.recharts-cartesian-axis-tick_text]:fill-muted-foreground [&_.recharts-cartesian-grid_line[stroke='#ccc']]:stroke-border/50 [&_.recharts-curve.recharts-tooltip-cursor]:stroke-border [&_.recharts-dot[stroke='#fff']]:stroke-transparent [&_.recharts-layer]:outline-none [&_.recharts-polar-grid_[stroke='#ccc']]:stroke-border [&_.recharts-radial-bar-background-sector]:fill-muted [&_.recharts-rectangle.recharts-tooltip-cursor]:fill-muted [&_.recharts-reference-line_[stroke='#ccc']]:stroke-border [&_.recharts-sector[stroke='#fff']]:stroke-transparent [&_.recharts-sector]:outline-none [&_.recharts-surface]:outline-none";
               className_of props]))]
           (without ["id"; "className"] props))
        [ChartStyle id config; El "RechartsPrimitive.ResponsiveContainer" [] ts]).
End Container.

(** ** What recharts hands over *)

Definition ChartTooltip {A} (props : list (string * attr A)) (children : list (node A)) : node A :=
  El "RechartsPrimitive.Tooltip" props children.
Definition ChartLegend {A} (props : list (string * attr A)) (children : list (node A)) : node A :=
  El "RechartsPrimitive.Legend" props children.

(** [v?.k]. *)
Definition get_opt (k : string) (v : value) : value :=
  match v with VObj props => default VUndef (lookup_prop k props) | _ => VUndef end.
(** [v || w]. *)
Definition or_value (v w : value) : value := if truthy v then v else w.
(** A text prop that may be missing. *)
Definition str_value (s : option string) : value := match s with Some s => VStr s | None => VUndef end.

(** A value as a React child. *)
Fixpoint as_child {A} (v : value) : result (node A) :=
  match v with
  | VStr s => Ok (Text s)
  | VNum n => Ok (NumText n)
  | VBool _ | VUndef | VNull => Ok Nothing
  | VArr l => ts <-r rmap as_child l;; Ok (Frag ts)
  | VObj _ => Throw (Error "Objects are not valid as a React child")
  end.

(** [l.filter(f)]. *)
Fixpoint rfilter {T} (f : T -> result bool) (l : list T) : result (list T) :=
  match l with
  | [] => Ok []
  | x :: l' => b <-r f x;; xs <-r rfilter f l';; Ok (if b then x :: xs else xs)
  end.

(** [items.filter((item) => item.type !== "none")]. *)
Definition shown_items (payload : list value) : result (list value) :=
  rfilter (fun item => t <-r get "type" item;; Ok (negb (is_str "none" t))) payload.

(** The label of an item's configuration, and [label || e]. *)
Definition label_of {A} (i : option (chart_item A)) : node A :=
  match i with Some i => default Nothing (item_label i) | None => Nothing end.
Definition label_or {A} (i : option (chart_item A)) (e : result (node A)) : result (node A) :=
  if node_truthy (label_of i) then Ok (label_of i) else e.
Definition icon_of {A} (i : option (chart_item A)) : option string := i ≫= item_icon.

(** A style property that is a text, or missing. *)
Definition style_text (name : string) (v : value) : list (string * string) :=
  match v with VStr s => [(name, s)] | _ => [] end.

(** The React key of an item. *)
Definition item_key {A} (v : value) : list (string * attr A) :=
  match v with VUndef => [] | _ => [("key", AStr (to_text v))] end.

Inductive indicator : Type := Line | Dot | Dashed.
#[export] Instance indicator_eq_dec : EqDecision indicator.
Proof. solve_decision. Defined.

Section Content.
Context `{Styling} {A : Type}.
Variable toLocaleString : value -> string.
Local Abbreviation node := (node A).

(** ** The tooltip *)

Record tooltip_props : Type := TooltipProps {
  active : bool;
  payload : option (list value);
  className : option string;
  indicator_prop : indicator;
  hideLabel : bool;
  hideIndicator : bool;
  label : value;
  labelFormatter : option (option node -> list value -> node);
  labelClassName : option string;
  formatter : option (value -> value -> value -> nat -> value -> node);
  color : option string;
  nameKey : option string;
  labelKey : option string
}.

Definition tooltip_label (config : ChartConfig A) (p : tooltip_props) : node :=
  match hideLabel p, payload p with
  | true, _ | _, None | _, Some [] => Nothing
  | false, Some ((item :: _) as all) =>
      let k := to_text (or_value (str_value (labelKey p))
                 (or_value (get_opt "dataKey" item) (or_value (get_opt "name" item) (VStr "value")))) in
      let itemConfig := getPayloadConfigFromPayload config item k in
      let v :=
        match text_or (labelKey p) None, label p with
        | None, VStr s =>
            Some (if node_truthy (label_of (config_get s config)) then label_of (config_get s config)
                  else Text s)
        | _, _ => itemConfig ≫= item_label
        end in
      let wrap e := El "div" [("className", AStr (cn [CStr "font-medium"; copt (labelClassName p)]))] [e] in
      match labelFormatter p with
      | Some f => wrap (f v all)
      | None =>
          match v with
          | Some e => if node_truthy e then wrap e else Nothing
          | None => Nothing
          end
      end
  end.

(** [item.value && <span>...</span>]. *)
Definition value_cell (v : value) : result node :=
  if truthy v then
    Ok (El "span" [("className", AStr "font-mono font-medium tabular-nums text-foreground")]
          [Text (toLocaleString v)])
  else as_child v.

Definition indicator_mark (p : tooltip_props) (nestLabel : bool) (indicatorColor : value) : node :=
  let marked i := bool_decide (indicator_prop p = i) in
  when (negb (hideIndicator p))
    (El "div"
       [("className", AStr (cn
          [CStr "shrink-0 rounded-[2px] border-(--color-border) bg-(--color-bg)";
           CObj [("h-2.5 w-2.5", marked Dot); ("w-1", marked Line);
                 ("w-0 border-[1.5px] border-dashed bg-transparent", marked Dashed);
                 ("my-0.5", nestLabel && marked Dashed)]]));
        ("style", AStyle (style_text "--color-bg" indicatorColor ++
                          style_text "--color-border" indicatorColor))] []).

Definition tooltip_row (config : ChartConfig A) (p : tooltip_props) (tooltipLabel : node)
    (nestLabel : bool) (index : nat) (item : value) : result node :=
  name <-r get "name" item;;
  dataKey <-r get "dataKey" item;;
  v <-r get "value" item;;
  let k := to_text (or_value (str_value (nameKey p)) (or_value name (or_value dataKey (VStr "value")))) in
  let itemConfig := getPayloadConfigFromPayload config item k in
  indicatorColor <-r
    match text_or (color p) None with
    | Some c => Ok (VStr c)
    | None =>
        inner <-r get "payload" item;;
        fill <-r get "fill" inner;;
        Ok (or_value fill (get_opt "color" item))
    end;;
  body <-r
    match formatter p with
    | Some f =>
        if negb (match v with VUndef => true | _ => false end) && truthy name
        then Ok (Some (f v name item index (get_opt "payload" item))) else Ok None
    | None => Ok None
    end;;
  content <-r
    match body with
    | Some e => Ok [e]
    | None =>
        caption <-r label_or itemConfig (as_child name);;
        cell <-r value_cell v;;
        Ok [match icon_of itemConfig with
            | Some icon => El icon [] []
            | None => indicator_mark p nestLabel indicatorColor
            end;
            El "div"
              [("className", AStr (cn [CStr "flex flex-1 justify-between leading-none";
                                       CStr (if nestLabel then "items-end" else "items-center")]))]
              [El "div" [("className", AStr "grid gap-1.5")]
                 [if nestLabel then tooltipLabel else Nothing;
                  El "span" [("className", AStr "text-muted-foreground")] [caption]];
               cell]]
    end;;
  Ok (El "div"
        (item_key dataKey ++
         [("className", AStr (cn
            [CStr "flex w-full flex-wrap items-stretch gap-2 [&>svg]:h-2.5 [&>svg]:w-2.5 [&>svg]:text-muted-foreground";
             cwhen (bool_decide (indicator_prop p = Dot)) "items-center"]))])
        content).

Definition ChartTooltipContent (context : option (ChartConfig A)) (p : tooltip_props) : result node :=
  config <-r useChart context;;
  let tooltipLabel := tooltip_label config p in
  match active p, payload p with
  | true, Some ((_ :: _) as all) =>
      let nestLabel := (length all =? 1)%nat && negb (bool_decide (indicator_prop p = Dot)) in
      items <-r shown_items all;;
      rows <-r rmap (fun x => tooltip_row config p tooltipLabel nestLabel x.1 x.2) (imap pair items);;
      Ok (El "div"
            [("className", AStr (cn
               [CStr "grid min-w-[8rem] items-start gap-1.5 rounded-lg border border-border/50 bg-background px-2.5 py-1.5 text-xs shadow-xl";
                copt (className p)]))]
            [if negb nestLabel then tooltipLabel else Nothing;
             El "div" [("className", AStr "grid gap-1.5")] rows])
  | _, _ => Ok Nothing
  end.

(** ** The legend *)

Record legend_props : Type := LegendProps {
  legend_className : option string;
  hideIcon : bool;
  legend_payload : option (list value);
  verticalAlign : string;
  legend_nameKey : option string
}.

Definition legend_item (config : ChartConfig A) (p : legend_props) (item : value) : result node :=
  dataKey <-r get "dataKey" item;;
  let k := to_text (or_value (str_value (legend_nameKey p)) (or_value dataKey (VStr "value"))) in
  let itemConfig := getPayloadConfigFromPayload config item k in
  Ok (El "div"
        (item_key (get_opt "value" item) ++
         [("className", AStr (cn
            [CStr "flex items-center gap-1.5 [&>svg]:h-3 [&>svg]:w-3 [&>svg]:text-muted-foreground"]))])
        [match icon_of itemConfig, hideIcon p with
         | Some icon, false => El icon [] []
         | _, _ =>
             El "div" [("className", AStr "h-2 w-2 shrink-0 rounded-[2px]");
                       ("style", AStyle (style_text "backgroundColor" (get_opt "color" item)))] []
         end;
         label_of itemConfig]).

Definition ChartLegendContent (context : option (ChartConfig A)) (p : legend_props) : result node :=
  config <-r useChart context;;
  match legend_payload p with
  | Some ((_ :: _) as all) =>
      items <-r shown_items all;;
      ts <-r rmap (legend_item config p) items;;
      Ok (El "div"
            [("className", AStr (cn
               [CStr "flex items-center justify-center gap-4";
                CStr (if bool_decide (verticalAlign p = "top") then "pb-3" else "pt-3");
                copt (legend_className p)]))]
            ts)
  | _ => Ok Nothing
  end.
End Content.

(** * Reading the style sheet back *)

(** The lines of a text. *)
Fixpoint split_lines (s : string) : list string :=
  match s with
  | "" => [""]
  | String c s' =>
      if Ascii.eqb c (Ascii.ascii_of_nat 10) then "" :: split_lines s'
      else match split_lines s' with [] => [String c ""] | l :: ls => String c l :: ls end
  end.

(** A text up to the first [c], and from it on. *)
Fixpoint span_until (c : Ascii.ascii) (s : string) : string * string :=
  match s with
  | "" => ("", "")
  | String d s' =>
      if Ascii.eqb c d then ("", s) else let '(a, b) := span_until c s' in (String d a, b)
  end.

(** A declaration of a custom property of a colour. *)
Definition read_color (l : string) : option (string * string) :=
  if startsWith "  --color-" l then
    let '(k, rest) := span_until ":"%char (skip_chars 10 l) in
    if startsWith ": " rest then
      let '(c, rest') := span_until ";"%char (skip_chars 2 rest) in
      if bool_decide (rest' = ";") then Some (k, c) else None
    else None
  else None.

(** The selector of a line that opens a rule. *)
Definition read_open (l : string) : option string :=
  let n := String.length l in
  if (2 <=? n)%nat && bool_decide (slice_last 2 l = " {") then Some (trim_start (slice_to (n - 2) l))
  else None.

(** The rules: [cur] is the selector of the open rule and its declarations so far.
    Apart from empty lines every line is one that opens or closes a rule or sets
    a colour; a sheet with anything else is not read. *)
Fixpoint read_rules (cur : option (string * list (string * string))) (ls : list string) :
    option (list (string * list (string * string))) :=
  match ls, cur with
  | [], None => Some []
  | [], Some _ => None
  | "" :: ls', _ => read_rules cur ls'
  | "}" :: ls', Some rule => rs ← read_rules None ls'; Some (rule :: rs)
  | l :: ls', Some (sel, ds) => d ← read_color l; read_rules (Some (sel, ds ++ [d])) ls'
  | l :: ls', None => sel ← read_open l; read_rules (Some (sel, [])) ls'
  end.

Definition read_css (s : string) : option (list (string * list (string * string))) :=
  read_rules None (split_lines s).

(** ** Lines *)

(** A text without the character [c]. *)
Definition free_of (c : Ascii.ascii) (s : string) : bool := all_chars (fun d => negb (Ascii.eqb c d)) s.
Definition one_line (s : string) : bool := free_of (Ascii.ascii_of_nat 10) s.

Lemma free_of_app c a b : free_of c (a +:+ b) = free_of c a && free_of c b.
Proof. unfold free_of. induction a as [|d a IH]; [done|]. rewrite append_cons. cbn [all_chars]. by rewrite IH, andb_assoc. Qed.

Lemma split_lines_nl a s : one_line a = true -> split_lines (a +:+ nl +:+ s) = a :: split_lines s.
Proof.
  intros Ha. induction a as [|c a IH]; [done|]. rewrite append_cons. cbn in Ha.
  apply andb_true_iff in Ha as [Hc Ha]. cbn [split_lines].
  replace (Ascii.eqb c (Ascii.ascii_of_nat 10)) with false; [by rewrite (IH Ha)|].
  symmetry. rewrite Ascii.eqb_sym. by apply negb_true_iff.
Qed.

Lemma split_lines_one a : one_line a = true -> split_lines a = [a].
Proof.
  induction a as [|c a IH]; [done|]. intros Ha. cbn in Ha. apply andb_true_iff in Ha as [Hc Ha].
  cbn [split_lines]. rewrite (IH Ha).
  replace (Ascii.eqb c (Ascii.ascii_of_nat 10)) with false; [done|].
  symmetry. rewrite Ascii.eqb_sym. by apply negb_true_iff.
Qed.

Lemma split_lines_join ls s : ls <> [] -> Forall (fun l => one_line l = true) ls ->
  split_lines (join nl ls +:+ nl +:+ s) = ls ++ split_lines s.
Proof.
  intros Hne Hl. induction Hl as [|l ls Hl _ IH]; [done|]. destruct ls as [|l' ls].
  - by apply split_lines_nl.
  - change (join nl (l :: l' :: ls)) with (l +:+ nl +:+ join nl (l' :: ls)).
    rewrite !append_assoc, split_lines_nl by done. rewrite IH by done. done.
Qed.

Lemma span_until_at c a s : free_of c a = true -> span_until c (a +:+ String c s) = (a, String c s).
Proof.
  induction a as [|d a IH]; intros Ha; cbn [span_until].
  - change ("" +:+ String c s) with (String c s). cbn [span_until]. by rewrite Ascii.eqb_refl.
  - rewrite append_cons. cbn in Ha. apply andb_true_iff in Ha as [Hd Ha]. cbn [span_until].
    apply negb_true_iff in Hd. by rewrite Hd, (IH Ha).
Qed.

Lemma substring_left a b : String.substring 0 (String.length a) (a +:+ b) = a.
Proof. induction a as [|c a IH]; [by destruct b|]. rewrite append_cons. cbn. by rewrite IH. Qed.

Lemma substring_right a b : String.substring (String.length a) (String.length b) (a +:+ b) = b.
Proof.
  induction a as [|c a IH]; [|rewrite append_cons; exact IH].
  pose proof (substring_left b "") as Hb. by rewrite append_nil_r in Hb.
Qed.

Lemma read_open_line s : read_open (s +:+ " {") = Some (trim_start s).
Proof.
  unfold read_open, slice_last, slice_to. rewrite length_append. cbn [String.length].
  replace (String.length s + 2 - 2)%nat with (String.length s) by lia.
  pose proof (substring_right s " {") as Hr. cbn [String.length] in Hr. rewrite substring_left, Hr.
  replace (2 <=? String.length s + 2)%nat with true by (symmetry; apply Nat.leb_le; lia). done.
Qed.

Lemma startsWith_app a b : startsWith a (a +:+ b) = true.
Proof.
  unfold startsWith. induction a as [|c a IH]; [by destruct b|]. rewrite append_cons. cbn.
  by destruct (Ascii.ascii_dec c c).
Qed.

Lemma read_color_line k c : free_of ":"%char k = true -> free_of ";"%char c = true ->
  read_color ("  --color-" +:+ k +:+ ": " +:+ c +:+ ";") = Some (k, c).
Proof.
  intros Hk Hc. unfold read_color. rewrite startsWith_app, (skip_chars_app "  --color-").
  change (": " +:+ c +:+ ";") with (String ":" (" " +:+ c +:+ ";")).
  rewrite (span_until_at _ k _ Hk).
  change (String ":" (" " +:+ c +:+ ";")) with (": " +:+ c +:+ ";").
  rewrite startsWith_app, (skip_chars_app ": "). by rewrite (span_until_at _ c "" Hc).
Qed.

(** ** The rules of a style sheet *)

Section Sheet.
Context {A : Type}.
Implicit Types (config colors : ChartConfig A).

(** A text without a line end and the punctuation of CSS. *)
Definition css_safe (s : string) : bool :=
  forallb (fun c => free_of c s) [Ascii.ascii_of_nat 10; ":"%char; ";"%char; "{"%char; "}"%char].

(** A series whose name and colours stay within their place in the sheet. *)
Definition plain_series (kv : string * chart_item A) : Prop :=
  css_safe kv.1 = true /\ css_safe (default "" (item_color kv.2)) = true /\
  match item_theme kv.2 with Some (l, d) => css_safe l = true /\ css_safe d = true | None => True end.

(** What a series asks for: a colour in each theme, or its colour in both. *)
Definition coloured (kv : string * chart_item A) : bool :=
  match item_theme kv.2 with
  | Some _ => true
  | None => negb (bool_decide (default "" (item_color kv.2) = ""))
  end.
Definition series_color (dark : bool) (i : chart_item A) : option string :=
  let themed := match item_theme i with Some (l, d) => if dark then d else l | None => "" end in
  let c := if bool_decide (themed = "") then default "" (item_color i) else themed in
  if bool_decide (c = "") then None else Some c.
Definition set_colors (dark : bool) config : list (string * string) :=
  omap (fun kv => pair kv.1 <$> series_color dark kv.2) config.

Lemma theme_color_spec (dark : bool) i :
  match theme_color (if dark then "dark" else "light") i with Some "" | None => None | Some c => Some c end =
  series_color dark i.
Proof.
  unfold theme_color, series_color. destruct (item_theme i) as [[l d]|], dark; cbn [text_or];
    decide_names; try destruct l; try destruct d; try (by destruct (item_color i) as [[]|]); done.
Qed.

Lemma css_safe_spec s : css_safe s = true ->
  one_line s = true /\ free_of ":"%char s = true /\ free_of ";"%char s = true.
Proof. unfold css_safe. cbn [forallb]. rewrite !andb_true_iff. tauto. Qed.

Lemma color_safe dark kv c : plain_series kv -> series_color dark kv.2 = Some c -> css_safe c = true.
Proof.
  intros (_ & Hc & Ht). unfold series_color. destruct (item_theme kv.2) as [[l d]|].
  - destruct Ht. case_bool_decide; case_bool_decide; try done; intros [= <-]; by destruct dark.
  - decide_names. case_bool_decide; [done|]. by intros [= <-].
Qed.

Lemma color_line_spec (dark : bool) kv : plain_series kv ->
  let l := color_line (if dark then "dark" else "light") kv in
  one_line l = true /\
  match series_color dark kv.2 with
  | None => l = ""
  | Some c => l <> "}" /\ l <> "" /\ read_color l = Some (kv.1, c)
  end.
Proof.
  intros Hp l. pose proof (theme_color_spec dark kv.2) as Hs. subst l. unfold color_line.
  destruct (series_color dark kv.2) as [c|] eqn:E.
  - pose proof (color_safe _ _ _ Hp E) as (H1 & _ & H3)%css_safe_spec.
    destruct Hp as ((K1 & K2 & _)%css_safe_spec & _).
    destruct (theme_color _ kv.2) as [[|ch c']|]; try done. injection Hs as <-.
    split; [unfold one_line in *; by rewrite !free_of_app, K1, H1|]. split; [done|]. split; [done|].
    by apply read_color_line.
  - by destruct (theme_color _ kv.2) as [[|ch c']|].
Qed.

Lemma read_color_step l sel ds d rest : l <> "}" -> l <> "" -> read_color l = Some d ->
  read_rules (Some (sel, ds)) (l :: rest) = read_rules (Some (sel, ds ++ [d])) rest.
Proof.
  intros H1 H2 Hr. destruct l as [|c s]; [done|]. cbn [read_rules]. rewrite Hr.
  destruct s; [|by destruct c as [[] [] [] [] [] [] [] []]].
  by destruct c as [[] [] [] [] [] [] [] []].
Qed.

Lemma read_open_step l sel rest : l <> "" -> read_open l = Some sel ->
  read_rules None (l :: rest) = read_rules (Some (sel, [])) rest.
Proof.
  intros H1 Hr. destruct l as [|c s]; [done|]. cbn [read_rules]. rewrite Hr.
  destruct s; by destruct c as [[] [] [] [] [] [] [] []].
Qed.

Lemma read_body (dark : bool) sel colors rest ds : Forall plain_series colors ->
  read_rules (Some (sel, ds)) (map (color_line (if dark then "dark" else "light")) colors ++ "}" :: rest) =
    rs ← read_rules None rest; Some ((sel, ds ++ set_colors dark colors) :: rs).
Proof.
  intros Hp. revert ds. induction Hp as [|kv colors Hk _ IH]; intros ds.
  - cbn [map app set_colors omap list_omap read_rules]. by rewrite app_nil_r.
  - destruct (color_line_spec dark kv Hk) as [_ Hs]. cbn [map app set_colors omap list_omap].
    destruct (series_color dark kv.2) as [c|]; cbn [fmap option_fmap option_map].
    + destruct Hs as (H1 & H2 & Hr). rewrite (read_color_step _ _ _ (kv.1, c)) by done.
      rewrite IH, <- app_assoc. done.
    + rewrite Hs. exact (IH ds).
Qed.

Lemma theme_rule_lines id colors (dark : bool) prefix s : one_line id = true -> one_line prefix = true ->
  Forall plain_series colors -> colors <> [] ->
  let theme := if dark then "dark" else "light" in
  split_lines (theme_rule id colors (theme, prefix) +:+ s) =
    "" :: (prefix +:+ " [data-chart=" +:+ id +:+ "] {") :: map (color_line theme) colors ++
    "}" :: split_lines s.
Proof.
  intros Hid Hpre Hp Hne theme. unfold theme_rule.
  rewrite !append_assoc. change (nl +:+ prefix +:+ ?x) with ("" +:+ nl +:+ (prefix +:+ x)).
  rewrite (split_lines_nl "") by done. f_equal.
  transitivity (split_lines ((prefix +:+ " [data-chart=" +:+ id +:+ "] {") +:+ nl +:+
    (join nl (map (color_line theme) colors) +:+ nl +:+ ("}" +:+ nl +:+ s)))).
  { by rewrite !append_assoc. }
  rewrite split_lines_nl by (unfold one_line in *; by rewrite !free_of_app, Hid, Hpre). f_equal.
  rewrite split_lines_join.
  - done.
  - by destruct colors.
  - apply List.Forall_map. eapply Forall_impl; [exact Hp|]. intros kv Hk. by apply (color_line_spec dark).
Qed.

(** A rule of the sheet, whose selector is [sel] after white space. *)
Lemma read_rule id colors (dark : bool) prefix sel rest : one_line id = true -> Forall plain_series colors ->
  trim_start (prefix +:+ " [data-chart=" +:+ id +:+ "]") = sel ->
  read_rules None ("" :: (prefix +:+ " [data-chart=" +:+ id +:+ "] {") ::
    map (color_line (if dark then "dark" else "light")) colors ++ "}" :: rest) =
    rs ← read_rules None rest; Some ((sel, set_colors dark colors) :: rs).
Proof.
  intros Hid Hp Hs.
  replace (prefix +:+ " [data-chart=" +:+ id +:+ "] {") with ((prefix +:+ " [data-chart=" +:+ id +:+ "]") +:+ " {")
    by (by rewrite !append_assoc).
  change (read_rules None ("" :: ?x)) with (read_rules None x).
  rewrite (read_open_step _ sel); [by rewrite read_body|by destruct prefix|]. by rewrite read_open_line, Hs.
Qed.

(** The series without a colour of their own set none. *)
Lemma set_colors_all dark config : set_colors dark (colorConfig config) = set_colors dark config.
Proof.
  unfold set_colors, colorConfig. induction config as [|[k i] config IH]; [done|].
  cbn [List.filter snd]. destruct (item_theme i) as [[l d]|] eqn:Et.
  - cbn [omap list_omap fst snd]. by rewrite IH.
  - assert (series_color dark i = match item_color i with Some "" | None => None | Some c => Some c end) as Hc.
    { unfold series_color. rewrite Et. by destruct (item_color i) as [[]|]. }
    destruct (item_color i) as [[|c s]|] eqn:Ec; cbn [omap list_omap fst snd]; by rewrite ?Hc, <- IH.
Qed.

Lemma colorConfig_some config : colorConfig config = List.filter coloured config.
Proof.
  unfold colorConfig. induction config as [|[k i] config IH]; [done|]. cbn [List.filter]. rewrite IH.
  unfold coloured. cbn [snd]. destruct (item_theme i); [done|]. by destruct (item_color i) as [[]|].
Qed.

(** C35. The style sheet of a chart says what the configuration says, where the
    chart's id and the names and colours of its series are free of line ends and
    of the punctuation of CSS.  Read back it consists of two rules and nothing
    else: one for this chart's elements, one for them under the class dark.  Each
    sets the custom property of each series that has a colour in that theme (the
    theme's own, or else the series' one colour) to that colour, in the order of
    the configuration.  Without any colour there is no style sheet. *)
Theorem chart_style_reads id config : css_safe id = true -> Forall plain_series config ->
  if existsb coloured config then
    exists html,
      ChartStyle id config = El "style" [("dangerouslySetInnerHTML", AStyle [("__html", html)])] [] /\
      read_css html = Some [("[data-chart=" +:+ id +:+ "]", set_colors false config);
                            (".dark [data-chart=" +:+ id +:+ "]", set_colors true config)]
  else ChartStyle id config = Nothing.
Proof.
  intros (Hid & _)%css_safe_spec Hp. unfold ChartStyle.
  assert (Forall plain_series (colorConfig config)) as Hp'.
  { rewrite Forall_forall in *. intros x Hx. apply Hp. unfold colorConfig in Hx. by apply elem_of_Lfilter in Hx as [? _]. }
  destruct (existsb coloured config) eqn:Ec.
  - assert (colorConfig config <> []) as Hne.
    { apply existsb_exists in Ec as (x & Hx & Hcx). rewrite colorConfig_some. intros E.
      assert (In x (List.filter coloured config)) as Hf by (by apply List.filter_In). by rewrite E in Hf. }
    exists (style_html id config). split; [by destruct (colorConfig config)|].
    unfold read_css, style_html, THEMES. cbn [map join].
    rewrite (theme_rule_lines id _ false "") by done.
    change (nl +:+ ?x) with ("" +:+ nl +:+ x). rewrite (split_lines_nl "") by done.
    rewrite <- (append_nil_r (theme_rule id (colorConfig config) ("dark", ".dark"))).
    rewrite (theme_rule_lines id _ true ".dark") by done.
    rewrite (read_rule id _ false "" ("[data-chart=" +:+ id +:+ "]")) by done.
    change (read_rules None ("" :: ?x)) with (read_rules None x).
    rewrite (read_rule id _ true ".dark" (".dark [data-chart=" +:+ id +:+ "]")) by done.
    by rewrite !set_colors_all.
  - replace (colorConfig config) with ([] : ChartConfig A); [done|]. rewrite colorConfig_some.
    clear -Ec. induction config as [|kv config IH]; [done|]. cbn in Ec |- *.
    apply orb_false_iff in Ec as [-> Ec]. by apply IH.
Qed.
End Sheet.

(** * What the tooltip and the legend show *)

Section Shown.
Context `{Styling} {A : Type}.
Variable toLocaleString : value -> string.
Implicit Types (config : ChartConfig A).

(** A value React shows as a text, or not at all, and that text. *)
Definition leaf (v : value) : Prop := match v with VArr _ | VObj _ => False | _ => True end.
Definition leaf_text (v : value) : string :=
  match v with VStr s => s | VNum n => toString n | _ => "" end.

(** An item as recharts makes it: an object with its datum. *)
Definition chart_datum (item : value) : Prop :=
  exists props inner, item = VObj props /\ lookup_prop "payload" props = Some (VObj inner) /\
    leaf (get_opt "name" item) /\ leaf (get_opt "value" item).

Definition not_hidden (item : value) : bool := negb (is_str "none" (get_opt "type" item)).

(** The key an item is configured under. *)
Definition tooltip_key (p : tooltip_props (A := A)) (item : value) : string :=
  to_text (or_value (str_value (nameKey p))
    (or_value (get_opt "name" item) (or_value (get_opt "dataKey" item) (VStr "value")))).

(** The properties of an object. *)
Definition fields (v : value) : list (string * value) := match v with VObj props => props | _ => [] end.

(** The name of an item's series: the text it has under the key, or else the text
    its datum has there, or else the key itself. *)
Definition series_name (item : value) (k : string) : string :=
  match lookup_prop k (fields item) with
  | Some (VStr s) => s
  | _ => match lookup_prop k (fields (get_opt "payload" item)) with Some (VStr s) => s | _ => k end
  end.

(** The label of the series of that name, or else of the series the key names;
    names that every object inherits have none. *)
Definition series_label config (item : value) (k : string) : node A :=
  let name := series_name item k in
  match lookup_prop name config, lookup_prop k config with
  | Some i, _ => default Nothing (item_label i)
  | None, Some i => if bool_decide (name ∈ prototype_names) then Nothing else default Nothing (item_label i)
  | None, None => Nothing
  end.

(** The text of a label that is shown. *)
Definition shown_text (e : node A) : string := if node_truthy e then text e else "".

(** The caption of an item: the label of its series, or else its name. *)
Definition caption config (p : tooltip_props) (item : value) : string :=
  let label := series_label config item (tooltip_key p item) in
  if node_truthy label then text label else leaf_text (get_opt "name" item).

(** The heading of a tooltip: the label of the series its label names, or else
    that label; or, where it has a labelKey or no label, the label of the series
    of its first item. *)
Definition heading config (p : tooltip_props (A := A)) (all : list value) : string :=
  match hideLabel p, all with
  | true, _ | _, [] => ""
  | false, item :: _ =>
      match text_or (labelKey p) None, label p with
      | None, VStr s =>
          match lookup_prop s config ≫= item_label with
          | Some e => if node_truthy e then text e else s
          | None => s
          end
      | _, _ =>
          shown_text (series_label config item
            (to_text (or_value (str_value (labelKey p))
              (or_value (get_opt "dataKey" item) (or_value (get_opt "name" item) (VStr "value"))))))
      end
  end.
Definition figure (item : value) : string :=
  let v := get_opt "value" item in if truthy v then toLocaleString v else leaf_text v.

Lemma as_child_leaf v : leaf v -> exists t : node A, as_child v = Ok t /\ text t = leaf_text v.
Proof. destruct v; try done; eauto. Qed.

Lemma get_datum k props : get k (VObj props) = Ok (get_opt k (VObj props)).
Proof. cbn. by destruct (lookup_prop k props). Qed.

(** The series the code finds for an item has the label specified. *)
Lemma found_label config item k : chart_datum item ->
  label_of (getPayloadConfigFromPayload config item k) = series_label config item k.
Proof.
  intros (props & inner & -> & Hp & _). unfold getPayloadConfigFromPayload, configLabelKey, payload_payload.
  cbn [is_object string_at]. rewrite Hp. cbn [is_object string_at].
  unfold series_label, series_name. cbn [fields get_opt]. rewrite Hp. cbn [default fields].
  set (name := match lookup_prop k props with Some (VStr s) => s | _ => _ end).
  assert (match match lookup_prop k props with Some (VStr s) => Some s | _ => None end with
          | Some s => s
          | None => default k match lookup_prop k inner with Some (VStr s) => Some s | _ => None end
          end = name) as ->.
  { subst name. change (fields (id (VObj inner))) with inner.
    by destruct (lookup_prop k props) as [[]|]; destruct (lookup_prop k inner) as [[]|]. }
  unfold config_has, config_get. destruct (lookup_prop name config) as [i|]; [done|].
  case_bool_decide; destruct (lookup_prop k config) as [i|]; try done. by case_bool_decide.
Qed.

Lemma heading_shown config p all : labelFormatter p = None -> payload p = Some all ->
  Forall chart_datum all -> text (tooltip_label config p) = heading config p all.
Proof.
  intros Hf Hp Hd. unfold tooltip_label, heading. rewrite Hp, Hf.
  destruct (hideLabel p); [by destruct all|]. destruct all as [|item all]; [done|].
  apply Forall_inv in Hd as Hi.
  assert (forall e : node A, text (if node_truthy e then
    El "div" [("className", AStr (cn [CStr "font-medium"; copt (labelClassName p)]))] [e] else Nothing) = shown_text e) as Hw.
  { intros e. unfold shown_text. destruct (node_truthy e); [|done]. cbn. by rewrite ?append_nil_r. }
  assert (forall k, text match getPayloadConfigFromPayload config item k ≫= item_label with
    | Some e => if node_truthy e then
        El "div" [("className", AStr (cn [CStr "font-medium"; copt (labelClassName p)]))] [e] else Nothing
    | None => Nothing end = shown_text (series_label config item k)) as Hs.
  { intros k. rewrite <- (found_label config item k Hi).
    destruct (getPayloadConfigFromPayload config item k) as [[[e|] ic co th]|]; [apply Hw|done..]. }
  destruct (text_or (labelKey p) None); [apply Hs|]. destruct (label p) as [| | | |s| |]; try apply Hs.
  rewrite Hw. unfold shown_text, label_of, config_get.
  destruct (lookup_prop s config) as [[[e|] ic co th]|]; cbn [mbind option_bind item_label default].
  - change (id e) with e. destruct (node_truthy e) eqn:Ee; [by rewrite Ee|]. by destruct s.
  - by destruct s.
  - case_bool_decide; by destruct s.
Qed.

Lemma shown_data all : Forall chart_datum all -> shown_items all = Ok (List.filter not_hidden all).
Proof.
  induction 1 as [|item all (props & inner & -> & _) _ IH]; [done|].
  unfold shown_items in *. cbn [rfilter]. rewrite get_datum. cbn [rbind]. rewrite IH. done.
Qed.

Lemma concat_cons s l : String.concat "" (s :: l) = s +:+ String.concat "" l.
Proof. destruct l; [by rewrite append_nil_r|done]. Qed.

Lemma row_shows config p tl nest i item : formatter p = None -> chart_datum item ->
  exists t, tooltip_row toLocaleString config p tl nest i item = Ok t /\
    text t = (if nest then text tl else "") +:+ caption config p item +:+ figure item.
Proof.
  intros Hf (props & inner & -> & Hp & Hn & Hv). unfold tooltip_row. rewrite !get_datum, Hf. cbn [rbind].
  set (item := VObj props) in *. fold (tooltip_key p item).
  assert (get_opt "payload" item = VObj inner) as Hp' by (cbn; by rewrite Hp).
  rewrite Hp', get_datum. cbn [rbind].
  set (cfg := getPayloadConfigFromPayload config item (tooltip_key p item)).
  assert (exists c, label_or cfg (as_child (get_opt "name" item)) = Ok c /\ text c = caption config p item) as (c & Hc & Ht).
  { unfold label_or, caption. rewrite <- (found_label config item) by (by exists props, inner). fold cfg.
    destruct (node_truthy (label_of cfg)); [eauto|]. by apply as_child_leaf. }
  assert (exists c, value_cell (A := A) toLocaleString (get_opt "value" item) = Ok c /\ text c = figure item) as (v & Hv' & Htv).
  { unfold value_cell, figure. destruct (truthy (get_opt "value" item)); [|by apply as_child_leaf].
    eexists. split; [reflexivity|]. cbn. done. }
  assert (forall m, text (match icon_of cfg with Some icon => El icon [] [] | None => indicator_mark p nest m end) = "")
    as Hm by (intros m; unfold indicator_mark; destruct (icon_of cfg); [done|]; by destruct (hideIndicator p)).
  destruct (text_or (color p) None); cbn [rbind]; rewrite Hc, Hv'; cbn [rbind];
    (eexists; split; [reflexivity|]; cbn [text map]; rewrite !concat_cons, Ht, Htv, Hm; cbn [String.concat];
     rewrite !append_nil_r, append_assoc; by destruct nest).
Qed.

Lemma rows_show config p tl nest items n : formatter p = None -> Forall chart_datum items ->
  exists ts, rmap (fun x => tooltip_row toLocaleString config p tl nest x.1 x.2) (imap (fun i => pair (n + i)) items) = Ok ts /\
    String.concat "" (map text ts) =
    String.concat "" (map (fun item => (if nest then text tl else "") +:+ caption config p item +:+ figure item) items).
Proof.
  intros Hf Hd. revert n. induction Hd as [|item items Hi _ IH]; intros n; [by exists []|].
  cbn [imap rmap]. destruct (row_shows config p tl nest (n + 0) item Hf Hi) as (t & Ht & Htt).
  destruct (IH (S n)) as (ts & Hts & Htts). cbn [fst snd]. rewrite Ht. cbn [rbind].
  replace (imap ((fun i => pair (n + i)) ∘ S) items) with (imap (fun i => pair (S n + i)) items)
    by (apply imap_ext; intros i x _; cbn; by rewrite Nat.add_succ_r).
  rewrite Hts. cbn [rbind]. exists (t :: ts). split; [done|]. cbn [map]. by rewrite !concat_cons, Htt, Htts.
Qed.

(** C38. What a tooltip without formatters shows.  Outside a chart it throws.
    Inside, an inactive tooltip or one without data shows nothing.  An active one
    shows its heading once, and then for every datum that is not of type none, in
    the order of the payload, the label of its series, or its name when the series
    has none, followed by its value: formatted for the locale, or as it is when it
    is 0 or missing.  The one exception is a lone datum of type none: a tooltip
    whose indicator is not the dot then shows neither. *)
Theorem tooltip_shows config p all : formatter p = None -> labelFormatter p = None ->
  payload p = Some all -> Forall chart_datum all ->
  ChartTooltipContent toLocaleString None p = Throw (Error "useChart must be used within a <ChartContainer />") /\
  exists t, ChartTooltipContent toLocaleString (Some config) p = Ok t /\
    let items := List.filter not_hidden all in
    let shown := String.concat "" (map (fun item => caption config p item +:+ figure item) items) in
    if active p && negb (length all =? 0)%nat then
      if (length all =? 1)%nat && negb (bool_decide (indicator_prop p = Dot)) && (length items =? 0)%nat
      then text t = ""
      else text t = heading config p all +:+ shown
    else t = Nothing.
Proof.
  intros Hf Hlf Hp Hd. split; [done|]. rewrite <- (heading_shown config p all) by done.
  unfold ChartTooltipContent. cbn [useChart rbind]. rewrite Hp.
  destruct (active p); [|by eexists]. destruct all as [|item all]; [by eexists|].
  rewrite shown_data by done. cbn [rbind andb].
  set (nest := (length (item :: all) =? 1)%nat && negb (bool_decide (indicator_prop p = Dot))).
  set (items := List.filter not_hidden (item :: all)).
  assert (Forall chart_datum items) as Hi.
  { rewrite Forall_forall in *. intros x Hx. apply Hd. by apply elem_of_Lfilter in Hx as [? _]. }
  destruct (rows_show config p (tooltip_label config p) nest items 0 Hf Hi) as (ts & Hts & Htt).
  change (imap (fun i => pair (0 + i)) items) with (imap pair items) in Hts.
  rewrite Hts. cbn [rbind]. eexists. split; [reflexivity|]. cbv zeta.
  cbn [length Nat.eqb negb andb]. cbn [text map]. rewrite !concat_cons. cbn [String.concat]. rewrite append_nil_r, Htt.
  subst nest. destruct ((length (item :: all) =? 1)%nat && negb (bool_decide (indicator_prop p = Dot))) eqn:En; cbn [negb andb]; [|done].
  apply andb_true_iff in En as [En _]. assert (all = []) as -> by (by destruct all).
  subst items. cbn [List.filter]. destruct (not_hidden item); cbn; done.
Qed.
End Shown.

(** * The properties at a concrete chart *)

Section Witnesses.
#[local] Existing Instance sample_styling.

Definition demo_config : ChartConfig unit :=
  [("sent", ChartItem (Some (Text "Sent")) None (Some "#0a0") None);
   ("failed", ChartItem None None None (Some ("red", "pink")))].

Lemma chart_style_reads_witness : exists html,
  ChartStyle "chart-r1" demo_config = El "style" [("dangerouslySetInnerHTML", AStyle [("__html", html)])] [] /\
  read_css html =
    Some [("[data-chart=chart-r1]", [("sent", "#0a0"); ("failed", "red")]);
          (".dark [data-chart=chart-r1]", [("sent", "#0a0"); ("failed", "pink")])].
Proof.
  assert (Forall plain_series demo_config) as Hp.
  { apply List.Forall_cons; [|apply List.Forall_cons; [|apply List.Forall_nil]];
      (split; [reflexivity|split; [reflexivity|]]); [exact I|split; reflexivity]. }
  exact (chart_style_reads "chart-r1" demo_config eq_refl Hp).
Defined.

Definition demo_tooltip : tooltip_props (A := unit) :=
  TooltipProps true
    (Some [VObj [("dataKey", VStr "sent"); ("name", VStr "sent"); ("value", VNum (int 7)); ("payload", VObj [])];
           VObj [("dataKey", VStr "other"); ("name", VStr "other"); ("value", VNum (int 0)); ("payload", VObj [])]])
    None Dot true false VUndef None None None None None None.

Lemma tooltip_shows_witness : exists t,
  ChartTooltipContent to_text (Some demo_config) demo_tooltip = Ok t /\ text t = "Sent7other0".
Proof.
  assert (Forall chart_datum (default [] (payload demo_tooltip))) as Hd.
  { repeat constructor; eexists _, _; repeat split. }
  destruct (tooltip_shows to_text demo_config demo_tooltip _ eq_refl eq_refl eq_refl Hd) as (_ & t & Ht & Hs).
  exists t. split; [exact Ht|exact Hs].
Defined.
End Witnesses.
