(* ===== verification/Calendar.v ===== *)
(** * The date picker, the toaster and the entry point

    calendar.tsx and sonner.tsx of web/src/components/ui, and web/src/main.tsx.
    react-day-picker's own class names and the host's date formats are arguments;
    what the picker is given is a record. *)

From S2P Require Import Prelude JsNumber JsString JsValue JsDate React UiKit Types Client Store Dashboard.

Section Calendar.
Context `{Styling} {A : Type}.
(** [getDefaultClassNames()]. *)
Variable defaultClassNames : string -> string.
(** [date.toLocaleString("default", { month: "short" })] and [date.toLocaleDateString()]. *)
Variables (month_short local_date : Z -> string).
Implicit Types (props : list (string * attr A)) (children : list (node A)).

(** What react-day-picker hands to the component of a day. *)
Record day_cell : Type := DayCell { date : Z; modifiers : string -> option bool }.

(** A component of the picker; only the one of a day reads the cell. *)
Definition component : Type := day_cell -> list (string * attr A) -> list (node A) -> node A.

Record calendar_props : Type := CalendarProps {
  cal_className : option string;
  cal_classNames : list (string * string);
  cal_showOutsideDays : option bool;
  cal_captionLayout : option string;
  buttonVariant : option string;
  cal_formatters : list (string * (Z -> string));
  cal_components : list (string * component);
  cal_props : list (string * attr A)
}.

(** The props of DayPicker. *)
Record day_picker : Type := DayPicker {
  showOutsideDays : bool;
  className : string;
  captionLayout : string;
  formatters : list (string * (Z -> string));
  classNames : list (string * string);
  components : list (string * component);
  rest : list (string * attr A)
}.

(** ** The button of a day *)

Definition flag (m : string -> option bool) (n : string) : bool := default false (m n).

(** [selected && !range_start && !range_end && !range_middle]. *)
Definition selected_single (m : string -> option bool) : attr A :=
  match m "selected" with
  | None => AUndef
  | Some false => ABool false
  | Some true => ABool (negb (flag m "range_start") && negb (flag m "range_end") && negb (flag m "range_middle"))
  end.

Definition modifier_attr (m : string -> option bool) (n : string) : attr A :=
  match m n with Some b => ABool b | None => AUndef end.

Definition CalendarDayButton : component := fun day props children =>
  let m := modifiers day in
  Button
    (with_props
       [("variant", AStr "ghost"); ("size", AStr "icon"); ("data-day", AStr (local_date (date day)));
        ("data-selected-single", selected_single m);
        ("data-range-start", modifier_attr m "range_start");
        ("data-range-end", modifier_attr m "range_end");
        ("data-range-middle", modifier_attr m "range_middle");
        ("className", AStr (cn
          [CStr "data-[selected-single=true]:bg-primary data-[selected-single=true]:text-primary-foreground data-[range-middle=true]:bg-accent data-[range-middle=true]:text-accent-foreground data-[range-start=true]:bg-primary data-[range-start=true]:text-primary-foreground data-[range-end=true]:bg-primary data-[range-end=true]:text-primary-foreground group-data-[focused=true]/day:border-ring group-data-[focused=true]/day:ring-ring/50 flex aspect-square h-auto w-full min-w-(--cell-size) flex-col gap-1 font-normal leading-none data-[range-end=true]:rounded-md data-[range-middle=true]:rounded-none data-[range-start=true]:rounded-md group-data-[focused=true]/day:relative group-data-[focused=true]/day:z-10 group-data-[focused=true]/day:ring-[3px] [&>span]:text-xs [&>span]:opacity-70";
           CStr (defaultClassNames "day"); className_of props]))]
       (without ["className"] props))
    children.

(** The effect that focuses the button, with the dependency of the last render that
    ran it: whether focus is called. *)
Definition focus_effect (previous : option (option bool)) (focused : option bool) : bool :=
  negb (bool_decide (previous = Some focused)) && default false focused.

(** ** The other components *)

Definition Root : component := fun _ props children =>
  styled_except ["rootRef"] "div" [("data-slot", AStr "calendar")] [] props children.

Definition Chevron : component := fun _ props children =>
  let icon tag := styled_except ["orientation"] tag [] [CStr "size-4"] props children in
  match str_prop "orientation" props with
  | Some "left" => icon "lucide.ChevronLeftIcon"
  | Some "right" => icon "lucide.ChevronRightIcon"
  | _ => icon "lucide.ChevronDownIcon"
  end.

Definition WeekNumber : component := fun _ props children =>
  El "td" props
    [El "div" [("className", AStr "flex size-(--cell-size) items-center justify-center text-center")] children].

(** ** Calendar *)

(** The class names of the picker's parts. *)
Definition calendar_slots (variant captionLayout : string) : list (string * string) :=
    [("root", cn [CStr "w-fit";
        CStr (defaultClassNames "root")]);
     ("months", cn [CStr "relative flex flex-col gap-4 md:flex-row";
        CStr (defaultClassNames "months")]);
     ("month", cn [CStr "flex w-full flex-col gap-4";
        CStr (defaultClassNames "month")]);
     ("nav", cn [CStr "absolute inset-x-0 top-0 flex w-full items-center justify-between gap-1";
        CStr (defaultClassNames "nav")]);
     ("button_previous", cn [CStr (buttonVariants (Some variant) None None);
        CStr "h-(--cell-size) w-(--cell-size) select-none p-0 aria-disabled:opacity-50";
        CStr (defaultClassNames "button_previous")]);
     ("button_next", cn [CStr (buttonVariants (Some variant) None None);
        CStr "h-(--cell-size) w-(--cell-size) select-none p-0 aria-disabled:opacity-50";
        CStr (defaultClassNames "button_next")]);
     ("month_caption", cn [CStr "flex h-(--cell-size) w-full items-center justify-center px-(--cell-size)";
        CStr (defaultClassNames "month_caption")]);
     ("dropdowns", cn [CStr "flex h-(--cell-size) w-full items-center justify-center gap-1.5 text-sm font-medium";
        CStr (defaultClassNames "dropdowns")]);
     ("dropdown_root", cn [CStr "has-focus:border-ring border-input shadow-xs has-focus:ring-ring/50 has-focus:ring-[3px] relative rounded-md border";
        CStr (defaultClassNames "dropdown_root")]);
     ("dropdown", cn [CStr "bg-popover absolute inset-0 opacity-0";
        CStr (defaultClassNames "dropdown")]);
     ("caption_label", cn [CStr "select-none font-medium";
        CStr (if bool_decide (captionLayout = "label") then "text-sm"
                 else "[&>svg]:text-muted-foreground flex h-8 items-center gap-1 rounded-md pl-2 pr-1 text-sm [&>svg]:size-3.5");
        CStr (defaultClassNames "caption_label")]);
     ("table", "w-full border-collapse");
     ("weekdays", cn [CStr "flex";
        CStr (defaultClassNames "weekdays")]);
     ("weekday", cn [CStr "text-muted-foreground flex-1 select-none rounded-md text-[0.8rem] font-normal";
        CStr (defaultClassNames "weekday")]);
     ("week", cn [CStr "mt-2 flex w-full";
        CStr (defaultClassNames "week")]);
     ("week_number_header", cn [CStr "w-(--cell-size) select-none";
        CStr (defaultClassNames "week_number_header")]);
     ("week_number", cn [CStr "text-muted-foreground select-none text-[0.8rem]";
        CStr (defaultClassNames "week_number")]);
     ("day", cn [CStr "group/day relative aspect-square h-full w-full select-none p-0 text-center [&:first-child[data-selected=true]_button]:rounded-l-md [&:last-child[data-selected=true]_button]:rounded-r-md";
        CStr (defaultClassNames "day")]);
     ("range_start", cn [CStr "bg-accent rounded-l-md";
        CStr (defaultClassNames "range_start")]);
     ("range_middle", cn [CStr "rounded-none";
        CStr (defaultClassNames "range_middle")]);
     ("range_end", cn [CStr "bg-accent rounded-r-md";
        CStr (defaultClassNames "range_end")]);
     ("today", cn [CStr "bg-accent text-accent-foreground rounded-md data-[selected=true]:rounded-none";
        CStr (defaultClassNames "today")]);
     ("outside", cn [CStr "text-muted-foreground aria-selected:text-muted-foreground";
        CStr (defaultClassNames "outside")]);
     ("disabled", cn [CStr "text-muted-foreground opacity-50";
        CStr (defaultClassNames "disabled")]);
     ("hidden", cn [CStr "invisible";
        CStr (defaultClassNames "hidden")])].

Definition Calendar (p : calendar_props) : day_picker :=
  let layout := default "label" (cal_captionLayout p) in
  DayPicker (default true (cal_showOutsideDays p))
    (cn [CStr "bg-background group/calendar p-3 [--cell-size:2rem] [[data-slot=card-content]_&]:bg-transparent [[data-slot=popover-content]_&]:bg-transparent";
         CStr "rtl:**:[.rdp-button\_next>svg]:rotate-180"; CStr "rtl:**:[.rdp-button\_previous>svg]:rotate-180";
         copt (cal_className p)])
    layout
    (assign [("formatMonthDropdown", month_short)] (cal_formatters p))
    (assign (calendar_slots (default "ghost" (buttonVariant p)) layout) (cal_classNames p))
    (assign [("Root", Root); ("Chevron", Chevron); ("DayButton", CalendarDayButton); ("WeekNumber", WeekNumber)]
       (cal_components p))
    (cal_props p).
End Calendar.

(** ** Toaster (sonner.tsx) *)

(** [toastOptions] has the one field classNames, which is given here. *)
Definition Toaster {A} (props : list (string * attr A)) : node A :=
  El "Sonner"
    (with_props
       [("className", AStr "toaster group");
        ("toastOptions", AStyle
           [("toast", "group toast group-[.toaster]:bg-background group-[.toaster]:text-foreground group-[.toaster]:border-border group-[.toaster]:shadow-lg");
            ("description", "group-[.toast]:text-muted-foreground");
            ("actionButton", "group-[.toast]:bg-primary group-[.toast]:text-primary-foreground");
            ("cancelButton", "group-[.toast]:bg-muted group-[.toast]:text-muted-foreground")])]
       props) [].

(** ** main.tsx *)

(** The default options of the queries. *)
Record query_defaults : Type := QueryDefaults { default_retry : nat; staleTime : Z }.
Definition queryClient : query_defaults := QueryDefaults 1 1000.

(** How often a query is retried: its own option, or else the default.  [None] is
    without end. *)
Definition retries {W} (o : query_options W) : option nat :=
  match retry o with
  | Some true => None
  | Some false => Some 0%nat
  | None => Some (default_retry queryClient)
  end.

(** The tree that is rendered: there is no error boundary around the page. *)
Definition main `{Host} `{Styling} (q : dash_queries) (s : dash_state) : result (node dash_action) :=
  app <-r App q s;;
  Ok (El "StrictMode" []
        [El "QueryClientProvider" []
           [app;
            El "sonner.Toaster"
              [("theme", AStr "dark"); ("position", AStr "bottom-right"); ("richColors", ABool true);
               ("closeButton", ABool true)] []]]).

(** * Properties *)

Section Properties.
Context `{Styling} {A : Type} (defaultClassNames : string -> string) (month_short local_date : Z -> string).

Lemma slots_end variant layout : Forall (fun kv => kv.1 = "table" \/
    exists ws, kv.2 = cn (ws ++ [CStr (defaultClassNames kv.1)])) (calendar_slots defaultClassNames variant layout).
Proof.
  repeat (apply List.Forall_cons; [first [by left | right; eexists [_]; reflexivity | right; eexists [_; _]; reflexivity]|]).
  constructor.
Qed.

Lemma slots_names variant layout : NoDup (calendar_slots defaultClassNames variant layout).*1.
Proof. apply (bool_decide_eq_true_1 _). vm_compute. reflexivity. Qed.

(** The calendar extends react-day-picker and gives its caller the last word: a
    part, component or format the caller names is the caller's, every other part
    keeps the picker's own class name last (the table has none), and the
    components and the format the wrapper brings are used. *)
Theorem calendar_extends p k :
  NoDup (cal_classNames p).*1 -> NoDup (cal_components p).*1 ->
  let d := Calendar (A := A) defaultClassNames month_short local_date p in
  lookup_prop k (classNames d) =
    match lookup_prop k (cal_classNames p) with
    | Some c => Some c
    | None => lookup_prop k (calendar_slots defaultClassNames (default "ghost" (buttonVariant p)) (captionLayout d))
    end /\
  (forall c, lookup_prop k (cal_classNames p) = None -> lookup_prop k (classNames d) = Some c ->
     k = "table" \/ exists ws, c = cn (ws ++ [CStr (defaultClassNames k)])) /\
  lookup_prop k (components d) =
    match lookup_prop k (cal_components p) with
    | Some c => Some c
    | None =>
        lookup_prop k [("Root", Root); ("Chevron", Chevron);
          ("DayButton", CalendarDayButton defaultClassNames local_date); ("WeekNumber", WeekNumber)]
    end.
Proof.
  intros Hc Hk. cbn [Calendar classNames components captionLayout]. split; [by apply lookup_assign_NoDup|].
  split; [|by apply lookup_assign_NoDup]. intros c Hn. rewrite lookup_assign_NoDup, Hn by done.
  rewrite lookup_prop_Some by apply slots_names. intros Hin.
  exact (proj1 (Forall_forall _ _) (slots_end _ _) _ Hin).
Qed.

(** ** The button of a day *)

(** The range flags of a day. *)
Definition in_any_range (m : string -> option bool) : bool :=
  flag m "range_start" || flag m "range_end" || flag m "range_middle".

(** The attributes that mark a day. *)
Definition day_marks (day : day_cell) : list (string * attr A) :=
  [("data-selected-single", selected_single (modifiers day));
   ("data-range-start", modifier_attr (modifiers day) "range_start");
   ("data-range-end", modifier_attr (modifiers day) "range_end");
   ("data-range-middle", modifier_attr (modifiers day) "range_middle")].

Lemma day_attr day (props : list (string * attr A)) children : NoDup props.*1 ->
  (forall n, n ∈ (day_marks day).*1 -> attr_of n props = None) ->
  exists tag a ch, CalendarDayButton defaultClassNames local_date day props children = El tag a ch /\
    forall n, n ∈ (day_marks day).*1 -> attr_of n a = lookup_prop n (day_marks day).
Proof.
  intros Hn Ha. unfold CalendarDayButton, Button. do 3 eexists. split; [reflexivity|].
  intros n Hin. specialize (Ha n Hin). unfold attr_of, with_props in *.
  set (base := [("variant", _); _; _; _; _; _; _; _]). set (P := assign base (without ["className"] props)).
  assert (NoDup P.*1) as HP by (apply assign_NoDup, (bool_decide_eq_true_1 _); reflexivity).
  assert (n ∉ ["className"; "variant"; "size"; "asChild"]) as Hout.
  { cbn in Hin. rewrite !elem_of_cons, elem_of_nil in *. naive_solver. }
  rewrite lookup_assign_NoDup, lookup_without by (try apply without_NoDup; done).
  subst P. rewrite lookup_assign_NoDup, lookup_without, Ha by (try apply without_NoDup; set_solver).
  subst base. cbn in Hin. rewrite !elem_of_cons, elem_of_nil in Hin.
  destruct Hin as [->|[->|[->|[->|[]]]]]; reflexivity.
Qed.

Lemma Some_ABool (v : attr A) : Some v = Some (ABool true) <-> v = ABool true.
Proof. split; congruence. Qed.

Lemma modifier_attr_spec m n : modifier_attr (A := A) m n = ABool true <-> flag m n = true.
Proof. unfold modifier_attr, flag. by destruct (m n) as [[]|]. Qed.

Lemma selected_single_spec m : selected_single (A := A) m = ABool true <->
  flag m "selected" = true /\ in_any_range m = false.
Proof.
  unfold selected_single. destruct (m "selected") as [[]|] eqn:Es;
    (assert (flag m "selected" = default false (m "selected")) as -> by done); rewrite Es; cbn [default];
    [|by split; [|intros [? _]]..].
  unfold in_any_range. rewrite <- !negb_orb. split.
  - intros [= H1%negb_true_iff]. split; [done|]. by rewrite <- orb_assoc, orb_assoc.
  - intros [_ ->]. done.
Qed.

(** The marks of a day.  A day is marked as selected on its own exactly when it is
    selected and in no range, and a selected day always carries a mark: that one,
    or the one of its place in the range. *)
Theorem calendar_day_marks day (props : list (string * attr A)) children : NoDup props.*1 ->
  (forall n, n ∈ (day_marks day).*1 -> attr_of n props = None) ->
  exists tag a ch, CalendarDayButton defaultClassNames local_date day props children = El tag a ch /\
    (attr_of "data-selected-single" a = Some (ABool true) <->
       flag (modifiers day) "selected" = true /\ in_any_range (modifiers day) = false) /\
    (flag (modifiers day) "selected" = true ->
       exists n, n ∈ (day_marks day).*1 /\ attr_of n a = Some (ABool true)).
Proof.
  intros Hn Ha. destruct (day_attr day props children Hn Ha) as (tag & a & ch & He & Hm).
  exists tag, a, ch. split; [exact He|].
  assert (forall n, n ∈ (day_marks day).*1 -> lookup_prop n (day_marks day) = Some (ABool true) ->
    exists n, n ∈ (day_marks day).*1 /\ attr_of n a = Some (ABool true)) as Hmark
    by (intros n Hin Hl; exists n; by rewrite Hm).
  rewrite (Hm "data-selected-single") by (by left). cbn [lookup_prop day_marks]. decide_names.
  rewrite Some_ABool, selected_single_spec. split; [done|]. intros Hs.
  destruct (in_any_range (modifiers day)) eqn:Hr.
  - unfold in_any_range in Hr. rewrite !orb_true_iff, <- !modifier_attr_spec in Hr.
    destruct Hr as [[Hr|Hr]|Hr];
      [apply (Hmark "data-range-start")|apply (Hmark "data-range-end")|apply (Hmark "data-range-middle")];
      [by right; left| |by right; right; left| |by right; right; right; left|];
      cbn [lookup_prop day_marks]; decide_names; by rewrite Hr.
  - apply (Hmark "data-selected-single"); [by left|]. cbn [lookup_prop day_marks]. decide_names.
    by rewrite Some_ABool, selected_single_spec.
Qed.
End Properties.

(** * The properties at a concrete calendar *)

Section Witnesses.
#[local] Existing Instance sample_styling.

Definition demo_calendar : calendar_props (A := unit) :=
  CalendarProps None [("today", "ring")] None None None [] [] [].

Lemma calendar_extends_witness :
  lookup_prop "today" (classNames (Calendar id Z_to_string Z_to_string demo_calendar)) = Some "ring" /\
  lookup_prop "hidden" (classNames (Calendar id Z_to_string Z_to_string demo_calendar)) = Some "invisible hidden".
Proof.
  assert (NoDup (cal_classNames demo_calendar).*1) as H1 by (apply (bool_decide_eq_true_1 _); reflexivity).
  assert (NoDup (cal_components demo_calendar).*1) as H2 by constructor.
  split.
  - exact (proj1 (calendar_extends id Z_to_string Z_to_string demo_calendar "today" H1 H2)).
  - exact (proj1 (calendar_extends id Z_to_string Z_to_string demo_calendar "hidden" H1 H2)).
Defined.

(* The first day of a range. *)
Definition demo_day : day_cell :=
  DayCell 0 (fun n => if bool_decide (n = "selected") || bool_decide (n = "range_start") then Some true else None).

Lemma calendar_day_marks_witness : exists tag a ch,
  CalendarDayButton (A := unit) id Z_to_string demo_day [] [] = El tag a ch /\
  attr_of "data-selected-single" a <> Some (ABool true).
Proof.
  destruct (calendar_day_marks (A := unit) id Z_to_string demo_day [] [] (NoDup_nil_2) (fun _ _ => eq_refl))
    as (tag & a & ch & He & Hs & _).
  exists tag, a, ch. split; [exact He|]. intros H1. destruct (proj1 Hs H1) as [_ H2]. discriminate H2.
Defined.
End Witnesses.
