(* ===== verification/KitSurfaces.v ===== *)
(** * Surfaces and inputs of the kit (web/src/components/ui)

    Cards, tables, tabs, badges and the other containers and inputs: each wraps
    an HTML element or a Radix primitive the way UiKit does.  Where the children
    prop is spread with the others, the caller's children are the element's;
    where the wrapper writes its own, the caller's are ignored. *)

From S2P Require Import Prelude JsNumber JsString JsValue React UiKit.

Section KitSurfaces.
Context `{Styling} {A : Type}.
Implicit Types (props : list (string * attr A)) (children : list (node A)).

(** ** accordion.tsx *)

Definition Accordion props children : node A := El "AccordionPrimitive.Root" props children.

Definition AccordionItem props children : node A :=
  styled "AccordionPrimitive.Item" []
    [CStr "border-b"]
    props children.

Definition AccordionTrigger props children : node A :=
  El "AccordionPrimitive.Header" [("className", AStr "flex")]
    [styled "AccordionPrimitive.Trigger" []
       [CStr "flex flex-1 items-center justify-between py-4 text-sm font-medium cursor-pointer transition-all hover:underline text-left [&[data-state=open]>svg]:rotate-180"]
       props (children ++ [El "lucide.ChevronDown" [("className", AStr "h-4 w-4 shrink-0 text-muted-foreground transition-transform duration-200")] []])].

Definition AccordionContent props children : node A :=
  El "AccordionPrimitive.Content" (with_props
       [("className", AStr "overflow-hidden text-sm data-[state=closed]:animate-accordion-up data-[state=open]:animate-accordion-down")]
       (without ["className"] props))
    [El "div" [("className", AStr (cn [CStr "pb-4 pt-0"; className_of props]))]
       children].

(** ** alert.tsx *)

Definition alertVariants (variant : option string) : string :=
  cva "relative w-full rounded-lg border px-4 py-3 text-sm [&>svg+div]:translate-y-[-3px] [&>svg]:absolute [&>svg]:left-4 [&>svg]:top-4 [&>svg]:text-foreground [&>svg~*]:pl-7"
    (CvaConfig
      [("variant",
        [("default", "bg-background text-foreground");
         ("destructive", "border-destructive/50 text-destructive dark:border-destructive [&>svg]:text-destructive")])]
      [("variant", "default")])
    [("variant", variant)] None.

Definition Alert props children : node A :=
  styled_except ["variant"] "div" [("role", AStr "alert")]
    [CStr (alertVariants (str_prop "variant" props))]
    props children.

Definition AlertTitle props children : node A :=
  styled "h5" []
    [CStr "mb-1 font-medium leading-none tracking-tight"]
    props children.

Definition AlertDescription props children : node A :=
  styled "div" []
    [CStr "text-sm [&_p]:leading-relaxed"]
    props children.

(** ** aspect-ratio.tsx *)

Definition AspectRatio props children : node A := El "AspectRatioPrimitive.Root" props children.

(** ** avatar.tsx *)

Definition Avatar props children : node A :=
  styled "AvatarPrimitive.Root" []
    [CStr "relative flex h-10 w-10 shrink-0 overflow-hidden rounded-full"]
    props children.

Definition AvatarImage props children : node A :=
  styled "AvatarPrimitive.Image" []
    [CStr "aspect-square h-full w-full"]
    props children.

Definition AvatarFallback props children : node A :=
  styled "AvatarPrimitive.Fallback" []
    [CStr "flex h-full w-full items-center justify-center rounded-full bg-muted"]
    props children.

(** ** badge.tsx *)

Definition badgeVariants (variant : option string) : string :=
  cva "inline-flex items-center rounded-md border px-2.5 py-0.5 text-xs font-semibold transition-colors focus:outline-none focus:ring-2 focus:ring-ring focus:ring-offset-2"
    (CvaConfig
      [("variant",
        [("default", "border-transparent bg-primary text-primary-foreground shadow hover:bg-primary/80");
         ("secondary", "border-transparent bg-secondary text-secondary-foreground hover:bg-secondary/80");
         ("destructive", "border-transparent bg-destructive text-destructive-foreground shadow hover:bg-destructive/80");
         ("outline", "text-foreground")])]
      [("variant", "default")])
    [("variant", variant)] None.

Definition Badge props children : node A :=
  styled_except ["variant"] "div" []
    [CStr (badgeVariants (str_prop "variant" props))]
    props children.

(** ** breadcrumb.tsx *)

Definition Breadcrumb props children : node A :=
  El "nav" (with_props
       [("aria-label", AStr "breadcrumb")]
       props)
    children.

Definition BreadcrumbList props children : node A :=
  styled "ol" []
    [CStr "flex flex-wrap items-center gap-1.5 break-words text-sm text-muted-foreground sm:gap-2.5"]
    props children.

Definition BreadcrumbItem props children : node A :=
  styled "li" []
    [CStr "inline-flex items-center gap-1.5"]
    props children.

Definition BreadcrumbLink props children : node A :=
  styled_except ["asChild"] (if default false (bool_prop "asChild" props) then "Slot" else "a")
    []
    [CStr "transition-colors hover:text-foreground"]
    props children.

Definition BreadcrumbPage props children : node A :=
  styled "span"
    [("role", AStr "link");
     ("aria-disabled", AStr "true");
     ("aria-current", AStr "page")]
    [CStr "font-normal text-foreground"]
    props children.

Definition BreadcrumbSeparator props children : node A :=
  styled "li" [("role", AStr "presentation"); ("aria-hidden", AStr "true")]
    [CStr "[&>svg]:w-3.5 [&>svg]:h-3.5"]
    props match children with [] => [El "lucide.ChevronRight" [] []] | _ => children end.

Definition BreadcrumbEllipsis props : node A :=
  styled "span" [("role", AStr "presentation"); ("aria-hidden", AStr "true")]
    [CStr "flex h-9 w-9 items-center justify-center"]
    props
    [El "lucide.MoreHorizontal" [("className", AStr "h-4 w-4")] [];
     El "span" [("className", AStr "sr-only")]
       [Text "More"]].

(** ** card.tsx *)

Definition Card props children : node A :=
  styled "div" []
    [CStr "rounded-xl border bg-card text-card-foreground shadow"]
    props children.

Definition CardHeader props children : node A :=
  styled "div" []
    [CStr "flex flex-col space-y-1.5 p-6"]
    props children.

Definition CardTitle props children : node A :=
  styled "div" []
    [CStr "font-semibold leading-none tracking-tight"]
    props children.

Definition CardDescription props children : node A :=
  styled "div" []
    [CStr "text-sm text-muted-foreground"]
    props children.

Definition CardContent props children : node A :=
  styled "div" []
    [CStr "p-6 pt-0"]
    props children.

Definition CardFooter props children : node A :=
  styled "div" []
    [CStr "flex items-center p-6 pt-0"]
    props children.

(** ** pagination.tsx *)

Definition Pagination props children : node A :=
  styled "nav" [("role", AStr "navigation"); ("aria-label", AStr "pagination")]
    [CStr "mx-auto flex w-full justify-center"]
    props children.

Definition PaginationContent props children : node A :=
  styled "ul" []
    [CStr "flex flex-row items-center gap-1"]
    props children.

Definition PaginationItem props children : node A :=
  styled "li" []
    [CStr ""]
    props children.

Definition PaginationLink props children : node A :=
  styled_except ["isActive"; "size"] "a"
    [("aria-current", if default false (bool_prop "isActive" props) then AStr "page" else AUndef)]
    [CStr (buttonVariants (Some (if default false (bool_prop "isActive" props) then "outline" else "ghost")) (Some (default "icon" (str_prop "size" props))) None)]
    props children.

Definition PaginationPrevious props : node A :=
  PaginationLink (with_props
       [("aria-label", AStr "Go to previous page");
        ("size", AStr "default");
        ("className", AStr (cn [CStr "gap-1 pl-2.5"; className_of props]))]
       (without ["className"] props))
    [El "lucide.ChevronLeft" [("className", AStr "h-4 w-4")] [];
     El "span" []
       [Text "Previous"]].

Definition PaginationNext props : node A :=
  PaginationLink (with_props
       [("aria-label", AStr "Go to next page");
        ("size", AStr "default");
        ("className", AStr (cn [CStr "gap-1 pr-2.5"; className_of props]))]
       (without ["className"] props))
    [El "span" []
       [Text "Next"];
     El "lucide.ChevronRight" [("className", AStr "h-4 w-4")] []].

Definition PaginationEllipsis props : node A :=
  styled "span" [("aria-hidden", ABool true)]
    [CStr "flex h-9 w-9 items-center justify-center"]
    props
    [El "lucide.MoreHorizontal" [("className", AStr "h-4 w-4")] [];
     El "span" [("className", AStr "sr-only")]
       [Text "More pages"]].

(** ** radio-group.tsx *)

Definition RadioGroup props children : node A :=
  styled "RadioGroupPrimitive.Root" []
    [CStr "grid gap-2"]
    props children.

Definition RadioGroupItem props : node A :=
  styled "RadioGroupPrimitive.Item" []
    [CStr "aspect-square h-4 w-4 rounded-full border border-primary text-primary shadow cursor-pointer focus:outline-none focus-visible:ring-1 focus-visible:ring-ring disabled:cursor-not-allowed disabled:opacity-50"]
    props
    [El "RadioGroupPrimitive.Indicator" [("className", AStr "flex items-center justify-center")]
       [El "lucide.Circle" [("className", AStr "h-3.5 w-3.5 fill-primary")] []]].

(** ** resizable.tsx *)

Definition ResizablePanelGroup props children : node A :=
  styled "Group" []
    [CStr "flex h-full w-full data-[panel-group-direction=vertical]:flex-col"]
    props children.

Definition ResizablePanel props children : node A := El "Panel" props children.

Definition ResizableHandle props : node A :=
  styled_except ["withHandle"] "Separator" []
    [CStr "relative flex w-px items-center justify-center bg-border after:absolute after:inset-y-0 after:left-1/2 after:w-1 after:-translate-x-1/2 focus-visible:outline-none focus-visible:ring-1 focus-visible:ring-ring focus-visible:ring-offset-1 data-[panel-group-direction=vertical]:h-px data-[panel-group-direction=vertical]:w-full data-[panel-group-direction=vertical]:after:left-0 data-[panel-group-direction=vertical]:after:h-1 data-[panel-group-direction=vertical]:after:w-full data-[panel-group-direction=vertical]:after:-translate-y-1/2 data-[panel-group-direction=vertical]:after:translate-x-0 [&[data-panel-group-direction=vertical]>div]:rotate-90"]
    props
    [when (default false (bool_prop "withHandle" props))
       (El "div" [("className", AStr "z-10 flex h-4 w-3 items-center justify-center rounded-sm border bg-border")]
          [El "lucide.GripVertical" [("className", AStr "h-2.5 w-2.5")] []])].

(** ** separator.tsx *)

Definition Separator props children : node A :=
  styled_except ["orientation"; "decorative"] "SeparatorPrimitive.Root"
    [("decorative", prop_or "decorative" (ABool true) props);
     ("orientation", prop_or "orientation" (AStr "horizontal") props)]
    [CStr "shrink-0 bg-border";
     CStr (if bool_decide (default "horizontal" (str_prop "orientation" props) = "horizontal") then "h-[1px] w-full" else "h-full w-[1px]")]
    props children.

(** ** skeleton.tsx *)

Definition Skeleton props children : node A :=
  styled "div" []
    [CStr "animate-pulse rounded-md bg-primary/10"]
    props children.

(** ** slider.tsx *)

Definition Slider props : node A :=
  styled "SliderPrimitive.Root" []
    [CStr "relative flex w-full touch-none select-none items-center"]
    props
    [El "SliderPrimitive.Track" [("className", AStr "relative h-1.5 w-full grow overflow-hidden rounded-full bg-primary/20")]
       [El "SliderPrimitive.Range" [("className", AStr "absolute h-full bg-primary")] []];
     El "SliderPrimitive.Thumb" [("className", AStr "block h-4 w-4 rounded-full border border-primary/50 bg-background shadow transition-colors focus-visible:outline-none focus-visible:ring-1 focus-visible:ring-ring disabled:pointer-events-none disabled:opacity-50")] []].

(** ** table.tsx *)

Definition Table props children : node A :=
  El "div" [("className", AStr "relative w-full overflow-auto")]
    [styled "table" []
       [CStr "w-full caption-bottom text-sm"]
       props children].

Definition TableHeader props children : node A :=
  styled "thead" []
    [CStr "[&_tr]:border-b"]
    props children.

Definition TableBody props children : node A :=
  styled "tbody" []
    [CStr "[&_tr:last-child]:border-0"]
    props children.

Definition TableFooter props children : node A :=
  styled "tfoot" []
    [CStr "border-t bg-muted/50 font-medium [&>tr]:last:border-b-0"]
    props children.

Definition TableRow props children : node A :=
  styled "tr" []
    [CStr "border-b transition-colors hover:bg-muted/50 data-[state=selected]:bg-muted"]
    props children.

Definition TableHead props children : node A :=
  styled "th" []
    [CStr "h-10 px-2 text-left align-middle font-medium text-muted-foreground [&:has([role=checkbox])]:pr-0 [&>[role=checkbox]]:translate-y-[2px]"]
    props children.

Definition TableCell props children : node A :=
  styled "td" []
    [CStr "p-2 align-middle [&:has([role=checkbox])]:pr-0 [&>[role=checkbox]]:translate-y-[2px]"]
    props children.

Definition TableCaption props children : node A :=
  styled "caption" []
    [CStr "mt-4 text-sm text-muted-foreground"]
    props children.

(** ** tabs.tsx *)

Definition Tabs props children : node A := El "TabsPrimitive.Root" props children.

Definition TabsList props children : node A :=
  styled "TabsPrimitive.List" []
    [CStr "inline-flex h-9 items-center justify-center rounded-lg bg-muted p-1 text-muted-foreground"]
    props children.

Definition TabsTrigger props children : node A :=
  styled "TabsPrimitive.Trigger" []
    [CStr "inline-flex items-center justify-center whitespace-nowrap rounded-md px-3 py-1 text-sm font-medium ring-offset-background cursor-pointer transition-all focus-visible:outline-none focus-visible:ring-2 focus-visible:ring-ring focus-visible:ring-offset-2 disabled:pointer-events-none disabled:opacity-50 disabled:cursor-not-allowed data-[state=active]:bg-background data-[state=active]:text-foreground data-[state=active]:shadow"]
    props children.

Definition TabsContent props children : node A :=
  styled "TabsPrimitive.Content" []
    [CStr "mt-2 ring-offset-background focus-visible:outline-none focus-visible:ring-2 focus-visible:ring-ring focus-visible:ring-offset-2"]
    props children.

(** ** textarea.tsx *)

Definition Textarea props children : node A :=
  styled "textarea" []
    [CStr "flex min-h-[60px] w-full rounded-md border border-input bg-transparent px-3 py-2 text-base shadow-sm placeholder:text-muted-foreground focus-visible:outline-none focus-visible:ring-1 focus-visible:ring-ring disabled:cursor-not-allowed disabled:opacity-50 md:text-sm"]
    props children.

(** ** toggle.tsx *)

Definition toggleVariants (variant size className : option string) : string :=
  cva "inline-flex items-center justify-center gap-2 rounded-md text-sm font-medium cursor-pointer transition-colors hover:bg-muted hover:text-muted-foreground focus-visible:outline-none focus-visible:ring-1 focus-visible:ring-ring disabled:pointer-events-none disabled:opacity-50 disabled:cursor-not-allowed data-[state=on]:bg-accent data-[state=on]:text-accent-foreground [&_svg]:pointer-events-none [&_svg]:size-4 [&_svg]:shrink-0"
    (CvaConfig
      [("variant",
        [("default", "bg-transparent");
         ("outline", "border border-input bg-transparent shadow-sm hover:bg-accent hover:text-accent-foreground")]);
       ("size",
        [("default", "h-9 px-2 min-w-9");
         ("sm", "h-8 px-1.5 min-w-8");
         ("lg", "h-10 px-2.5 min-w-10")])]
      [("variant", "default"); ("size", "default")])
    [("variant", variant); ("size", size)] className.

Definition Toggle props children : node A :=
  El "TogglePrimitive.Root" (with_props
       [("className", AStr (cn [CStr (toggleVariants (str_prop "variant" props) (str_prop "size" props) (str_prop "className" props))]))]
       (without ["className"; "variant"; "size"] props))
    children.

(** ** toggle-group.tsx *)

(** The context of a toggle group: the variant and size of its root.  The
    children are functions of it, as the consumers below the provider are. *)
Record ToggleGroupContext : Type := ToggleGroupCtx {
  group_variant : option string;
  group_size : option string
}.

(** The value without a group: what createContext is given. *)
Definition ToggleGroup_default : ToggleGroupContext :=
  ToggleGroupCtx (Some "default") (Some "default").

Definition ToggleGroup props (children : ToggleGroupContext -> list (node A)) : node A :=
  styled_except ["variant"; "size"] "ToggleGroupPrimitive.Root" []
    [CStr "flex items-center justify-center gap-1"]
    props (children (ToggleGroupCtx (str_prop "variant" props) (str_prop "size" props))).

(** [a || b] of optional strings. *)
Definition or_string (a b : option string) : option string :=
  match a with None | Some "" => b | _ => a end.

Definition ToggleGroupItem (context : ToggleGroupContext) props children : node A :=
  styled_except ["variant"; "size"] "ToggleGroupPrimitive.Item" []
    [CStr (toggleVariants (or_string (group_variant context) (str_prop "variant" props))
             (or_string (group_size context) (str_prop "size" props)) None)]
    props children.

(** ** input-otp.tsx *)

Definition InputOTP props children : node A :=
  styled_except ["containerClassName"] "OTPInput"
    [("containerClassName", AStr (cn
       [CStr "flex items-center gap-2 has-[:disabled]:opacity-50";
        copt (str_prop "containerClassName" props)]))]
    [CStr "disabled:cursor-not-allowed"]
    props children.

Definition InputOTPGroup props children : node A :=
  styled "div" []
    [CStr "flex items-center"]
    props children.

(** A slot of the library's context. *)
Record otp_slot : Type := OtpSlot {
  char : option string;
  hasFakeCaret : bool;
  isActive : bool
}.

(** [index] is the prop of that name; a slot beyond the last is undefined, and
    destructuring it throws. *)
Definition InputOTPSlot (slots : list otp_slot) (index : nat) props : result (node A) :=
  match slots !! index with
  | None => Throw (TypeError "Cannot destructure property 'char' of undefined")
  | Some slot =>
      Ok (styled_except ["index"] "div" []
            [CStr "relative flex h-9 w-9 items-center justify-center border-y border-r border-input text-sm shadow-sm transition-all first:rounded-l-md first:border-l last:rounded-r-md";
             cwhen (isActive slot) "z-10 ring-1 ring-ring"]
            props
            [match char slot with Some c => Text c | None => Nothing end;
             when (hasFakeCaret slot)
               (El "div"
                  [("className", AStr "pointer-events-none absolute inset-0 flex items-center justify-center")]
                  [El "div"
                     [("className", AStr "h-4 w-px animate-caret-blink bg-foreground duration-1000")]
                     []])])
  end.

Definition InputOTPSeparator props : node A :=
  El "div" (with_props [("role", AStr "separator")] props) [El "lucide.Minus" [] []].

(** ** progress.tsx *)

Definition num_prop (name : string) props : option num :=
  match attr_of name props with Some (ANum n) => Some n | _ => None end.

(** [`translateX(-${100 - (value || 0)}%)`]. *)
Definition progress_transform (value : option num) : string :=
  "translateX(-" +:+ toString (sub (int 100) (default (int 0) value)) +:+ "%)".

Definition Progress props : node A :=
  styled_except ["value"] "ProgressPrimitive.Root" []
    [CStr "relative h-2 w-full overflow-hidden rounded-full bg-primary/20"]
    props
    [El "ProgressPrimitive.Indicator"
       [("className", AStr "h-full w-full flex-1 bg-primary transition-all");
        ("style", AStyle [("transform", progress_transform (num_prop "value" props))])]
       []].

End KitSurfaces.
