(* ===== verification/KitOverlays.v ===== *)
(** * Overlays of the kit (web/src/components/ui)

    Dialogs, sheets, drawers, popovers and tooltips over the Radix and vaul
    primitives. *)

From S2P Require Import Prelude JsNumber JsString JsValue React UiKit.

Section KitOverlays.
Context `{Styling} {A : Type}.
Implicit Types (props : list (string * attr A)) (children : list (node A)).

(** ** dialog.tsx *)

Definition Dialog props children : node A := El "DialogPrimitive.Root" props children.

Definition DialogTrigger props children : node A := El "DialogPrimitive.Trigger" props children.

Definition DialogPortal props children : node A := El "DialogPrimitive.Portal" props children.

Definition DialogClose props children : node A := El "DialogPrimitive.Close" props children.

Definition DialogOverlay props children : node A :=
  styled "DialogPrimitive.Overlay" []
    [CStr "fixed inset-0 z-50 bg-black/80  data-[state=open]:animate-in data-[state=closed]:animate-out data-[state=closed]:fade-out-0 data-[state=open]:fade-in-0"]
    props children.

Definition DialogContent props children : node A :=
  DialogPortal []
    [DialogOverlay [] [];
     styled "DialogPrimitive.Content" []
       [CStr "fixed left-[50%] top-[50%] z-50 grid w-full max-w-lg translate-x-[-50%] translate-y-[-50%] gap-4 border bg-background p-6 shadow-lg duration-200 data-[state=open]:animate-in data-[state=closed]:animate-out data-[state=closed]:fade-out-0 data-[state=open]:fade-in-0 data-[state=closed]:zoom-out-95 data-[state=open]:zoom-in-95 sm:rounded-lg"]
       props
       (children ++ [El "DialogPrimitive.Close" [("className", AStr "absolute right-4 top-4 rounded-sm opacity-70 ring-offset-background cursor-pointer transition-opacity hover:opacity-100 focus:outline-none focus:ring-2 focus:ring-ring focus:ring-offset-2 disabled:pointer-events-none data-[state=open]:bg-accent data-[state=open]:text-muted-foreground")]
          [El "lucide.X" [("className", AStr "h-4 w-4")] [];
           El "span" [("className", AStr "sr-only")]
             [Text "Close"]]])].

Definition DialogHeader props children : node A :=
  styled "div" []
    [CStr "flex flex-col space-y-1.5 text-center sm:text-left"]
    props children.

Definition DialogFooter props children : node A :=
  styled "div" []
    [CStr "flex flex-col-reverse sm:flex-row sm:justify-end sm:space-x-2"]
    props children.

Definition DialogTitle props children : node A :=
  styled "DialogPrimitive.Title" []
    [CStr "text-lg font-semibold leading-none tracking-tight"]
    props children.

Definition DialogDescription props children : node A :=
  styled "DialogPrimitive.Description" []
    [CStr "text-sm text-muted-foreground"]
    props children.

(** ** alert-dialog.tsx *)

Definition AlertDialog props children : node A := El "AlertDialogPrimitive.Root" props children.

Definition AlertDialogTrigger props children : node A := El "AlertDialogPrimitive.Trigger" props children.

Definition AlertDialogPortal props children : node A := El "AlertDialogPrimitive.Portal" props children.

Definition AlertDialogOverlay props children : node A :=
  styled "AlertDialogPrimitive.Overlay" []
    [CStr "fixed inset-0 z-50 bg-black/80 data-[state=open]:animate-in data-[state=closed]:animate-out data-[state=closed]:fade-out-0 data-[state=open]:fade-in-0"]
    props children.

Definition AlertDialogContent props children : node A :=
  AlertDialogPortal []
    [AlertDialogOverlay [] [];
     styled "AlertDialogPrimitive.Content" []
       [CStr "fixed left-[50%] top-[50%] z-50 grid w-full max-w-lg translate-x-[-50%] translate-y-[-50%] gap-4 border bg-background p-6 shadow-lg duration-200 data-[state=open]:animate-in data-[state=closed]:animate-out data-[state=closed]:fade-out-0 data-[state=open]:fade-in-0 data-[state=closed]:zoom-out-95 data-[state=open]:zoom-in-95 sm:rounded-lg"]
       props children].

Definition AlertDialogHeader props children : node A :=
  styled "div" []
    [CStr "flex flex-col space-y-2 text-center sm:text-left"]
    props children.

Definition AlertDialogFooter props children : node A :=
  styled "div" []
    [CStr "flex flex-col-reverse sm:flex-row sm:justify-end sm:space-x-2"]
    props children.

Definition AlertDialogTitle props children : node A :=
  styled "AlertDialogPrimitive.Title" []
    [CStr "text-lg font-semibold"]
    props children.

Definition AlertDialogDescription props children : node A :=
  styled "AlertDialogPrimitive.Description" []
    [CStr "text-sm text-muted-foreground"]
    props children.

Definition AlertDialogAction props children : node A :=
  styled "AlertDialogPrimitive.Action" []
    [CStr (buttonVariants None None None)]
    props children.

Definition AlertDialogCancel props children : node A :=
  styled "AlertDialogPrimitive.Cancel" []
    [CStr (buttonVariants (Some "outline") None None);
     CStr "mt-2 sm:mt-0"]
    props children.

(** ** sheet.tsx *)

Definition Sheet props children : node A := El "SheetPrimitive.Root" props children.

Definition SheetTrigger props children : node A := El "SheetPrimitive.Trigger" props children.

Definition SheetClose props children : node A := El "SheetPrimitive.Close" props children.

Definition SheetPortal props children : node A := El "SheetPrimitive.Portal" props children.

Definition SheetOverlay props children : node A :=
  styled "SheetPrimitive.Overlay" []
    [CStr "fixed inset-0 z-50 bg-black/80  data-[state=open]:animate-in data-[state=closed]:animate-out data-[state=closed]:fade-out-0 data-[state=open]:fade-in-0"]
    props children.

Definition sheetVariants (side : option string) : string :=
  cva "fixed z-50 gap-4 bg-background p-6 shadow-lg transition ease-in-out data-[state=closed]:duration-300 data-[state=open]:duration-500 data-[state=open]:animate-in data-[state=closed]:animate-out"
    (CvaConfig
      [("side",
        [("top", "inset-x-0 top-0 border-b data-[state=closed]:slide-out-to-top data-[state=open]:slide-in-from-top");
         ("bottom", "inset-x-0 bottom-0 border-t data-[state=closed]:slide-out-to-bottom data-[state=open]:slide-in-from-bottom");
         ("left", "inset-y-0 left-0 h-full w-3/4 border-r data-[state=closed]:slide-out-to-left data-[state=open]:slide-in-from-left sm:max-w-sm");
         ("right", "inset-y-0 right-0 h-full w-3/4 border-l data-[state=closed]:slide-out-to-right data-[state=open]:slide-in-from-right sm:max-w-sm")])]
      [("side", "right")])
    [("side", side)] None.

Definition SheetContent props children : node A :=
  SheetPortal []
    [SheetOverlay [] [];
     styled_except ["side"] "SheetPrimitive.Content" []
       [CStr (sheetVariants (Some (default "right" (str_prop "side" props))))]
       props
       ([El "SheetPrimitive.Close" [("className", AStr "absolute right-4 top-4 rounded-sm opacity-70 ring-offset-background cursor-pointer transition-opacity hover:opacity-100 focus:outline-none focus:ring-2 focus:ring-ring focus:ring-offset-2 disabled:pointer-events-none data-[state=open]:bg-secondary")]
          [El "lucide.X" [("className", AStr "h-4 w-4")] [];
           El "span" [("className", AStr "sr-only")]
             [Text "Close"]]] ++ children)].

Definition SheetHeader props children : node A :=
  styled "div" []
    [CStr "flex flex-col space-y-2 text-center sm:text-left"]
    props children.

Definition SheetFooter props children : node A :=
  styled "div" []
    [CStr "flex flex-col-reverse sm:flex-row sm:justify-end sm:space-x-2"]
    props children.

Definition SheetTitle props children : node A :=
  styled "SheetPrimitive.Title" []
    [CStr "text-lg font-semibold text-foreground"]
    props children.

Definition SheetDescription props children : node A :=
  styled "SheetPrimitive.Description" []
    [CStr "text-sm text-muted-foreground"]
    props children.

(** ** drawer.tsx *)

Definition Drawer props children : node A :=
  El "DrawerPrimitive.Root" (with_props
       [("shouldScaleBackground", prop_or "shouldScaleBackground" (ABool true) props)]
       (without ["shouldScaleBackground"] props))
    children.

Definition DrawerTrigger props children : node A := El "DrawerPrimitive.Trigger" props children.

Definition DrawerPortal props children : node A := El "DrawerPrimitive.Portal" props children.

Definition DrawerClose props children : node A := El "DrawerPrimitive.Close" props children.

Definition DrawerOverlay props children : node A :=
  styled "DrawerPrimitive.Overlay" []
    [CStr "fixed inset-0 z-50 bg-black/80"]
    props children.

Definition DrawerContent props children : node A :=
  DrawerPortal []
    [DrawerOverlay [] [];
     styled "DrawerPrimitive.Content" []
       [CStr "fixed inset-x-0 bottom-0 z-50 mt-24 flex h-auto flex-col rounded-t-[10px] border bg-background"]
       props ([El "div" [("className", AStr "mx-auto mt-4 h-2 w-[100px] rounded-full bg-muted")] []] ++ children)].

Definition DrawerHeader props children : node A :=
  styled "div" []
    [CStr "grid gap-1.5 p-4 text-center sm:text-left"]
    props children.

Definition DrawerFooter props children : node A :=
  styled "div" []
    [CStr "mt-auto flex flex-col gap-2 p-4"]
    props children.

Definition DrawerTitle props children : node A :=
  styled "DrawerPrimitive.Title" []
    [CStr "text-lg font-semibold leading-none tracking-tight"]
    props children.

Definition DrawerDescription props children : node A :=
  styled "DrawerPrimitive.Description" []
    [CStr "text-sm text-muted-foreground"]
    props children.

(** ** popover.tsx *)

Definition Popover props children : node A := El "PopoverPrimitive.Root" props children.

Definition PopoverTrigger props children : node A := El "PopoverPrimitive.Trigger" props children.

Definition PopoverAnchor props children : node A := El "PopoverPrimitive.Anchor" props children.

Definition PopoverContent props children : node A :=
  El "PopoverPrimitive.Portal" []
    [styled_except ["align"; "sideOffset"] "PopoverPrimitive.Content"
       [("align", prop_or "align" (AStr "center") props);
        ("sideOffset", prop_or "sideOffset" (ANum (int 4)) props)]
       [CStr "z-50 w-72 rounded-md border bg-popover p-4 text-popover-foreground shadow-md outline-none data-[state=open]:animate-in data-[state=closed]:animate-out data-[state=closed]:fade-out-0 data-[state=open]:fade-in-0 data-[state=closed]:zoom-out-95 data-[state=open]:zoom-in-95 data-[side=bottom]:slide-in-from-top-2 data-[side=left]:slide-in-from-right-2 data-[side=right]:slide-in-from-left-2 data-[side=top]:slide-in-from-bottom-2 origin-(--radix-popover-content-transform-origin)"]
       props children].

(** ** hover-card.tsx *)

Definition HoverCard props children : node A := El "HoverCardPrimitive.Root" props children.

Definition HoverCardTrigger props children : node A := El "HoverCardPrimitive.Trigger" props children.

Definition HoverCardContent props children : node A :=
  styled_except ["align"; "sideOffset"] "HoverCardPrimitive.Content"
    [("align", prop_or "align" (AStr "center") props);
     ("sideOffset", prop_or "sideOffset" (ANum (int 4)) props)]
    [CStr "z-50 w-64 rounded-md border bg-popover p-4 text-popover-foreground shadow-md outline-none data-[state=open]:animate-in data-[state=closed]:animate-out data-[state=closed]:fade-out-0 data-[state=open]:fade-in-0 data-[state=closed]:zoom-out-95 data-[state=open]:zoom-in-95 data-[side=bottom]:slide-in-from-top-2 data-[side=left]:slide-in-from-right-2 data-[side=right]:slide-in-from-left-2 data-[side=top]:slide-in-from-bottom-2 origin-(--radix-hover-card-content-transform-origin)"]
    props children.

(** ** tooltip.tsx *)

Definition TooltipProvider props children : node A := El "TooltipPrimitive.Provider" props children.

Definition Tooltip props children : node A := El "TooltipPrimitive.Root" props children.

Definition TooltipTrigger props children : node A := El "TooltipPrimitive.Trigger" props children.

Definition TooltipContent props children : node A :=
  El "TooltipPrimitive.Portal" []
    [styled_except ["sideOffset"] "TooltipPrimitive.Content"
       [("sideOffset", prop_or "sideOffset" (ANum (int 4)) props)]
       [CStr "z-50 overflow-hidden rounded-md bg-primary px-3 py-1.5 text-xs text-primary-foreground animate-in fade-in-0 zoom-in-95 data-[state=closed]:animate-out data-[state=closed]:fade-out-0 data-[state=closed]:zoom-out-95 data-[side=bottom]:slide-in-from-top-2 data-[side=left]:slide-in-from-right-2 data-[side=right]:slide-in-from-left-2 data-[side=top]:slide-in-from-bottom-2 origin-(--radix-tooltip-content-transform-origin)"]
       props children].

End KitOverlays.
