(* ===== verification/KitMenus.v ===== *)
(** * Menus of the kit (web/src/components/ui)

    Context, dropdown, bar and navigation menus, and the command palette, over the
    Radix and cmdk primitives. *)

From S2P Require Import Prelude JsNumber JsString JsValue React UiKit KitOverlays.

Section KitMenus.
Context `{Styling} {A : Type}.
Implicit Types (props : list (string * attr A)) (children : list (node A)).

(** ** context-menu.tsx *)

Definition ContextMenu props children : node A := El "ContextMenuPrimitive.Root" props children.

Definition ContextMenuTrigger props children : node A := El "ContextMenuPrimitive.Trigger" props children.

Definition ContextMenuGroup props children : node A := El "ContextMenuPrimitive.Group" props children.

Definition ContextMenuPortal props children : node A := El "ContextMenuPrimitive.Portal" props children.

Definition ContextMenuSub props children : node A := El "ContextMenuPrimitive.Sub" props children.

Definition ContextMenuRadioGroup props children : node A := El "ContextMenuPrimitive.RadioGroup" props children.

Definition ContextMenuSubTrigger props children : node A :=
  styled_except ["inset"] "ContextMenuPrimitive.SubTrigger" []
    [CStr "flex cursor-default select-none items-center rounded-sm px-2 py-1.5 text-sm outline-none focus:bg-accent focus:text-accent-foreground data-[state=open]:bg-accent data-[state=open]:text-accent-foreground";
     cwhen (default false (bool_prop "inset" props)) "pl-8"]
    props (children ++ [El "lucide.ChevronRight" [("className", AStr "ml-auto h-4 w-4")] []]).

Definition ContextMenuSubContent props children : node A :=
  styled "ContextMenuPrimitive.SubContent" []
    [CStr "z-50 min-w-[8rem] overflow-hidden rounded-md border bg-popover p-1 text-popover-foreground shadow-lg data-[state=open]:animate-in data-[state=closed]:animate-out data-[state=closed]:fade-out-0 data-[state=open]:fade-in-0 data-[state=closed]:zoom-out-95 data-[state=open]:zoom-in-95 data-[side=bottom]:slide-in-from-top-2 data-[side=left]:slide-in-from-right-2 data-[side=right]:slide-in-from-left-2 data-[side=top]:slide-in-from-bottom-2 origin-(--radix-context-menu-content-transform-origin)"]
    props children.

Definition ContextMenuContent props children : node A :=
  El "ContextMenuPrimitive.Portal" []
    [styled "ContextMenuPrimitive.Content" []
       [CStr "z-50 max-h-(--radix-context-menu-content-available-height) min-w-[8rem] overflow-y-auto overflow-x-hidden rounded-md border bg-popover p-1 text-popover-foreground shadow-md data-[state=open]:animate-in data-[state=closed]:animate-out data-[state=closed]:fade-out-0 data-[state=open]:fade-in-0 data-[state=closed]:zoom-out-95 data-[state=open]:zoom-in-95 data-[side=bottom]:slide-in-from-top-2 data-[side=left]:slide-in-from-right-2 data-[side=right]:slide-in-from-left-2 data-[side=top]:slide-in-from-bottom-2 origin-(--radix-context-menu-content-transform-origin)"]
       props children].

Definition ContextMenuItem props children : node A :=
  styled_except ["inset"] "ContextMenuPrimitive.Item" []
    [CStr "relative flex cursor-default select-none items-center rounded-sm px-2 py-1.5 text-sm outline-none focus:bg-accent focus:text-accent-foreground data-[disabled]:pointer-events-none data-[disabled]:opacity-50";
     cwhen (default false (bool_prop "inset" props)) "pl-8"]
    props children.

Definition ContextMenuCheckboxItem props children : node A :=
  styled_except ["checked"] "ContextMenuPrimitive.CheckboxItem"
    [("checked", prop_or "checked" AUndef props)]
    [CStr "relative flex cursor-default select-none items-center rounded-sm py-1.5 pl-8 pr-2 text-sm outline-none focus:bg-accent focus:text-accent-foreground data-[disabled]:pointer-events-none data-[disabled]:opacity-50"]
    props
    ([El "span" [("className", AStr "absolute left-2 flex h-3.5 w-3.5 items-center justify-center")]
       [El "ContextMenuPrimitive.ItemIndicator" []
          [El "lucide.Check" [("className", AStr "h-4 w-4")] []]]] ++ children).

Definition ContextMenuRadioItem props children : node A :=
  styled "ContextMenuPrimitive.RadioItem" []
    [CStr "relative flex cursor-default select-none items-center rounded-sm py-1.5 pl-8 pr-2 text-sm outline-none focus:bg-accent focus:text-accent-foreground data-[disabled]:pointer-events-none data-[disabled]:opacity-50"]
    props
    ([El "span" [("className", AStr "absolute left-2 flex h-3.5 w-3.5 items-center justify-center")]
       [El "ContextMenuPrimitive.ItemIndicator" []
          [El "lucide.Circle" [("className", AStr "h-4 w-4 fill-current")] []]]] ++ children).

Definition ContextMenuLabel props children : node A :=
  styled_except ["inset"] "ContextMenuPrimitive.Label" []
    [CStr "px-2 py-1.5 text-sm font-semibold text-foreground";
     cwhen (default false (bool_prop "inset" props)) "pl-8"]
    props children.

Definition ContextMenuSeparator props children : node A :=
  styled "ContextMenuPrimitive.Separator" []
    [CStr "-mx-1 my-1 h-px bg-border"]
    props children.

Definition ContextMenuShortcut props children : node A :=
  styled "span" []
    [CStr "ml-auto text-xs tracking-widest text-muted-foreground"]
    props children.

(** ** dropdown-menu.tsx *)

Definition DropdownMenu props children : node A := El "DropdownMenuPrimitive.Root" props children.

Definition DropdownMenuTrigger props children : node A := El "DropdownMenuPrimitive.Trigger" props children.

Definition DropdownMenuGroup props children : node A := El "DropdownMenuPrimitive.Group" props children.

Definition DropdownMenuPortal props children : node A := El "DropdownMenuPrimitive.Portal" props children.

Definition DropdownMenuSub props children : node A := El "DropdownMenuPrimitive.Sub" props children.

Definition DropdownMenuRadioGroup props children : node A := El "DropdownMenuPrimitive.RadioGroup" props children.

Definition DropdownMenuSubTrigger props children : node A :=
  styled_except ["inset"] "DropdownMenuPrimitive.SubTrigger" []
    [CStr "flex cursor-default select-none items-center gap-2 rounded-sm px-2 py-1.5 text-sm outline-none focus:bg-accent data-[state=open]:bg-accent [&_svg]:pointer-events-none [&_svg]:size-4 [&_svg]:shrink-0";
     cwhen (default false (bool_prop "inset" props)) "pl-8"]
    props (children ++ [El "lucide.ChevronRight" [("className", AStr "ml-auto")] []]).

Definition DropdownMenuSubContent props children : node A :=
  styled "DropdownMenuPrimitive.SubContent" []
    [CStr "z-50 min-w-[8rem] overflow-hidden rounded-md border bg-popover p-1 text-popover-foreground shadow-lg data-[state=open]:animate-in data-[state=closed]:animate-out data-[state=closed]:fade-out-0 data-[state=open]:fade-in-0 data-[state=closed]:zoom-out-95 data-[state=open]:zoom-in-95 data-[side=bottom]:slide-in-from-top-2 data-[side=left]:slide-in-from-right-2 data-[side=right]:slide-in-from-left-2 data-[side=top]:slide-in-from-bottom-2 origin-(--radix-dropdown-menu-content-transform-origin)"]
    props children.

Definition DropdownMenuContent props children : node A :=
  El "DropdownMenuPrimitive.Portal" []
    [styled_except ["sideOffset"] "DropdownMenuPrimitive.Content"
       [("sideOffset", prop_or "sideOffset" (ANum (int 4)) props)]
       [CStr "z-50 max-h-[var(--radix-dropdown-menu-content-available-height)] min-w-[8rem] overflow-y-auto overflow-x-hidden rounded-md border bg-popover p-1 text-popover-foreground shadow-md";
        CStr "data-[state=open]:animate-in data-[state=closed]:animate-out data-[state=closed]:fade-out-0 data-[state=open]:fade-in-0 data-[state=closed]:zoom-out-95 data-[state=open]:zoom-in-95 data-[side=bottom]:slide-in-from-top-2 data-[side=left]:slide-in-from-right-2 data-[side=right]:slide-in-from-left-2 data-[side=top]:slide-in-from-bottom-2 origin-(--radix-dropdown-menu-content-transform-origin)"]
       props children].

Definition DropdownMenuItem props children : node A :=
  styled_except ["inset"] "DropdownMenuPrimitive.Item" []
    [CStr "relative flex cursor-default select-none items-center gap-2 rounded-sm px-2 py-1.5 text-sm outline-none transition-colors focus:bg-accent focus:text-accent-foreground data-[disabled]:pointer-events-none data-[disabled]:opacity-50 [&>svg]:size-4 [&>svg]:shrink-0";
     cwhen (default false (bool_prop "inset" props)) "pl-8"]
    props children.

Definition DropdownMenuCheckboxItem props children : node A :=
  styled_except ["checked"] "DropdownMenuPrimitive.CheckboxItem"
    [("checked", prop_or "checked" AUndef props)]
    [CStr "relative flex cursor-default select-none items-center rounded-sm py-1.5 pl-8 pr-2 text-sm outline-none transition-colors focus:bg-accent focus:text-accent-foreground data-[disabled]:pointer-events-none data-[disabled]:opacity-50"]
    props
    ([El "span" [("className", AStr "absolute left-2 flex h-3.5 w-3.5 items-center justify-center")]
       [El "DropdownMenuPrimitive.ItemIndicator" []
          [El "lucide.Check" [("className", AStr "h-4 w-4")] []]]] ++ children).

Definition DropdownMenuRadioItem props children : node A :=
  styled "DropdownMenuPrimitive.RadioItem" []
    [CStr "relative flex cursor-default select-none items-center rounded-sm py-1.5 pl-8 pr-2 text-sm outline-none transition-colors focus:bg-accent focus:text-accent-foreground data-[disabled]:pointer-events-none data-[disabled]:opacity-50"]
    props
    ([El "span" [("className", AStr "absolute left-2 flex h-3.5 w-3.5 items-center justify-center")]
       [El "DropdownMenuPrimitive.ItemIndicator" []
          [El "lucide.Circle" [("className", AStr "h-2 w-2 fill-current")] []]]] ++ children).

Definition DropdownMenuLabel props children : node A :=
  styled_except ["inset"] "DropdownMenuPrimitive.Label" []
    [CStr "px-2 py-1.5 text-sm font-semibold";
     cwhen (default false (bool_prop "inset" props)) "pl-8"]
    props children.

Definition DropdownMenuSeparator props children : node A :=
  styled "DropdownMenuPrimitive.Separator" []
    [CStr "-mx-1 my-1 h-px bg-muted"]
    props children.

Definition DropdownMenuShortcut props children : node A :=
  styled "span" []
    [CStr "ml-auto text-xs tracking-widest opacity-60"]
    props children.

(** ** menubar.tsx *)

Definition MenubarMenu props children : node A :=
  El "MenubarPrimitive.Menu" props
    children.

Definition MenubarGroup props children : node A :=
  El "MenubarPrimitive.Group" props
    children.

Definition MenubarPortal props children : node A :=
  El "MenubarPrimitive.Portal" props
    children.

Definition MenubarRadioGroup props children : node A :=
  El "MenubarPrimitive.RadioGroup" props
    children.

Definition MenubarSub props children : node A :=
  El "MenubarPrimitive.Sub" (with_props
       [("data-slot", AStr "menubar-sub")]
       props)
    children.

Definition Menubar props children : node A :=
  styled "MenubarPrimitive.Root" []
    [CStr "flex h-9 items-center space-x-1 rounded-md border bg-background p-1 shadow-sm"]
    props children.

Definition MenubarTrigger props children : node A :=
  styled "MenubarPrimitive.Trigger" []
    [CStr "flex cursor-default select-none items-center rounded-sm px-3 py-1 text-sm font-medium outline-none focus:bg-accent focus:text-accent-foreground data-[state=open]:bg-accent data-[state=open]:text-accent-foreground"]
    props children.

Definition MenubarSubTrigger props children : node A :=
  styled_except ["inset"] "MenubarPrimitive.SubTrigger" []
    [CStr "flex cursor-default select-none items-center rounded-sm px-2 py-1.5 text-sm outline-none focus:bg-accent focus:text-accent-foreground data-[state=open]:bg-accent data-[state=open]:text-accent-foreground";
     cwhen (default false (bool_prop "inset" props)) "pl-8"]
    props (children ++ [El "lucide.ChevronRight" [("className", AStr "ml-auto h-4 w-4")] []]).

Definition MenubarSubContent props children : node A :=
  styled "MenubarPrimitive.SubContent" []
    [CStr "z-50 min-w-[8rem] overflow-hidden rounded-md border bg-popover p-1 text-popover-foreground shadow-lg data-[state=open]:animate-in data-[state=closed]:animate-out data-[state=closed]:fade-out-0 data-[state=open]:fade-in-0 data-[state=closed]:zoom-out-95 data-[state=open]:zoom-in-95 data-[side=bottom]:slide-in-from-top-2 data-[side=left]:slide-in-from-right-2 data-[side=right]:slide-in-from-left-2 data-[side=top]:slide-in-from-bottom-2 origin-(--radix-menubar-content-transform-origin)"]
    props children.

Definition MenubarContent props children : node A :=
  El "MenubarPrimitive.Portal" []
    [styled_except ["align"; "alignOffset"; "sideOffset"] "MenubarPrimitive.Content"
       [("align", prop_or "align" (AStr "start") props);
        ("alignOffset", prop_or "alignOffset" (ANum (int (-4))) props);
        ("sideOffset", prop_or "sideOffset" (ANum (int 8)) props)]
       [CStr "z-50 min-w-[12rem] overflow-hidden rounded-md border bg-popover p-1 text-popover-foreground shadow-md data-[state=open]:animate-in data-[state=closed]:fade-out-0 data-[state=open]:fade-in-0 data-[state=closed]:zoom-out-95 data-[state=open]:zoom-in-95 data-[side=bottom]:slide-in-from-top-2 data-[side=left]:slide-in-from-right-2 data-[side=right]:slide-in-from-left-2 data-[side=top]:slide-in-from-bottom-2 origin-(--radix-menubar-content-transform-origin)"]
       props children].

Definition MenubarItem props children : node A :=
  styled_except ["inset"] "MenubarPrimitive.Item" []
    [CStr "relative flex cursor-default select-none items-center rounded-sm px-2 py-1.5 text-sm outline-none focus:bg-accent focus:text-accent-foreground data-[disabled]:pointer-events-none data-[disabled]:opacity-50";
     cwhen (default false (bool_prop "inset" props)) "pl-8"]
    props children.

Definition MenubarCheckboxItem props children : node A :=
  styled_except ["checked"] "MenubarPrimitive.CheckboxItem"
    [("checked", prop_or "checked" AUndef props)]
    [CStr "relative flex cursor-default select-none items-center rounded-sm py-1.5 pl-8 pr-2 text-sm outline-none focus:bg-accent focus:text-accent-foreground data-[disabled]:pointer-events-none data-[disabled]:opacity-50"]
    props
    ([El "span" [("className", AStr "absolute left-2 flex h-3.5 w-3.5 items-center justify-center")]
       [El "MenubarPrimitive.ItemIndicator" []
          [El "lucide.Check" [("className", AStr "h-4 w-4")] []]]] ++ children).

Definition MenubarRadioItem props children : node A :=
  styled "MenubarPrimitive.RadioItem" []
    [CStr "relative flex cursor-default select-none items-center rounded-sm py-1.5 pl-8 pr-2 text-sm outline-none focus:bg-accent focus:text-accent-foreground data-[disabled]:pointer-events-none data-[disabled]:opacity-50"]
    props
    ([El "span" [("className", AStr "absolute left-2 flex h-3.5 w-3.5 items-center justify-center")]
       [El "MenubarPrimitive.ItemIndicator" []
          [El "lucide.Circle" [("className", AStr "h-4 w-4 fill-current")] []]]] ++ children).

Definition MenubarLabel props children : node A :=
  styled_except ["inset"] "MenubarPrimitive.Label" []
    [CStr "px-2 py-1.5 text-sm font-semibold";
     cwhen (default false (bool_prop "inset" props)) "pl-8"]
    props children.

Definition MenubarSeparator props children : node A :=
  styled "MenubarPrimitive.Separator" []
    [CStr "-mx-1 my-1 h-px bg-muted"]
    props children.

Definition MenubarShortcut props children : node A :=
  styled "span" []
    [CStr "ml-auto text-xs tracking-widest text-muted-foreground"]
    props children.

(** ** navigation-menu.tsx *)

Definition NavigationMenuList props children : node A :=
  styled "NavigationMenuPrimitive.List" []
    [CStr "group flex flex-1 list-none items-center justify-center space-x-1"]
    props children.

Definition NavigationMenuItem props children : node A := El "NavigationMenuPrimitive.Item" props children.

Definition navigationMenuTriggerStyle : string :=
  cva "group inline-flex h-9 w-max items-center justify-center rounded-md bg-background px-4 py-2 text-sm font-medium cursor-pointer transition-colors hover:bg-accent hover:text-accent-foreground focus:bg-accent focus:text-accent-foreground focus:outline-none disabled:pointer-events-none disabled:opacity-50 disabled:cursor-not-allowed data-[state=open]:text-accent-foreground data-[state=open]:bg-accent/50 data-[state=open]:hover:bg-accent data-[state=open]:focus:bg-accent"
    (CvaConfig
      []
      [])
    [] None.

Definition NavigationMenuTrigger props children : node A :=
  styled "NavigationMenuPrimitive.Trigger" []
    [CStr (navigationMenuTriggerStyle);
     CStr "group"]
    props
    (children ++ [Text " ";
     El "lucide.ChevronDown" [("className", AStr "relative top-[1px] ml-1 h-3 w-3 transition duration-300 group-data-[state=open]:rotate-180");
        ("aria-hidden", AStr "true")]
       []]).

Definition NavigationMenuContent props children : node A :=
  styled "NavigationMenuPrimitive.Content" []
    [CStr "left-0 top-0 w-full data-[motion^=from-]:animate-in data-[motion^=to-]:animate-out data-[motion^=from-]:fade-in data-[motion^=to-]:fade-out data-[motion=from-end]:slide-in-from-right-52 data-[motion=from-start]:slide-in-from-left-52 data-[motion=to-end]:slide-out-to-right-52 data-[motion=to-start]:slide-out-to-left-52 md:absolute md:w-auto "]
    props children.

Definition NavigationMenuLink props children : node A := El "NavigationMenuPrimitive.Link" props children.

Definition NavigationMenuViewport props children : node A :=
  El "div" [("className", AStr (cn [CStr "absolute left-0 top-full flex justify-center"]))]
    [styled "NavigationMenuPrimitive.Viewport" []
       [CStr "origin-top-center relative mt-1.5 h-[var(--radix-navigation-menu-viewport-height)] w-full overflow-hidden rounded-md border bg-popover text-popover-foreground shadow data-[state=open]:animate-in data-[state=closed]:animate-out data-[state=closed]:zoom-out-95 data-[state=open]:zoom-in-90 md:w-[var(--radix-navigation-menu-viewport-width)]"]
       props children].

Definition NavigationMenu props children : node A :=
  styled "NavigationMenuPrimitive.Root" []
    [CStr "relative z-10 flex max-w-max flex-1 items-center justify-center"]
    props (children ++ [NavigationMenuViewport [] []]).

Definition NavigationMenuIndicator props : node A :=
  styled "NavigationMenuPrimitive.Indicator" []
    [CStr "top-full z-[1] flex h-1.5 items-end justify-center overflow-hidden data-[state=visible]:animate-in data-[state=hidden]:animate-out data-[state=hidden]:fade-out data-[state=visible]:fade-in"]
    props [El "div" [("className", AStr "relative top-[60%] h-2 w-2 rotate-45 rounded-tl-sm bg-border shadow-md")] []].

(** ** command.tsx *)

Definition Command props children : node A :=
  styled "CommandPrimitive" []
    [CStr "flex h-full w-full flex-col overflow-hidden rounded-md bg-popover text-popover-foreground"]
    props children.

Definition CommandDialog props children : node A :=
  Dialog props
    [DialogContent [("className", AStr "overflow-hidden p-0")]
       [Command [("className", AStr "[&_[cmdk-group-heading]]:px-2 [&_[cmdk-group-heading]]:font-medium [&_[cmdk-group-heading]]:text-muted-foreground [&_[cmdk-group]:not([hidden])_~[cmdk-group]]:pt-0 [&_[cmdk-group]]:px-2 [&_[cmdk-input-wrapper]_svg]:h-5 [&_[cmdk-input-wrapper]_svg]:w-5 [&_[cmdk-input]]:h-12 [&_[cmdk-item]]:px-2 [&_[cmdk-item]]:py-3 [&_[cmdk-item]_svg]:h-5 [&_[cmdk-item]_svg]:w-5")]
          children]].

Definition CommandInput props children : node A :=
  El "div" [("className", AStr "flex items-center border-b px-3");
     ("cmdk-input-wrapper", AStr "")]
    [El "lucide.Search" [("className", AStr "mr-2 h-4 w-4 shrink-0 opacity-50")] [];
     styled "CommandPrimitive.Input" []
       [CStr "flex h-10 w-full rounded-md bg-transparent py-3 text-sm outline-none placeholder:text-muted-foreground disabled:cursor-not-allowed disabled:opacity-50"]
       props children].

Definition CommandList props children : node A :=
  styled "CommandPrimitive.List" []
    [CStr "max-h-[300px] overflow-y-auto overflow-x-hidden"]
    props children.

Definition CommandEmpty props children : node A :=
  El "CommandPrimitive.Empty" (with_props
       [("className", AStr "py-6 text-center text-sm")]
       props)
    children.

Definition CommandGroup props children : node A :=
  styled "CommandPrimitive.Group" []
    [CStr "overflow-hidden p-1 text-foreground [&_[cmdk-group-heading]]:px-2 [&_[cmdk-group-heading]]:py-1.5 [&_[cmdk-group-heading]]:text-xs [&_[cmdk-group-heading]]:font-medium [&_[cmdk-group-heading]]:text-muted-foreground"]
    props children.

Definition CommandSeparator props children : node A :=
  styled "CommandPrimitive.Separator" []
    [CStr "-mx-1 h-px bg-border"]
    props children.

Definition CommandItem props children : node A :=
  styled "CommandPrimitive.Item" []
    [CStr "relative flex cursor-default gap-2 select-none items-center rounded-sm px-2 py-1.5 text-sm outline-none data-[disabled=true]:pointer-events-none data-[selected=true]:bg-accent data-[selected=true]:text-accent-foreground data-[disabled=true]:opacity-50 [&_svg]:pointer-events-none [&_svg]:size-4 [&_svg]:shrink-0"]
    props children.

Definition CommandShortcut props children : node A :=
  styled "span" []
    [CStr "ml-auto text-xs tracking-widest text-muted-foreground"]
    props children.

End KitMenus.
