(* ===== verification/SidebarParts.v ===== *)
(** * The parts of the sidebar (web/src/components/ui/sidebar.tsx)

    The wrappers of the sidebar that only style an element.  Its state and the
    parts that use it are in Sidebar. *)

From S2P Require Import Prelude JsNumber JsString JsValue React UiKit KitSurfaces.

Section SidebarParts.
Context `{Styling} {A : Type}.
Implicit Types (props : list (string * attr A)) (children : list (node A)).

Definition SidebarInset props children : node A :=
  styled "main" []
    [CStr "relative flex w-full flex-1 flex-col bg-background";
     CStr "md:peer-data-[variant=inset]:m-2 md:peer-data-[state=collapsed]:peer-data-[variant=inset]:ml-2 md:peer-data-[variant=inset]:ml-0 md:peer-data-[variant=inset]:rounded-xl md:peer-data-[variant=inset]:shadow"]
    props children.

Definition SidebarInput props children : node A :=
  Input (with_props
       [("data-sidebar", AStr "input");
        ("className", AStr (cn [CStr "h-8 w-full bg-background shadow-none focus-visible:ring-2 focus-visible:ring-sidebar-ring"; className_of props]))]
       (without ["className"] props)).

Definition SidebarHeader props children : node A :=
  styled "div" [("data-sidebar", AStr "header")]
    [CStr "flex flex-col gap-2 p-2"]
    props children.

Definition SidebarFooter props children : node A :=
  styled "div" [("data-sidebar", AStr "footer")]
    [CStr "flex flex-col gap-2 p-2"]
    props children.

Definition SidebarSeparator props children : node A :=
  Separator (with_props
       [("data-sidebar", AStr "separator");
        ("className", AStr (cn [CStr "mx-2 w-auto bg-sidebar-border"; className_of props]))]
       (without ["className"] props))
    children.

Definition SidebarContent props children : node A :=
  styled "div" [("data-sidebar", AStr "content")]
    [CStr "flex min-h-0 flex-1 flex-col gap-2 overflow-auto group-data-[collapsible=icon]:overflow-hidden"]
    props children.

Definition SidebarGroup props children : node A :=
  styled "div" [("data-sidebar", AStr "group")]
    [CStr "relative flex w-full min-w-0 flex-col p-2"]
    props children.

Definition SidebarGroupLabel props children : node A :=
  styled_except ["asChild"] (if default false (bool_prop "asChild" props) then "Slot" else "div")
    [("data-sidebar", AStr "group-label")]
    [CStr "flex h-8 shrink-0 items-center rounded-md px-2 text-xs font-medium text-sidebar-foreground/70 outline-none ring-sidebar-ring transition-[margin,opacity] duration-200 ease-linear focus-visible:ring-2 [&>svg]:size-4 [&>svg]:shrink-0";
     CStr "group-data-[collapsible=icon]:-mt-8 group-data-[collapsible=icon]:opacity-0"]
    props children.

Definition SidebarGroupAction props children : node A :=
  styled_except ["asChild"] (if default false (bool_prop "asChild" props) then "Slot" else "button")
    [("data-sidebar", AStr "group-action")]
    [CStr "absolute right-3 top-3.5 flex aspect-square w-5 items-center justify-center rounded-md p-0 text-sidebar-foreground outline-none ring-sidebar-ring cursor-pointer transition-transform hover:bg-sidebar-accent hover:text-sidebar-accent-foreground focus-visible:ring-2 [&>svg]:size-4 [&>svg]:shrink-0";
     CStr "after:absolute after:-inset-2 after:md:hidden";
     CStr "group-data-[collapsible=icon]:hidden"]
    props children.

Definition SidebarGroupContent props children : node A :=
  styled "div" [("data-sidebar", AStr "group-content")]
    [CStr "w-full text-sm"]
    props children.

Definition SidebarMenu props children : node A :=
  styled "ul" [("data-sidebar", AStr "menu")]
    [CStr "flex w-full min-w-0 flex-col gap-1"]
    props children.

Definition SidebarMenuItem props children : node A :=
  styled "li" [("data-sidebar", AStr "menu-item")]
    [CStr "group/menu-item relative"]
    props children.

Definition sidebarMenuButtonVariants (variant size : option string) : string :=
  cva "peer/menu-button flex w-full items-center gap-2 overflow-hidden rounded-md p-2 text-left text-sm outline-none ring-sidebar-ring cursor-pointer transition-[width,height,padding] hover:bg-sidebar-accent hover:text-sidebar-accent-foreground focus-visible:ring-2 active:bg-sidebar-accent active:text-sidebar-accent-foreground disabled:pointer-events-none disabled:opacity-50 disabled:cursor-not-allowed group-has-[[data-sidebar=menu-action]]/menu-item:pr-8 aria-disabled:pointer-events-none aria-disabled:opacity-50 data-[active=true]:bg-sidebar-accent data-[active=true]:font-medium data-[active=true]:text-sidebar-accent-foreground data-[state=open]:hover:bg-sidebar-accent data-[state=open]:hover:text-sidebar-accent-foreground group-data-[collapsible=icon]:!size-8 group-data-[collapsible=icon]:!p-2 [&>span:last-child]:truncate [&>svg]:size-4 [&>svg]:shrink-0"
    (CvaConfig
      [("variant",
        [("default", "hover:bg-sidebar-accent hover:text-sidebar-accent-foreground");
         ("outline", "bg-background shadow-[0_0_0_1px_var(--sidebar-border)] hover:bg-sidebar-accent hover:text-sidebar-accent-foreground hover:shadow-[0_0_0_1px_var(--sidebar-accent)]")]);
       ("size",
        [("default", "h-8 text-sm");
         ("sm", "h-7 text-xs");
         ("lg", "h-12 text-sm group-data-[collapsible=icon]:!p-0")])]
      [("variant", "default"); ("size", "default")])
    [("variant", variant); ("size", size)] None.

Definition SidebarMenuAction props children : node A :=
  styled_except ["asChild"; "showOnHover"] (if default false (bool_prop "asChild" props) then "Slot" else "button")
    [("data-sidebar", AStr "menu-action")]
    [CStr "absolute right-1 top-1.5 flex aspect-square w-5 items-center justify-center rounded-md p-0 text-sidebar-foreground outline-none ring-sidebar-ring cursor-pointer transition-transform hover:bg-sidebar-accent hover:text-sidebar-accent-foreground focus-visible:ring-2 peer-hover/menu-button:text-sidebar-accent-foreground [&>svg]:size-4 [&>svg]:shrink-0";
     CStr "after:absolute after:-inset-2 after:md:hidden";
     CStr "peer-data-[size=sm]/menu-button:top-1";
     CStr "peer-data-[size=default]/menu-button:top-1.5";
     CStr "peer-data-[size=lg]/menu-button:top-2.5";
     CStr "group-data-[collapsible=icon]:hidden";
     cwhen (default false (bool_prop "showOnHover" props)) "group-focus-within/menu-item:opacity-100 group-hover/menu-item:opacity-100 data-[state=open]:opacity-100 peer-data-[active=true]/menu-button:text-sidebar-accent-foreground md:opacity-0"]
    props children.

Definition SidebarMenuBadge props children : node A :=
  styled "div" [("data-sidebar", AStr "menu-badge")]
    [CStr "pointer-events-none absolute right-1 flex h-5 min-w-5 select-none items-center justify-center rounded-md px-1 text-xs font-medium tabular-nums text-sidebar-foreground";
     CStr "peer-hover/menu-button:text-sidebar-accent-foreground peer-data-[active=true]/menu-button:text-sidebar-accent-foreground";
     CStr "peer-data-[size=sm]/menu-button:top-1";
     CStr "peer-data-[size=default]/menu-button:top-1.5";
     CStr "peer-data-[size=lg]/menu-button:top-2.5";
     CStr "group-data-[collapsible=icon]:hidden"]
    props children.

Definition SidebarMenuSub props children : node A :=
  styled "ul" [("data-sidebar", AStr "menu-sub")]
    [CStr "mx-3.5 flex min-w-0 translate-x-px flex-col gap-1 border-l border-sidebar-border px-2.5 py-0.5";
     CStr "group-data-[collapsible=icon]:hidden"]
    props children.

Definition SidebarMenuSubItem props children : node A :=
  El "li" props
    children.

Definition SidebarMenuSubButton props children : node A :=
  styled_except ["asChild"; "size"; "isActive"] (if default false (bool_prop "asChild" props) then "Slot" else "a")
    [("data-sidebar", AStr "menu-sub-button");
     ("data-size", prop_or "size" (AStr "md") props);
     ("data-active", prop_or "isActive" AUndef props)]
    [CStr "flex h-7 min-w-0 -translate-x-px items-center gap-2 overflow-hidden rounded-md px-2 text-sidebar-foreground outline-none ring-sidebar-ring cursor-pointer hover:bg-sidebar-accent hover:text-sidebar-accent-foreground focus-visible:ring-2 active:bg-sidebar-accent active:text-sidebar-accent-foreground disabled:pointer-events-none disabled:opacity-50 disabled:cursor-not-allowed aria-disabled:pointer-events-none aria-disabled:opacity-50 [&>span:last-child]:truncate [&>svg]:size-4 [&>svg]:shrink-0 [&>svg]:text-sidebar-accent-foreground";
     CStr "data-[active=true]:bg-sidebar-accent data-[active=true]:text-sidebar-accent-foreground";
     cwhen (bool_decide (default "md" (str_prop "size" props) = "sm")) "text-xs";
     cwhen (bool_decide (default "md" (str_prop "size" props) = "md")) "text-sm";
     CStr "group-data-[collapsible=icon]:hidden"]
    props children.
End SidebarParts.
