(* ===== verification/Kit.v ===== *)
(** * What the kit promises its callers

    The contract of the wrappers of components/ui: the element of the primitive
    takes the caller's props, also the ones the wrapper sets itself or has a
    default for, and the caller's className comes last in its class names.
    [wrappers] lists the wrappers made that way, each with its primitive, the
    defaults it adds and the props it does not pass on. *)

From S2P Require Import Prelude JsNumber JsString JsValue React UiKit KitSurfaces KitOverlays KitMenus SidebarParts.

Section Kit.
Context `{Styling} {A : Type}.
Implicit Types (props : list (string * attr A)) (children : list (node A)).

(** The attributes of the element [styled_except] renders. *)
Definition styled_attrs names (fixed : list (string * attr A)) classes props :
    list (string * attr A) :=
  with_props (("className", AStr (cn (classes ++ [className_of props]))) :: fixed)
    (without ("className" :: names) props).

Lemma styled_class names fixed classes props : NoDup props.*1 ->
  attr_of "className" (styled_attrs names fixed classes props) =
  Some (AStr (cn (classes ++ [className_of props]))).
Proof.
  intros Hn. unfold attr_of, styled_attrs, with_props. rewrite lookup_assign.
  rewrite lookup_prop_rev by (by apply without_NoDup).
  rewrite lookup_without_in by constructor. done.
Qed.

Lemma styled_forwards names fixed classes props n a : NoDup props.*1 ->
  n <> "className" -> n ∉ names -> attr_of n props = Some a ->
  attr_of n (styled_attrs names fixed classes props) = Some a.
Proof.
  intros Hn Hc Hk Ha. unfold attr_of, styled_attrs, with_props in *. rewrite lookup_assign.
  rewrite lookup_prop_rev by (by apply without_NoDup).
  rewrite lookup_without by set_solver. by rewrite Ha.
Qed.

(** A wrapper: how it renders, the element its props go to, the defaults of props
    it passes on, and the props it uses up. *)
Record wrapper : Type := Wrapper {
  wrapper_name : string;
  render : list (string * attr A) -> list (node A) -> node A;
  host : string;
  defaults : list (string * attr A);
  consumed : list string
}.

(** The first element of the host's name takes the caller's props, and the default
    of a prop that is missing or undefined. *)
Definition forwards (w : wrapper) : Prop :=
  exists own : list (string * attr A) -> list cls,
  forall props children, NoDup props.*1 ->
  exists attrs ch,
    head (elements (host w) (render w props children)) = Some (attrs, ch) /\
    attr_of "className" attrs = Some (AStr (cn (own props ++ [className_of props]))) /\
    (forall n a, n <> "className" -> n ∉ consumed w -> attr_of n props = Some a ->
      attr_of n attrs = Some match a with AUndef => default AUndef (lookup_prop n (defaults w)) | _ => a end) /\
    (forall n d, (n, d) ∈ defaults w -> attr_of n props = None -> attr_of n attrs = Some d).

Definition wrappers : list wrapper :=
  [
   Wrapper "Label" Label "LabelPrimitive.Root" [] [];
   Wrapper "Switch" (fun props _ => Switch props) "SwitchPrimitives.Root" [] [];
   Wrapper "Checkbox" (fun props _ => Checkbox props) "CheckboxPrimitive.Root" [] [];
   Wrapper "SelectTrigger" SelectTrigger "SelectPrimitive.Trigger" [] [];
   Wrapper "SelectScrollUpButton" (fun props _ => SelectScrollUpButton props) "SelectPrimitive.ScrollUpButton" [] [];
   Wrapper "SelectScrollDownButton" (fun props _ => SelectScrollDownButton props) "SelectPrimitive.ScrollDownButton" [] [];
   Wrapper "SelectLabel" SelectLabel "SelectPrimitive.Label" [] [];
   Wrapper "SelectItem" SelectItem "SelectPrimitive.Item" [] [];
   Wrapper "SelectSeparator" (fun props _ => SelectSeparator props) "SelectPrimitive.Separator" [] [];
   Wrapper "ScrollBar" (fun props _ => ScrollBar props) "ScrollAreaPrimitive.ScrollAreaScrollbar" [("orientation", AStr "vertical")] [];
   Wrapper "AccordionItem" AccordionItem "AccordionPrimitive.Item" [] [];
   Wrapper "AccordionTrigger" AccordionTrigger "AccordionPrimitive.Trigger" [] [];
   Wrapper "Alert" Alert "div" [] ["variant"];
   Wrapper "AlertTitle" AlertTitle "h5" [] [];
   Wrapper "AlertDescription" AlertDescription "div" [] [];
   Wrapper "Avatar" Avatar "AvatarPrimitive.Root" [] [];
   Wrapper "AvatarImage" AvatarImage "AvatarPrimitive.Image" [] [];
   Wrapper "AvatarFallback" AvatarFallback "AvatarPrimitive.Fallback" [] [];
   Wrapper "Badge" Badge "div" [] ["variant"];
   Wrapper "BreadcrumbList" BreadcrumbList "ol" [] [];
   Wrapper "BreadcrumbItem" BreadcrumbItem "li" [] [];
   Wrapper "BreadcrumbPage" BreadcrumbPage "span" [] [];
   Wrapper "BreadcrumbSeparator" BreadcrumbSeparator "li" [] [];
   Wrapper "BreadcrumbEllipsis" (fun props _ => BreadcrumbEllipsis props) "span" [] [];
   Wrapper "Card" Card "div" [] [];
   Wrapper "CardHeader" CardHeader "div" [] [];
   Wrapper "CardTitle" CardTitle "div" [] [];
   Wrapper "CardDescription" CardDescription "div" [] [];
   Wrapper "CardContent" CardContent "div" [] [];
   Wrapper "CardFooter" CardFooter "div" [] [];
   Wrapper "Pagination" Pagination "nav" [] [];
   Wrapper "PaginationContent" PaginationContent "ul" [] [];
   Wrapper "PaginationItem" PaginationItem "li" [] [];
   Wrapper "PaginationLink" PaginationLink "a" [] ["isActive"; "size"];
   Wrapper "PaginationEllipsis" (fun props _ => PaginationEllipsis props) "span" [] [];
   Wrapper "RadioGroup" RadioGroup "RadioGroupPrimitive.Root" [] [];
   Wrapper "RadioGroupItem" (fun props _ => RadioGroupItem props) "RadioGroupPrimitive.Item" [] [];
   Wrapper "ResizablePanelGroup" ResizablePanelGroup "Group" [] [];
   Wrapper "ResizableHandle" (fun props _ => ResizableHandle props) "Separator" [] ["withHandle"];
   Wrapper "Separator" Separator "SeparatorPrimitive.Root" [("orientation", AStr "horizontal"); ("decorative", ABool true)] [];
   Wrapper "Skeleton" Skeleton "div" [] [];
   Wrapper "Slider" (fun props _ => Slider props) "SliderPrimitive.Root" [] [];
   Wrapper "Table" Table "table" [] [];
   Wrapper "TableHeader" TableHeader "thead" [] [];
   Wrapper "TableBody" TableBody "tbody" [] [];
   Wrapper "TableFooter" TableFooter "tfoot" [] [];
   Wrapper "TableRow" TableRow "tr" [] [];
   Wrapper "TableHead" TableHead "th" [] [];
   Wrapper "TableCell" TableCell "td" [] [];
   Wrapper "TableCaption" TableCaption "caption" [] [];
   Wrapper "TabsList" TabsList "TabsPrimitive.List" [] [];
   Wrapper "TabsTrigger" TabsTrigger "TabsPrimitive.Trigger" [] [];
   Wrapper "TabsContent" TabsContent "TabsPrimitive.Content" [] [];
   Wrapper "Textarea" Textarea "textarea" [] [];
   Wrapper "InputOTP" InputOTP "OTPInput" [] ["containerClassName"];
   Wrapper "InputOTPGroup" InputOTPGroup "div" [] [];
   Wrapper "Progress" (fun props _ => Progress props) "ProgressPrimitive.Root" [] ["value"];
   Wrapper "DialogOverlay" DialogOverlay "DialogPrimitive.Overlay" [] [];
   Wrapper "DialogContent" DialogContent "DialogPrimitive.Content" [] [];
   Wrapper "DialogHeader" DialogHeader "div" [] [];
   Wrapper "DialogFooter" DialogFooter "div" [] [];
   Wrapper "DialogTitle" DialogTitle "DialogPrimitive.Title" [] [];
   Wrapper "DialogDescription" DialogDescription "DialogPrimitive.Description" [] [];
   Wrapper "AlertDialogOverlay" AlertDialogOverlay "AlertDialogPrimitive.Overlay" [] [];
   Wrapper "AlertDialogContent" AlertDialogContent "AlertDialogPrimitive.Content" [] [];
   Wrapper "AlertDialogHeader" AlertDialogHeader "div" [] [];
   Wrapper "AlertDialogFooter" AlertDialogFooter "div" [] [];
   Wrapper "AlertDialogTitle" AlertDialogTitle "AlertDialogPrimitive.Title" [] [];
   Wrapper "AlertDialogDescription" AlertDialogDescription "AlertDialogPrimitive.Description" [] [];
   Wrapper "AlertDialogAction" AlertDialogAction "AlertDialogPrimitive.Action" [] [];
   Wrapper "AlertDialogCancel" AlertDialogCancel "AlertDialogPrimitive.Cancel" [] [];
   Wrapper "SheetOverlay" SheetOverlay "SheetPrimitive.Overlay" [] [];
   Wrapper "SheetContent" SheetContent "SheetPrimitive.Content" [] ["side"];
   Wrapper "SheetHeader" SheetHeader "div" [] [];
   Wrapper "SheetFooter" SheetFooter "div" [] [];
   Wrapper "SheetTitle" SheetTitle "SheetPrimitive.Title" [] [];
   Wrapper "SheetDescription" SheetDescription "SheetPrimitive.Description" [] [];
   Wrapper "DrawerOverlay" DrawerOverlay "DrawerPrimitive.Overlay" [] [];
   Wrapper "DrawerContent" DrawerContent "DrawerPrimitive.Content" [] [];
   Wrapper "DrawerHeader" DrawerHeader "div" [] [];
   Wrapper "DrawerFooter" DrawerFooter "div" [] [];
   Wrapper "DrawerTitle" DrawerTitle "DrawerPrimitive.Title" [] [];
   Wrapper "DrawerDescription" DrawerDescription "DrawerPrimitive.Description" [] [];
   Wrapper "PopoverContent" PopoverContent "PopoverPrimitive.Content" [("align", AStr "center"); ("sideOffset", ANum (int 4))] [];
   Wrapper "HoverCardContent" HoverCardContent "HoverCardPrimitive.Content" [("align", AStr "center"); ("sideOffset", ANum (int 4))] [];
   Wrapper "TooltipContent" TooltipContent "TooltipPrimitive.Content" [("sideOffset", ANum (int 4))] [];
   Wrapper "ContextMenuSubTrigger" ContextMenuSubTrigger "ContextMenuPrimitive.SubTrigger" [] ["inset"];
   Wrapper "ContextMenuSubContent" ContextMenuSubContent "ContextMenuPrimitive.SubContent" [] [];
   Wrapper "ContextMenuContent" ContextMenuContent "ContextMenuPrimitive.Content" [] [];
   Wrapper "ContextMenuItem" ContextMenuItem "ContextMenuPrimitive.Item" [] ["inset"];
   Wrapper "ContextMenuCheckboxItem" ContextMenuCheckboxItem "ContextMenuPrimitive.CheckboxItem" [("checked", AUndef)] [];
   Wrapper "ContextMenuRadioItem" ContextMenuRadioItem "ContextMenuPrimitive.RadioItem" [] [];
   Wrapper "ContextMenuLabel" ContextMenuLabel "ContextMenuPrimitive.Label" [] ["inset"];
   Wrapper "ContextMenuSeparator" ContextMenuSeparator "ContextMenuPrimitive.Separator" [] [];
   Wrapper "ContextMenuShortcut" ContextMenuShortcut "span" [] [];
   Wrapper "DropdownMenuSubTrigger" DropdownMenuSubTrigger "DropdownMenuPrimitive.SubTrigger" [] ["inset"];
   Wrapper "DropdownMenuSubContent" DropdownMenuSubContent "DropdownMenuPrimitive.SubContent" [] [];
   Wrapper "DropdownMenuContent" DropdownMenuContent "DropdownMenuPrimitive.Content" [("sideOffset", ANum (int 4))] [];
   Wrapper "DropdownMenuItem" DropdownMenuItem "DropdownMenuPrimitive.Item" [] ["inset"];
   Wrapper "DropdownMenuCheckboxItem" DropdownMenuCheckboxItem "DropdownMenuPrimitive.CheckboxItem" [("checked", AUndef)] [];
   Wrapper "DropdownMenuRadioItem" DropdownMenuRadioItem "DropdownMenuPrimitive.RadioItem" [] [];
   Wrapper "DropdownMenuLabel" DropdownMenuLabel "DropdownMenuPrimitive.Label" [] ["inset"];
   Wrapper "DropdownMenuSeparator" DropdownMenuSeparator "DropdownMenuPrimitive.Separator" [] [];
   Wrapper "DropdownMenuShortcut" DropdownMenuShortcut "span" [] [];
   Wrapper "Menubar" Menubar "MenubarPrimitive.Root" [] [];
   Wrapper "MenubarTrigger" MenubarTrigger "MenubarPrimitive.Trigger" [] [];
   Wrapper "MenubarSubTrigger" MenubarSubTrigger "MenubarPrimitive.SubTrigger" [] ["inset"];
   Wrapper "MenubarSubContent" MenubarSubContent "MenubarPrimitive.SubContent" [] [];
   Wrapper "MenubarContent" MenubarContent "MenubarPrimitive.Content" [("align", AStr "start"); ("alignOffset", ANum (int (-4))); ("sideOffset", ANum (int 8))] [];
   Wrapper "MenubarItem" MenubarItem "MenubarPrimitive.Item" [] ["inset"];
   Wrapper "MenubarCheckboxItem" MenubarCheckboxItem "MenubarPrimitive.CheckboxItem" [("checked", AUndef)] [];
   Wrapper "MenubarRadioItem" MenubarRadioItem "MenubarPrimitive.RadioItem" [] [];
   Wrapper "MenubarLabel" MenubarLabel "MenubarPrimitive.Label" [] ["inset"];
   Wrapper "MenubarSeparator" MenubarSeparator "MenubarPrimitive.Separator" [] [];
   Wrapper "MenubarShortcut" MenubarShortcut "span" [] [];
   Wrapper "NavigationMenuList" NavigationMenuList "NavigationMenuPrimitive.List" [] [];
   Wrapper "NavigationMenuTrigger" NavigationMenuTrigger "NavigationMenuPrimitive.Trigger" [] [];
   Wrapper "NavigationMenuContent" NavigationMenuContent "NavigationMenuPrimitive.Content" [] [];
   Wrapper "NavigationMenuViewport" NavigationMenuViewport "NavigationMenuPrimitive.Viewport" [] [];
   Wrapper "NavigationMenu" NavigationMenu "NavigationMenuPrimitive.Root" [] [];
   Wrapper "NavigationMenuIndicator" (fun props _ => NavigationMenuIndicator props) "NavigationMenuPrimitive.Indicator" [] [];
   Wrapper "Command" Command "CommandPrimitive" [] [];
   Wrapper "CommandInput" CommandInput "CommandPrimitive.Input" [] [];
   Wrapper "CommandList" CommandList "CommandPrimitive.List" [] [];
   Wrapper "CommandGroup" CommandGroup "CommandPrimitive.Group" [] [];
   Wrapper "CommandSeparator" CommandSeparator "CommandPrimitive.Separator" [] [];
   Wrapper "CommandItem" CommandItem "CommandPrimitive.Item" [] [];
   Wrapper "CommandShortcut" CommandShortcut "span" [] [];
   Wrapper "SidebarInset" SidebarInset "main" [] [];
   Wrapper "SidebarHeader" SidebarHeader "div" [] [];
   Wrapper "SidebarFooter" SidebarFooter "div" [] [];
   Wrapper "SidebarContent" SidebarContent "div" [] [];
   Wrapper "SidebarGroup" SidebarGroup "div" [] [];
   Wrapper "SidebarGroupContent" SidebarGroupContent "div" [] [];
   Wrapper "SidebarMenu" SidebarMenu "ul" [] [];
   Wrapper "SidebarMenuItem" SidebarMenuItem "li" [] [];
   Wrapper "SidebarMenuBadge" SidebarMenuBadge "div" [] [];
   Wrapper "SidebarMenuSub" SidebarMenuSub "ul" [] []
  ].
End Kit.

(** A wrapper whose host is rendered by [styled_except]: it destructures the props
    with a default, which it sets, and those it uses up. *)
Lemma forwards_styled `{Styling} {A} (w : @wrapper A) fixed classes ch :
  (forall props children,
     head (elements (host w) (render w props children)) =
     Some (styled_attrs ((defaults w).*1 ++ consumed w) (fixed props) (classes props) props, ch props children)) ->
  (forall props, Forall (fun nd => nd.1 <> "className" /\ lookup_prop nd.1 (defaults w) = Some nd.2 /\
     lookup_prop nd.1 (fixed props) = Some (prop_or nd.1 nd.2 props)) (defaults w)) ->
  forwards w.
Proof.
  intros Hw Hd. exists classes. intros props children Hn. eexists _, _. split; [apply Hw|].
  split; [by apply styled_class|].
  assert (forall n d, (n, d) ∈ defaults w -> lookup_prop n (defaults w) = Some d /\
    attr_of n (styled_attrs ((defaults w).*1 ++ consumed w) (fixed props) (classes props) props) =
      Some (prop_or n d props)) as Hset.
  { intros n d Hnd. pose proof (proj1 (Forall_forall _ _) (Hd props) _ Hnd) as (Hc & Hl & Hf). split; [done|].
    unfold attr_of, styled_attrs, with_props. rewrite lookup_assign, lookup_prop_rev by (by apply without_NoDup).
    rewrite lookup_without_in by (apply list_elem_of_further, elem_of_app; left; by apply (list_elem_of_fmap_2 fst _ (n, d))).
    cbn [lookup_prop fst snd] in *. by rewrite bool_decide_false. }
  split.
  - intros n a Hc Hk Ha. destruct (decide (n ∈ (defaults w).*1)) as [Hin|Hin].
    + apply list_elem_of_fmap in Hin as ([n' d] & -> & Hnd). cbn [fst] in *.
      destruct (Hset _ _ Hnd) as [Hl ->].
      unfold prop_or. rewrite Ha, Hl. by destruct a.
    + rewrite (lookup_prop_None n (defaults w)) by done.
      rewrite (styled_forwards _ _ _ props n a) by (done || set_solver). by destruct a.
  - intros n d Hnd Ha. destruct (Hset _ _ Hnd) as [_ ->]. unfold prop_or. by rewrite Ha.
Qed.

(** The function a term applies. *)
Ltac head_of t := lazymatch t with ?f _ => head_of f | ?f => f end.

(** The wrappers that render another one around their host. *)
Ltac unfold_overlay :=
  unfold DialogPortal, DialogOverlay, AlertDialogPortal, AlertDialogOverlay, SheetPortal,
    SheetOverlay, DrawerPortal, DrawerOverlay.

(** Unfold the wrapper at hand and read off its host element. *)
Ltac forwarding :=
  eapply forwards_styled;
  [ intros; cbn [render host defaults consumed fmap list_fmap app];
    match goal with
    | |- head (elements _ ?t) = _ =>
        let f := head_of t in unfold f; unfold_overlay;
        unfold styled, styled_except; cbn [elements List.flat_map]; decide_names; reflexivity
    end
  | intros; cbn [defaults];
    repeat (apply List.Forall_cons; [split_and!; [discriminate|reflexivity|reflexivity]|]);
    apply List.Forall_nil ].

(** C39. Every wrapper of the list forwards its caller's props.  On the element of
    its primitive a prop of the caller has the caller's value, also where the
    wrapper sets one itself; a prop with a default that the caller leaves out or
    gives as undefined has the default; the caller's className is merged last.
    Only the props the list names as used up are not passed on: they choose
    classes or children of the wrapper, except that Progress loses its value. *)
Theorem wrappers_forward `{Styling} {A} : Forall (@forwards _ A) (@wrappers _ A).
Proof. unfold wrappers. repeat (apply List.Forall_cons; [forwarding|]). apply List.Forall_nil. Qed.

(** Progress keeps [value] to draw its bar: the primitive, which announces the
    progress to assistive technology, never has one. *)
Theorem progress_value_lost `{Styling} {A} (props : list (string * attr A)) : NoDup props.*1 ->
  exists attrs ch, head (elements "ProgressPrimitive.Root" (Progress props)) = Some (attrs, ch) /\
    attr_of "value" attrs = None.
Proof.
  intros Hn. eexists _, _. split; [reflexivity|]. unfold attr_of, with_props.
  rewrite lookup_assign, lookup_prop_rev by (by apply without_NoDup).
  by rewrite lookup_without_in by set_solver.
Qed.

(** The bar is moved left by what is missing to 100. *)
Example progress_40 : progress_transform (Some (int 40)) = "translateX(-60%)".
Proof. vm_compute. reflexivity. Qed.
Example progress_none : progress_transform None = "translateX(-100%)".
Proof. vm_compute. reflexivity. Qed.
(** Beyond 100 the text is no CSS transform. *)
Example progress_110 : progress_transform (Some (int 110)) = "translateX(--10%)".
Proof. vm_compute. reflexivity. Qed.
