(* ===== verification/Sidebar.v ===== *)
(** * The sidebar (web/src/components/ui/sidebar.tsx)

    The provider keeps whether the sidebar is open on a wide viewport, whether it
    is open on a narrow one, and writes the first to a cookie.  A parent may
    control the first through the props [open] and [onOpenChange].

    The handlers are closures over the render that made them: [setOpen] applies
    an update to the [open] of that render, while the update of [setOpenMobile]
    is applied by React to the current state.  So the machine keeps, beside the
    state, the render that was last committed, whose handlers the events call. *)

From S2P Require Import Prelude JsNumber JsString JsValue JsDate Effects React Types Store UiKit.
From S2P Require Import KitSurfaces KitOverlays SidebarParts.

(** ** Constants *)

Definition SIDEBAR_COOKIE_NAME : string := "sidebar_state".
Definition SIDEBAR_COOKIE_MAX_AGE : Z := 60 * 60 * 24 * 7.
Definition SIDEBAR_WIDTH : string := "16rem".
Definition SIDEBAR_WIDTH_MOBILE : string := "18rem".
Definition SIDEBAR_WIDTH_ICON : string := "3rem".
Definition SIDEBAR_KEYBOARD_SHORTCUT : string := "b".

(** ** The provider's state *)

(** The argument of a state setter: a value, or an update of the old one. *)
Inductive setter : Type :=
| Value (b : bool)
| Update (f : bool -> bool).

Definition apply_setter (v : setter) (old : bool) : bool :=
  match v with Value b => b | Update f => f old end.

(** [${SIDEBAR_COOKIE_NAME}=${openState}; path=/; max-age=${...}]. *)
Definition sidebar_cookie (openState : bool) : string :=
  SIDEBAR_COOKIE_NAME +:+ "=" +:+ (if openState then "true" else "false") +:+
  "; path=/; max-age=" +:+ Z_to_string SIDEBAR_COOKIE_MAX_AGE.

(** A keyboard event, as far as the handler reads it. *)
Record KeyboardEvent : Type := Key { key_name : string; metaKey : bool; ctrlKey : bool }.

Definition is_shortcut (e : KeyboardEvent) : bool :=
  bool_decide (key_name e = SIDEBAR_KEYBOARD_SHORTCUT) && (metaKey e || ctrlKey e).

Section Provider.
(** The parent's state, the [open] prop it passes, and the effect of its
    [onOpenChange] where it passes one. *)
Context {P : Type} (openProp : P -> option bool) (setOpenProp : option (bool -> P -> P)).

Record provider : Type := Provider {
  _open : bool;
  openMobile : bool;
  viewport : mobile_state;
  parent : P;
  cookies : list string    (* what was written to document.cookie, last first *)
}.

Definition provider_initial (defaultOpen : option bool) (p : P) : provider :=
  Provider (default true defaultOpen) false mobile_initial p [].

(** [const open = openProp ?? _open]. *)
Definition open_of (s : provider) : bool := default (_open s) (openProp (parent s)).

(** What the handlers of a render close over. *)
Record render : Type := Render { r_open : bool; r_isMobile : bool }.
Definition rendered (s : provider) : render := Render (open_of s) (useIsMobile (viewport s)).

Definition setOpen (r : render) (value : setter) (s : provider) : provider :=
  let openState := apply_setter value (r_open r) in
  let '(internal, p) :=
    match setOpenProp with
    | Some set => (_open s, set openState (parent s))
    | None => (openState, parent s)
    end in
  Provider internal (openMobile s) (viewport s) p (sidebar_cookie openState :: cookies s).

Definition setOpenMobile (value : setter) (s : provider) : provider :=
  Provider (_open s) (apply_setter value (openMobile s)) (viewport s) (parent s) (cookies s).

Definition toggleSidebar (r : render) (s : provider) : provider :=
  if r_isMobile r then setOpenMobile (Update negb) s else setOpen r (Update negb) s.

(** The listener of the window: whether it prevents the default, and the state. *)
Definition handleKeyDown (r : render) (e : KeyboardEvent) (s : provider) : bool * provider :=
  if is_shortcut e then (true, toggleSidebar r s) else (false, s).

(** *** The machine *)

(** The handlers of the context that a component below may call. *)
Inductive sidebar_call : Type :=
| SetOpen (value : setter)
| SetOpenMobile (value : setter)
| ToggleSidebar.

Definition perform (r : render) (c : sidebar_call) (s : provider) : provider :=
  match c with
  | SetOpen v => setOpen r v s
  | SetOpenMobile v => setOpenMobile v s
  | ToggleSidebar => toggleSidebar r s
  end.

Inductive sidebar_event : Type :=
| KeyDown (e : KeyboardEvent)
| Call (c : sidebar_call)
| Viewport (e : viewport_event)
| Commit.    (* React renders the state and runs the effects *)

Record sidebar : Type := SidebarState { state : provider; committed : render }.

Definition sidebar_mount (s : provider) : sidebar := SidebarState s (rendered s).

Definition sidebar_step (m : sidebar) (e : sidebar_event) : sidebar :=
  match e with
  | KeyDown k => SidebarState (handleKeyDown (committed m) k (state m)).2 (committed m)
  | Call c => SidebarState (perform (committed m) c (state m)) (committed m)
  | Viewport v =>
      SidebarState
        (Provider (_open (state m)) (openMobile (state m)) (mobile_step v (viewport (state m)))
           (parent (state m)) (cookies (state m)))
        (committed m)
  | Commit => SidebarState (state m) (rendered (state m))
  end.

Definition sidebar_run (m : sidebar) (l : list sidebar_event) : sidebar :=
  fold_left sidebar_step l m.
End Provider.

Arguments provider P : clear implicits.
Arguments sidebar P : clear implicits.

(** ** The element trees *)

(** Handlers that run one after the other. *)
Class Sequenced (A : Type) : Type := andThen : A -> A -> A.

#[export] Instance list_Sequenced {B} : Sequenced (list B) := fun a b => a ++ b.

Record SidebarContextProps (A : Type) : Type := SidebarContext {
  ctx_state : string;
  ctx_open : bool;
  ctx_setOpen : bool -> A;
  ctx_openMobile : bool;
  ctx_setOpenMobile : bool -> A;
  ctx_isMobile : bool;
  ctx_toggleSidebar : A
}.
Arguments SidebarContext {A}.
Arguments ctx_state {A}.
Arguments ctx_open {A}.
Arguments ctx_setOpen {A}.
Arguments ctx_openMobile {A}.
Arguments ctx_setOpenMobile {A}.
Arguments ctx_isMobile {A}.
Arguments ctx_toggleSidebar {A}.

(** The context is null outside a provider. *)
Definition useSidebar {A} (context : option (SidebarContextProps A)) :
    result (SidebarContextProps A) :=
  match context with
  | Some c => Ok c
  | None => Throw (Error "useSidebar must be used within a SidebarProvider.")
  end.

Section Trees.
Context `{Styling} {A : Type} `{Sequenced A}.
Implicit Types (props : list (string * attr A)) (children : list (node A)).

Definition style_prop (name : string) props : list (string * string) :=
  match attr_of name props with Some (AStyle l) => l | _ => [] end.

(** The context of a provider: [emb] makes a handler of a call. *)
Definition contextValue {P} (openProp : P -> option bool) (emb : sidebar_call -> A)
    (s : provider P) : SidebarContextProps A :=
  SidebarContext (if open_of openProp s then "expanded" else "collapsed") (open_of openProp s)
    (fun b => emb (SetOpen (Value b))) (openMobile s) (fun b => emb (SetOpenMobile (Value b)))
    (useIsMobile (viewport s)) (emb ToggleSidebar).

(** The children are components below the provider, so functions of its context. *)
Definition SidebarProvider {P} (openProp : P -> option bool) (emb : sidebar_call -> A)
    (s : provider P) props (children : option (SidebarContextProps A) -> result (list (node A))) :
    result (node A) :=
  ch <-r children (Some (contextValue openProp emb s));;
  Ok (TooltipProvider [("delayDuration", ANum (int 0))]
    [styled_except ["defaultOpen"; "open"; "onOpenChange"; "style"] "div"
       [("style", AStyle (assign [("--sidebar-width", SIDEBAR_WIDTH);
                                  ("--sidebar-width-icon", SIDEBAR_WIDTH_ICON)]
                            (style_prop "style" props)))]
       [CStr "group/sidebar-wrapper flex min-h-svh w-full has-[[data-variant=inset]]:bg-sidebar"]
       props ch]).

Definition Sidebar (context : option (SidebarContextProps A)) props children : result (node A) :=
  c <-r useSidebar context;;
  let side := default "left" (str_prop "side" props) in
  let variant := default "sidebar" (str_prop "variant" props) in
  let collapsible := default "offcanvas" (str_prop "collapsible" props) in
  let inset := bool_decide (variant = "floating") || bool_decide (variant = "inset") in
  let names := ["side"; "variant"; "collapsible"] in
  if bool_decide (collapsible = "none") then
    Ok (styled_except names "div" []
          [CStr "flex h-full w-(--sidebar-width) flex-col bg-sidebar text-sidebar-foreground"]
          props children)
  else if ctx_isMobile c then
    Ok (Sheet
      (with_props [("open", ABool (ctx_openMobile c)); ("onOpenChange", AFlag (ctx_setOpenMobile c))]
         (without ("className" :: names) props))
      [SheetContent
         [("data-sidebar", AStr "sidebar"); ("data-mobile", AStr "true");
          ("className",
           AStr "w-(--sidebar-width) bg-sidebar p-0 text-sidebar-foreground [&>button]:hidden");
          ("style", AStyle [("--sidebar-width", SIDEBAR_WIDTH_MOBILE)]);
          ("side", AStr side)]
         [SheetHeader [("className", AStr "sr-only")]
            [SheetTitle [] [Text "Sidebar"];
             SheetDescription [] [Text "Displays the mobile sidebar."]];
          El "div" [("className", AStr "flex h-full w-full flex-col")] children]])
  else
    Ok (El "div"
      [("className", AStr "group peer hidden text-sidebar-foreground md:block");
       ("data-state", AStr (ctx_state c));
       ("data-collapsible",
        AStr (if bool_decide (ctx_state c = "collapsed") then collapsible else ""));
       ("data-variant", AStr variant); ("data-side", AStr side)]
      [El "div"
         [("className", AStr (cn
            [CStr "relative w-(--sidebar-width) bg-transparent transition-[width] duration-200 ease-linear";
             CStr "group-data-[collapsible=offcanvas]:w-0";
             CStr "group-data-[side=right]:rotate-180";
             CStr (if inset
                   then "group-data-[collapsible=icon]:w-[calc(var(--sidebar-width-icon)_+_theme(spacing.4))]"
                   else "group-data-[collapsible=icon]:w-(--sidebar-width-icon)")]))] [];
       styled_except names "div" []
         [CStr "fixed inset-y-0 z-10 hidden h-svh w-(--sidebar-width) transition-[left,right,width] duration-200 ease-linear md:flex";
          CStr (if bool_decide (side = "left")
                then "left-0 group-data-[collapsible=offcanvas]:left-[calc(var(--sidebar-width)*-1)]"
                else "right-0 group-data-[collapsible=offcanvas]:right-[calc(var(--sidebar-width)*-1)]");
          CStr (if inset
                then "p-2 group-data-[collapsible=icon]:w-[calc(var(--sidebar-width-icon)_+_theme(spacing.4)_+2px)]"
                else "group-data-[collapsible=icon]:w-(--sidebar-width-icon) group-data-[side=left]:border-r group-data-[side=right]:border-l")]
         props
         [El "div"
            [("data-sidebar", AStr "sidebar");
             ("className",
              AStr "flex h-full w-full flex-col bg-sidebar group-data-[variant=floating]:rounded-lg group-data-[variant=floating]:border group-data-[variant=floating]:border-sidebar-border group-data-[variant=floating]:shadow")]
            children]]).

(** [onClick?.(event); toggleSidebar()]. *)
Definition trigger_click (c : SidebarContextProps A) props : A :=
  match click props with
  | Some a => andThen a (ctx_toggleSidebar c)
  | None => ctx_toggleSidebar c
  end.

Definition SidebarTrigger (context : option (SidebarContextProps A)) props : result (node A) :=
  c <-r useSidebar context;;
  Ok (Button
    (with_props
       [("data-sidebar", AStr "trigger"); ("variant", AStr "ghost"); ("size", AStr "icon");
        ("className", AStr (cn [CStr "h-7 w-7"; className_of props]));
        ("onClick", AAct (trigger_click c props))]
       (without ["className"; "onClick"] props))
    [El "lucide.PanelLeft" [] [];
     El "span" [("className", AStr "sr-only")] [Text "Toggle Sidebar"]]).

Definition SidebarRail (context : option (SidebarContextProps A)) props children :
    result (node A) :=
  c <-r useSidebar context;;
  Ok (styled "button"
    [("data-sidebar", AStr "rail"); ("aria-label", AStr "Toggle Sidebar");
     ("tabIndex", ANum (int (-1))); ("onClick", AAct (ctx_toggleSidebar c));
     ("title", AStr "Toggle Sidebar")]
    [CStr "absolute inset-y-0 z-20 hidden w-4 -translate-x-1/2 transition-all ease-linear after:absolute after:inset-y-0 after:left-1/2 after:w-[2px] hover:after:bg-sidebar-border group-data-[side=left]:-right-4 group-data-[side=right]:left-0 sm:flex";
     CStr "[[data-side=left]_&]:cursor-w-resize [[data-side=right]_&]:cursor-e-resize";
     CStr "[[data-side=left][data-state=collapsed]_&]:cursor-e-resize [[data-side=right][data-state=collapsed]_&]:cursor-w-resize";
     CStr "group-data-[collapsible=offcanvas]:translate-x-0 group-data-[collapsible=offcanvas]:after:left-full group-data-[collapsible=offcanvas]:hover:bg-sidebar";
     CStr "[[data-side=left][data-collapsible=offcanvas]_&]:-right-2";
     CStr "[[data-side=right][data-collapsible=offcanvas]_&]:-left-2"]
    props children).

(** The tooltip prop: a text, or the props and children of a TooltipContent. *)
Definition tooltip_prop : Type := string + (list (string * attr A) * list (node A)).

Definition SidebarMenuButton (context : option (SidebarContextProps A))
    (tooltip : option tooltip_prop) props children : result (node A) :=
  c <-r useSidebar context;;
  let variant := default "default" (str_prop "variant" props) in
  let size := default "default" (str_prop "size" props) in
  let button :=
    styled_except ["asChild"; "isActive"; "variant"; "size"; "tooltip"]
      (if default false (bool_prop "asChild" props) then "Slot" else "button")
      [("data-sidebar", AStr "menu-button"); ("data-size", AStr size);
       ("data-active", prop_or "isActive" (ABool false) props)]
      [CStr (sidebarMenuButtonVariants (Some variant) (Some size))]
      props children in
  let wrapped '(tprops, tchildren) :=
    Tooltip []
      [TooltipTrigger [("asChild", ABool true)] [button];
       TooltipContent
         (with_props
            [("side", AStr "right"); ("align", AStr "center");
             ("hidden", ABool (negb (bool_decide (ctx_state c = "collapsed")) || ctx_isMobile c))]
            tprops)
         tchildren] in
  Ok match tooltip with
     | None | Some (inl "") => button
     | Some (inl text) => wrapped ([], [Text text])
     | Some (inr tooltip) => wrapped tooltip
     end.

(** [useMemo(() => `${Math.floor(Math.random() * 40) + 50}%`, [])]: drawn when
    the skeleton mounts. *)
Definition skeleton_width `{Host} : M string :=
  n <-- random_below 40;; ret (Z_to_string (n + 50) +:+ "%").

Definition SidebarMenuSkeleton (width : string) props : node A :=
  styled_except ["showIcon"] "div" [("data-sidebar", AStr "menu-skeleton")]
    [CStr "flex h-8 items-center gap-2 rounded-md px-2"]
    props
    [when (default false (bool_prop "showIcon" props))
       (Skeleton [("className", AStr "size-4 rounded-md");
                  ("data-sidebar", AStr "menu-skeleton-icon")] []);
     Skeleton
       [("className", AStr "h-4 max-w-(--skeleton-width) flex-1");
        ("data-sidebar", AStr "menu-skeleton-text");
        ("style", AStyle [("--skeleton-width", width)])] []].
End Trees.
Arguments tooltip_prop A : clear implicits.

(** ** What the machine promises *)

(** The specification: two switches, whether the viewport is narrow, which decides
    the switch a toggle moves, whether it is being watched, and the values saved,
    last first. *)
Record view : Type := View {
  desktop : bool;
  mobile : bool;
  narrow : bool;
  watched : bool;
  saved : list bool
}.

(** The text of the cookie that saves a value. *)
Definition cookie_text (b : bool) : string :=
  if b then "sidebar_state=true; path=/; max-age=604800"
  else "sidebar_state=false; path=/; max-age=604800".

(** Ctrl+B and Meta+B. *)
Definition spec_shortcut (k : KeyboardEvent) : bool :=
  match k with
  | Key "b" true _ | Key "b" _ true => true
  | _ => false
  end.

(** What a setter is given, applied to the switch as it is. *)
Definition wish (x : setter) (old : bool) : bool :=
  match x with Value b => b | Update f => f old end.

Section Specification.
(** Whether the wide switch follows a wish: it does not where the parent holds it. *)
Variable follows : bool.

Definition spec_desktop (b : bool) (v : view) : view :=
  View (if follows then b else desktop v) (mobile v) (narrow v) (watched v) (b :: saved v).

Definition spec_mobile (b : bool) (v : view) : view :=
  View (desktop v) b (narrow v) (watched v) (saved v).

Definition spec_call (c : sidebar_call) (v : view) : view :=
  match c with
  | SetOpen x => spec_desktop (wish x (desktop v)) v
  | SetOpenMobile x => spec_mobile (wish x (mobile v)) v
  | ToggleSidebar =>
      if narrow v then spec_mobile (negb (mobile v)) v else spec_desktop (negb (desktop v)) v
  end.

Definition spec_width (w : Z) (v : view) : view :=
  View (desktop v) (mobile v) (w <? 768)%Z true (saved v).

Definition spec_step (v : view) (e : sidebar_event) : view :=
  match e with
  | KeyDown k => if spec_shortcut k then spec_call ToggleSidebar v else v
  | Call c => spec_call c v
  | Viewport (Mounted w) => spec_width w v
  | Viewport (Changed w) => if watched v then spec_width w v else v
  | Viewport Unmounted => View (desktop v) (mobile v) (narrow v) false (saved v)
  | Commit => v
  end.
End Specification.

Lemma shortcut_spec k : is_shortcut k = spec_shortcut k.
Proof.
  unfold is_shortcut, SIDEBAR_KEYBOARD_SHORTCUT. destruct k as [n m c]. cbn [key_name metaKey ctrlKey].
  case_bool_decide as E; [subst; by destruct m, c|]. cbn [andb].
  destruct n as [|a [|a' n]]; [done| |by destruct a as [[] [] [] [] [] [] [] []]].
  by destruct a as [[] [] [] [] [] [] [] []].
Qed.

Lemma cookie_spec b : sidebar_cookie b = cookie_text b.
Proof. by destruct b. Qed.

Section Machine.
Context {P : Type} (openProp : P -> option bool) (setOpenProp : option (bool -> P -> P)).

(** A provider that nobody controls, or whose parent passes both props and does
    as it is told. *)
Definition lawful : Prop :=
  (setOpenProp = None /\ forall p, openProp p = None) \/
  (exists set, setOpenProp = Some set /\ forall b p, openProp (set b p) = Some b).

(** A provider whose parent holds it: it passes [onOpenChange] and answers by no
    change of [open], which it may not pass at all, or passes [open] alone. *)
Definition held : Prop :=
  (setOpenProp = None /\ forall p, openProp p <> None) \/
  (exists set, setOpenProp = Some set /\ forall b p, openProp (set b p) = openProp p).

Definition parent_is (follows : bool) : Prop := if follows then lawful else held.

(** The state stands for the view, and the cookies are the texts of the values
    saved. *)
Definition represents (s : provider P) (v : view) : Prop :=
  open_of openProp s = desktop v /\ openMobile s = mobile v /\
  useIsMobile (viewport s) = narrow v /\ listening (viewport s) = watched v /\
  cookies s = cookie_text <$> saved v.

Definition synced (m : sidebar P) : Prop := committed m = rendered openProp (state m).

Lemma setOpen_follows follows r x s : parent_is follows ->
  open_of openProp (setOpen setOpenProp r x s) =
    if follows then apply_setter x (r_open r) else open_of openProp s.
Proof.
  unfold open_of, setOpen. destruct follows; intros [[-> Hn]|(set & -> & Hs)]; cbn [parent _open].
  - by rewrite Hn.
  - by rewrite Hs.
  - pose proof (Hn (parent s)) as Hp. by destruct (openProp (parent s)).
  - by rewrite Hs.
Qed.

Lemma setOpen_open r x s : lawful ->
  open_of openProp (setOpen setOpenProp r x s) = apply_setter x (r_open r).
Proof. apply (setOpen_follows true). Qed.

Lemma setOpen_rest r x s :
  let s' := setOpen setOpenProp r x s in
  openMobile s' = openMobile s /\ viewport s' = viewport s /\
  cookies s' = cookie_text (apply_setter x (r_open r)) :: cookies s.
Proof. unfold setOpen. rewrite <- cookie_spec. by destruct setOpenProp. Qed.

Lemma setOpen_represents follows r x s v : parent_is follows -> r_open r = desktop v -> represents s v ->
  represents (setOpen setOpenProp r x s) (spec_desktop follows (wish x (desktop v)) v).
Proof.
  intros Hl Hr (Ho & Hm & Hv & Hw & Hc). destruct (setOpen_rest r x s) as (Hm' & Hv' & Hk).
  unfold represents. rewrite (setOpen_follows follows), Hm', Hv', Hk, Hc, Hr, Ho by done.
  by destruct follows, x.
Qed.

Lemma setOpenMobile_represents x s v : represents s v ->
  represents (setOpenMobile x s) (spec_mobile (wish x (mobile v)) v).
Proof. intros (Ho & Hm & Hv & Hw & Hc). split_and!; try done. destruct x; cbn; by rewrite ?Hm. Qed.

Lemma perform_represents follows c r s v : parent_is follows -> r = rendered openProp s -> represents s v ->
  represents (perform setOpenProp r c s) (spec_call follows c v).
Proof.
  intros Hl -> Hr. pose proof Hr as (Ho & _ & Hv & _). destruct c as [x|x|]; cbn [perform spec_call].
  - by apply setOpen_represents.
  - by apply setOpenMobile_represents.
  - unfold toggleSidebar. cbn [r_isMobile rendered]. rewrite Hv. destruct (narrow v).
    + by apply (setOpenMobile_represents (Update negb)).
    + by apply (setOpen_represents _ _ (Update negb)).
Qed.

Lemma viewport_represents x s v : represents s v ->
  represents (Provider (_open s) (openMobile s) (mobile_step x (viewport s)) (parent s) (cookies s))
    (spec_step true v (Viewport x)).
Proof.
  intros (Ho & Hm & Hv & Hw & Hc). destruct x as [w|w|]; cbn [spec_step mobile_step]; [by split_and!| |by split_and!].
  rewrite <- Hw. destruct (listening (viewport s)) eqn:El; [by split_and!|].
  split_and!; try done. cbn [viewport]. congruence.
Qed.

Lemma step_represents follows e m v : parent_is follows -> synced m -> represents (state m) v ->
  represents (state (sidebar_step openProp setOpenProp m e)) (spec_step follows v e).
Proof.
  intros Hl Hs Hr. destruct e as [k|c|x|]; cbn [sidebar_step state]; [..|done].
  - unfold handleKeyDown. cbn [spec_step]. rewrite shortcut_spec.
    destruct (spec_shortcut k); cbn [snd]; [|done]. by apply (perform_represents follows ToggleSidebar).
  - by apply perform_represents.
  - by apply viewport_represents.
Qed.

(** C32. When every event is followed by a render, the provider is the pair of
    switches of the specification.  A toggle moves the switch of the viewport,
    which is narrow below 768 pixels; the setters set theirs; the shortcut is
    Ctrl+B or Meta+B and no other key, and its default is prevented; every wish
    for the wide switch, and nothing else, is saved in a cookie for 7 days.  The
    wide switch follows the wishes when nobody controls the provider or the
    parent does as it is told, and stays as it is when the parent holds it. *)
Theorem sidebar_refines follows m v es : parent_is follows -> synced m -> represents (state m) v ->
  represents (state (sidebar_run openProp setOpenProp m (List.flat_map (fun e => [e; Commit]) es)))
    (fold_left (spec_step follows) es v) /\
  forall k, (handleKeyDown setOpenProp (committed m) k (state m)).1 = spec_shortcut k.
Proof.
  intros Hl Hs Hr. split.
  - revert m v Hs Hr. induction es as [|e es IH]; intros m v Hs Hr; [done|].
    cbn [List.flat_map app sidebar_run fold_left]. apply IH; [done|].
    exact (step_represents follows e m v Hl Hs Hr).
  - intros k. unfold handleKeyDown. rewrite shortcut_spec. by destruct (spec_shortcut k).
Qed.

(** The cookies written from [s] to [s'], the last of which records [s']. *)
Definition tracked (s s' : provider P) : Prop :=
  exists written, cookies s' = written ++ cookies s /\
  match written with
  | [] => open_of openProp s' = open_of openProp s
  | c :: _ => c = cookie_text (open_of openProp s')
  end.

Lemma tracked_setOpen s s' r x : lawful -> tracked s s' ->
  tracked s (setOpen setOpenProp r x s').
Proof.
  intros Hl (w & Hw & _). destruct (setOpen_rest r x s') as (_ & _ & Hk).
  exists (cookie_text (apply_setter x (r_open r)) :: w).
  by rewrite Hk, Hw, setOpen_open.
Qed.

Lemma tracked_same s s' s'' : cookies s'' = cookies s' ->
  open_of openProp s'' = open_of openProp s' -> tracked s s' -> tracked s s''.
Proof. intros Hc Ho (w & Hw & Hm). exists w. by rewrite Hc, Ho. Qed.

Lemma tracked_toggle s s' r : lawful -> tracked s s' ->
  tracked s (toggleSidebar setOpenProp r s').
Proof.
  intros Hl Ht. unfold toggleSidebar. destruct (r_isMobile r).
  - by apply (tracked_same _ s').
  - by apply tracked_setOpen.
Qed.

(** C33. A provider that nobody controls, or whose parent passes both props and
    does as it is told, keeps its cookie: whatever happens, in whatever order
    renders come, the last cookie written has the text sidebar_state=true or
    sidebar_state=false for whether the sidebar is open, and without a write that
    has not changed.  So a reload that reads the cookie restores what is shown.
    [held_cookie] shows what happens under a parent that holds the sidebar. *)
Theorem cookie_records m es : lawful ->
  tracked (state m) (state (sidebar_run openProp setOpenProp m es)).
Proof.
  intros Hl. induction es as [|e es IH] using rev_ind; [by exists []|].
  unfold sidebar_run. rewrite fold_left_app. fold (sidebar_run openProp setOpenProp m es).
  destruct e as [k|[x|x|]|x|]; cbn [fold_left sidebar_step state perform]; [..|done].
  - unfold handleKeyDown. destruct (is_shortcut k); [by apply tracked_toggle|done].
  - by apply tracked_setOpen.
  - by apply (tracked_same _ _ _ eq_refl eq_refl) in IH.
  - by apply tracked_toggle.
  - by apply (tracked_same _ _ _ eq_refl eq_refl) in IH.
Qed.

(** Under a parent that holds the sidebar the cookie says what was wished, not
    what is shown: after a toggle on a wide viewport it is wrong. *)
Theorem held_cookie m : held -> synced m -> useIsMobile (viewport (state m)) = false ->
  let s := state (sidebar_step openProp setOpenProp m (Call ToggleSidebar)) in
  open_of openProp s = open_of openProp (state m) /\
  head (cookies s) = Some (cookie_text (negb (open_of openProp s))).
Proof.
  intros Hh Hs Hv. cbn [sidebar_step state perform]. rewrite Hs. set (r := rendered openProp (state m)).
  assert (toggleSidebar setOpenProp r (state m) = setOpen setOpenProp r (Update negb) (state m)) as ->.
  { unfold toggleSidebar. change (r_isMobile r) with (useIsMobile (viewport (state m))). by rewrite Hv. }
  cbn zeta. destruct (setOpen_rest r (Update negb) (state m)) as (_ & _ & ->).
  by rewrite (setOpen_follows false r (Update negb) (state m) Hh).
Qed.

(** Toggles called from the handlers of one render. *)
Definition toggles (n : nat) : list sidebar_event := repeat (Call ToggleSidebar) n.

Lemma toggles_S n m :
  sidebar_run openProp setOpenProp m (toggles (S n)) =
  sidebar_step openProp setOpenProp (sidebar_run openProp setOpenProp m (toggles n)) (Call ToggleSidebar).
Proof.
  unfold toggles, sidebar_run. cbn [repeat]. by rewrite repeat_cons, fold_left_app.
Qed.

Lemma toggles_committed n m : committed (sidebar_run openProp setOpenProp m (toggles n)) = committed m.
Proof. induction n as [|n IH]; [done|]. by rewrite toggles_S. Qed.

(** Toggles that come before React renders again do not add up on a wide
    viewport, where the update is applied to the [open] of the render that made
    the handler: any number of them is one.  On a narrow one they do. *)
Theorem toggles_in_one_render m n : lawful -> synced m ->
  let s := state m in
  let s' := state (sidebar_run openProp setOpenProp m (toggles n)) in
  if useIsMobile (viewport s)
  then openMobile s' = xorb (Nat.odd n) (openMobile s) /\ open_of openProp s' = open_of openProp s
  else open_of openProp s' = xorb (0 <? n)%nat (open_of openProp s) /\ openMobile s' = openMobile s.
Proof.
  intros Hl Hs. cbn zeta. induction n as [|n IH]; [by destruct (useIsMobile _), (openMobile _), (open_of _ _)|].
  rewrite toggles_S. cbn [sidebar_step state perform]. rewrite toggles_committed, Hs.
  unfold toggleSidebar. cbn [r_isMobile rendered].
  destruct (useIsMobile (viewport (state m))); destruct IH as [H1 H2].
  - split; [|done]. cbn [openMobile setOpenMobile apply_setter].
    rewrite H1, Nat.odd_succ, <- Nat.negb_odd. by destruct (Nat.odd n), (openMobile (state m)).
  - rewrite setOpen_open by done. split; [done|].
    by destruct (setOpen_rest (rendered openProp (state m)) (Update negb)
      (state (sidebar_run openProp setOpenProp m (toggles n)))) as (-> & _).
Qed.
End Machine.

(** A provider that nobody controls, mounted on a wide viewport. *)
Definition sample_provider : provider unit :=
  Provider true false (Mobile (Some false) true) () [].
Definition uncontrolled : unit -> option bool := fun _ => None.

Lemma uncontrolled_lawful : lawful uncontrolled (@None (bool -> unit -> unit)).
Proof. left. by split. Defined.

Lemma sidebar_refines_witness :
  cookies (state (sidebar_run uncontrolled None (sidebar_mount uncontrolled sample_provider)
    (List.flat_map (fun e => [e; Commit])
       [KeyDown (Key "b" false true); Viewport (Changed 500); Call ToggleSidebar; KeyDown (Key "c" false true)]))) =
  ["sidebar_state=false; path=/; max-age=604800"].
Proof.
  exact (proj2 (proj2 (proj2 (proj2 (proj1 (sidebar_refines uncontrolled None true
    (sidebar_mount uncontrolled sample_provider) (View true false false true [])
    [KeyDown (Key "b" false true); Viewport (Changed 500); Call ToggleSidebar; KeyDown (Key "c" false true)]
    uncontrolled_lawful eq_refl (conj eq_refl (conj eq_refl (conj eq_refl (conj eq_refl eq_refl)))))))))).
Defined.

Lemma cookie_records_witness :
  tracked uncontrolled sample_provider
    (state (sidebar_run uncontrolled None (sidebar_mount uncontrolled sample_provider)
       [Call ToggleSidebar; Call (SetOpen (Value true)); Commit; KeyDown (Key "b" true false)])).
Proof.
  exact (cookie_records uncontrolled None (sidebar_mount uncontrolled sample_provider)
    [Call ToggleSidebar; Call (SetOpen (Value true)); Commit; KeyDown (Key "b" true false)]
    uncontrolled_lawful).
Defined.

Lemma toggles_in_one_render_witness :
  open_of uncontrolled (state (sidebar_run uncontrolled None
    (sidebar_mount uncontrolled sample_provider) (toggles 2))) = false.
Proof.
  exact (proj1 (toggles_in_one_render uncontrolled None
    (sidebar_mount uncontrolled sample_provider) 2 uncontrolled_lawful eq_refl)).
Defined.

(** A parent that passes [onOpenChange] but not [open] freezes the sidebar on
    a wide viewport: the provider neither keeps the value itself nor is told it. *)
Theorem half_controlled {P} (set : bool -> P -> P) (m : sidebar P) es :
  open_of (fun _ => None) (state (sidebar_run (fun _ => None) (Some set) m es)) =
  open_of (fun _ => None) (state m).
Proof.
  induction es as [|e es IH] using rev_ind; [done|].
  unfold sidebar_run. rewrite fold_left_app. fold (sidebar_run (fun _ : P => None) (Some set) m es).
  rewrite <- IH. destruct e as [k|[x|x|]|x|]; cbn [fold_left sidebar_step state perform]; try done.
  - unfold handleKeyDown. destruct (is_shortcut k); [|done]. unfold toggleSidebar. cbn [snd].
    by destruct (r_isMobile _).
  - unfold toggleSidebar. by destruct (r_isMobile _).
Qed.

(** ** What the trees promise *)

Section TreeTheorems.
Context `{Styling} {A : Type} `{Sequenced A}.

(** A caller's props with or without a click handler. *)
Definition with_click (a : option A) : list (string * attr A) :=
  match a with Some a => [("onClick", AAct a)] | None => [] end.

(** Outside a provider the parts that read the context throw its error.
    Inside, the trigger is one button, whose click runs the caller's handler and
    then toggles, while a caller's handler on the rail replaces the toggle; and
    the menu button's tooltip is hidden unless the sidebar is collapsed on a wide
    viewport. *)
Theorem sidebar_parts {P} (openProp : P -> option bool) (emb : sidebar_call -> A) (s : provider P)
    (a : option A) props children tip :
  let outside := Throw (Error "useSidebar must be used within a SidebarProvider.") in
  let c := contextValue openProp emb s in
  let clicks t := (fun e => click e.1) <$> elements "button" t in
  let hidden t := (fun e => attr_of "hidden" e.1) <$> elements "TooltipPrimitive.Content" t in
  (Sidebar None props children = outside /\ SidebarTrigger None props = outside /\
   SidebarRail None props children = outside /\
   SidebarMenuButton None tip props children = outside) /\
  (exists t, SidebarTrigger (Some c) (with_click a) = Ok t /\
     clicks t = [Some (match a with
                       | Some a => andThen a (emb ToggleSidebar)
                       | None => emb ToggleSidebar
                       end)]) /\
  (exists t, SidebarRail (Some c) (with_click a) [] = Ok t /\
     clicks t = [Some (default (emb ToggleSidebar) a)]) /\
  (exists t, SidebarMenuButton (Some c) (Some (inl "Inbox")) (with_click a) [] = Ok t /\
     hidden t = [Some (ABool (open_of openProp s || useIsMobile (viewport s)))]).
Proof.
  cbn zeta. split; [done|]. split_and!.
  - eexists. split; [reflexivity|]. unfold Button, click, attr_of.
    destruct a; cbn [elements List.flat_map]; decide_names; reflexivity.
  - eexists. split; [reflexivity|].
    destruct a; reflexivity.
  - eexists. split; [reflexivity|]. cbn [ctx_state ctx_isMobile contextValue].
    destruct a, (open_of openProp s), (useIsMobile (viewport s)); reflexivity.
Qed.
End TreeTheorems.

(** A skeleton is between 50 and 89 per cent wide, whatever is drawn, and the
    draw is the only one. *)
Theorem skeleton_width_bounds `{Host} (t : tape) :
  exists n, (50 <= n < 90)%Z /\ (skeleton_width t).1 = Z_to_string n +:+ "%" /\
  (skeleton_width t).2 = Tape (S (draws t)) (readings t) (ticks t).
Proof.
  pose proof (random_below_bounds 40 t ltac:(lia)) as Hb.
  exists ((random_below 40 t).1 + 50)%Z. split; [lia|done].
Qed.
