(* ===== verification/Carousel.v ===== *)
(** * The carousel (web/src/components/ui/carousel.tsx)

    The carousel drives an instance of the embla library and keeps, as React
    state, whether that instance can scroll either way.  Instances are numbered;
    embla may replace the one it hands out.  What an instance can do is an input:
    an event says that an instance moved and what it emitted.

    The machine runs the component's two effects: one hands a new instance to the
    parent, the other subscribes [onSelect] to it and, on cleanup, takes one of
    the two subscriptions back. *)

From S2P Require Import Prelude JsNumber JsString JsValue React UiKit.

(** ** The state and its effects *)

(** What an instance can do. *)
Record scrollable : Type := Scrollable { can_prev : bool; can_next : bool }.

(** The embla events the component listens to. *)
Inductive embla_event : Type := ReInit | Select.
#[export] Instance embla_event_eq_dec : EqDecision embla_event.
Proof. solve_decision. Defined.

Record carousel : Type := CarouselState {
  api : option nat;                          (* the instance of the last render *)
  canScrollPrev : bool;
  canScrollNext : bool;
  instances : nat -> scrollable;
  listeners : list (nat * embla_event);      (* where onSelect is subscribed *)
  handed : list nat                          (* the arguments of setApi, last first *)
}.

Definition carousel_initial (inst : nat -> scrollable) : carousel :=
  CarouselState None false false inst [] [].

(** [onSelect(api)]. *)
Definition onSelect (i : nat) (s : carousel) : carousel :=
  CarouselState (api s) (can_prev (instances s i)) (can_next (instances s i)) (instances s)
    (listeners s) (handed s).

(** [api.on(event, onSelect)] adds a subscription, [api.off] takes them back. *)
Definition subscribe (i : nat) (e : embla_event) (s : carousel) : carousel :=
  CarouselState (api s) (canScrollPrev s) (canScrollNext s) (instances s)
    ((i, e) :: listeners s) (handed s).
Definition unsubscribe (i : nat) (e : embla_event) (s : carousel) : carousel :=
  CarouselState (api s) (canScrollPrev s) (canScrollNext s) (instances s)
    (List.filter (fun l => negb (bool_decide (l = (i, e)))) (listeners s)) (handed s).

(** The second effect, and its cleanup. *)
Definition select_effect (a : option nat) (s : carousel) : carousel :=
  match a with
  | None => s
  | Some i => subscribe i Select (subscribe i ReInit (onSelect i s))
  end.
Definition select_cleanup (a : option nat) (s : carousel) : carousel :=
  match a with None => s | Some i => unsubscribe i Select s end.

(** The first effect; [setApi] says whether the parent passes the prop. *)
Definition api_effect (setApi : bool) (a : option nat) (s : carousel) : carousel :=
  match a with
  | Some i =>
      if setApi
      then CarouselState (api s) (canScrollPrev s) (canScrollNext s) (instances s) (listeners s)
             (i :: handed s)
      else s
  | None => s
  end.

Definition with_api (a : option nat) (s : carousel) : carousel :=
  CarouselState a (canScrollPrev s) (canScrollNext s) (instances s) (listeners s) (handed s).

Inductive carousel_event : Type :=
(** A render: the instance embla hands out, whether the parent passes [setApi],
    and whether that is another function than before. *)
| Rendered (a : option nat) (setApi fresh : bool)
(** An instance moved, and emitted an event. *)
| Moved (i : nat) (now : scrollable) (e : embla_event)
| Unmount.

(** Effects run when one of their dependencies has changed, cleanups first. *)
Definition carousel_step (s : carousel) (e : carousel_event) : carousel :=
  match e with
  | Rendered a setApi fresh =>
      let changed := negb (bool_decide (a = api s)) in
      let s1 := if changed then select_cleanup (api s) s else s in
      let s2 := if changed || fresh then api_effect setApi a s1 else s1 in
      with_api a (if changed then select_effect a s2 else s2)
  | Moved i now e =>
      let s1 := CarouselState (api s) (canScrollPrev s) (canScrollNext s)
                  (fun j => if bool_decide (j = i) then now else instances s j)
                  (listeners s) (handed s) in
      if bool_decide ((i, e) ∈ listeners s) then onSelect i s1 else s1
  | Unmount => with_api None (select_cleanup (api s) s)
  end.

Definition carousel_run (s : carousel) (l : list carousel_event) : carousel :=
  fold_left carousel_step l s.

(** *** Handlers *)

Inductive direction : Type := Prev | Next.

(** [api?.scrollPrev()] and [api?.scrollNext()]: the calls on the instance. *)
Definition scroll (d : direction) (s : carousel) : list (nat * direction) :=
  match api s with Some i => [(i, d)] | None => [] end.

(** Whether the default is prevented, and the calls. *)
Definition handleKeyDown (key : string) (s : carousel) : bool * list (nat * direction) :=
  if bool_decide (key = "ArrowLeft") then (true, scroll Prev s)
  else if bool_decide (key = "ArrowRight") then (true, scroll Next s)
  else (false, []).

Inductive carousel_call : Type :=
| Scroll (d : direction)
| KeyPressed (key : string).

Definition carousel_handle (c : carousel_call) (s : carousel) : bool * list (nat * direction) :=
  match c with
  | Scroll d => (false, scroll d s)
  | KeyPressed key => handleKeyDown key s
  end.

(** ** The element trees *)

Record CarouselContextProps (A : Type) : Type := CarouselContext {
  ctx_orientation : string;
  ctx_scrollPrev : A;
  ctx_scrollNext : A;
  ctx_canScrollPrev : bool;
  ctx_canScrollNext : bool
}.
Arguments CarouselContext {A}.
Arguments ctx_orientation {A}.
Arguments ctx_scrollPrev {A}.
Arguments ctx_scrollNext {A}.
Arguments ctx_canScrollPrev {A}.
Arguments ctx_canScrollNext {A}.

Definition useCarousel {A} (context : option (CarouselContextProps A)) :
    result (CarouselContextProps A) :=
  match context with
  | Some c => Ok c
  | None => Throw (Error "useCarousel must be used within a <Carousel />")
  end.

(** The options handed to embla: the caller's, and the axis over them. *)
Definition embla_options (opts : list (string * string)) (orientation : string) :
    list (string * string) :=
  assign opts [("axis", if bool_decide (orientation = "horizontal") then "x" else "y")].

(** [orientation || (opts?.axis === "y" ? "vertical" : "horizontal")]. *)
Definition context_orientation (opts : option (list (string * string))) (orientation : string) :
    string :=
  if bool_decide (orientation = "") then
    if bool_decide ((opts ≫= lookup_prop "axis") = Some "y") then "vertical" else "horizontal"
  else orientation.

Section Trees.
Context `{Styling} {A : Type}.
Implicit Types (props : list (string * attr A)) (children : list (node A)).

(** [emb] makes a handler of a call; [opts] is the prop of that name. *)
Definition carousel_context (emb : carousel_call -> A) (opts : option (list (string * string)))
    props (s : carousel) : CarouselContextProps A :=
  CarouselContext (context_orientation opts (default "horizontal" (str_prop "orientation" props)))
    (emb (Scroll Prev)) (emb (Scroll Next)) (canScrollPrev s) (canScrollNext s).

(** The handler of keys is given the name of the key. *)
Definition Carousel (emb : carousel_call -> A) (opts : option (list (string * string)))
    (s : carousel) props
    (children : option (CarouselContextProps A) -> result (list (node A))) : result (node A) :=
  ch <-r children (Some (carousel_context emb opts props s));;
  Ok (styled_except ["orientation"; "opts"; "setApi"; "plugins"] "div"
    [("onKeyDownCapture", AText (fun key => emb (KeyPressed key))); ("role", AStr "region");
     ("aria-roledescription", AStr "carousel")]
    [CStr "relative"]
    props ch).

Definition horizontal (c : CarouselContextProps A) : bool :=
  bool_decide (ctx_orientation c = "horizontal").

Definition CarouselContent (context : option (CarouselContextProps A)) props children :
    result (node A) :=
  c <-r useCarousel context;;
  Ok (El "div" [("className", AStr "overflow-hidden")]
    [styled "div" []
       [CStr "flex"; CStr (if horizontal c then "-ml-4" else "-mt-4 flex-col")]
       props children]).

Definition CarouselItem (context : option (CarouselContextProps A)) props children :
    result (node A) :=
  c <-r useCarousel context;;
  Ok (styled "div" [("role", AStr "group"); ("aria-roledescription", AStr "slide")]
    [CStr "min-w-0 shrink-0 grow-0 basis-full"; CStr (if horizontal c then "pl-4" else "pt-4")]
    props children).

(** The button of a direction: the attributes both share. *)
Definition arrow_props (classes : list cls) (can : bool) (go : A) props : list (string * attr A) :=
  with_props
    [("variant", prop_or "variant" (AStr "outline") props);
     ("size", prop_or "size" (AStr "icon") props);
     ("className", AStr (cn (classes ++ [className_of props])));
     ("disabled", ABool (negb can)); ("onClick", AAct go)]
    (without ["className"; "variant"; "size"] props).

Definition CarouselPrevious (context : option (CarouselContextProps A)) props : result (node A) :=
  c <-r useCarousel context;;
  Ok (Button
    (arrow_props
       [CStr "absolute  h-8 w-8 rounded-full";
        CStr (if horizontal c then "-left-12 top-1/2 -translate-y-1/2"
              else "-top-12 left-1/2 -translate-x-1/2 rotate-90")]
       (ctx_canScrollPrev c) (ctx_scrollPrev c) props)
    [El "lucide.ArrowLeft" [("className", AStr "h-4 w-4")] [];
     El "span" [("className", AStr "sr-only")] [Text "Previous slide"]]).

Definition CarouselNext (context : option (CarouselContextProps A)) props : result (node A) :=
  c <-r useCarousel context;;
  Ok (Button
    (arrow_props
       [CStr "absolute h-8 w-8 rounded-full";
        CStr (if horizontal c then "-right-12 top-1/2 -translate-y-1/2"
              else "-bottom-12 left-1/2 -translate-x-1/2 rotate-90")]
       (ctx_canScrollNext c) (ctx_scrollNext c) props)
    [El "lucide.ArrowRight" [("className", AStr "h-4 w-4")] [];
     El "span" [("className", AStr "sr-only")] [Text "Next slide"]]).
End Trees.

(** ** What the machine promises *)

(** How often onSelect is subscribed to an event of an instance. *)
Definition subscriptions (i : nat) (e : embla_event) (s : carousel) : nat :=
  length (List.filter (fun l => bool_decide (l = (i, e))) (listeners s)).

(** How often a run puts the instance [i] to use. *)
Fixpoint attachments (i : nat) (s : carousel) (l : list carousel_event) : nat :=
  match l with
  | [] => 0
  | e :: l' =>
      (match e with
       | Rendered a _ _ =>
           if bool_decide (a = Some i) && negb (bool_decide (a = api s)) then 1 else 0
       | _ => 0
       end + attachments i (carousel_step s e) l')%nat
  end.

Lemma subscribe_count i e s j f :
  subscriptions j f (subscribe i e s) =
  ((if bool_decide ((i, e) = (j, f)) then 1 else 0) + subscriptions j f s)%nat.
Proof. unfold subscriptions. cbn [subscribe listeners List.filter]. by case_bool_decide. Qed.

Lemma unsubscribe_count i e s j f :
  subscriptions j f (unsubscribe i e s) =
  if bool_decide ((i, e) = (j, f)) then 0%nat else subscriptions j f s.
Proof.
  unfold subscriptions. cbn [unsubscribe listeners].
  induction (listeners s) as [|l ls IH]; cbn [List.filter length]; [by case_bool_decide|].
  destruct (decide (l = (i, e))) as [->|Hl].
  - rewrite bool_decide_true by done. cbn [negb]. rewrite IH. by case_bool_decide.
  - rewrite (bool_decide_false (l = (i, e))) by done. cbn [negb List.filter].
    destruct (bool_decide (l = (j, f))) eqn:E; cbn [length]; rewrite IH; [|done].
    bsimp. by rewrite bool_decide_false by congruence.
Qed.

Lemma subscribed_count i e s : (i, e) ∈ listeners s <-> (0 < subscriptions i e s)%nat.
Proof.
  unfold subscriptions. induction (listeners s) as [|l ls IH]; cbn [List.filter length].
  - split; [inversion 1|lia].
  - rewrite elem_of_cons, IH. case_bool_decide; cbn [length]; split; intros; try lia; auto.
    naive_solver.
Qed.

Lemma onSelect_count j f i s : subscriptions j f (onSelect i s) = subscriptions j f s.
Proof. done. Qed.
Lemma api_effect_count j f b a s : subscriptions j f (api_effect b a s) = subscriptions j f s.
Proof. by destruct a, b. Qed.
Lemma with_api_count j f a s : subscriptions j f (with_api a s) = subscriptions j f s.
Proof. done. Qed.

Lemma effect_count a s j f :
  subscriptions j f (select_effect a s) =
  ((if bool_decide (a = Some j) then 1 else 0) + subscriptions j f s)%nat.
Proof.
  destruct a as [i|]; [|done]. cbn [select_effect].
  rewrite !subscribe_count, onSelect_count.
  destruct f; repeat case_bool_decide; simplify_eq; lia.
Qed.

Lemma cleanup_count a s j f :
  subscriptions j f (select_cleanup a s) =
  if bool_decide (a = Some j) && bool_decide (f = Select) then 0%nat else subscriptions j f s.
Proof.
  destruct a as [i|]; [|done]. cbn [select_cleanup]. rewrite unsubscribe_count.
  repeat case_bool_decide; simplify_eq; done.
Qed.

(** Select is subscribed once to the instance in use, and to no other. *)
Definition balanced (s : carousel) : Prop :=
  forall i, subscriptions i Select s = if bool_decide (api s = Some i) then 1%nat else 0%nat.

Lemma step_balanced s e : balanced s -> balanced (carousel_step s e).
Proof.
  intros Hb i. destruct e as [a b fresh|j now e|]; cbn [carousel_step].
  - rewrite with_api_count. cbn [with_api api].
    case_bool_decide as E; cbn [negb orb].
    + subst. destruct fresh; rewrite ?api_effect_count; apply Hb.
    + rewrite effect_count, api_effect_count, cleanup_count, Hb.
      repeat case_bool_decide; simplify_eq; done.
  - case_bool_decide; apply Hb.
  - rewrite with_api_count, cleanup_count, Hb. cbn [with_api api].
    repeat case_bool_decide; simplify_eq; done.
Qed.

Lemma step_reinit s e i :
  subscriptions i ReInit (carousel_step s e) =
  (attachments i s [e] + subscriptions i ReInit s)%nat.
Proof.
  cbn [attachments]. rewrite Nat.add_0_r. destruct e as [a b fresh|j now e|]; cbn [carousel_step].
  - rewrite with_api_count. case_bool_decide as E; cbn [negb orb].
    + rewrite andb_false_r. destruct fresh; by rewrite ?api_effect_count.
    + rewrite effect_count, api_effect_count, cleanup_count, andb_true_r, andb_false_r.
      by case_bool_decide.
  - by case_bool_decide.
  - by rewrite with_api_count, cleanup_count, andb_false_r.
Qed.

Lemma attachments_app i s l e :
  attachments i s (l ++ [e]) =
  (attachments i s l + attachments i (carousel_run s l) [e])%nat.
Proof.
  revert s. induction l as [|x l IH]; intros s; [done|].
  cbn [app attachments carousel_run fold_left]. rewrite IH. unfold carousel_run.
  cbn [attachments]. lia.
Qed.

Lemma run_snoc s l e : carousel_run s (l ++ [e]) = carousel_step (carousel_run s l) e.
Proof. unfold carousel_run. by rewrite fold_left_app. Qed.

Lemma run_balanced inst l : balanced (carousel_run (carousel_initial inst) l).
Proof.
  induction l as [|e l IH] using rev_ind; [done|]. rewrite run_snoc. by apply step_balanced.
Qed.

Lemma run_reinit inst l i :
  subscriptions i ReInit (carousel_run (carousel_initial inst) l) =
  attachments i (carousel_initial inst) l.
Proof.
  induction l as [|e l IH] using rev_ind; [done|].
  rewrite run_snoc, step_reinit, attachments_app, IH. lia.
Qed.

(** The subscriptions of a carousel: select is subscribed once to the
    instance in use and to no other, but every attachment of an instance leaves
    a subscription of reInit behind, which nothing takes back, unmounting
    included. *)
Theorem carousel_subscriptions inst l i :
  let s := carousel_run (carousel_initial inst) l in
  subscriptions i Select s = (if bool_decide (api s = Some i) then 1%nat else 0%nat) /\
  subscriptions i ReInit s = attachments i (carousel_initial inst) l.
Proof. split; [apply run_balanced|apply run_reinit]. Qed.

(** The flags are what the instance in use can do. *)
Definition in_sync (s : carousel) : Prop :=
  forall i, api s = Some i ->
    canScrollPrev s = can_prev (instances s i) /\ canScrollNext s = can_next (instances s i).

(** No instance that is not in use re-initialises. *)
Fixpoint quiet (s : carousel) (l : list carousel_event) : bool :=
  match l with
  | [] => true
  | e :: l' =>
      match e with Moved i _ ReInit => bool_decide (api s = Some i) | _ => true end &&
      quiet (carousel_step s e) l'
  end.

Definition attached (s : carousel) : Prop :=
  forall i, api s = Some i -> (i, ReInit) ∈ listeners s.

Lemma step_attached s e : attached s -> attached (carousel_step s e).
Proof.
  intros Ha i Hi. rewrite subscribed_count, step_reinit. destruct e as [a b fresh|j now e|].
  - cbn [carousel_step with_api api] in Hi. subst a. cbn [attachments].
    rewrite bool_decide_true by done. case_bool_decide as E; cbn [andb negb]; [|lia].
    apply eq_sym, Ha, subscribed_count in E. lia.
  - assert (api s = Some i) as Hs by (cbn [carousel_step] in Hi; by case_bool_decide).
    apply Ha, subscribed_count in Hs. cbn [attachments]. lia.
  - done.
Qed.

Lemma step_in_sync s e : balanced s -> attached s -> in_sync s -> quiet s [e] = true ->
  in_sync (carousel_step s e).
Proof.
  intros Hb Ha Hs Hq i Hi. destruct e as [a b fresh|j now e|]; cbn [carousel_step] in *.
  - cbn [with_api api] in Hi. subst a. case_bool_decide as E; cbn [negb orb].
    + destruct fresh, b; by apply Hs.
    + by destruct b.
  - assert (api s = Some i) as Hi' by (by case_bool_decide).
    destruct (decide (i = j)) as [<-|Hj].
    + assert ((i, e) ∈ listeners s) as Hin.
      { destruct e; [by apply Ha|]. apply subscribed_count. rewrite Hb, bool_decide_true; [lia|done]. }
      rewrite (bool_decide_true (_ ∈ _)) by done. done.
    + assert ((j, e) ∉ listeners s) as Hin.
      { destruct e.
        - cbn [quiet] in Hq. bsimp. congruence.
        - rewrite subscribed_count, Hb, bool_decide_false by congruence. lia. }
      rewrite (bool_decide_false (_ ∈ _)) by done. cbn [instances canScrollPrev canScrollNext].
      rewrite bool_decide_false by done. by apply Hs.
  - done.
Qed.

Lemma run_in_sync s l : balanced s -> attached s -> in_sync s -> quiet s l = true ->
  in_sync (carousel_run s l).
Proof.
  revert s. induction l as [|e l IH]; intros s Hb Ha Hs Hq; [done|].
  cbn [quiet] in Hq. bsimp. cbn [carousel_run fold_left]. apply IH; [..|done].
  - by apply step_balanced.
  - by apply step_attached.
  - apply step_in_sync; [done..|]. cbn [quiet]. by rewrite andb_true_r.
Qed.

(** C34. While no instance out of use re-initialises, the flags are always what
    the instance in use can do, however often embla replaces it. *)
Theorem carousel_in_sync inst l i :
  let s := carousel_run (carousel_initial inst) l in
  quiet (carousel_initial inst) l = true -> api s = Some i ->
  canScrollPrev s = can_prev (instances s i) /\ canScrollNext s = can_next (instances s i).
Proof. intros s Hq. by apply run_in_sync. Qed.

(** The subscription left behind matters: any instance that was once in use
    and is not any more overwrites the flags when it re-initialises. *)
Theorem carousel_stale_reinit inst l i now :
  let s := carousel_run (carousel_initial inst) l in
  (0 < attachments i (carousel_initial inst) l)%nat ->
  let s' := carousel_step s (Moved i now ReInit) in
  canScrollPrev s' = can_prev now /\ canScrollNext s' = can_next now /\ api s' = api s.
Proof.
  intros s Ha. assert ((i, ReInit) ∈ listeners s) as Hin.
  { apply subscribed_count. subst s. by rewrite run_reinit. }
  cbn [carousel_step]. rewrite bool_decide_true by done. cbn.
  by rewrite bool_decide_true.
Qed.

Lemma carousel_in_sync_witness :
  let inst := fun i => Scrollable (bool_decide (i = 2)) true in
  let l := [Rendered (Some 1) true false; Moved 1 (Scrollable true false) Select;
            Rendered (Some 2) true false; Moved 1 (Scrollable false false) Select] in
  quiet (carousel_initial inst) l = true /\
  canScrollPrev (carousel_run (carousel_initial inst) l) = true.
Proof.
  cbn zeta. split; [vm_compute; reflexivity|].
  exact (proj1 (carousel_in_sync (fun i => Scrollable (bool_decide (i = 2)) true)
    [Rendered (Some 1) true false; Moved 1 (Scrollable true false) Select;
     Rendered (Some 2) true false; Moved 1 (Scrollable false false) Select] 2 eq_refl eq_refl)).
Defined.

Lemma carousel_stale_reinit_witness :
  let inst := fun i => Scrollable false false in
  let l := [Rendered (Some 1) false false; Rendered (Some 2) false false] in
  canScrollNext (carousel_step (carousel_run (carousel_initial inst) l)
    (Moved 1 (Scrollable true true) ReInit)) = true /\
  can_next (instances (carousel_step (carousel_run (carousel_initial inst) l)
    (Moved 1 (Scrollable true true) ReInit)) 2) = false.
Proof.
  cbn zeta. split; [|reflexivity].
  exact (proj1 (proj2 (carousel_stale_reinit (fun i => Scrollable false false)
    [Rendered (Some 1) false false; Rendered (Some 2) false false] 1 (Scrollable true true)
    (le_n 1)))).
Defined.

(** ** What the trees promise *)

(** C40. Outside a carousel the parts throw.  Inside, the two buttons scroll the
    instance in use their way and each is disabled exactly when the flag of its
    way is down; the left and right arrow keys scroll, and only they are kept
    from the page, in either orientation; with no instance nothing is called. *)
Theorem carousel_controls `{Styling} {A} (emb : carousel_call -> A) opts s props children :
  let outside := Throw (Error "useCarousel must be used within a <Carousel />") in
  let c := carousel_context emb opts props s in
  let button t := (fun e => (click e.1, disabled e.1)) <$> elements "button" t in
  (CarouselContent None props children = outside /\ CarouselItem None props children = outside /\
   CarouselPrevious None props = outside /\ CarouselNext None props = outside) /\
  (exists t, CarouselPrevious (Some c) [] = Ok t /\
     button t = [(Some (emb (Scroll Prev)), negb (canScrollPrev s))]) /\
  (exists t, CarouselNext (Some c) [] = Ok t /\
     button t = [(Some (emb (Scroll Next)), negb (canScrollNext s))]) /\
  (forall call i d, In (i, d) (carousel_handle call s).2 -> api s = Some i) /\
  (forall key, let keys := ["ArrowLeft"; "ArrowRight"] in
     (carousel_handle (KeyPressed key) s).1 = bool_decide (key ∈ keys)) /\
  (forall i, api s = Some i ->
     (carousel_handle (KeyPressed "ArrowLeft") s).2 = (carousel_handle (Scroll Prev) s).2 /\
     (carousel_handle (Scroll Prev) s).2 = [(i, Prev)] /\
     (carousel_handle (KeyPressed "ArrowRight") s).2 = (carousel_handle (Scroll Next) s).2 /\
     (carousel_handle (Scroll Next) s).2 = [(i, Next)]).
Proof.
  cbn zeta. split; [done|]. split_and!.
  - eexists. split; reflexivity.
  - eexists. split; reflexivity.
  - intros call i d. assert (forall d', In (i, d) (scroll d' s) -> api s = Some i) as Hs.
    { unfold scroll. destruct (api s); [intros d' [[= -> ->]|[]]; done|intros d' []]. }
    destruct call as [d'|key]; cbn [carousel_handle snd]; [apply Hs|].
    unfold handleKeyDown. repeat case_bool_decide; cbn [snd]; [apply Hs..|intros []].
  - intros key. cbn [carousel_handle]. unfold handleKeyDown.
    repeat case_bool_decide; subst; set_solver.
  - intros i Hi. cbn [carousel_handle handleKeyDown snd]. unfold handleKeyDown. decide_names.
    cbn [snd]. unfold scroll. by rewrite Hi.
Qed.

(** The orientation alone decides the axis: it has a default, so an axis in
    the options is overridden, and the orientation the context would derive from
    it is never used. *)
Theorem carousel_axis opts orientation :
  lookup_prop "axis" (embla_options opts orientation) =
    Some (if bool_decide (orientation = "horizontal") then "x" else "y") /\
  (forall n, n <> "axis" -> lookup_prop n (embla_options opts orientation) = lookup_prop n opts) /\
  (orientation <> "" -> forall o, context_orientation o orientation = orientation).
Proof.
  unfold embla_options. split_and!.
  - by rewrite lookup_assign.
  - intros n Hn. rewrite lookup_assign. cbn [rev app lookup_prop].
    by rewrite bool_decide_false by congruence.
  - intros Ho o. unfold context_orientation. by rewrite bool_decide_false.
Qed.
